(** * Import / reconciliation engine of the work-time tracker

    A shallow embedding of [ImportService] (src/js/integration-test.js),
    of the [Order] / [Activity] models (src/js/models.js) and of the
    repository operations it calls (src/js/repository.js), followed by the
    properties of the import pipeline.

    Conventions of the embedding.
    - A JavaScript value is a [jsval]: the values [JSON.parse] produces, plus
      [undefined] (what reading an absent property yields).  Numbers are
      integers.  [===] and the SameValueZero comparison of [Map] / [Set] keys
      are structural equality [js_eqb]; on primitives this is what JavaScript
      does, objects and arrays are identified with their contents.
    - A string is a [string] whose characters stand for the code units of
      the JavaScript string; message texts are kept as written in the source.
    - Object literals with a fixed shape are records; arrays are lists; a
      [Map] is an association list in insertion order.
    - A [throw] is the [Throw] completion; [try]/[catch] is a match on it.
    - What the host provides (clock, [Date], [JSON], number coercion of
      strings, the text of a [TypeError]) is a field of [Host]. *)

From Stdlib Require Import List String Ascii ZArith Lia Bool Arith DecimalString.
Import ListNotations.
Open Scope string_scope.

(** ** JavaScript values *)

#[local] Unset Elimination Schemes.
Inductive jsval : Type :=
| JUndef
| JNull
| JBool (b : bool)
| JNum (n : Z)
| JStr (s : string)
| JArr (items : list jsval)
| JObj (fields : list (string * jsval)).
#[local] Set Elimination Schemes.

(** A completion: normal return or a thrown [Error] with its message. *)
Inductive completion (A : Type) : Type :=
| Normal (a : A)
| Throw (message : string).
Arguments Normal {A} a.
Arguments Throw {A} message.

Definition bind {A B : Type} (c : completion A) (k : A -> completion B) : completion B :=
  match c with
  | Normal a => k a
  | Throw m => Throw m
  end.

Notation "x <- c ;; k" := (bind c (fun x => k))
  (at level 61, c at next level, right associativity).

(** The host environment. *)
Record Host : Type := mkHost {
  (** [new Date().toISOString()] *)
  currentTime : string;
  (** [new Date().getTime()] *)
  nowMs : Z;
  (** [new Date(v).getTime()], [None] for an invalid date *)
  dateValue : jsval -> option Z;
  (** [getFullYear()] of a time value *)
  fullYear : Z -> Z;
  (** [JSON.stringify(v).length] *)
  stringifyLength : jsval -> Z;
  (** [JSON.parse(s)], [None] for a [SyntaxError] *)
  jsonParse : string -> option jsval;
  (** [Number(s)] of a string, [None] for [NaN] *)
  stringToNumber : string -> option Z;
  (** [formatFileSize(bytes)]: floating-point formatting of a size *)
  formatFileSize : Z -> string;
  (** message of the [TypeError] raised by reading property [k] of [v] *)
  typeErrorMessage : jsval -> string -> string
}.

Definition string_of_nat (n : nat) : string :=
  NilEmpty.string_of_uint (Nat.to_uint n).

Definition string_of_Z (z : Z) : string :=
  NilZero.string_of_int (Z.to_int z).

(** [!!v] *)
Definition truthy (v : jsval) : bool :=
  match v with
  | JUndef | JNull => false
  | JBool b => b
  | JNum n => negb (Z.eqb n 0)
  | JStr s => negb (String.eqb s "")
  | JArr _ | JObj _ => true
  end.

Definition typeof (v : jsval) : string :=
  match v with
  | JUndef => "undefined"
  | JBool _ => "boolean"
  | JNum _ => "number"
  | JStr _ => "string"
  | JNull | JArr _ | JObj _ => "object"
  end.

Definition isArray (v : jsval) : bool :=
  match v with JArr _ => true | _ => false end.

Definition isNullish (v : jsval) : bool :=
  match v with JUndef | JNull => true | _ => false end.

Fixpoint assoc {V : Type} (k : string) (l : list (string * V)) : option V :=
  match l with
  | [] => None
  | (k', v) :: r => if String.eqb k k' then Some v else assoc k r
  end.

(** [k in v], for [v] an object. *)
Definition hasProp (k : string) (v : jsval) : bool :=
  match v with
  | JObj fs => match assoc k fs with Some _ => true | None => false end
  | _ => false
  end.

(** [v.k] for a named field [k] and [v] neither [null] nor [undefined]. *)
Definition getProp (v : jsval) (k : string) : jsval :=
  match v with
  | JObj fs => match assoc k fs with Some x => x | None => JUndef end
  | _ => JUndef
  end.

(** [Object.keys(v)], in insertion order (JavaScript lists integer-like
    keys first). *)
Definition objectKeys (v : jsval) : list string :=
  match v with
  | JObj fs => map fst fs
  | JArr l => map string_of_nat (seq 0 (List.length l))
  | _ => []
  end.

(** [v.length] for [v] neither [null] nor [undefined]. *)
Definition js_length (v : jsval) : jsval :=
  match v with
  | JStr s => JNum (Z.of_nat (String.length s))
  | JArr l => JNum (Z.of_nat (List.length l))
  | JObj fs => match assoc "length" fs with Some x => x | None => JUndef end
  | _ => JUndef
  end.

(** [String(v)]; inside an array [null] and [undefined] print as empty. *)
Fixpoint js_toString (v : jsval) : string :=
  match v with
  | JUndef => "undefined"
  | JNull => "null"
  | JBool true => "true"
  | JBool false => "false"
  | JNum n => string_of_Z n
  | JStr s => s
  | JArr l =>
      (fix joinItems (l : list jsval) : string :=
         match l with
         | [] => ""
         | x :: r =>
             let sx := match x with JUndef | JNull => "" | _ => js_toString x end in
             match r with
             | [] => sx
             | _ :: _ => sx ++ "," ++ joinItems r
             end
         end) l
  | JObj _ => "[object Object]"
  end.

(** [strings.join(sep)] *)
Fixpoint joinStrings (sep : string) (l : list string) : string :=
  match l with
  | [] => ""
  | [x] => x
  | x :: r => x ++ sep ++ joinStrings sep r
  end.

(** [values.join(sep)] *)
Definition js_join (sep : string) (l : list jsval) : string :=
  joinStrings sep
    (map (fun x => match x with JUndef | JNull => "" | _ => js_toString x end) l).

Section Coercions.
Variable host : Host.

(** [Number(v)], [None] for [NaN]. *)
Definition toNumber (v : jsval) : option Z :=
  match v with
  | JUndef => None
  | JNull => Some 0%Z
  | JBool true => Some 1%Z
  | JBool false => Some 0%Z
  | JNum n => Some n
  | JStr s => stringToNumber host s
  | JArr _ | JObj _ => stringToNumber host (js_toString v)
  end.

(** [v > n] for a number literal [n]. *)
Definition js_gt (v : jsval) (n : Z) : bool :=
  match toNumber v with
  | Some k => Z.ltb n k
  | None => false
  end.

(** [(a + b) * 1]: string concatenation when either side is not
    numeric after conversion to a primitive, addition otherwise. *)
Definition js_plus_times1 (a b : jsval) : option Z :=
  let stringy v := match v with JStr _ | JArr _ | JObj _ => true | _ => false end in
  if stringy a || stringy b
  then stringToNumber host (js_toString a ++ js_toString b)
  else match toNumber a, toNumber b with
       | Some x, Some y => Some (x + y)%Z
       | _, _ => None
       end.

(** Reading property [k] of [v] inside a [try] block. *)
Definition readProp (v : jsval) (k : string) : completion jsval :=
  if isNullish v then Throw (typeErrorMessage host v k) else Normal (getProp v k).
End Coercions.

(** ** Strings *)

Definition isSpace (c : ascii) : bool :=
  let n := nat_of_ascii c in
  (Nat.leb 9 n && Nat.leb n 13) || Nat.eqb n 32 || Nat.eqb n 160.

Fixpoint trimStart (s : string) : string :=
  match s with
  | EmptyString => EmptyString
  | String c r => if isSpace c then trimStart r else s
  end.

(** Drops the trailing white space. *)
Fixpoint trimEnd (s : string) : string :=
  match s with
  | EmptyString => EmptyString
  | String c r =>
      match trimEnd r with
      | EmptyString => if isSpace c then EmptyString else String c EmptyString
      | r' => String c r'
      end
  end.

(** [s.trim()] *)
Definition trim (s : string) : string := trimEnd (trimStart s).

Definition lowerChar (c : ascii) : ascii :=
  let n := nat_of_ascii c in
  if (Nat.leb 65 n && Nat.leb n 90)
     || (Nat.leb 192 n && Nat.leb n 222 && negb (Nat.eqb n 215))
  then ascii_of_nat (n + 32) else c.

(** [s.toLowerCase()] *)
Fixpoint toLowerCase (s : string) : string :=
  match s with
  | EmptyString => EmptyString
  | String c r => String (lowerChar c) (toLowerCase r)
  end.

(** [/[\x00-\x1F\x7F]/.test(s)] *)
Fixpoint hasControlChar (s : string) : bool :=
  match s with
  | EmptyString => false
  | String c r =>
      let n := nat_of_ascii c in
      Nat.leb n 31 || Nat.eqb n 127 || hasControlChar r
  end.

(** ['c'.repeat(n)] *)
Fixpoint repeatChar (c : ascii) (n : nat) : string :=
  match n with
  | O => EmptyString
  | S k => String c (repeatChar c k)
  end.

(** ** Structural equality of values *)

Fixpoint js_eqb (a b : jsval) {struct a} : bool :=
  match a, b with
  | JUndef, JUndef => true
  | JNull, JNull => true
  | JBool x, JBool y => Bool.eqb x y
  | JNum x, JNum y => Z.eqb x y
  | JStr x, JStr y => String.eqb x y
  | JArr l, JArr m =>
      (fix eqItems (l m : list jsval) {struct l} : bool :=
         match l, m with
         | [], [] => true
         | x :: l', y :: m' => js_eqb x y && eqItems l' m'
         | _, _ => false
         end) l m
  | JObj l, JObj m =>
      (fix eqFields (l m : list (string * jsval)) {struct l} : bool :=
         match l, m with
         | [], [] => true
         | (k, x) :: l', (k', y) :: m' => String.eqb k k' && js_eqb x y && eqFields l' m'
         | _, _ => false
         end) l m
  | _, _ => false
  end.

(** A [Map] with [jsval] keys, in insertion order. *)
Definition jsmap (V : Type) : Type := list (jsval * V).

Fixpoint map_get {V : Type} (m : jsmap V) (k : jsval) : option V :=
  match m with
  | [] => None
  | (k', v) :: r => if js_eqb k' k then Some v else map_get r k
  end.

Definition map_has {V : Type} (m : jsmap V) (k : jsval) : bool :=
  match map_get m k with Some _ => true | None => false end.

(** [m.set(k, v)]: replaces in place, or appends. *)
Fixpoint map_set {V : Type} (m : jsmap V) (k : jsval) (v : V) : jsmap V :=
  match m with
  | [] => [(k, v)]
  | (k', v') :: r => if js_eqb k' k then (k', v) :: r else (k', v') :: map_set r k v
  end.

(** [array.push(x)] *)
Definition push {A : Type} (l : list A) (x : A) : list A := app l [x].

(** [array.forEach((x, index) => ...)] threading a state. *)
Fixpoint forEachFrom {A St : Type} (f : St -> A -> nat -> St) (l : list A) (i : nat) (s : St) : St :=
  match l with
  | [] => s
  | x :: r => forEachFrom f r (S i) (f s x i)
  end.

Definition forEach {A St : Type} (f : St -> A -> nat -> St) (l : list A) (s : St) : St :=
  forEachFrom f l 0 s.

(** [forEach] whose body may throw: the first throw leaves the loop. *)
Fixpoint forEachThrowFrom {A St : Type} (f : St -> A -> nat -> completion St)
    (l : list A) (i : nat) (s : St) : completion St :=
  match l with
  | [] => Normal s
  | x :: r => s' <- f s x i ;; forEachThrowFrom f r (S i) s'
  end.

Definition forEachThrow {A St : Type} (f : St -> A -> nat -> completion St)
    (l : list A) (s : St) : completion St :=
  forEachThrowFrom f l 0 s.

(** [array.find(p)] *)
Fixpoint findFirst {A : Type} (p : A -> bool) (l : list A) : option A :=
  match l with
  | [] => None
  | x :: r => if p x then Some x else findFirst p r
  end.

(** [array.findIndex(p)], [None] for [-1]. *)
Fixpoint findIndex {A : Type} (p : A -> bool) (l : list A) : option nat :=
  match l with
  | [] => None
  | x :: r => if p x then Some 0 else option_map S (findIndex p r)
  end.

(** [array[i] = x] for [i] within bounds. *)
Fixpoint setNth {A : Type} (l : list A) (i : nat) (x : A) : list A :=
  match l, i with
  | [], _ => []
  | _ :: r, O => x :: r
  | y :: r, S j => y :: setNth r j x
  end.

(** ** Validator results: the object [{isValid, errors, warnings}] *)

Record Verdict : Type := mkVerdict {
  isValid : bool;
  errors : list string;
  warnings : list string
}.

Definition okVerdict : Verdict := mkVerdict true [] [].

(** [result.isValid = false; result.errors.push(msg)] *)
Definition fail (r : Verdict) (msg : string) : Verdict :=
  mkVerdict false (errors r ++ [msg]) (warnings r).

(** [result.isValid = false; result.errors.push(...msgs)] *)
Definition failAll (r : Verdict) (msgs : list string) : Verdict :=
  mkVerdict false (errors r ++ msgs) (warnings r).

(** [result.warnings.push(msg)] *)
Definition warn (r : Verdict) (msg : string) : Verdict :=
  mkVerdict (isValid r) (errors r) (warnings r ++ [msg]).

(** [if (!sub.isValid) { result.isValid = false; result.errors.push(...sub.errors) }] *)
Definition absorb (r sub : Verdict) : Verdict :=
  if isValid sub then r else failAll r (errors sub).

Definition itemsOf (v : jsval) : list jsval :=
  match v with JArr l => l | _ => [] end.

(** ** Structural validator (ImportService, schema stage) *)

Definition supportedVersion : string := "1.0.0".

Definition validateRootStructure (data : jsval) : Verdict :=
  if isNullish data then
    fail okVerdict "データが null または undefined です"
  else if negb (String.eqb (typeof data) "object") then
    fail okVerdict ("ルートオブジェクトの型が無効です。期待値: object, 実際: " ++ typeof data)
  else if isArray data then
    fail okVerdict "ルートは配列ではなくオブジェクトである必要があります"
  else if Nat.eqb (List.length (objectKeys data)) 0 then
    fail okVerdict "空のオブジェクトです。データが含まれていません"
  else okVerdict.

Definition requiredProperties : list string := ["orders"].
Definition optionalProperties : list string := ["version"; "metadata"; "exportedAt"].

Definition includes (l : list string) (k : string) : bool := existsb (String.eqb k) l.

Definition validateRequiredProperties (data : jsval) : Verdict :=
  let result :=
    fold_left
      (fun result prop =>
         if negb (hasProp prop data) then
           fail result ("必須プロパティ「" ++ prop ++ "」が見つかりません")
         else if negb (isArray (getProp data prop)) then
           fail result ("プロパティ「" ++ prop ++ "」は配列である必要があります。実際の型: "
                          ++ typeof (getProp data prop))
         else if js_eqb (getProp data prop) JNull then
           fail result ("プロパティ「" ++ prop ++ "」が null です")
         else result)
      requiredProperties okVerdict in
  let allowedProperties := (requiredProperties ++ optionalProperties)%list in
  let unexpectedProperties :=
    filter (fun key => negb (includes allowedProperties key)) (objectKeys data) in
  if Nat.ltb 0 (List.length unexpectedProperties) then
    mkVerdict (isValid result) (errors result)
      ["予期しないプロパティが含まれています: " ++ joinStrings ", " unexpectedProperties]
  else result.

(** The loop [for (const [field, expectedType] of Object.entries(requiredFields))]
    shared by the three schema type checks. *)
Definition checkRequiredFields (pre : string) (item : jsval)
    (requiredFields : list (string * string)) (result : Verdict) : Verdict :=
  fold_left
    (fun result fe =>
       let '(field, expectedType) := fe in
       if negb (hasProp field item) then
         fail result (pre ++ ": 必須フィールド「" ++ field ++ "」が見つかりません")
       else if negb (String.eqb (typeof (getProp item field)) expectedType) then
         fail result (pre ++ "." ++ field ++ ": " ++ expectedType
                        ++ "型である必要があります。実際の型: " ++ typeof (getProp item field))
       else result)
    requiredFields result.

Definition validateActivitySchemaTypes (activity : jsval) (index : nat)
    (parentPrefix : string) : Verdict :=
  let pre :=
    if negb (String.eqb parentPrefix "")
    then parentPrefix ++ ".activities[" ++ string_of_nat index ++ "]"
    else "アクティビティ[" ++ string_of_nat index ++ "]" in
  if negb (truthy activity) || negb (String.eqb (typeof activity) "object") || isArray activity then
    fail okVerdict (pre ++ ": オブジェクトである必要があります。実際の型: " ++ typeof activity)
  else
    let requiredFields :=
      if negb (String.eqb parentPrefix "")
      then [("id", "string"); ("name", "string")]
      else [("id", "string"); ("name", "string"); ("orderId", "string"); ("createdAt", "string")] in
    checkRequiredFields pre activity requiredFields okVerdict.

Definition validateNestedOrderSchemaTypes (order : jsval) (index : nat) : Verdict :=
  let pre := "オーダー[" ++ string_of_nat index ++ "]" in
  if negb (truthy order) || negb (String.eqb (typeof order) "object") || isArray order then
    fail okVerdict (pre ++ ": オブジェクトである必要があります。実際の型: " ++ typeof order)
  else
    let result :=
      checkRequiredFields pre order [("id", "string"); ("name", "string")] okVerdict in
    if hasProp "activities" order then
      if negb (isArray (getProp order "activities")) then
        fail result (pre ++ ".activities: 配列である必要があります。実際の型: "
                       ++ typeof (getProp order "activities"))
      else
        forEach
          (fun result activity actIndex =>
             absorb result (validateActivitySchemaTypes activity actIndex pre))
          (itemsOf (getProp order "activities")) result
    else result.

(** Flat-form counterpart of the order check; no caller in [ImportService]. *)
Definition validateOrderSchemaTypes (order : jsval) (index : nat) : Verdict :=
  let pre := "オーダー[" ++ string_of_nat index ++ "]" in
  if negb (truthy order) || negb (String.eqb (typeof order) "object") || isArray order then
    fail okVerdict (pre ++ ": オブジェクトである必要があります。実際の型: " ++ typeof order)
  else
    checkRequiredFields pre order
      [("id", "string"); ("name", "string"); ("createdAt", "string")] okVerdict.

(** Nothing in the [try] block can throw on a root that passed
    [validateRootStructure]; the [catch] branch is omitted. *)
Definition validateSchemaDataTypes (data : jsval) : Verdict :=
  let result := okVerdict in
  let result :=
    if truthy (getProp data "orders") && isArray (getProp data "orders") then
      forEach
        (fun result order index => absorb result (validateNestedOrderSchemaTypes order index))
        (itemsOf (getProp data "orders")) result
    else result in
  let result :=
    if hasProp "version" data && negb (String.eqb (typeof (getProp data "version")) "string") then
      fail result ("versionフィールドは文字列である必要があります。実際の型: "
                     ++ typeof (getProp data "version"))
    else result in
  if hasProp "exportedAt" data && negb (String.eqb (typeof (getProp data "exportedAt")) "string") then
    fail result ("exportedAtフィールドは文字列である必要があります。実際の型: "
                   ++ typeof (getProp data "exportedAt"))
  else result.

Section Schema.
Variable host : Host.

(** One length check [v && v.length > max] with its message. *)
Definition lengthCheck (v : jsval) (max : Z) (msg : string) (result : Verdict) : Verdict :=
  if truthy v && js_gt host (js_length v) max then fail result msg else result.

(** Reading [order.id] throws a [TypeError] on a [null] entry, which
    leaves [forEach] and discards [result]. *)
Definition validateStringConstraints (data : jsval) : completion Verdict :=
  result <-
    (if truthy (getProp data "orders") && isArray (getProp data "orders") then
       forEachThrow
         (fun result order index =>
            id <- readProp host order "id" ;;
            let result :=
              lengthCheck id 100
                ("オーダー[" ++ string_of_nat index ++ "].id: 文字数制限を超えています（最大100文字）")
                result in
            Normal
              (lengthCheck (getProp order "name") 200
                 ("オーダー[" ++ string_of_nat index ++ "].name: 文字数制限を超えています（最大200文字）")
                 result))
         (itemsOf (getProp data "orders")) okVerdict
     else Normal okVerdict) ;;
  if truthy (getProp data "activities") && isArray (getProp data "activities") then
    forEachThrow
      (fun result activity index =>
         id <- readProp host activity "id" ;;
         let result :=
           lengthCheck id 100
             ("アクティビティ[" ++ string_of_nat index ++ "].id: 文字数制限を超えています（最大100文字）")
             result in
         let result :=
           lengthCheck (getProp activity "name") 200
             ("アクティビティ[" ++ string_of_nat index ++ "].name: 文字数制限を超えています（最大200文字）")
             result in
         Normal
           (lengthCheck (getProp activity "orderId") 100
              ("アクティビティ[" ++ string_of_nat index ++ "].orderId: 文字数制限を超えています（最大100文字）")
              result))
      (itemsOf (getProp data "activities")) result
  else Normal result.

Definition validateSchemaConstraints (data : jsval) : Verdict :=
  let result := okVerdict in
  let dataSize := stringifyLength host data in
  let maxSize := (10 * 1024 * 1024)%Z in
  let result :=
    if Z.ltb maxSize dataSize then
      fail result ("データサイズが制限を超えています。最大: " ++ formatFileSize host maxSize
                     ++ ", 実際: " ++ formatFileSize host dataSize)
    else if Z.ltb (5 * 1024 * 1024) dataSize then
      warn result ("データサイズが大きいため、処理に時間がかかる可能性があります: "
                     ++ formatFileSize host dataSize)
    else result in
  let result :=
    if truthy (getProp data "orders") then
      let orderCount := js_length (getProp data "orders") in
      if js_gt host orderCount 10000 then
        fail result ("オーダー数が制限を超えています。最大: 10,000件, 実際: "
                       ++ js_toString orderCount ++ "件")
      else if js_gt host orderCount 1000 then
        warn result ("オーダー数が多いため、処理に時間がかかる可能性があります: "
                       ++ js_toString orderCount ++ "件")
      else result
    else result in
  let result :=
    if truthy (getProp data "activities") then
      let activityCount := js_length (getProp data "activities") in
      if js_gt host activityCount 50000 then
        fail result ("アクティビティ数が制限を超えています。最大: 50,000件, 実際: "
                       ++ js_toString activityCount ++ "件")
      else if js_gt host activityCount 5000 then
        warn result ("アクティビティ数が多いため、処理に時間がかかる可能性があります: "
                       ++ js_toString activityCount ++ "件")
      else result
    else result in
  match validateStringConstraints data with
  | Normal stringConstraintResult => absorb result stringConstraintResult
  | Throw message => fail result ("制約検証中にエラーが発生しました: " ++ message)
  end.

(** Returns the [warnings] array of the version check. *)
Definition validateSchemaVersion (data : jsval) : list string :=
  if hasProp "version" data then
    if negb (js_eqb (getProp data "version") (JStr supportedVersion)) then
      ["スキーマバージョンが異なります。サポート版: " ++ supportedVersion
         ++ ", ファイル版: " ++ js_toString (getProp data "version")]
    else []
  else ["スキーマバージョンが指定されていません。最新版として処理します"].

Definition estimateMemoryUsage (data : jsval) : Z :=
  (stringifyLength host data * 4)%Z.

Definition estimateProcessingTime (data : jsval) : option Z :=
  let orderCount :=
    if truthy (getProp data "orders") then js_length (getProp data "orders") else JNum 0 in
  let activityCount :=
    if truthy (getProp data "activities") then js_length (getProp data "activities") else JNum 0 in
  js_plus_times1 host orderCount activityCount.

Definition generatePerformanceWarnings (data : jsval) : list string :=
  let estimatedMemoryUsage := estimateMemoryUsage data in
  let w1 :=
    if Z.ltb (50 * 1024 * 1024) estimatedMemoryUsage
    then ["推定メモリ使用量が大きいです: " ++ formatFileSize host estimatedMemoryUsage]
    else [] in
  let w2 :=
    match estimateProcessingTime data with
    | Some t =>
        if Z.ltb 10000 t
        then ["処理時間が長くなる可能性があります: 約" ++ string_of_Z ((t + 500) / 1000) ++ "秒"]
        else []
    | None => []
    end in
  (w1 ++ w2)%list.

Record SchemaResult : Type := mkSchemaResult {
  schemaVerdict : Verdict;
  schemaVersion : string;
  detailStructure : Verdict;
  detailProperties : Verdict;
  detailDataTypes : Verdict;
  detailConstraints : Verdict
}.

(** Each stage called in the [try] block handles its own failures, so the
    outer [catch] is never entered and is omitted. *)
Definition validateJSONSchema (data : jsval) : SchemaResult :=
  let result := okVerdict in
  let structureResult := validateRootStructure data in
  if negb (isValid structureResult) then
    mkSchemaResult (failAll result (errors structureResult)) supportedVersion
      structureResult okVerdict okVerdict okVerdict
  else
    let propertiesResult := validateRequiredProperties data in
    let result := absorb result propertiesResult in
    let dataTypesResult := validateSchemaDataTypes data in
    let result := absorb result dataTypesResult in
    let constraintsResult := validateSchemaConstraints data in
    let result := absorb result constraintsResult in
    let result :=
      mkVerdict (isValid result) (errors result)
        (warnings result ++ warnings constraintsResult) in
    let result :=
      mkVerdict (isValid result) (errors result)
        (warnings result ++ validateSchemaVersion data) in
    let result :=
      mkVerdict (isValid result) (errors result)
        (warnings result ++ generatePerformanceWarnings data) in
    mkSchemaResult result supportedVersion
      structureResult propertiesResult dataTypesResult constraintsResult.
End Schema.

(** ** Canonical flat records *)

(** The object literal [{id, name, createdAt}]. *)
Record FlatOrder : Type := mkOrder {
  order_id : jsval;
  order_name : jsval;
  order_createdAt : jsval
}.

(** The object literal [{id, name, orderId, createdAt}]. *)
Record FlatActivity : Type := mkActivity {
  activity_id : jsval;
  activity_name : jsval;
  activity_orderId : jsval;
  activity_createdAt : jsval
}.

Record FlatData : Type := mkFlatData {
  orders : list FlatOrder;
  activities : list FlatActivity
}.

(** The nested output form of [convertFlatToNested]. *)
Record NestedActivity : Type := mkNestedActivity {
  nested_activity_id : jsval;
  nested_activity_name : jsval;
  nested_activity_createdAt : jsval
}.

Record NestedOrder : Type := mkNestedOrder {
  nested_id : jsval;
  nested_name : jsval;
  nested_createdAt : jsval;
  nested_activities : list NestedActivity
}.

Definition orderToJs (o : FlatOrder) : jsval :=
  JObj [("id", order_id o); ("name", order_name o); ("createdAt", order_createdAt o)].

Definition activityToJs (a : FlatActivity) : jsval :=
  JObj [("id", activity_id a); ("name", activity_name a);
        ("orderId", activity_orderId a); ("createdAt", activity_createdAt a)].

(** [a || b] *)
Definition js_or (a b : jsval) : jsval := if truthy a then a else b.

(** ** Schema normalizer *)

Section Normalizer.
Variable host : Host.

Definition pushOrder (d : FlatData) (o : FlatOrder) : FlatData :=
  mkFlatData (orders d ++ [o]) (activities d).

Definition pushActivity (d : FlatData) (a : FlatActivity) : FlatData :=
  mkFlatData (orders d) (activities d ++ [a]).

(** The object literal [flatActivity]. *)
Definition flatActivityOf (index : nat) (flatOrder : FlatOrder) (activity : jsval)
    (actIndex : nat) : FlatActivity :=
  mkActivity
    (js_or (getProp activity "id")
       (JStr ("generated_activity_" ++ string_of_nat index ++ "_" ++ string_of_nat actIndex)))
    (js_or (getProp activity "name") (JStr ("アクティビティ" ++ string_of_nat actIndex)))
    (order_id flatOrder)
    (js_or (getProp activity "createdAt") (JStr (currentTime host))).

(** The object literal [flatOrder]. *)
Definition flatOrderOf (index : nat) (order : jsval) : FlatOrder :=
  mkOrder
    (js_or (getProp order "id") (JStr ("generated_order_" ++ string_of_nat index)))
    (js_or (getProp order "name") (JStr ("オーダー" ++ string_of_nat index)))
    (js_or (getProp order "createdAt") (JStr (currentTime host))).

(** The body of [order.activities.forEach] for the parent at [index]. *)
Definition flattenActivity (index : nat) (flatOrder : FlatOrder)
    (flatData : FlatData) (activity : jsval) (actIndex : nat) : FlatData :=
  if negb (truthy activity) || negb (String.eqb (typeof activity) "object") then flatData
  else pushActivity flatData (flatActivityOf index flatOrder activity actIndex).

(** The body of [nestedData.orders.forEach]. *)
Definition flattenOrder (flatData : FlatData) (order : jsval) (index : nat) : FlatData :=
  if negb (truthy order) || negb (String.eqb (typeof order) "object") then flatData
  else
    let flatOrder := flatOrderOf index order in
    let flatData := pushOrder flatData flatOrder in
    if truthy (getProp order "activities") && isArray (getProp order "activities") then
      forEach (flattenActivity index flatOrder) (itemsOf (getProp order "activities")) flatData
    else flatData.

(** Reads only [nestedData.orders]; a top-level [activities] array is
    never looked at. *)
Definition convertNestedToFlat (nestedData : jsval) : completion FlatData :=
  nestedOrders <- readProp host nestedData "orders" ;;
  if negb (truthy nestedOrders) || negb (isArray nestedOrders) then
    Normal (mkFlatData [] [])
  else
    Normal (forEach flattenOrder (itemsOf nestedOrders) (mkFlatData [] [])).
End Normalizer.

Definition toNested (a : FlatActivity) : NestedActivity :=
  mkNestedActivity (activity_id a) (activity_name a) (activity_createdAt a).

(** The grouping loop of [convertFlatToNested]. *)
Definition groupByOrder (acts : list FlatActivity) : jsmap (list NestedActivity) :=
  fold_left
    (fun (activitiesByOrder : jsmap (list NestedActivity)) activity =>
       let activitiesByOrder :=
         if negb (map_has activitiesByOrder (activity_orderId activity))
         then map_set activitiesByOrder (activity_orderId activity) []
         else activitiesByOrder in
       match map_get activitiesByOrder (activity_orderId activity) with
       | Some group =>
           map_set activitiesByOrder (activity_orderId activity) (group ++ [toNested activity])%list
       | None => activitiesByOrder
       end)
    acts [].

Definition convertFlatToNested (flatData : FlatData) : list NestedOrder :=
  let activitiesByOrder := groupByOrder (activities flatData) in
  map
    (fun order =>
       mkNestedOrder (order_id order) (order_name order) (order_createdAt order)
         (match map_get activitiesByOrder (order_id order) with
          | Some group => group
          | None => []
          end))
    (orders flatData).

(** ** Type and constraint validator *)

Section TypeValidator.
Variable host : Host.

Definition validateId (id : jsval) : bool :=
  match id with
  | JStr s =>
      if negb (truthy id) then false
      else
        let trimmedId := trim s in
        if Nat.eqb (String.length trimmedId) 0 then false
        else if Nat.ltb 100 (String.length trimmedId) then false
        else if hasControlChar trimmedId then false
        else true
  | _ => false
  end.

Definition validateName (name : jsval) : bool :=
  match name with
  | JStr s =>
      if negb (truthy name) then false
      else
        let trimmedName := trim s in
        if Nat.eqb (String.length trimmedName) 0 then false
        else if Nat.ltb 100 (String.length trimmedName) then false
        else true
  | _ => false
  end.

Definition validateDateTime (dateTime : jsval) : bool :=
  match dateTime with
  | JStr s =>
      if negb (truthy dateTime) then false
      else
        match dateValue host dateTime with
        | None => false
        | Some t =>
            let year := fullYear host t in
            if Z.ltb year 1900 || Z.ltb 2100 year then false else true
        end
  | _ => false
  end.

(** [type] is the string ['order'] or ['activity']. *)
Definition validateDataTypes (item : jsval) (type : string) (index : nat) : list string :=
  let pre :=
    (if String.eqb type "order" then "オーダー" else "アクティビティ")
      ++ "[" ++ string_of_nat index ++ "]" in
  if negb (truthy item) || negb (String.eqb (typeof item) "object") || isArray item then
    [pre ++ ": 無効なデータ構造です"]
  else
    let e1 :=
      if negb (validateId (getProp item "id"))
      then [pre ++ ": IDが無効です（空文字、null、または不正な文字が含まれています）"] else [] in
    let e2 :=
      if negb (validateName (getProp item "name"))
      then [pre ++ ": 名前が無効です（空文字、null、または長すぎます）"] else [] in
    let e3 :=
      if negb (validateDateTime (getProp item "createdAt"))
      then [pre ++ ": 作成日時が無効です（不正な日時形式です）"] else [] in
    let e4 :=
      if String.eqb type "activity" && negb (validateId (getProp item "orderId"))
      then [pre ++ ": オーダーIDが無効です"] else [] in
    let expectedProperties :=
      if String.eqb type "order"
      then ["id"; "name"; "createdAt"]
      else ["id"; "name"; "orderId"; "createdAt"] in
    let unexpectedProperties :=
      filter (fun key => negb (includes expectedProperties key)) (objectKeys item) in
    let e5 :=
      if Nat.ltb 0 (List.length unexpectedProperties)
      then [pre ++ ": 予期しないプロパティが含まれています: "
              ++ joinStrings ", " unexpectedProperties]
      else [] in
    (e1 ++ e2 ++ e3 ++ e4 ++ e5)%list.
End TypeValidator.

(** ** Relationship and integrity analyzer *)

Record DuplicateInfo : Type := mkDuplicateInfo {
  dup_id : jsval;
  dup_indices : nat * nat;
  dup_names : jsval * jsval;
  (** present for activities only *)
  dup_orderIds : option (jsval * jsval);
  dup_severity : string
}.

(** Result of [analyzeIdDuplicates]: [{isValid, errors, orderIds, activityIds}]. *)
Record IdDuplicateResult : Type := mkIdDuplicateResult {
  idVerdict : Verdict;
  orderIds : list DuplicateInfo;
  activityIds : list DuplicateInfo
}.

(** Loop state of one duplicate scan: the first-seen index per id, the
    duplicates found, and [result.isValid]. *)
Definition DupScan : Type := (jsmap nat * list DuplicateInfo * bool)%type.

Definition scanOrderId (all : list FlatOrder) (st : DupScan) (order : FlatOrder)
    (index : nat) : DupScan :=
  let '(orderIdMap, found, valid) := st in
  let id := order_id order in
  match map_get orderIdMap id with
  | Some existingIndex =>
      (orderIdMap,
       push found
         (mkDuplicateInfo id (existingIndex, index)
            (order_name (nth existingIndex all order), order_name order)
            None "error"),
       false)
  | None => (map_set orderIdMap id index, found, valid)
  end.

Definition scanActivityId (all : list FlatActivity) (st : DupScan) (activity : FlatActivity)
    (index : nat) : DupScan :=
  let '(activityIdMap, found, valid) := st in
  let id := activity_id activity in
  match map_get activityIdMap id with
  | Some existingIndex =>
      (activityIdMap,
       push found
         (mkDuplicateInfo id (existingIndex, index)
            (activity_name (nth existingIndex all activity), activity_name activity)
            (Some (activity_orderId (nth existingIndex all activity),
                   activity_orderId activity))
            "error"),
       false)
  | None => (map_set activityIdMap id index, found, valid)
  end.

(** The per-id counters [orderIdCounts] / [activityIdCounts] of the source
    are written and never read; they are left out. *)
Definition analyzeIdDuplicates (orders : list FlatOrder) (activities : list FlatActivity)
    : IdDuplicateResult :=
  let '(_, orderDups, valid) := forEach (scanOrderId orders) orders ([], [], true) in
  let '(_, activityDups, valid) :=
    forEach (scanActivityId activities) activities ([], [], valid) in
  let errs1 :=
    if Nat.ltb 0 (List.length orderDups) then
      ["重複するオーダーID（" ++ string_of_nat (List.length orderDups) ++ "件）: "
         ++ js_join ", " (map dup_id orderDups)]
    else [] in
  let errs2 :=
    if Nat.ltb 0 (List.length activityDups) then
      ["重複するアクティビティID（" ++ string_of_nat (List.length activityDups) ++ "件）: "
         ++ js_join ", " (map dup_id activityDups)]
    else [] in
  mkIdDuplicateResult (mkVerdict valid (errs1 ++ errs2) []) orderDups activityDups.

Record OrphanedActivity : Type := mkOrphanedActivity {
  orphan_index : nat;
  orphan_activityId : jsval;
  orphan_activityName : jsval;
  orphan_missingOrderId : jsval;
  orphan_severity : string
}.

Record RelationshipDetail : Type := mkRelationshipDetail {
  detail_activityIndex : nat;
  detail_activityId : jsval;
  detail_activityName : jsval;
  detail_orderId : jsval;
  detail_isValid : bool;
  detail_issues : list string
}.

(** Result of [analyzeRelationships]. *)
Record RelationshipResult : Type := mkRelationshipResult {
  rel_isValid : bool;
  rel_errors : list string;
  rel_orphanedActivities : list OrphanedActivity;
  totalRelationships : nat;
  validRelationships : nat;
  invalidRelationships : nat;
  orderActivityCounts : jsmap nat;
  relationshipDetails : list RelationshipDetail;
  rel_warnings : list string
}.

(** [validOrderIds.has(x)] for [validOrderIds = new Set(ids)]. *)
Definition set_has (ids : list jsval) (x : jsval) : bool :=
  existsb (fun y => js_eqb y x) ids.

(** The body of [activities.forEach] in [analyzeRelationships]. *)
Definition relateActivity (validOrderIds : list jsval) (result : RelationshipResult)
    (activity : FlatActivity) (index : nat) : RelationshipResult :=
  let detail isValid issues :=
    mkRelationshipDetail index (activity_id activity) (activity_name activity)
      (activity_orderId activity) isValid issues in
  if negb (truthy (activity_orderId activity)) then
    mkRelationshipResult (rel_isValid result) (rel_errors result)
      (rel_orphanedActivities result)
      (totalRelationships result) (validRelationships result)
      (S (invalidRelationships result))
      (orderActivityCounts result)
      (relationshipDetails result ++ [detail false ["オーダーIDが空です"]])
      (rel_warnings result)
  else if negb (set_has validOrderIds (activity_orderId activity)) then
    mkRelationshipResult false (rel_errors result)
      (rel_orphanedActivities result ++
         [mkOrphanedActivity index (activity_id activity) (activity_name activity)
            (activity_orderId activity) "error"])
      (totalRelationships result) (validRelationships result)
      (S (invalidRelationships result))
      (orderActivityCounts result)
      (relationshipDetails result ++
         [detail false ["存在しないオーダーID「" ++ js_toString (activity_orderId activity)
                          ++ "」を参照"]])
      (rel_warnings result)
  else
    let currentCount :=
      match map_get (orderActivityCounts result) (activity_orderId activity) with
      | Some c => c
      | None => 0
      end in
    mkRelationshipResult (rel_isValid result) (rel_errors result)
      (rel_orphanedActivities result)
      (totalRelationships result) (S (validRelationships result))
      (invalidRelationships result)
      (map_set (orderActivityCounts result) (activity_orderId activity) (currentCount + 1))
      (relationshipDetails result ++ [detail true []])
      (rel_warnings result).

Definition orphanMessage (orphaned : OrphanedActivity) : string :=
  "  - アクティビティ「" ++ js_toString (orphan_activityName orphaned)
    ++ "」(ID: " ++ js_toString (orphan_activityId orphaned)
    ++ ") → 存在しないオーダーID「" ++ js_toString (orphan_missingOrderId orphaned) ++ "」".

Definition analyzeRelationships (orders : list FlatOrder) (activities : list FlatActivity)
    : RelationshipResult :=
  let validOrderIds := map order_id orders in
  let counts0 := fold_left (fun m order => map_set m (order_id order) 0) orders [] in
  let result :=
    forEach (relateActivity validOrderIds) activities
      (mkRelationshipResult true [] [] (List.length activities) 0 0 counts0 [] []) in
  let errs :=
    if Nat.ltb 0 (List.length (rel_orphanedActivities result)) then
      ("存在しないオーダーを参照するアクティビティが"
         ++ string_of_nat (List.length (rel_orphanedActivities result)) ++ "件見つかりました")
        :: map orphanMessage (rel_orphanedActivities result)
    else [] in
  let emptyOrders := filter (fun kc => Nat.eqb (snd kc) 0) (orderActivityCounts result) in
  let warns :=
    if Nat.ltb 0 (List.length emptyOrders) then
      ["アクティビティが関連付けられていないオーダーが"
         ++ string_of_nat (List.length emptyOrders) ++ "件あります"]
    else rel_warnings result in
  mkRelationshipResult (rel_isValid result) (rel_errors result ++ errs)
    (rel_orphanedActivities result)
    (totalRelationships result) (validRelationships result) (invalidRelationships result)
    (orderActivityCounts result) (relationshipDetails result) warns.

Record NameDuplicateInfo : Type := mkNameDuplicateInfo {
  namedup_name : jsval;
  (** present for activities only *)
  namedup_orderId : option jsval;
  namedup_indices : nat * nat;
  namedup_severity : string
}.

(** Result of [analyzeNameDuplicates]. *)
Record NameDuplicateResult : Type := mkNameDuplicateResult {
  name_warnings : list string;
  orderNames : list NameDuplicateInfo;
  activityNames : list NameDuplicateInfo
}.

Definition minDate : Z := 946684800000.

Section Integrity.
Variable host : Host.

(** [v.trim()]: a [TypeError] unless [v] is a string. *)
Definition trimOf (v : jsval) : completion string :=
  match v with
  | JStr s => Normal (trim s)
  | _ => Throw (typeErrorMessage host v "trim")
  end.

Definition scanOrderName (result : jsmap nat * NameDuplicateResult) (order : FlatOrder)
    (index : nat) : completion (jsmap nat * NameDuplicateResult) :=
  let '(orderNameMap, r) := result in
  trimmed <- trimOf (order_name order) ;;
  let normalizedName := JStr (toLowerCase trimmed) in
  match map_get orderNameMap normalizedName with
  | Some existingIndex =>
      Normal
        (orderNameMap,
         mkNameDuplicateResult
           (push (name_warnings r)
              ("オーダー名「" ++ js_toString (order_name order)
                 ++ "」が重複しています（インデックス: " ++ string_of_nat existingIndex
                 ++ ", " ++ string_of_nat index ++ "）"))
           (push (orderNames r)
              (mkNameDuplicateInfo (order_name order) None (existingIndex, index) "warning"))
           (activityNames r))
  | None => Normal (map_set orderNameMap normalizedName index, r)
  end.

Definition scanActivityName (result : jsmap (jsmap nat) * NameDuplicateResult)
    (activity : FlatActivity) (index : nat)
    : completion (jsmap (jsmap nat) * NameDuplicateResult) :=
  let '(activityNamesByOrder, r) := result in
  let orderId := activity_orderId activity in
  trimmed <- trimOf (activity_name activity) ;;
  let normalizedName := JStr (toLowerCase trimmed) in
  let activityNamesByOrder :=
    if negb (map_has activityNamesByOrder orderId)
    then map_set activityNamesByOrder orderId []
    else activityNamesByOrder in
  let orderActivities :=
    match map_get activityNamesByOrder orderId with
    | Some m => m
    | None => []
    end in
  match map_get orderActivities normalizedName with
  | Some existingIndex =>
      Normal
        (activityNamesByOrder,
         mkNameDuplicateResult
           (push (name_warnings r)
              ("オーダー「" ++ js_toString orderId ++ "」内でアクティビティ名「"
                 ++ js_toString (activity_name activity)
                 ++ "」が重複しています（インデックス: " ++ string_of_nat existingIndex
                 ++ ", " ++ string_of_nat index ++ "）"))
           (orderNames r)
           (push (activityNames r)
              (mkNameDuplicateInfo (activity_name activity) (Some orderId)
                 (existingIndex, index) "warning")))
  | None =>
      Normal
        (map_set activityNamesByOrder orderId (map_set orderActivities normalizedName index), r)
  end.

Definition analyzeNameDuplicates (orders : list FlatOrder) (activities : list FlatActivity)
    : completion NameDuplicateResult :=
  st <- forEachThrow scanOrderName orders ([], mkNameDuplicateResult [] [] []) ;;
  st' <- forEachThrow scanActivityName activities ([], snd st) ;;
  Normal (snd st').

(** [!v || v.trim().length === 0] *)
Definition emptyAfterTrim (v : jsval) : completion bool :=
  if negb (truthy v) then Normal true
  else t <- trimOf v ;; Normal (Nat.eqb (String.length t) 0).

(** [date < minDate || date > maxDate] for [date = new Date(createdAt)];
    both comparisons are false on an invalid date. *)
Definition outsideWindow (createdAt : jsval) : bool :=
  let maxDate := (nowMs host + 365 * 24 * 60 * 60 * 1000)%Z in
  match dateValue host createdAt with
  | Some date => Z.ltb date minDate || Z.ltb maxDate date
  | None => false
  end.

(** One scan [items.forEach] of [analyzeDataQuality] for empty names and ids. *)
Definition emptyScan {A : Type} (label : string) (nameOf idOf : A -> jsval)
    (ws : list string) (item : A) (index : nat) : completion (list string) :=
  noName <- emptyAfterTrim (nameOf item) ;;
  let ws :=
    if noName then push ws (label ++ "[" ++ string_of_nat index ++ "]: 名前が空です") else ws in
  noId <- emptyAfterTrim (idOf item) ;;
  Normal
    (if noId then push ws (label ++ "[" ++ string_of_nat index ++ "]: IDが空です") else ws).

Definition longNameScan {A : Type} (label : string) (nameOf : A -> jsval)
    (ws : list string) (item : A) (index : nat) : list string :=
  let maxReasonableLength := 50%Z in
  if truthy (nameOf item) && js_gt host (js_length (nameOf item)) maxReasonableLength then
    push ws (label ++ "[" ++ string_of_nat index ++ "]: 名前が異常に長いです（"
               ++ js_toString (js_length (nameOf item)) ++ "文字）")
  else ws.

Definition dateScan {A : Type} (label : string) (createdAtOf : A -> jsval)
    (ws : list string) (item : A) (index : nat) : list string :=
  if truthy (createdAtOf item) then
    if outsideWindow (createdAtOf item) then
      push ws (label ++ "[" ++ string_of_nat index ++ "]: 作成日時が異常です（"
                 ++ js_toString (createdAtOf item) ++ "）")
    else ws
  else ws.

(** Returns the [warnings] array of the data-quality pass. *)
Definition analyzeDataQuality (orders : list FlatOrder) (activities : list FlatActivity)
    : completion (list string) :=
  ws <- forEachThrow (emptyScan "オーダー" order_name order_id) orders [] ;;
  ws <- forEachThrow (emptyScan "アクティビティ" activity_name activity_id) activities ws ;;
  let ws := forEach (longNameScan "オーダー" order_name) orders ws in
  let ws := forEach (longNameScan "アクティビティ" activity_name) activities ws in
  let ws := forEach (dateScan "オーダー" order_createdAt) orders ws in
  let ws := forEach (dateScan "アクティビティ" activity_createdAt) activities ws in
  Normal ws.

(** Placeholder of the source: always valid, no references found. *)
Definition checkCircularReferences (orders : list FlatOrder) (activities : list FlatActivity)
    : Verdict := okVerdict.

(** Result of [validateDataIntegrity].  [statistics] is derived from the
    other fields by floating-point formatting and is left out. *)
Record IntegrityResult : Type := mkIntegrityResult {
  verdict : Verdict;
  orphanedActivities : list OrphanedActivity;
  circularReferences : list string;
  (** [None] when the property is absent *)
  duplicateAnalysis : option IdDuplicateResult;
  relationshipAnalysis : RelationshipResult;
  integrityScore : Z
}.

Definition calculateIntegrityScore (integrityResult : IntegrityResult) : Z :=
  let score := 100%Z in
  let score := (score - Z.of_nat (List.length (errors (verdict integrityResult))) * 10)%Z in
  let score := (score - Z.of_nat (List.length (warnings (verdict integrityResult))) * 2)%Z in
  let score := (score - Z.of_nat (List.length (orphanedActivities integrityResult)) * 5)%Z in
  let score :=
    match duplicateAnalysis integrityResult with
    | Some analysis =>
        ((score - Z.of_nat (List.length (orderIds analysis)) * 8)
           - Z.of_nat (List.length (activityIds analysis)) * 8)%Z
    | None => score
    end in
  Z.max 0 (Z.min 100 score).

(** The [catch] branch of [validateDataIntegrity]. *)
Definition integrityCaught (result : IntegrityResult) (message : string) : IntegrityResult :=
  mkIntegrityResult
    (fail (verdict result) ("整合性チェック中にエラーが発生しました: " ++ message))
    (orphanedActivities result) (circularReferences result)
    (duplicateAnalysis result) (relationshipAnalysis result) (integrityScore result).

Definition withVerdict (result : IntegrityResult) (v : Verdict) : IntegrityResult :=
  mkIntegrityResult v (orphanedActivities result) (circularReferences result)
    (duplicateAnalysis result) (relationshipAnalysis result) (integrityScore result).

Definition addWarnings (v : Verdict) (ws : list string) : Verdict :=
  mkVerdict (isValid v) (errors v) (warnings v ++ ws).

Definition validateDataIntegrity (orders : list FlatOrder) (activities : list FlatActivity)
    : IntegrityResult :=
  let result := okVerdict in
  let idDuplicateResult := analyzeIdDuplicates orders activities in
  let result := absorb result (idVerdict idDuplicateResult) in
  let relationshipResult := analyzeRelationships orders activities in
  let result :=
    if rel_isValid relationshipResult then result
    else failAll result (rel_errors relationshipResult) in
  let result :=
    mkIntegrityResult result (rel_orphanedActivities relationshipResult) []
      (Some idDuplicateResult) relationshipResult 0 in
  match analyzeNameDuplicates orders activities with
  | Throw message => integrityCaught result message
  | Normal nameAnalysisResult =>
      let result :=
        withVerdict result (addWarnings (verdict result) (name_warnings nameAnalysisResult)) in
      match analyzeDataQuality orders activities with
      | Throw message => integrityCaught result message
      | Normal qualityWarnings =>
          let result := withVerdict result (addWarnings (verdict result) qualityWarnings) in
          let circularResult := checkCircularReferences orders activities in
          let result := withVerdict result (absorb (verdict result) circularResult) in
          mkIntegrityResult (verdict result) (orphanedActivities result)
            (circularReferences result)
            (duplicateAnalysis result) (relationshipAnalysis result)
            (calculateIntegrityScore result)
      end
  end.
End Integrity.

(** ** The validation pipeline *)

(** Result of [validateImportData]; [flattenedData] is absent when the
    schema stage fails. *)
Record ImportValidation : Type := mkImportValidation {
  validation : Verdict;
  flattenedData : option FlatData
}.

Section Validation.
Variable host : Host.

Definition validateImportData (data : jsval) : completion ImportValidation :=
  let schemaResult := validateJSONSchema host data in
  if negb (isValid (schemaVerdict schemaResult)) then
    Normal
      (mkImportValidation
         (mkVerdict false (errors (schemaVerdict schemaResult))
            (warnings (schemaVerdict schemaResult)))
         None)
  else
    let warns := warnings (schemaVerdict schemaResult) in
    flat <- convertNestedToFlat host data ;;
    let errs :=
      forEach (fun errs order index =>
                 (errs ++ validateDataTypes host (orderToJs order) "order" index)%list)
        (orders flat) [] in
    let errs :=
      forEach (fun errs activity index =>
                 (errs ++ validateDataTypes host (activityToJs activity) "activity" index)%list)
        (activities flat) errs in
    let integrityResult := validateDataIntegrity host (orders flat) (activities flat) in
    let errs :=
      if negb (isValid (verdict integrityResult))
      then (errs ++ errors (verdict integrityResult))%list else errs in
    let warns := (warns ++ warnings (verdict integrityResult))%list in
    Normal
      (mkImportValidation
         (mkVerdict (Nat.eqb (List.length errs) 0) errs warns)
         (Some flat)).
End Validation.

(** ** The persisted store and the repository operations *)

(** [dataRepository.data]: the order and activity records. *)
Record Store : Type := mkStore {
  storeOrders : list FlatOrder;
  storeActivities : list FlatActivity
}.

(** The constructor default [createdAt = new Date().toISOString()]: it
    applies when the argument is [undefined]. *)
Definition defaultCreatedAt (host : Host) (createdAt : jsval) : jsval :=
  match createdAt with
  | JUndef => JStr (currentTime host)
  | _ => createdAt
  end.

(** [Order.fromJSON(json)]: [new Order(json.id, json.name, json.createdAt)],
    on the fields of the instance that the import reads. *)
Definition Order_fromJSON (host : Host) (json : FlatOrder) : FlatOrder :=
  mkOrder (order_id json) (order_name json) (defaultCreatedAt host (order_createdAt json)).

(** [Activity.fromJSON(json)] *)
Definition Activity_fromJSON (host : Host) (json : FlatActivity) : FlatActivity :=
  mkActivity (activity_id json) (activity_name json) (activity_orderId json)
    (defaultCreatedAt host (activity_createdAt json)).

(** [getAllOrders()] / [getAllActivities()]: an instance rebuilt from each
    stored record. *)
Definition getAllOrders (host : Host) (st : Store) : list FlatOrder :=
  map (Order_fromJSON host) (storeOrders st).
Definition getAllActivities (host : Host) (st : Store) : list FlatActivity :=
  map (Activity_fromJSON host) (storeActivities st).

(** [updateOrder(id, {name, createdAt})]: spreads the update over the
    record found by id; no change when the id is not in the store.  The
    write-through [this.save()] of [DataRepository] reports a failure by
    its return value, which is ignored; the storage medium is not part of
    the store. *)
Definition updateOrder (st : Store) (id : jsval) (name createdAt : jsval) : Store :=
  match findIndex (fun order => js_eqb (order_id order) id) (storeOrders st) with
  | None => st
  | Some index =>
      let old := nth index (storeOrders st) (mkOrder id name createdAt) in
      mkStore (setNth (storeOrders st) index (mkOrder (order_id old) name createdAt))
        (storeActivities st)
  end.

(** [updateActivity(id, {name, orderId, createdAt})] *)
Definition updateActivity (st : Store) (id : jsval) (name orderId createdAt : jsval) : Store :=
  match findIndex (fun activity => js_eqb (activity_id activity) id) (storeActivities st) with
  | None => st
  | Some index =>
      let old := nth index (storeActivities st) (mkActivity id name orderId createdAt) in
      mkStore (storeOrders st)
        (setNth (storeActivities st) index
           (mkActivity (activity_id old) name orderId createdAt))
  end.

(** ** Duplicate-vs-store detector *)

(** [{import, existing, type}] *)
Record DuplicateRecord (A : Type) : Type := mkDuplicateRecord {
  dup_import : A;
  dup_existing : A;
  dup_type : string
}.
Arguments mkDuplicateRecord {A} _ _ _.
Arguments dup_import {A} _.
Arguments dup_existing {A} _.
Arguments dup_type {A} _.

Record DuplicateCheck : Type := mkDuplicateCheck {
  hasDuplicates : bool;
  duplicateOrders : list (DuplicateRecord FlatOrder);
  duplicateActivities : list (DuplicateRecord FlatActivity)
}.

Definition checkDuplicates (host : Host) (st : Store) (importData : FlatData)
    : DuplicateCheck :=
  let existingOrders := getAllOrders host st in
  let existingActivities := getAllActivities host st in
  let duplicateOrders :=
    fold_left
      (fun found importOrder =>
         match findFirst
                 (fun order => js_eqb (order_id order) (order_id importOrder)
                               || js_eqb (order_name order) (order_name importOrder))
                 existingOrders with
         | Some existing =>
             push found
               (mkDuplicateRecord importOrder existing
                  (if js_eqb (order_id existing) (order_id importOrder) then "id" else "name"))
         | None => found
         end)
      (orders importData) [] in
  let duplicateActivities :=
    fold_left
      (fun found importActivity =>
         match findFirst
                 (fun activity =>
                    js_eqb (activity_id activity) (activity_id importActivity)
                    || (js_eqb (activity_orderId activity) (activity_orderId importActivity)
                        && js_eqb (activity_name activity) (activity_name importActivity)))
                 existingActivities with
         | Some existing =>
             push found
               (mkDuplicateRecord importActivity existing
                  (if js_eqb (activity_id existing) (activity_id importActivity)
                   then "id" else "name"))
         | None => found
         end)
      (activities importData) [] in
  mkDuplicateCheck
    (Nat.ltb 0 (List.length duplicateOrders) || Nat.ltb 0 (List.length duplicateActivities))
    duplicateOrders duplicateActivities.

(** ** Reconciliation executor *)

(** [{created, skipped, updated, errors}] *)
Record ImportCounts : Type := mkImportCounts {
  created : nat;
  skipped : nat;
  updated : nat;
  importErrors : list string
}.

(** The outcome of [executeImport]. *)
Record ImportResult : Type := mkImportResult {
  success : bool;
  newOrders : nat;
  newActivities : nat;
  skippedOrders : nat;
  skippedActivities : nat;
  updatedOrders : nat;
  updatedActivities : nat;
  resultErrors : list string
}.

Section Reconciliation.
Variable host : Host.

(** [dataRepository.saveData], when the repository has such a method:
    [Some message] when the call throws. *)
Variable saveData : option (Store -> option string).

(** [Order.prototype.isValid] on the fields of the instance. *)
Definition Order_isValid (o : FlatOrder) : bool :=
  truthy (order_id o)
  && String.eqb (typeof (order_id o)) "string"
  && truthy (order_name o)
  && String.eqb (typeof (order_name o)) "string"
  && match order_name o with
     | JStr s => Nat.ltb 0 (String.length (trim s))
     | _ => false
     end
  && truthy (order_createdAt o)
  && match dateValue host (order_createdAt o) with Some _ => true | None => false end.

(** [Activity.prototype.isValid] *)
Definition Activity_isValid (a : FlatActivity) : bool :=
  truthy (activity_id a)
  && String.eqb (typeof (activity_id a)) "string"
  && truthy (activity_name a)
  && String.eqb (typeof (activity_name a)) "string"
  && match activity_name a with
     | JStr s => Nat.ltb 0 (String.length (trim s))
     | _ => false
     end
  && truthy (activity_orderId a)
  && String.eqb (typeof (activity_orderId a)) "string"
  && truthy (activity_createdAt a)
  && match dateValue host (activity_createdAt a) with Some _ => true | None => false end.

(** Returns the success flag and the store after the call. *)
Definition createOrderForImport (st : Store) (orderData : FlatOrder) : bool * Store :=
  match order_name orderData with
  | JStr s =>
      if negb (truthy (order_name orderData)) || Nat.eqb (String.length (trim s)) 0 then
        (false, st)
      else
        match findFirst (fun order => js_eqb (order_id order) (order_id orderData))
                (storeOrders st) with
        | Some _ => (false, st)
        | None =>
            let order :=
              mkOrder (order_id orderData) (JStr (trim s))
                (defaultCreatedAt host (order_createdAt orderData)) in
            if negb (Order_isValid order) then (false, st)
            else (true, mkStore (push (storeOrders st) order) (storeActivities st))
        end
  | _ => (false, st)
  end.

Definition createActivityForImport (st : Store) (activityData : FlatActivity) : bool * Store :=
  match activity_name activityData with
  | JStr s =>
      if negb (truthy (activity_name activityData)) || Nat.eqb (String.length (trim s)) 0 then
        (false, st)
      else if negb (truthy (activity_orderId activityData)) then (false, st)
      else
        match findFirst (fun order => js_eqb (order_id order) (activity_orderId activityData))
                (storeOrders st) with
        | None => (false, st)
        | Some _ =>
            match findFirst
                    (fun activity => js_eqb (activity_id activity) (activity_id activityData))
                    (storeActivities st) with
            | Some _ => (false, st)
            | None =>
                let activity :=
                  mkActivity (activity_id activityData) (JStr (trim s))
                    (activity_orderId activityData)
                    (defaultCreatedAt host (activity_createdAt activityData)) in
                if negb (Activity_isValid activity) then (false, st)
                else (true, mkStore (storeOrders st) (push (storeActivities st) activity))
            end
        end
  | _ => (false, st)
  end.

Definition countCreated (r : ImportCounts) : ImportCounts :=
  mkImportCounts (S (created r)) (skipped r) (updated r) (importErrors r).
Definition countSkipped (r : ImportCounts) : ImportCounts :=
  mkImportCounts (created r) (S (skipped r)) (updated r) (importErrors r).
Definition countUpdated (r : ImportCounts) : ImportCounts :=
  mkImportCounts (created r) (skipped r) (S (updated r)) (importErrors r).
Definition countError (r : ImportCounts) (msg : string) : ImportCounts :=
  mkImportCounts (created r) (skipped r) (updated r) (push (importErrors r) msg).

(** One iteration of [for (const order of orders)] in [importOrders],
    with its [try]/[catch]. *)
Definition importOrder (duplicates : list (DuplicateRecord FlatOrder))
    (duplicateHandling : jsval) (acc : ImportCounts * Store) (order : FlatOrder)
    : ImportCounts * Store :=
  let '(result, st) := acc in
  let duplicateIds := map (fun dup => order_id (dup_import dup)) duplicates in
  if set_has duplicateIds (order_id order) then
    let duplicate :=
      findFirst (fun dup => js_eqb (order_id (dup_import dup)) (order_id order)) duplicates in
    if js_eqb duplicateHandling (JStr "overwrite") then
      (countUpdated result,
       updateOrder st (order_id order) (order_name order) (order_createdAt order))
    else if js_eqb duplicateHandling (JStr "merge") then
      match duplicate with
      | Some dup =>
          let existingOrder := dup_existing dup in
          (countUpdated result,
           updateOrder st (order_id order) (order_name existingOrder)
             (order_createdAt existingOrder))
      | None =>
          (countError result
             ("オーダー「" ++ js_toString (order_name order) ++ "」のインポートに失敗: "
                ++ typeErrorMessage host JUndef "existing"),
           st)
      end
    else (countSkipped result, st)
  else
    let '(ok, st') := createOrderForImport st order in
    if ok then (countCreated result, st')
    else
      (countError result
         ("オーダー「" ++ js_toString (order_name order) ++ "」の作成に失敗しました"),
       st').

Definition importOrders (orders : list FlatOrder)
    (duplicates : list (DuplicateRecord FlatOrder)) (duplicateHandling : jsval)
    (st : Store) : ImportCounts * Store :=
  fold_left (importOrder duplicates duplicateHandling) orders (mkImportCounts 0 0 0 [], st).

Definition importActivity (duplicates : list (DuplicateRecord FlatActivity))
    (duplicateHandling : jsval) (acc : ImportCounts * Store) (activity : FlatActivity)
    : ImportCounts * Store :=
  let '(result, st) := acc in
  let duplicateIds := map (fun dup => activity_id (dup_import dup)) duplicates in
  if set_has duplicateIds (activity_id activity) then
    let duplicate :=
      findFirst (fun dup => js_eqb (activity_id (dup_import dup)) (activity_id activity))
        duplicates in
    if js_eqb duplicateHandling (JStr "overwrite") then
      (countUpdated result,
       updateActivity st (activity_id activity) (activity_name activity)
         (activity_orderId activity) (activity_createdAt activity))
    else if js_eqb duplicateHandling (JStr "merge") then
      match duplicate with
      | Some dup =>
          let existingActivity := dup_existing dup in
          (countUpdated result,
           updateActivity st (activity_id activity) (activity_name existingActivity)
             (activity_orderId existingActivity) (activity_createdAt existingActivity))
      | None =>
          (countError result
             ("アクティビティ「" ++ js_toString (activity_name activity) ++ "」のインポートに失敗: "
                ++ typeErrorMessage host JUndef "existing"),
           st)
      end
    else (countSkipped result, st)
  else
    let '(ok, st') := createActivityForImport st activity in
    if ok then (countCreated result, st')
    else
      (countError result
         ("アクティビティ「" ++ js_toString (activity_name activity) ++ "」の作成に失敗しました"),
       st').

Definition importActivities (activities : list FlatActivity)
    (duplicates : list (DuplicateRecord FlatActivity)) (duplicateHandling : jsval)
    (st : Store) : ImportCounts * Store :=
  fold_left (importActivity duplicates duplicateHandling) activities
    (mkImportCounts 0 0 0 [], st).

(** [options] is the caller's options object; reading a property of
    [undefined] or [null] throws and lands in the outer [catch]. *)
Definition executeImport (importData : FlatData) (duplicateCheck : DuplicateCheck)
    (options : jsval) (st : Store) : ImportResult * Store :=
  match readProp host options "duplicateHandling" with
  | Throw message => (mkImportResult false 0 0 0 0 0 0 [message], st)
  | Normal chosen =>
      let duplicateHandling := js_or chosen (JStr "skip") in
      let '(orderImportResult, st) :=
        importOrders (orders importData) (duplicateOrders duplicateCheck)
          duplicateHandling st in
      let '(activityImportResult, st) :=
        importActivities (activities importData) (duplicateActivities duplicateCheck)
          duplicateHandling st in
      let errs := (importErrors orderImportResult ++ importErrors activityImportResult)%list in
      let success := negb (Nat.ltb 0 (List.length errs)) in
      let '(success, errs) :=
        match saveData with
        | Some save =>
            if success then
              match save st with
              | None => (success, errs)
              | Some _ => (false, push errs "データの保存に失敗しました")
              end
            else (success, errs)
        | None => (success, errs)
        end in
      (mkImportResult success
         (created orderImportResult) (created activityImportResult)
         (skipped orderImportResult) (skipped activityImportResult)
         (updated orderImportResult) (updated activityImportResult)
         errs,
       st)
  end.

(** [parseJSON(jsonString)] *)
Definition parseJSON (jsonString : jsval) : completion jsval :=
  match jsonString with
  | JStr s =>
      if negb (truthy jsonString) then Throw "無効なJSON文字列です"
      else
        let trimmedJson := trim s in
        if Nat.eqb (String.length trimmedJson) 0 then Throw "空のファイルです"
        else
          match jsonParse host trimmedJson with
          | Some v => Normal v
          | None => Throw "JSONファイルの形式が正しくありません"
          end
  | _ => Throw "無効なJSON文字列です"
  end.

(** How [importFromJSON] ends: it returns the outcome, throws the
    validation error carrying the validation result, or throws another
    error. *)
Inductive ImportEnd : Type :=
| Returned (result : ImportResult)
| ValidationError (validationResult : ImportValidation)
| OtherError (message : string).

(** The stages in the order of the source; the rendering of the error
    report attached to the validation error is left out. *)
Definition importFromJSON (jsonString : jsval) (options : jsval) (st : Store)
    : ImportEnd * Store :=
  let options := match options with JUndef => JObj [] | _ => options end in
  match parseJSON jsonString with
  | Throw message => (OtherError message, st)
  | Normal importData =>
      match validateImportData host importData with
      | Throw message => (OtherError message, st)
      | Normal validationResult =>
          if negb (isValid (validation validationResult)) then
            (ValidationError validationResult, st)
          else
            match flattenedData validationResult with
            | None =>
                (OtherError (typeErrorMessage host JUndef "orders"), st)
            | Some flatData =>
                let duplicateCheck := checkDuplicates host st flatData in
                let '(result, st) := executeImport flatData duplicateCheck options st in
                match saveData with
                | Some save =>
                    if success result then
                      match save st with
                      | None => (Returned result, st)
                      | Some message => (OtherError message, st)
                      end
                    else (Returned result, st)
                | None => (Returned result, st)
                end
            end
      end
  end.
End Reconciliation.

(** ** Substring test *)

(** [s.includes(needle)] *)
Fixpoint str_includes (needle s : string) : bool :=
  String.prefix needle s
  || match s with
     | EmptyString => false
     | String _ r => str_includes needle r
     end.

(** ** Legacy per-record validators (ImportService) *)

Section LegacyValidator.
Variable host : Host.

(** [!v || typeof v !== 'string' || v.trim().length === 0] *)
Definition blankText (v : jsval) : bool :=
  negb (truthy v)
  || negb (String.eqb (typeof v) "string")
  || match v with
     | JStr s => Nat.eqb (String.length (trim s)) 0
     | _ => false
     end.

(** [!v || isNaN(new Date(v).getTime())] *)
Definition badDate (v : jsval) : bool :=
  negb (truthy v) || match dateValue host v with Some _ => false | None => true end.

(** The name check shared by the two validators; the length is read
    only when the name is a non-blank string. *)
Definition nameErrors (pre : string) (name : jsval) : list string :=
  if blankText name then [pre ++ ": 名前が無効です"]
  else if js_gt host (js_length name) 100 then [pre ++ ": 名前が長すぎます（100文字以内）"]
  else [].

Definition validateOrderData (order : jsval) (index : nat) : list string :=
  let pre := "オーダー[" ++ string_of_nat index ++ "]" in
  if negb (truthy order) || negb (String.eqb (typeof order) "object") then
    [pre ++ ": 無効なオーダーデータです"]
  else
    let e1 := if blankText (getProp order "id") then [pre ++ ": IDが無効です"] else [] in
    let e2 := nameErrors pre (getProp order "name") in
    let e3 := if badDate (getProp order "createdAt") then [pre ++ ": 作成日時が無効です"] else [] in
    (e1 ++ e2 ++ e3)%list.

Definition validateActivityData (activity : jsval) (index : nat) : list string :=
  let pre := "アクティビティ[" ++ string_of_nat index ++ "]" in
  if negb (truthy activity) || negb (String.eqb (typeof activity) "object") then
    [pre ++ ": 無効なアクティビティデータです"]
  else
    let e1 := if blankText (getProp activity "id") then [pre ++ ": IDが無効です"] else [] in
    let e2 := nameErrors pre (getProp activity "name") in
    let e3 :=
      if blankText (getProp activity "orderId") then [pre ++ ": オーダーIDが無効です"] else [] in
    let e4 :=
      if badDate (getProp activity "createdAt") then [pre ++ ": 作成日時が無効です"] else [] in
    (e1 ++ e2 ++ e3 ++ e4)%list.

(** [items.map(item => item.id)]: reading the id of a [null] entry throws. *)
Fixpoint idsOf (items : list jsval) : completion (list jsval) :=
  match items with
  | [] => Normal []
  | item :: rest =>
      id <- readProp host item "id" ;;
      ids <- idsOf rest ;;
      Normal (id :: ids)
  end.

(** [ids.indexOf(x)], [None] for [-1]. *)
Definition indexOf (ids : list jsval) (x : jsval) : option nat :=
  findIndex (fun y => js_eqb y x) ids.

(** [ids.filter((id, index) => ids.indexOf(id) !== index)], from [index]
    on. *)
Fixpoint repeatedFrom (ids rest : list jsval) (index : nat) : list jsval :=
  match rest with
  | [] => []
  | id :: rest' =>
      let later :=
        match indexOf ids id with
        | Some first => negb (Nat.eqb first index)
        | None => true
        end in
      if later then id :: repeatedFrom ids rest' (S index) else repeatedFrom ids rest' (S index)
  end.

Definition validateRelationships (orders activities : list jsval) : completion (list string) :=
  orderIds <- idsOf orders ;;
  let duplicateOrderIds := repeatedFrom orderIds orderIds 0 in
  let errors :=
    if Nat.ltb 0 (List.length duplicateOrderIds)
    then ["重複するオーダーIDが見つかりました: " ++ js_join ", " duplicateOrderIds]
    else [] in
  activityIds <- idsOf activities ;;
  let duplicateActivityIds := repeatedFrom activityIds activityIds 0 in
  let errors :=
    if Nat.ltb 0 (List.length duplicateActivityIds)
    then push errors
           ("重複するアクティビティIDが見つかりました: " ++ js_join ", " duplicateActivityIds)
    else errors in
  Normal
    (forEach
       (fun errors activity index =>
          if negb (set_has orderIds (getProp activity "orderId")) then
            push errors
              ("アクティビティ[" ++ string_of_nat index ++ "]: 存在しないオーダーID「"
                 ++ js_toString (getProp activity "orderId") ++ "」を参照しています")
          else errors)
       activities errors).
End LegacyValidator.

(** ** Error report (ImportService) *)

(** [{structural, validation, integrity, format}] *)
Record ErrorCategories : Type := mkErrorCategories {
  cat_structural : list string;
  cat_validation : list string;
  cat_integrity : list string;
  cat_format : list string
}.

Definition categorizeErrors (errors : list string) : ErrorCategories :=
  fold_left
    (fun categories error =>
       if str_includes "構造" error || str_includes "プロパティ" error then
         mkErrorCategories (push (cat_structural categories) error) (cat_validation categories)
           (cat_integrity categories) (cat_format categories)
       else if str_includes "重複" error || str_includes "参照" error
               || str_includes "孤立" error then
         mkErrorCategories (cat_structural categories) (cat_validation categories)
           (push (cat_integrity categories) error) (cat_format categories)
       else if str_includes "形式" error || str_includes "無効" error then
         mkErrorCategories (cat_structural categories) (cat_validation categories)
           (cat_integrity categories) (push (cat_format categories) error)
       else
         mkErrorCategories (cat_structural categories) (push (cat_validation categories) error)
           (cat_integrity categories) (cat_format categories))
    errors (mkErrorCategories [] [] [] []).

(** The result's [errors] array is never absent, so the guard
    [!validationResult.errors] is false. *)
Definition determineSeverity (validationResult : Verdict) : string :=
  if Nat.eqb (List.length (errors validationResult)) 0 then
    if Nat.ltb 0 (List.length (warnings validationResult)) then "warning" else "success"
  else
    let errorCount := List.length (errors validationResult) in
    if Nat.leb 10 errorCount then "critical"
    else if Nat.leb 5 errorCount then "high"
    else if Nat.leb 1 errorCount then "medium"
    else "low".

(** [{category, priority, title, description, actions}] *)
Record Recommendation : Type := mkRecommendation {
  rec_category : string;
  rec_priority : string;
  rec_title : string;
  rec_description : string;
  rec_actions : list string
}.

(** The categories object as [generateErrorReport] passes it on. *)
Definition categoriesObject (c : ErrorCategories) : jsval :=
  JObj [("structural", JArr (map JStr (cat_structural c)));
        ("validation", JArr (map JStr (cat_validation c)));
        ("integrity", JArr (map JStr (cat_integrity c)));
        ("format", JArr (map JStr (cat_format c)))].

Section Report.
Variable host : Host.

(** [categorizedErrors[key].length > 0] *)
Definition hasEntries (categorizedErrors : jsval) (key : string) : completion bool :=
  entries <- readProp host categorizedErrors key ;;
  if isNullish entries then Throw (typeErrorMessage host entries "length")
  else Normal (js_gt host (js_length entries) 0).

Definition generateRecommendations (validationResult : Verdict) (categorizedErrors : jsval)
    : completion (list Recommendation) :=
  let recommendations := [] in
  structural <- hasEntries categorizedErrors "structural" ;;
  let recommendations :=
    if structural then
      push recommendations
        (mkRecommendation "structural" "high" "データ構造の修正"
           "JSONファイルの基本構造を確認してください"
           ["サンプルファイルをダウンロードして形式を確認";
            "JSONバリデーターでファイルの構文をチェック";
            "必須プロパティ（orders、activities）が含まれているか確認"])
    else recommendations in
  format <- hasEntries categorizedErrors "format" ;;
  let recommendations :=
    if format then
      push recommendations
        (mkRecommendation "format" "high" "データ形式の修正"
           "フィールドの形式やデータ型を確認してください"
           ["ID、名前、作成日時などの必須フィールドを確認";
            "文字数制限（ID: 100文字、名前: 200文字）を確認";
            "日時形式がISO 8601形式（YYYY-MM-DDTHH:mm:ss.sssZ）になっているか確認"])
    else recommendations in
  integrity <- hasEntries categorizedErrors "integrity" ;;
  let recommendations :=
    if integrity then
      push recommendations
        (mkRecommendation "integrity" "critical" "データ整合性の修正"
           "データ間の関係や重複を確認してください"
           ["アクティビティのorderIdが存在するオーダーのIDを参照しているか確認";
            "ID の重複がないか確認";
            "孤立したアクティビティ（存在しないオーダーを参照）を修正"])
    else recommendations in
  validation <- hasEntries categorizedErrors "validation" ;;
  let recommendations :=
    if validation then
      push recommendations
        (mkRecommendation "validation" "medium" "データ検証の修正"
           "データの妥当性を確認してください"
           ["空の値や null 値がないか確認";
            "不正な文字が含まれていないか確認";
            "データ型が正しいか確認（文字列、数値など）"])
    else recommendations in
  let recommendations :=
    if Nat.ltb 0 (List.length (warnings validationResult)) then
      push recommendations
        (mkRecommendation "warning" "low" "データ品質の改善"
           "警告事項を確認して、必要に応じて修正してください"
           ["名前の重複を確認（必要に応じて修正）";
            "データサイズが大きい場合は分割を検討";
            "異常に長い名前や古い日付を確認"])
    else recommendations in
  Normal
    (push recommendations
       (mkRecommendation "general" "low" "一般的な対処法"
          "問題が解決しない場合の対処法"
          ["ファイルをUTF-8エンコーディングで保存し直す";
           "データを小さな単位に分割してインポートを試す";
           "サンプルファイルを参考に新しいファイルを作成する"])).

(** [{critical, high, medium, low}] *)
Record PriorityCounts : Type := mkPriorityCounts {
  count_critical : nat;
  count_high : nat;
  count_medium : nat;
  count_low : nat
}.

(** [summary.recommendations[rec.priority]++]; every priority that
    [generateRecommendations] produces is one of the four keys. *)
Definition countPriority (counts : PriorityCounts) (priority : string) : PriorityCounts :=
  if String.eqb priority "critical" then
    mkPriorityCounts (S (count_critical counts)) (count_high counts) (count_medium counts)
      (count_low counts)
  else if String.eqb priority "high" then
    mkPriorityCounts (count_critical counts) (S (count_high counts)) (count_medium counts)
      (count_low counts)
  else if String.eqb priority "medium" then
    mkPriorityCounts (count_critical counts) (count_high counts) (S (count_medium counts))
      (count_low counts)
  else if String.eqb priority "low" then
    mkPriorityCounts (count_critical counts) (count_high counts) (count_medium counts)
      (S (count_low counts))
  else counts.

(** [{isValid, totalIssues, severity, categories, recommendations}] *)
Record ValidationSummary : Type := mkValidationSummary {
  summary_isValid : bool;
  summary_totalIssues : nat;
  summary_severity : string;
  summary_categories : jsval;
  summary_recommendations : PriorityCounts
}.

(** [validationResult.errors] is never absent, so the categories are
    always filled in; the counts object [summary.categories] is what is
    handed to [generateRecommendations]. *)
Definition generateValidationSummary (validationResult : Verdict)
    : completion ValidationSummary :=
  let categorized := categorizeErrors (errors validationResult) in
  let categories :=
    JObj [("structural", JNum (Z.of_nat (List.length (cat_structural categorized))));
          ("format", JNum (Z.of_nat (List.length (cat_format categorized))));
          ("integrity", JNum (Z.of_nat (List.length (cat_integrity categorized))));
          ("validation", JNum (Z.of_nat (List.length (cat_validation categorized))))] in
  recommendations <- generateRecommendations validationResult categories ;;
  Normal
    (mkValidationSummary (isValid validationResult)
       (List.length (errors validationResult) + List.length (warnings validationResult))
       (determineSeverity validationResult)
       categories
       (fold_left (fun counts rec => countPriority counts (rec_priority rec))
          recommendations (mkPriorityCounts 0 0 0 0))).
End Report.

(** ** A concrete host, for evaluating the pipeline on sample documents *)

Definition sampleDate : string := "2024-01-01T00:00:00Z".

Definition sampleNow : string := "2024-06-01T00:00:00.000Z".

(** Knows two timestamps and two array documents; sizes are small. *)
Definition sampleHost : Host :=
  {| currentTime := sampleNow;
     nowMs := 1717200000000;
     dateValue :=
       fun v =>
         if js_eqb v (JStr sampleDate) then Some 1704067200000%Z
         else if js_eqb v (JStr sampleNow) then Some 1717200000000%Z
         else None;
     fullYear := fun t => (1970 + t / 31556952000)%Z;
     stringifyLength := fun _ => 100%Z;
     jsonParse :=
       fun s =>
         if String.eqb s "[]" then Some (JArr [])
         else if String.eqb s "[1, 2]" then Some (JArr [JNum 1; JNum 2])
         else None;
     stringToNumber := fun _ => None;
     formatFileSize := fun z => string_of_Z z ++ " Bytes";
     typeErrorMessage :=
       fun v k => "Cannot read properties of " ++ js_toString v ++ " (reading '" ++ k ++ "')"
  |}.

(** ** Induction on values, through arrays and objects *)

Section JsvalInduction.
Variable P : jsval -> Prop.
Hypothesis Hundef : P JUndef.
Hypothesis Hnull : P JNull.
Hypothesis Hbool : forall b, P (JBool b).
Hypothesis Hnum : forall n, P (JNum n).
Hypothesis Hstr : forall s, P (JStr s).
Hypothesis Harr : forall l, Forall P l -> P (JArr l).
Hypothesis Hobj : forall l, Forall (fun kv => P (snd kv)) l -> P (JObj l).

Fixpoint jsval_induction (v : jsval) : P v :=
  match v with
  | JUndef => Hundef
  | JNull => Hnull
  | JBool b => Hbool b
  | JNum n => Hnum n
  | JStr s => Hstr s
  | JArr l =>
      Harr l
        ((fix items (l : list jsval) : Forall P l :=
            match l with
            | [] => Forall_nil P
            | x :: r => Forall_cons x (jsval_induction x) (items r)
            end) l)
  | JObj l =>
      Hobj l
        ((fix fields (l : list (string * jsval)) : Forall (fun kv => P (snd kv)) l :=
            match l with
            | [] => Forall_nil _
            | kv :: r => Forall_cons kv (jsval_induction (snd kv)) (fields r)
            end) l)
  end.
End JsvalInduction.

(** ** Notions used to state the properties *)

(** The duplicate-id entries of an integrity result, orders and
    activities together. *)
Definition duplicateEntries (r : IntegrityResult) : nat :=
  match duplicateAnalysis r with
  | Some analysis => List.length (orderIds analysis) + List.length (activityIds analysis)
  | None => 0
  end.

(** The single error of the structural stage on an array root. *)
Definition arrayRootMessage : string :=
  "ルートは配列ではなくオブジェクトである必要があります".

(** Counts of two runs put together. *)
Definition addCounts (a b : ImportCounts) : ImportCounts :=
  mkImportCounts (created a + created b) (skipped a + skipped b) (updated a + updated b)
    (importErrors a ++ importErrors b).

(** The records a run has committed: created, skipped or updated. *)
Definition committed (r : ImportCounts) : nat := created r + skipped r + updated r.

Definition noCounts : ImportCounts := mkImportCounts 0 0 0 [].

(** The ids of the import records found in the store. *)
Definition duplicateOrderIds (duplicates : list (DuplicateRecord FlatOrder)) : list jsval :=
  map (fun dup => order_id (dup_import dup)) duplicates.

Definition duplicateActivityIds (duplicates : list (DuplicateRecord FlatActivity))
    : list jsval :=
  map (fun dup => activity_id (dup_import dup)) duplicates.

(** What one record does to the counts: it is committed under exactly one
    counter, or it appends exactly one error and leaves the store alone. *)
Definition recordOutcome (before after : ImportCounts * Store) : Prop :=
  (committed (fst after) = S (committed (fst before))
   /\ importErrors (fst after) = importErrors (fst before))
  \/ (created (fst after) = created (fst before)
      /\ skipped (fst after) = skipped (fst before)
      /\ updated (fst after) = updated (fst before)
      /\ (exists msg, importErrors (fst after) = importErrors (fst before) ++ [msg])%list
      /\ snd after = snd before).

Definition orderCreationFailed (order : FlatOrder) : string :=
  "オーダー「" ++ js_toString (order_name order) ++ "」の作成に失敗しました".

Definition activityCreationFailed (activity : FlatActivity) : string :=
  "アクティビティ「" ++ js_toString (activity_name activity) ++ "」の作成に失敗しました".

(** The message of the persistence hook's [catch]. *)
Definition saveFailed : string := "データの保存に失敗しました".

(** The orphan record of the activity at [index]. *)
Definition orphanOf (index : nat) (activity : FlatActivity) : OrphanedActivity :=
  mkOrphanedActivity index (activity_id activity) (activity_name activity)
    (activity_orderId activity) "error".

(** An activity dangles when its order id is non-empty and is the id of
    no order of the batch. *)
Definition dangling (validOrderIds : list jsval) (activity : FlatActivity) : bool :=
  truthy (activity_orderId activity)
  && negb (set_has validOrderIds (activity_orderId activity)).

(** The orphan records of the dangling activities of [l], whose first
    element has index [i]. *)
Fixpoint orphansFrom (validOrderIds : list jsval) (l : list FlatActivity) (i : nat)
    : list OrphanedActivity :=
  match l with
  | [] => []
  | a :: r =>
      (if dangling validOrderIds a then [orphanOf i a] else [])
        ++ orphansFrom validOrderIds r (S i)
  end.

(** The entries recorded for the activity at [index]. *)
Definition orphansAt (index : nat) (l : list OrphanedActivity) : list OrphanedActivity :=
  filter (fun o => Nat.eqb (orphan_index o) index) l.

Definition isNil {A : Type} (l : list A) : bool :=
  match l with [] => true | _ :: _ => false end.

(** The entries of an array with their indices, the first one at [i]. *)
Fixpoint indexedFrom {A : Type} (l : list A) (i : nat) : list (nat * A) :=
  match l with
  | [] => []
  | x :: r => (i, x) :: indexedFrom r (S i)
  end.

(** An entry the normalizer keeps: it passes [!v || typeof v !== 'object']. *)
Definition isRecord (v : jsval) : bool :=
  negb (negb (truthy v) || negb (String.eqb (typeof v) "object")).

Definition keptEntries (items : list jsval) (i : nat) : list (nat * jsval) :=
  filter (fun entry => isRecord (snd entry)) (indexedFrom items i).

(** The activities embedded under the order at [index] of the input, each
    with the id, name and timestamp the normalizer gives it. *)
Definition embeddedActivities (host : Host) (entry : nat * jsval) : list FlatActivity :=
  let '(index, order) := entry in
  if truthy (getProp order "activities") && isArray (getProp order "activities") then
    map (fun sub => flatActivityOf host index (flatOrderOf host index order) (snd sub) (fst sub))
      (keptEntries (itemsOf (getProp order "activities")) 0)
  else [].

Definition entryOrder (host : Host) (entry : nat * jsval) : FlatOrder :=
  flatOrderOf host (fst entry) (snd entry).

(** The grouping of the input: every kept order with the activities
    embedded under it. *)
Definition inputGrouping (host : Host) (items : list jsval) : list NestedOrder :=
  map
    (fun entry =>
       mkNestedOrder (order_id (entryOrder host entry)) (order_name (entryOrder host entry))
         (order_createdAt (entryOrder host entry))
         (map toNested (embeddedActivities host entry)))
    (keptEntries items 0).

(** [activitiesByOrder.get(k) || []] *)
Definition groupOf (m : jsmap (list NestedActivity)) (k : jsval) : list NestedActivity :=
  match map_get m k with
  | Some group => group
  | None => []
  end.

(** Normalize, then re-nest. *)
Definition renest (host : Host) (nestedData : jsval) : completion (list NestedOrder) :=
  flat <- convertNestedToFlat host nestedData ;; Normal (convertFlatToNested flat).

(** Sample records and documents used to evaluate the pipeline. *)
Definition sampleOrderJs (id name : string) : jsval :=
  JObj [("id", JStr id); ("name", JStr name); ("createdAt", JStr sampleDate)].

Definition sampleActivityJs (id name orderId : string) : jsval :=
  JObj [("id", JStr id); ("name", JStr name); ("orderId", JStr orderId);
        ("createdAt", JStr sampleDate)].

(** The flat-form document of the repository's test
    "関係整合性エラーの検証": one order and one top-level activity that
    refers to an order id absent from the batch. *)
Definition flatFormDocument : jsval :=
  JObj [("orders", JArr [sampleOrderJs "order_1" "テストオーダー"]);
        ("activities",
         JArr [sampleActivityJs "activity_1" "テストアクティビティ" "nonexistent_order"])].

Definition missingVersionWarning : string :=
  "スキーマバージョンが指定されていません。最新版として処理します".

Definition invalidNameMessage (index : nat) : string :=
  "オーダー[" ++ string_of_nat index ++ "]: 名前が無効です（空文字、null、または長すぎます）".

Definition nameTooLongMessage (index : nat) : string :=
  "オーダー[" ++ string_of_nat index ++ "].name: 文字数制限を超えています（最大200文字）".

(** A document with one order whose name is [n] times the letter a. *)
Definition namedDocument (n : nat) : jsval :=
  JObj [("orders",
         JArr [JObj [("id", JStr "order_1"); ("name", JStr (repeatChar "a" n));
                     ("createdAt", JStr sampleDate)]])].

(** A store holding "oX" named Alpha and "o1" named Beta. *)
Definition twoOrderStore : Store :=
  mkStore
    [mkOrder (JStr "oX") (JStr "Alpha") (JStr "2022-02-02T00:00:00Z");
     mkOrder (JStr "o1") (JStr "Beta") (JStr "2023-03-03T00:00:00Z")]
    [].

(** An import of order "o1" under the name Alpha. *)
Definition renamingBatch : FlatData :=
  mkFlatData [mkOrder (JStr "o1") (JStr "Alpha") (JStr sampleDate)] [].

Definition mergeOptions : jsval := JObj [("duplicateHandling", JStr "merge")].

(** The per-record error of an activity whose order id is not a valid id. *)
Definition invalidOrderIdMessage (index : nat) : string :=
  ("アクティビティ" ++ "[" ++ string_of_nat index ++ "]") ++ ": オーダーIDが無効です".

(** Records whose name and id are strings, as the schema stage leaves them. *)
Definition isString (v : jsval) : bool :=
  match v with JStr _ => true | _ => false end.

Definition textualOrder (o : FlatOrder) : bool :=
  isString (order_id o) && isString (order_name o).

Definition textualActivity (a : FlatActivity) : bool :=
  isString (activity_id a) && isString (activity_name a).

(** A document with one order holding one embedded activity whose name is
    [n] times the letter a. *)
Definition namedActivityDocument (n : nat) : jsval :=
  JObj [("orders",
         JArr [JObj [("id", JStr "order_1"); ("name", JStr "Order");
                     ("createdAt", JStr sampleDate);
                     ("activities",
                      JArr [JObj [("id", JStr "activity_1");
                                  ("name", JStr (repeatChar "a" n));
                                  ("createdAt", JStr sampleDate)]])]])].

Definition invalidActivityNameMessage (index : nat) : string :=
  "アクティビティ[" ++ string_of_nat index ++ "]: 名前が無効です（空文字、null、または長すぎます）".

(** The errors of a validation that returned. *)
Definition validationErrors (c : completion ImportValidation) : list string :=
  match c with
  | Normal v => errors (validation v)
  | Throw message => [message]
  end.

(** A store holding order "o1" with the activities "aX" named Plan and
    "a1" named Draft. *)
Definition twoActivityStore : Store :=
  mkStore
    [mkOrder (JStr "o1") (JStr "Beta") (JStr "2023-03-03T00:00:00Z")]
    [mkActivity (JStr "aX") (JStr "Plan") (JStr "o1") (JStr "2022-02-02T00:00:00Z");
     mkActivity (JStr "a1") (JStr "Draft") (JStr "o1") (JStr "2023-03-03T00:00:00Z")].

(** An import of activity "a1" of order "o1" under the name Plan. *)
Definition renamingActivityBatch : FlatData :=
  mkFlatData [] [mkActivity (JStr "a1") (JStr "Plan") (JStr "o1") (JStr sampleDate)].

(** The store of the repository's import tests (createMockDataRepository). *)
Definition mockStore : Store :=
  mkStore
    [mkOrder (JStr "existing_order_1") (JStr "既存オーダー1") (JStr sampleDate)]
    [mkActivity (JStr "existing_activity_1") (JStr "既存アクティビティ1")
       (JStr "existing_order_1") (JStr sampleDate)].

Definition policyOptions (policy : string) : jsval :=
  JObj [("duplicateHandling", JStr policy)].

(** [executeImport] on a flat batch after [checkDuplicates], as the tests
    call it. *)
Definition runImport (importData : FlatData) (options : jsval) (st : Store)
    : ImportResult * Store :=
  executeImport sampleHost None importData (checkDuplicates sampleHost st importData)
    options st.

(** ** Notions used to state the properties of the store and of the reports *)

(** The ids of the stored records, in store order. *)
Definition storedOrderIds (st : Store) : list jsval := map order_id (storeOrders st).

Definition storedActivityIds (st : Store) : list jsval :=
  map activity_id (storeActivities st).

(** Every stored activity carries the id of a stored order. *)
Definition referencesResolve (st : Store) : bool :=
  forallb (fun activity => set_has (storedOrderIds st) (activity_orderId activity))
    (storeActivities st).

(** The records of the batch, orders and activities together. *)
Definition batchSize (importData : FlatData) : nat :=
  List.length (orders importData) + List.length (activities importData).

(** The records an outcome accounts for under one of its counters. *)
Definition accounted (r : ImportResult) : nat :=
  newOrders r + newActivities r + skippedOrders r + skippedActivities r
  + updatedOrders r + updatedActivities r + List.length (resultErrors r).

(** The entry the detector records for one import order, if any. *)
Definition orderMatch (host : Host) (st : Store) (importOrder : FlatOrder)
    : list (DuplicateRecord FlatOrder) :=
  match findFirst
          (fun order => js_eqb (order_id order) (order_id importOrder)
                        || js_eqb (order_name order) (order_name importOrder))
          (getAllOrders host st) with
  | Some existing =>
      [mkDuplicateRecord importOrder existing
         (if js_eqb (order_id existing) (order_id importOrder) then "id" else "name")]
  | None => []
  end.

Definition activityMatch (host : Host) (st : Store) (importActivity : FlatActivity)
    : list (DuplicateRecord FlatActivity) :=
  match findFirst
          (fun activity =>
             js_eqb (activity_id activity) (activity_id importActivity)
             || (js_eqb (activity_orderId activity) (activity_orderId importActivity)
                 && js_eqb (activity_name activity) (activity_name importActivity)))
          (getAllActivities host st) with
  | Some existing =>
      [mkDuplicateRecord importActivity existing
         (if js_eqb (activity_id existing) (activity_id importActivity) then "id" else "name")]
  | None => []
  end.

(** Every reported duplicate is a match by id. *)
Definition matchedById {A : Type} (dups : list (DuplicateRecord A)) : bool :=
  forallb (fun dup => String.eqb (dup_type dup) "id") dups.

(** A verdict is coherent when it is valid exactly when it lists no error. *)
Definition coherent (v : Verdict) : Prop := isValid v = isNil (errors v).

(** The activities counted under the orders of a relationship analysis. *)
Definition countedActivities (counts : jsmap nat) : nat := list_sum (map snd counts).

(** After the scan of the records whose ids are [seen] so far: the map
    knows exactly the seen ids, and nothing was found exactly when the seen
    ids are pairwise distinct. *)
Definition scanned (seen : list jsval) (st : DupScan) : Prop :=
  let '(m, found, valid) := st in
  (forall k, map_has m k = true <-> In k seen)
  /\ (found = [] <-> NoDup seen).

(** The keyword tests of [categorizeErrors], in the order it applies them. *)
Definition structuralText (error : string) : bool :=
  str_includes "構造" error || str_includes "プロパティ" error.

Definition integrityText (error : string) : bool :=
  str_includes "重複" error || str_includes "参照" error || str_includes "孤立" error.

Definition formatText (error : string) : bool :=
  str_includes "形式" error || str_includes "無効" error.

(** Whether the message occurs in the list. *)
Definition listed (l : list string) (error : string) : bool := existsb (String.eqb error) l.

(** The number of categories that hold the message. *)
Definition categoriesHolding (c : ErrorCategories) (error : string) : nat :=
  Nat.b2n (listed (cat_structural c) error) + Nat.b2n (listed (cat_validation c) error)
  + Nat.b2n (listed (cat_integrity c) error) + Nat.b2n (listed (cat_format c) error).

(** A recommendation that asks for more than routine care. *)
Definition urgent (rec : Recommendation) : bool := negb (String.eqb (rec_priority rec) "low").

(** The recommendations of [generateErrorReport] for an invalid result. *)
Definition reportRecommendations (host : Host) (validationResult : Verdict)
    : completion (list Recommendation) :=
  generateRecommendations host validationResult
    (categoriesObject (categorizeErrors (errors validationResult))).

(** The record stored for a created record: the name is trimmed. *)
Definition trimmedName (name : jsval) : jsval :=
  match name with
  | JStr s => JStr (trim s)
  | _ => name
  end.

Definition storedOrder (order : FlatOrder) : FlatOrder :=
  mkOrder (order_id order) (trimmedName (order_name order)) (order_createdAt order).

Definition storedActivity (activity : FlatActivity) : FlatActivity :=
  mkActivity (activity_id activity) (trimmedName (activity_name activity))
    (activity_orderId activity) (activity_createdAt activity).

(** A stored record after a merge: as it was, or as the instance that
    [getAllOrders] (or [getAllActivities]) rebuilds from it. *)
Definition keptOrder (host : Host) (old new : FlatOrder) : Prop :=
  new = old \/ new = Order_fromJSON host old.

Definition keptActivity (host : Host) (old new : FlatActivity) : Prop :=
  new = old \/ new = Activity_fromJSON host old.

(** A store with an order that has no timestamp. *)
Definition undatedStore : Store :=
  mkStore [mkOrder (JStr "o1") (JStr "Beta") JUndef] [].

(** The activities held by the orders of a nested form. *)
Definition nestedActivityCount (nested : list NestedOrder) : nat :=
  list_sum (map (fun order => List.length (nested_activities order)) nested).

(** * Properties *)

(** ** The repository's import tests, replayed on the embedding *)

(** "ネスト→フラット変換" *)
Example test_nested_to_flat :
  convertNestedToFlat sampleHost
    (JObj [("orders",
            JArr [JObj [("id", JStr "order_1"); ("name", JStr "テストオーダー");
                        ("activities",
                         JArr [JObj [("id", JStr "activity_1"); ("name", JStr "アクティビティ1")];
                               JObj [("id", JStr "activity_2"); ("name", JStr "アクティビティ2")]])]])]) =
  Normal
    (mkFlatData
       [mkOrder (JStr "order_1") (JStr "テストオーダー") (JStr sampleNow)]
       [mkActivity (JStr "activity_1") (JStr "アクティビティ1") (JStr "order_1") (JStr sampleNow);
        mkActivity (JStr "activity_2") (JStr "アクティビティ2") (JStr "order_1") (JStr sampleNow)]).
Proof. reflexivity. Qed.

(** "フラット→ネスト変換" *)
Example test_flat_to_nested :
  convertFlatToNested
    (mkFlatData
       [mkOrder (JStr "order_1") (JStr "テストオーダー") (JStr sampleDate)]
       [mkActivity (JStr "activity_1") (JStr "アクティビティ1") (JStr "order_1") (JStr sampleDate);
        mkActivity (JStr "activity_2") (JStr "アクティビティ2") (JStr "order_1") (JStr sampleDate)]) =
  [mkNestedOrder (JStr "order_1") (JStr "テストオーダー") (JStr sampleDate)
     [mkNestedActivity (JStr "activity_1") (JStr "アクティビティ1") (JStr sampleDate);
      mkNestedActivity (JStr "activity_2") (JStr "アクティビティ2") (JStr sampleDate)]].
Proof. reflexivity. Qed.

(** "不正なデータの変換" *)
Example test_orders_null :
  convertNestedToFlat sampleHost (JObj [("orders", JNull)]) = Normal (mkFlatData [] []).
Proof. reflexivity. Qed.

(** "空のデータ検証" *)
Example test_empty_batch_is_valid :
  validationErrors (validateImportData sampleHost (JObj [("orders", JArr [])])) = [].
Proof. reflexivity. Qed.

(** "重複データのスキップ" *)
Example test_skip :
  runImport
    (mkFlatData [mkOrder (JStr "existing_order_1") (JStr "既存オーダー1") (JStr sampleDate)] [])
    (policyOptions "skip") mockStore =
  (mkImportResult true 0 0 1 0 0 0 [], mockStore).
Proof. reflexivity. Qed.

(** "重複データの上書き" *)
Example test_overwrite :
  runImport
    (mkFlatData
       [mkOrder (JStr "existing_order_1") (JStr "更新されたオーダー名") (JStr sampleDate)] [])
    (policyOptions "overwrite") mockStore =
  (mkImportResult true 0 0 0 0 1 0 [],
   mkStore
     [mkOrder (JStr "existing_order_1") (JStr "更新されたオーダー名") (JStr sampleDate)]
     (storeActivities mockStore)).
Proof. reflexivity. Qed.

(** "重複データのマージ" *)
Example test_merge :
  runImport
    (mkFlatData
       [mkOrder (JStr "existing_order_1") (JStr "新しい名前") (JStr "2024-02-01T00:00:00Z")] [])
    (policyOptions "merge") mockStore =
  (mkImportResult true 0 0 0 0 1 0 [], mockStore).
Proof. reflexivity. Qed.

(** "不正なオーダーID参照のエラーハンドリング" *)
Example test_partial_failure :
  fst
    (runImport
       (mkFlatData
          [mkOrder (JStr "valid_order") (JStr "有効なオーダー") (JStr sampleDate)]
          [mkActivity (JStr "valid_activity") (JStr "有効なアクティビティ") (JStr "valid_order")
             (JStr sampleDate);
           mkActivity (JStr "invalid_activity") (JStr "無効なアクティビティ")
             (JStr "nonexistent_order") (JStr sampleDate)])
       (policyOptions "skip") mockStore) =
  mkImportResult false 1 1 0 0 0 0 ["アクティビティ「無効なアクティビティ」の作成に失敗しました"].
Proof. reflexivity. Qed.

(** "データ整合性の詳細検証" *)
Example test_integrity_details :
  let r :=
    validateDataIntegrity sampleHost
      [mkOrder (JStr "order_1") (JStr "オーダー1") (JStr sampleDate);
       mkOrder (JStr "order_2") (JStr "オーダー2") (JStr sampleDate)]
      [mkActivity (JStr "activity_1") (JStr "アクティビティ1") (JStr "order_1") (JStr sampleDate);
       mkActivity (JStr "activity_2") (JStr "アクティビティ2") (JStr "order_3") (JStr sampleDate)] in
  isValid (verdict r) = false
  /\ List.length (orphanedActivities r) = 1
  /\ integrityScore r = 75%Z.
Proof. vm_compute. repeat split. Qed.

(** "ID重複の詳細分析" *)
Example test_duplicate_ids :
  let r :=
    analyzeIdDuplicates
      [mkOrder (JStr "duplicate_id") (JStr "オーダー1") (JStr sampleDate);
       mkOrder (JStr "duplicate_id") (JStr "オーダー2") (JStr sampleDate)] [] in
  isValid (idVerdict r) = false
  /\ orderIds r =
     [mkDuplicateInfo (JStr "duplicate_id") (0, 1) (JStr "オーダー1", JStr "オーダー2")
        None "error"].
Proof. vm_compute. repeat split. Qed.

(** ** Structural equality decides equality *)

Lemma js_eqb_refl : forall v, js_eqb v v = true.
Proof.
  induction v using jsval_induction; simpl; auto.
  - apply Bool.eqb_reflx.
  - apply Z.eqb_refl.
  - apply String.eqb_refl.
  - induction H; auto. rewrite H. simpl. exact IHForall.
  - induction H; auto. destruct x as [k x]. simpl in *.
    rewrite String.eqb_refl, H. simpl. exact IHForall.
Qed.

Lemma js_eqb_true : forall a b, js_eqb a b = true -> a = b.
Proof.
  induction a using jsval_induction; intros c; destruct c; simpl; try discriminate; auto.
  - intros E. apply Bool.eqb_prop in E. now subst.
  - intros E. apply Z.eqb_eq in E. now subst.
  - intros E. apply String.eqb_eq in E. now subst.
  - revert items. induction H; intros [|y m]; try discriminate; auto.
    intros E. apply andb_prop in E. destruct E as [E1 E2].
    apply H in E1. apply IHForall in E2. inversion E2. now subst.
  - revert fields. induction H; intros [|[k' y] m]; try discriminate; auto.
    + destruct x. discriminate.
    + destruct x as [k x]. simpl in *. intros E.
      apply andb_prop in E. destruct E as [E12 E3].
      apply andb_prop in E12. destruct E12 as [E1 E2].
      apply String.eqb_eq in E1. apply H in E2. apply IHForall in E3.
      inversion E3. now subst.
Qed.

Lemma js_eqb_eq : forall a b, js_eqb a b = true <-> a = b.
Proof.
  intros a b. split.
  - apply js_eqb_true.
  - intros ->. apply js_eqb_refl.
Qed.

Lemma js_eqb_neq : forall a b, js_eqb a b = false <-> a <> b.
Proof.
  intros a b. split.
  - intros E H. apply js_eqb_eq in H. congruence.
  - intros H. destruct (js_eqb a b) eqn:E; auto. apply js_eqb_eq in E. contradiction.
Qed.

Lemma js_eqb_sym : forall a b, js_eqb a b = js_eqb b a.
Proof.
  intros a b. destruct (js_eqb a b) eqn:E.
  - apply js_eqb_eq in E. subst. symmetry. apply js_eqb_refl.
  - symmetry. apply js_eqb_neq. apply js_eqb_neq in E. congruence.
Qed.

(** ** Integrity score *)

Lemma calculateIntegrityScore_bounds :
  forall r, (0 <= calculateIntegrityScore r <= 100)%Z.
Proof.
  intros r. unfold calculateIntegrityScore. lia.
Qed.

Lemma calculateIntegrityScore_unfold :
  forall r,
    calculateIntegrityScore r =
    Z.max 0
      (Z.min 100
         (100 - 10 * Z.of_nat (List.length (errors (verdict r)))
          - 2 * Z.of_nat (List.length (warnings (verdict r)))
          - 5 * Z.of_nat (List.length (orphanedActivities r))
          - 8 * Z.of_nat (duplicateEntries r)))%Z.
Proof.
  intros r. unfold calculateIntegrityScore, duplicateEntries.
  destruct (duplicateAnalysis r) as [analysis|]; lia.
Qed.

Lemma validateDataIntegrity_score_bounds :
  forall host orders activities,
    (0 <= integrityScore (validateDataIntegrity host orders activities) <= 100)%Z.
Proof.
  intros host orders activities. unfold validateDataIntegrity.
  destruct (analyzeNameDuplicates host orders activities) as [names|m]; simpl.
  - destruct (analyzeDataQuality host orders activities) as [ws|m]; simpl.
    + apply calculateIntegrityScore_bounds.
    + lia.
  - lia.
Qed.

(** ** The analyses do not throw on textual records *)

Lemma forEachThrowFrom_normal :
  forall {A St : Type} (f : St -> A -> nat -> completion St) (l : list A),
    (forall x, In x l -> forall s i, exists s', f s x i = Normal s') ->
    forall i s, exists s', forEachThrowFrom f l i s = Normal s'.
Proof.
  intros A St f l. induction l as [|x l IH]; intros H i s; simpl.
  - exists s. reflexivity.
  - destruct (H x (or_introl eq_refl) s i) as [s1 E1]. rewrite E1. simpl.
    apply IH. intros y Hy. apply H. right. exact Hy.
Qed.

Lemma forallb_In :
  forall {A : Type} (p : A -> bool) (l : list A) (x : A),
    forallb p l = true -> In x l -> p x = true.
Proof.
  intros A p l x H Hin. rewrite forallb_forall in H. apply H. exact Hin.
Qed.

Lemma analyzeNameDuplicates_normal :
  forall host orders activities,
    forallb textualOrder orders = true ->
    forallb textualActivity activities = true ->
    exists names, analyzeNameDuplicates host orders activities = Normal names.
Proof.
  intros host orders activities Ho Ha. unfold analyzeNameDuplicates, forEachThrow.
  assert (Hstep1 : forall o, In o orders -> forall s i,
                     exists s', scanOrderName host s o i = Normal s').
  { intros o Hin [m r] i. pose proof (forallb_In _ _ _ Ho Hin) as T.
    unfold textualOrder in T. apply andb_prop in T. destruct T as [_ T].
    unfold scanOrderName. destruct (order_name o); try discriminate. simpl.
    destruct (map_get m _); eexists; reflexivity. }
  assert (Hstep2 : forall a, In a activities -> forall s i,
                     exists s', scanActivityName host s a i = Normal s').
  { intros a Hin [m r] i. pose proof (forallb_In _ _ _ Ha Hin) as T.
    unfold textualActivity in T. apply andb_prop in T. destruct T as [_ T].
    unfold scanActivityName. destruct (activity_name a); try discriminate. simpl.
    match goal with
    | |- context [match map_get ?inner ?k with Some _ => _ | None => _ end] =>
        destruct (map_get inner k)
    end; eexists; reflexivity. }
  match goal with
  | |- context [forEachThrowFrom (scanOrderName host) orders 0 ?s0] =>
      destruct (forEachThrowFrom_normal _ orders Hstep1 0 s0) as [st E]
  end.
  rewrite E. simpl bind.
  match goal with
  | |- context [forEachThrowFrom (scanActivityName host) activities 0 ?s0] =>
      destruct (forEachThrowFrom_normal _ activities Hstep2 0 s0) as [st' E']
  end.
  rewrite E'. simpl. eexists. reflexivity.
Qed.

Lemma emptyAfterTrim_normal :
  forall host v, isString v = true -> exists b, emptyAfterTrim host v = Normal b.
Proof.
  intros host v H. destruct v; try discriminate. unfold emptyAfterTrim.
  destruct (negb (truthy (JStr s))); simpl; eexists; reflexivity.
Qed.

Lemma emptyScan_normal :
  forall host {A : Type} label (nameOf idOf : A -> jsval) ws item index,
    isString (nameOf item) = true -> isString (idOf item) = true ->
    exists ws', emptyScan host label nameOf idOf ws item index = Normal ws'.
Proof.
  intros host A label nameOf idOf ws item index Hn Hi. unfold emptyScan.
  destruct (emptyAfterTrim_normal host _ Hn) as [b1 E1]. rewrite E1. simpl.
  destruct (emptyAfterTrim_normal host _ Hi) as [b2 E2]. rewrite E2. simpl.
  eexists. reflexivity.
Qed.

Lemma analyzeDataQuality_normal :
  forall host orders activities,
    forallb textualOrder orders = true ->
    forallb textualActivity activities = true ->
    exists ws, analyzeDataQuality host orders activities = Normal ws.
Proof.
  intros host orders activities Ho Ha. unfold analyzeDataQuality, forEachThrow.
  assert (Hstep1 : forall o, In o orders -> forall s i,
                     exists s', emptyScan host "オーダー" order_name order_id s o i
                                = Normal s').
  { intros o Hin ws i. pose proof (forallb_In _ _ _ Ho Hin) as T.
    unfold textualOrder in T. apply andb_prop in T. destruct T as [T1 T2].
    apply emptyScan_normal; assumption. }
  assert (Hstep2 : forall a, In a activities -> forall s i,
                     exists s', emptyScan host "アクティビティ" activity_name activity_id
                                  s a i = Normal s').
  { intros a Hin ws i. pose proof (forallb_In _ _ _ Ha Hin) as T.
    unfold textualActivity in T. apply andb_prop in T. destruct T as [T1 T2].
    apply emptyScan_normal; assumption. }
  destruct (forEachThrowFrom_normal _ orders Hstep1 0 []) as [ws1 E1].
  rewrite E1. simpl bind.
  destruct (forEachThrowFrom_normal _ activities Hstep2 0 ws1) as [ws2 E2].
  rewrite E2. simpl bind. eexists. reflexivity.
Qed.

(** C6. The integrity score of a result is 100 minus 10 per error, 2 per
    warning, 5 per orphaned activity and 8 per duplicate-id entry, clamped
    to [0, 100].  The score that [validateDataIntegrity] stores in its result
    never leaves that interval, and on records whose names and ids are
    strings it is that formula over the result's own lists. *)
Theorem C6_integrity_score_is_clamped_formula :
  (forall r : IntegrityResult,
      calculateIntegrityScore r =
      Z.max 0
        (Z.min 100
           (100 - 10 * Z.of_nat (List.length (errors (verdict r)))
            - 2 * Z.of_nat (List.length (warnings (verdict r)))
            - 5 * Z.of_nat (List.length (orphanedActivities r))
            - 8 * Z.of_nat (duplicateEntries r)))%Z
      /\ (0 <= calculateIntegrityScore r <= 100)%Z)
  /\ (forall host orders activities,
         (0 <= integrityScore (validateDataIntegrity host orders activities) <= 100)%Z)
  /\ (forall host orders activities,
         forallb textualOrder orders = true ->
         forallb textualActivity activities = true ->
         let r := validateDataIntegrity host orders activities in
         integrityScore r =
         Z.max 0
           (Z.min 100
              (100 - 10 * Z.of_nat (List.length (errors (verdict r)))
               - 2 * Z.of_nat (List.length (warnings (verdict r)))
               - 5 * Z.of_nat (List.length (orphanedActivities r))
               - 8 * Z.of_nat (duplicateEntries r)))%Z).
Proof.
  split; [|split].
  - intros r. split.
    + apply calculateIntegrityScore_unfold.
    + apply calculateIntegrityScore_bounds.
  - apply validateDataIntegrity_score_bounds.
  - intros host orders activities Ho Ha r.
    destruct (analyzeNameDuplicates_normal host orders activities Ho Ha) as [names En].
    destruct (analyzeDataQuality_normal host orders activities Ho Ha) as [ws Eq].
    rewrite <- calculateIntegrityScore_unfold. subst r.
    unfold validateDataIntegrity. rewrite En, Eq. cbv zeta.
    unfold calculateIntegrityScore. reflexivity.
Qed.

Lemma C6_integrity_score_witness :
  let orders := [mkOrder (JStr "o1") (JStr "Order") (JStr sampleDate)] in
  let activities :=
    [mkActivity (JStr "a1") (JStr "Lost") (JStr "o3") (JStr sampleDate);
     mkActivity (JStr "a1") (JStr "Twin") (JStr "o1") (JStr sampleDate)] in
  integrityScore (validateDataIntegrity sampleHost orders activities) = 57%Z.
Proof.
  intros orders activities.
  destruct C6_integrity_score_is_clamped_formula as [_ [_ H]].
  rewrite (H sampleHost orders activities eq_refl eq_refl). reflexivity.
Defined.

(** The score stored by [validateDataIntegrity] is the formula applied
    to the result's own lists whenever no analysis threw. *)
Lemma validateDataIntegrity_score_normal :
  forall host orders activities names ws,
    analyzeNameDuplicates host orders activities = Normal names ->
    analyzeDataQuality host orders activities = Normal ws ->
    let r := validateDataIntegrity host orders activities in
    integrityScore r = calculateIntegrityScore r.
Proof.
  intros host orders activities names ws Hn Hq. unfold validateDataIntegrity.
  rewrite Hn, Hq. cbv zeta. unfold calculateIntegrityScore. reflexivity.
Qed.

(** ** Structural stage *)

Lemma validateRootStructure_array :
  forall items, validateRootStructure (JArr items) = mkVerdict false [arrayRootMessage] [].
Proof. intros items. reflexivity. Qed.

Lemma validateJSONSchema_array :
  forall host items,
    validateJSONSchema host (JArr items) =
    mkSchemaResult (mkVerdict false [arrayRootMessage] []) supportedVersion
      (mkVerdict false [arrayRootMessage] []) okVerdict okVerdict okVerdict.
Proof. intros host items. reflexivity. Qed.

Lemma validateImportData_array :
  forall host items,
    validateImportData host (JArr items) =
    Normal (mkImportValidation (mkVerdict false [arrayRootMessage] []) None).
Proof. intros host items. reflexivity. Qed.

(** C8. A document whose root is a JSON array fails at the structural
    stage with exactly one top-level error; the per-stage details of the
    property, type and constraint checks stay empty, no flattened data is
    produced, and [importFromJSON] ends with the validation error without
    touching the store, whatever the store, the options and the
    persistence hook are. *)
Theorem C8_array_root_aborts_at_structural_stage :
  forall host saveData jsonString items options st,
    parseJSON host jsonString = Normal (JArr items) ->
    let schema := validateJSONSchema host (JArr items) in
    detailStructure schema = mkVerdict false [arrayRootMessage] []
    /\ errors (schemaVerdict schema) = [arrayRootMessage]
    /\ errors (detailProperties schema) = []
    /\ errors (detailDataTypes schema) = []
    /\ errors (detailConstraints schema) = []
    /\ validateImportData host (JArr items) =
       Normal (mkImportValidation (mkVerdict false [arrayRootMessage] []) None)
    /\ importFromJSON host saveData jsonString options st =
       (ValidationError (mkImportValidation (mkVerdict false [arrayRootMessage] []) None), st).
Proof.
  intros host saveData jsonString items options st Hparse schema.
  subst schema. rewrite validateJSONSchema_array. simpl.
  repeat (split; [reflexivity|]).
  unfold importFromJSON. rewrite Hparse, validateImportData_array. reflexivity.
Qed.

Lemma C8_array_root_witness :
  parseJSON sampleHost (JStr "[1, 2]") = Normal (JArr [JNum 1; JNum 2])
  /\ importFromJSON sampleHost None (JStr "[1, 2]") JUndef (mkStore [] []) =
     (ValidationError (mkImportValidation (mkVerdict false [arrayRootMessage] []) None),
      mkStore [] []).
Proof.
  split.
  - reflexivity.
  - apply (C8_array_root_aborts_at_structural_stage sampleHost None (JStr "[1, 2]")
             [JNum 1; JNum 2] JUndef (mkStore [] [])).
    reflexivity.
Defined.

(** ** Reconciliation: policies *)

Lemma fold_left_ext :
  forall {A B : Type} (f g : A -> B -> A) (l : list B) (a : A),
    (forall a b, f a b = g a b) -> fold_left f l a = fold_left g l a.
Proof.
  intros A B f g l. induction l as [|x l IH]; intros a H; simpl.
  - reflexivity.
  - rewrite H. apply IH. exact H.
Qed.

Lemma importOrder_policy :
  forall host dups dh1 dh2 acc order,
    js_eqb dh1 (JStr "overwrite") = js_eqb dh2 (JStr "overwrite") ->
    js_eqb dh1 (JStr "merge") = js_eqb dh2 (JStr "merge") ->
    importOrder host dups dh1 acc order = importOrder host dups dh2 acc order.
Proof.
  intros host dups dh1 dh2 [r s] order H1 H2. unfold importOrder.
  rewrite H1, H2. reflexivity.
Qed.

Lemma importActivity_policy :
  forall host dups dh1 dh2 acc activity,
    js_eqb dh1 (JStr "overwrite") = js_eqb dh2 (JStr "overwrite") ->
    js_eqb dh1 (JStr "merge") = js_eqb dh2 (JStr "merge") ->
    importActivity host dups dh1 acc activity = importActivity host dups dh2 acc activity.
Proof.
  intros host dups dh1 dh2 [r s] activity H1 H2. unfold importActivity.
  rewrite H1, H2. reflexivity.
Qed.

Lemma importOrder_skips :
  forall host dups dh r s order,
    js_eqb dh (JStr "overwrite") = false ->
    js_eqb dh (JStr "merge") = false ->
    set_has (duplicateOrderIds dups) (order_id order) = true ->
    importOrder host dups dh (r, s) order = (countSkipped r, s).
Proof.
  intros host dups dh r s order H1 H2 Hdup. unfold importOrder.
  unfold duplicateOrderIds in Hdup. rewrite Hdup, H1, H2. reflexivity.
Qed.

Lemma importActivity_skips :
  forall host dups dh r s activity,
    js_eqb dh (JStr "overwrite") = false ->
    js_eqb dh (JStr "merge") = false ->
    set_has (duplicateActivityIds dups) (activity_id activity) = true ->
    importActivity host dups dh (r, s) activity = (countSkipped r, s).
Proof.
  intros host dups dh r s activity H1 H2 Hdup. unfold importActivity.
  unfold duplicateActivityIds in Hdup. rewrite Hdup, H1, H2. reflexivity.
Qed.

(** The policy actually used when the option is neither of the two
    updating policies. *)
Lemma effective_policy_not_updating :
  forall chosen,
    chosen <> JStr "overwrite" -> chosen <> JStr "merge" ->
    js_eqb (js_or chosen (JStr "skip")) (JStr "overwrite") = false
    /\ js_eqb (js_or chosen (JStr "skip")) (JStr "merge") = false.
Proof.
  intros chosen Ho Hm. unfold js_or. destruct (truthy chosen).
  - split; apply js_eqb_neq; assumption.
  - split; reflexivity.
Qed.

Lemma executeImport_other_policy :
  forall host saveData importData duplicateCheck options st,
    isNullish options = false ->
    getProp options "duplicateHandling" <> JStr "overwrite" ->
    getProp options "duplicateHandling" <> JStr "merge" ->
    executeImport host saveData importData duplicateCheck options st =
    executeImport host saveData importData duplicateCheck
      (JObj [("duplicateHandling", JStr "skip")]) st.
Proof.
  intros host saveData importData duplicateCheck options st Hopt Ho Hm.
  destruct (effective_policy_not_updating _ Ho Hm) as [E1 E2].
  set (policy := js_or (getProp options "duplicateHandling") (JStr "skip")) in *.
  unfold executeImport, readProp. rewrite Hopt. simpl isNullish. cbv iota.
  fold policy.
  change (js_or (getProp (JObj [("duplicateHandling", JStr "skip")]) "duplicateHandling")
            (JStr "skip")) with (JStr "skip").
  unfold importOrders, importActivities.
  rewrite (fold_left_ext (importOrder host (duplicateOrders duplicateCheck) policy)
             (importOrder host (duplicateOrders duplicateCheck) (JStr "skip"))).
  2:{ intros a b. apply importOrder_policy; rewrite ?E1, ?E2; reflexivity. }
  destruct (fold_left _ (orders importData) _) as [r1 s1].
  rewrite (fold_left_ext
             (importActivity host (duplicateActivities duplicateCheck) policy)
             (importActivity host (duplicateActivities duplicateCheck) (JStr "skip"))).
  2:{ intros a b. apply importActivity_policy; rewrite ?E1, ?E2; reflexivity. }
  reflexivity.
Qed.

(** With no options at all, [importFromJSON] runs under "skip". *)
Lemma importFromJSON_default_policy :
  forall host saveData jsonString st,
    importFromJSON host saveData jsonString JUndef st =
    importFromJSON host saveData jsonString (JObj [("duplicateHandling", JStr "skip")]) st.
Proof.
  intros host saveData jsonString st. unfold importFromJSON.
  destruct (parseJSON host jsonString) as [importData|m]; [|reflexivity].
  destruct (validateImportData host importData) as [v|m]; [|reflexivity].
  destruct (negb (isValid (validation v))); [reflexivity|].
  destruct (flattenedData v) as [flatData|]; [|reflexivity].
  rewrite (executeImport_other_policy host saveData flatData (checkDuplicates host st flatData)
             (JObj []) st); [reflexivity|reflexivity|discriminate|discriminate].
Qed.

(** C10. Any [duplicateHandling] option other than "overwrite" and
    "merge" (absent, empty, or an unknown value) makes the run identical to
    the run under "skip": every record of the batch found in the duplicate
    set is counted as skipped and leaves the store as it was.  An import
    started without any options runs under "skip" as well. *)
Theorem C10_other_policies_behave_as_skip :
  forall host saveData importData duplicateCheck options st,
    isNullish options = false ->
    getProp options "duplicateHandling" <> JStr "overwrite" ->
    getProp options "duplicateHandling" <> JStr "merge" ->
    let policy := js_or (getProp options "duplicateHandling") (JStr "skip") in
    executeImport host saveData importData duplicateCheck options st =
    executeImport host saveData importData duplicateCheck
      (JObj [("duplicateHandling", JStr "skip")]) st
    /\ (forall r s order,
           set_has (duplicateOrderIds (duplicateOrders duplicateCheck)) (order_id order) = true ->
           importOrder host (duplicateOrders duplicateCheck) policy (r, s) order =
           (countSkipped r, s))
    /\ (forall r s activity,
           set_has (duplicateActivityIds (duplicateActivities duplicateCheck))
             (activity_id activity) = true ->
           importActivity host (duplicateActivities duplicateCheck) policy (r, s) activity =
           (countSkipped r, s))
    /\ (forall jsonString,
           importFromJSON host saveData jsonString JUndef st =
           importFromJSON host saveData jsonString
             (JObj [("duplicateHandling", JStr "skip")]) st).
Proof.
  intros host saveData importData duplicateCheck options st Hopt Ho Hm policy.
  destruct (effective_policy_not_updating _ Ho Hm) as [E1 E2].
  fold policy in E1, E2.
  split; [|split; [|split]].
  - apply executeImport_other_policy; assumption.
  - intros r s order Hdup. apply importOrder_skips; assumption.
  - intros r s activity Hdup. apply importActivity_skips; assumption.
  - intros jsonString. apply importFromJSON_default_policy.
Qed.

Lemma C10_other_policies_witness :
  let st := mkStore [mkOrder (JStr "o1") (JStr "Kept") (JStr sampleDate)] [] in
  let data := mkFlatData [mkOrder (JStr "o1") (JStr "Incoming") (JStr sampleDate)] [] in
  let options := JObj [("duplicateHandling", JStr "replace")] in
  executeImport sampleHost None data (checkDuplicates sampleHost st data) options st =
  executeImport sampleHost None data (checkDuplicates sampleHost st data)
    (JObj [("duplicateHandling", JStr "skip")]) st
  /\ executeImport sampleHost None data (checkDuplicates sampleHost st data) options st =
     (mkImportResult true 0 0 1 0 0 0 [], st).
Proof.
  intros st data options. split.
  - destruct (C10_other_policies_behave_as_skip sampleHost None data
                (checkDuplicates sampleHost st data) options st) as [H _].
    + reflexivity.
    + discriminate.
    + discriminate.
    + exact H.
  - reflexivity.
Defined.

(** ** Reconciliation: partial failure *)

Lemma addCounts_noCounts_r : forall r, addCounts r noCounts = r.
Proof.
  intros [c s u e]. unfold addCounts, noCounts. simpl.
  rewrite !Nat.add_0_r, app_nil_r. reflexivity.
Qed.

Lemma addCounts_assoc :
  forall a b c, addCounts (addCounts a b) c = addCounts a (addCounts b c).
Proof.
  intros a b c. unfold addCounts. simpl.
  rewrite !Nat.add_assoc, app_assoc. reflexivity.
Qed.

(** One iteration adds its own contribution to the counts so far. *)
Lemma importOrder_shift :
  forall host dups dh r s order,
    importOrder host dups dh (r, s) order =
    (addCounts r (fst (importOrder host dups dh (noCounts, s) order)),
     snd (importOrder host dups dh (noCounts, s) order)).
Proof.
  intros host dups dh [c k u e] s order. unfold importOrder.
  repeat match goal with
         | |- context [if ?b then _ else _] => destruct b
         | |- context [match ?o with Some _ => _ | None => _ end] => destruct o
         | |- context [let '(_, _) := ?p in _] => destruct p
         end;
    unfold addCounts, countCreated, countSkipped, countUpdated, countError, noCounts, push;
    simpl; rewrite ?Nat.add_0_r, ?Nat.add_1_r, ?app_nil_r; reflexivity.
Qed.

Lemma importActivity_shift :
  forall host dups dh r s activity,
    importActivity host dups dh (r, s) activity =
    (addCounts r (fst (importActivity host dups dh (noCounts, s) activity)),
     snd (importActivity host dups dh (noCounts, s) activity)).
Proof.
  intros host dups dh [c k u e] s activity. unfold importActivity.
  repeat match goal with
         | |- context [if ?b then _ else _] => destruct b
         | |- context [match ?o with Some _ => _ | None => _ end] => destruct o
         | |- context [let '(_, _) := ?p in _] => destruct p
         end;
    unfold addCounts, countCreated, countSkipped, countUpdated, countError, noCounts, push;
    simpl; rewrite ?Nat.add_0_r, ?Nat.add_1_r, ?app_nil_r; reflexivity.
Qed.

Section FoldShift.
Context {A : Type} (step : ImportCounts * Store -> A -> ImportCounts * Store).
Hypothesis step_shift :
  forall r s x,
    step (r, s) x = (addCounts r (fst (step (noCounts, s) x)), snd (step (noCounts, s) x)).

Lemma fold_shift :
  forall l r s,
    fold_left step l (r, s) =
    (addCounts r (fst (fold_left step l (noCounts, s))),
     snd (fold_left step l (noCounts, s))).
Proof.
  induction l as [|x l IH]; intros r s; simpl.
  - rewrite addCounts_noCounts_r. reflexivity.
  - rewrite (step_shift r s x).
    destruct (step (noCounts, s) x) as [d s'] eqn:E. simpl.
    rewrite (IH (addCounts r d) s'), (IH d s').
    simpl. rewrite addCounts_assoc. reflexivity.
Qed.

Lemma fold_split :
  forall pre post s,
    fold_left step (pre ++ post) (noCounts, s) =
    (addCounts (fst (fold_left step pre (noCounts, s)))
       (fst (fold_left step post (noCounts, snd (fold_left step pre (noCounts, s))))),
     snd (fold_left step post (noCounts, snd (fold_left step pre (noCounts, s))))).
Proof.
  intros pre post s. rewrite fold_left_app.
  destruct (fold_left step pre (noCounts, s)) as [r1 s1]. simpl.
  apply fold_shift.
Qed.
End FoldShift.

Lemma createOrderForImport_failure_keeps_store :
  forall host st order,
    fst (createOrderForImport host st order) = false ->
    snd (createOrderForImport host st order) = st.
Proof.
  intros host st order. unfold createOrderForImport.
  destruct (order_name order); simpl; auto.
  destruct (_ || _); simpl; auto.
  destruct (findFirst _ _); simpl; auto.
  destruct (negb _); simpl; auto. discriminate.
Qed.

Lemma createActivityForImport_failure_keeps_store :
  forall host st activity,
    fst (createActivityForImport host st activity) = false ->
    snd (createActivityForImport host st activity) = st.
Proof.
  intros host st activity. unfold createActivityForImport.
  destruct (activity_name activity); simpl; auto.
  destruct (_ || _); simpl; auto.
  destruct (negb (truthy _)); simpl; auto.
  destruct (findFirst _ (storeOrders st)); simpl; auto.
  destruct (findFirst _ (storeActivities st)); simpl; auto.
  destruct (negb _); simpl; auto. discriminate.
Qed.

Lemma importOrder_outcome :
  forall host dups dh acc order,
    recordOutcome acc (importOrder host dups dh acc order).
Proof.
  intros host dups dh [r s] order. unfold importOrder, recordOutcome, committed.
  destruct (set_has _ _).
  - destruct (js_eqb dh (JStr "overwrite")); [left; simpl; split; [lia|reflexivity]|].
    destruct (js_eqb dh (JStr "merge")).
    + destruct (findFirst _ dups).
      * left; simpl; split; [lia|reflexivity].
      * right; simpl; unfold push; repeat split; try reflexivity; eexists; reflexivity.
    + left; simpl; split; [lia|reflexivity].
  - pose proof (createOrderForImport_failure_keeps_store host s order) as K.
    destruct (createOrderForImport host s order) as [ok s']. destruct ok.
    + left; simpl; split; [lia|reflexivity].
    + right; simpl in *; unfold push; repeat split; try reflexivity; auto; eexists; reflexivity.
Qed.

Lemma importActivity_outcome :
  forall host dups dh acc activity,
    recordOutcome acc (importActivity host dups dh acc activity).
Proof.
  intros host dups dh [r s] activity. unfold importActivity, recordOutcome, committed.
  destruct (set_has _ _).
  - destruct (js_eqb dh (JStr "overwrite")); [left; simpl; split; [lia|reflexivity]|].
    destruct (js_eqb dh (JStr "merge")).
    + destruct (findFirst _ dups).
      * left; simpl; split; [lia|reflexivity].
      * right; simpl; unfold push; repeat split; try reflexivity; eexists; reflexivity.
    + left; simpl; split; [lia|reflexivity].
  - pose proof (createActivityForImport_failure_keeps_store host s activity) as K.
    destruct (createActivityForImport host s activity) as [ok s']. destruct ok.
    + left; simpl; split; [lia|reflexivity].
    + right; simpl in *; unfold push; repeat split; try reflexivity; auto; eexists; reflexivity.
Qed.

Lemma importOrders_split :
  forall host dups dh pre post st,
    importOrders host (pre ++ post) dups dh st =
    (addCounts (fst (importOrders host pre dups dh st))
       (fst (importOrders host post dups dh (snd (importOrders host pre dups dh st)))),
     snd (importOrders host post dups dh (snd (importOrders host pre dups dh st)))).
Proof.
  intros host dups dh pre post st. unfold importOrders.
  apply (fold_split (importOrder host dups dh)).
  intros r s x. apply importOrder_shift.
Qed.

Lemma importActivities_split :
  forall host dups dh pre post st,
    importActivities host (pre ++ post) dups dh st =
    (addCounts (fst (importActivities host pre dups dh st))
       (fst (importActivities host post dups dh (snd (importActivities host pre dups dh st)))),
     snd (importActivities host post dups dh (snd (importActivities host pre dups dh st)))).
Proof.
  intros host dups dh pre post st. unfold importActivities.
  apply (fold_split (importActivity host dups dh)).
  intros r s x. apply importActivity_shift.
Qed.

Lemma importOrder_creation_failure :
  forall host dups dh s order,
    set_has (duplicateOrderIds dups) (order_id order) = false ->
    fst (createOrderForImport host s order) = false ->
    importOrder host dups dh (noCounts, s) order =
    (countError noCounts (orderCreationFailed order), s).
Proof.
  intros host dups dh s order Hnew Hfail. unfold importOrder.
  unfold duplicateOrderIds in Hnew. rewrite Hnew.
  pose proof (createOrderForImport_failure_keeps_store host s order Hfail) as K.
  destruct (createOrderForImport host s order) as [ok s']. simpl in Hfail, K.
  subst. reflexivity.
Qed.

(** A record whose creation fails in the middle of the batch. *)
Lemma importOrders_failure_in_the_middle :
  forall host dups dh pre order post st,
    set_has (duplicateOrderIds dups) (order_id order) = false ->
    fst (createOrderForImport host (snd (importOrders host pre dups dh st)) order) = false ->
    let before := importOrders host pre dups dh st in
    let after := importOrders host post dups dh (snd before) in
    importOrders host (pre ++ order :: post) dups dh st =
    (addCounts (fst before) (addCounts (countError noCounts (orderCreationFailed order)) (fst after)),
     snd after).
Proof.
  intros host dups dh pre order post st Hnew Hfail before after.
  rewrite importOrders_split. fold before.
  assert (Hrest : importOrders host (order :: post) dups dh (snd before) =
                  (addCounts (countError noCounts (orderCreationFailed order)) (fst after),
                   snd after)).
  { unfold importOrders at 1. cbn [fold_left].
    change (mkImportCounts 0 0 0 []) with noCounts.
    rewrite (importOrder_creation_failure host dups dh (snd before) order Hnew Hfail).
    apply (fold_shift (importOrder host dups dh)).
    intros r s x. apply importOrder_shift. }
  rewrite Hrest. reflexivity.
Qed.

Lemma executeImport_success_iff :
  forall host saveData importData duplicateCheck options st,
    success (fst (executeImport host saveData importData duplicateCheck options st)) = true
    <-> resultErrors (fst (executeImport host saveData importData duplicateCheck options st)) = [].
Proof.
  intros host saveData importData duplicateCheck options st. unfold executeImport.
  destruct (readProp host options "duplicateHandling") as [chosen|m]; simpl.
  - destruct (importOrders _ _ _ _ _) as [r1 s1].
    destruct (importActivities _ _ _ _ _) as [r2 s2].
    destruct (importErrors r1 ++ importErrors r2)%list as [|e es] eqn:E; simpl.
    + destruct saveData as [save|]; simpl.
      * destruct (save s2); simpl; split; intros H; try reflexivity; discriminate.
      * split; reflexivity.
    + destruct saveData as [save|]; simpl; split; intros H; discriminate.
  - split; intros H; discriminate.
Qed.

Lemma executeImport_no_options :
  forall host saveData importData duplicateCheck options st,
    isNullish options = true ->
    executeImport host saveData importData duplicateCheck options st =
    (mkImportResult false 0 0 0 0 0 0 [typeErrorMessage host options "duplicateHandling"], st).
Proof.
  intros host saveData importData duplicateCheck options st Hopt.
  unfold executeImport, readProp. rewrite Hopt. reflexivity.
Qed.

(** What one iteration of the order loop does: it creates the record,
    skips it, updates the stored record with its id, or appends one error
    and leaves the store alone. *)
Lemma importOrder_cases :
  forall host dups dh r s order,
    let out := importOrder host dups dh (r, s) order in
    (fst out = countCreated r /\ createOrderForImport host s order = (true, snd out))
    \/ out = (countSkipped r, s)
    \/ (exists name createdAt,
           out = (countUpdated r, updateOrder s (order_id order) name createdAt))
    \/ (exists message, out = (countError r message, s)).
Proof.
  intros host dups dh r s order. unfold importOrder. cbv zeta.
  destruct (set_has _ _).
  - destruct (js_eqb dh (JStr "overwrite")).
    + right. right. left. eauto.
    + destruct (js_eqb dh (JStr "merge")).
      * destruct (findFirst _ dups).
        -- right. right. left. eauto.
        -- right. right. right. eauto.
      * right. left. reflexivity.
  - pose proof (createOrderForImport_failure_keeps_store host s order) as K.
    destruct (createOrderForImport host s order) as [ok s'] eqn:E. destruct ok.
    + left. simpl. auto.
    + right. right. right. simpl in K. rewrite (K eq_refl). eauto.
Qed.

Lemma importActivity_cases :
  forall host dups dh r s activity,
    let out := importActivity host dups dh (r, s) activity in
    (fst out = countCreated r /\ createActivityForImport host s activity = (true, snd out))
    \/ out = (countSkipped r, s)
    \/ (exists name orderId createdAt,
           out = (countUpdated r,
                  updateActivity s (activity_id activity) name orderId createdAt))
    \/ (exists message, out = (countError r message, s)).
Proof.
  intros host dups dh r s activity. unfold importActivity. cbv zeta.
  destruct (set_has _ _).
  - destruct (js_eqb dh (JStr "overwrite")).
    + right. right. left. eauto.
    + destruct (js_eqb dh (JStr "merge")).
      * destruct (findFirst _ dups).
        -- right. right. left. eauto.
        -- right. right. right. eauto.
      * right. left. reflexivity.
  - pose proof (createActivityForImport_failure_keeps_store host s activity) as K.
    destruct (createActivityForImport host s activity) as [ok s'] eqn:E. destruct ok.
    + left. simpl. auto.
    + right. right. right. simpl in K. rewrite (K eq_refl). eauto.
Qed.

Lemma importActivity_creation_failure :
  forall host dups dh s activity,
    set_has (duplicateActivityIds dups) (activity_id activity) = false ->
    fst (createActivityForImport host s activity) = false ->
    importActivity host dups dh (noCounts, s) activity =
    (countError noCounts (activityCreationFailed activity), s).
Proof.
  intros host dups dh s activity Hnew Hfail. unfold importActivity.
  unfold duplicateActivityIds in Hnew. rewrite Hnew.
  pose proof (createActivityForImport_failure_keeps_store host s activity Hfail) as K.
  destruct (createActivityForImport host s activity) as [ok s']. simpl in Hfail, K.
  subst. reflexivity.
Qed.

Lemma importActivities_failure_in_the_middle :
  forall host dups dh pre activity post st,
    set_has (duplicateActivityIds dups) (activity_id activity) = false ->
    fst (createActivityForImport host (snd (importActivities host pre dups dh st)) activity)
    = false ->
    let before := importActivities host pre dups dh st in
    let after := importActivities host post dups dh (snd before) in
    importActivities host (pre ++ activity :: post) dups dh st =
    (addCounts (fst before)
       (addCounts (countError noCounts (activityCreationFailed activity)) (fst after)),
     snd after).
Proof.
  intros host dups dh pre activity post st Hnew Hfail before after.
  rewrite importActivities_split. fold before.
  assert (Hrest : importActivities host (activity :: post) dups dh (snd before) =
                  (addCounts (countError noCounts (activityCreationFailed activity))
                     (fst after),
                   snd after)).
  { unfold importActivities at 1. cbn [fold_left].
    change (mkImportCounts 0 0 0 []) with noCounts.
    rewrite (importActivity_creation_failure host dups dh (snd before) activity Hnew Hfail).
    apply (fold_shift (importActivity host dups dh)).
    intros r s x. apply importActivity_shift. }
  rewrite Hrest. reflexivity.
Qed.

(** The outcome of [executeImport] in terms of the two loops: the
    counters are the loops' counters, the errors are the loops' errors in
    order, and the persistence hook runs only when there is none. *)
Lemma executeImport_outcome :
  forall host saveData importData duplicateCheck options st,
    isNullish options = false ->
    let dh := js_or (getProp options "duplicateHandling") (JStr "skip") in
    let o := importOrders host (orders importData) (duplicateOrders duplicateCheck) dh st in
    let a :=
      importActivities host (activities importData) (duplicateActivities duplicateCheck)
        dh (snd o) in
    let errs := (importErrors (fst o) ++ importErrors (fst a))%list in
    let outcome ok errs :=
      (mkImportResult ok (created (fst o)) (created (fst a)) (skipped (fst o))
         (skipped (fst a)) (updated (fst o)) (updated (fst a)) errs,
       snd a) in
    (errs <> [] ->
     executeImport host saveData importData duplicateCheck options st = outcome false errs)
    /\ (errs = [] ->
        (forall save, saveData = Some save -> save (snd a) = None) ->
        executeImport host saveData importData duplicateCheck options st = outcome true [])
    /\ (errs = [] ->
        forall save message,
          saveData = Some save -> save (snd a) = Some message ->
          executeImport host saveData importData duplicateCheck options st
          = outcome false [saveFailed]).
Proof.
  intros host saveData importData duplicateCheck options st Hopt dh o a errs outcome.
  subst outcome errs. cbv beta. unfold executeImport, readProp. rewrite Hopt.
  fold dh. fold o. destruct o as [r1 s1] eqn:Eo. simpl snd in a. fold a.
  destruct a as [r2 s2] eqn:Ea. simpl fst. simpl snd.
  destruct (importErrors r1 ++ importErrors r2)%list as [|e es] eqn:E.
  - split; [intros H; contradiction H; reflexivity|]. split.
    + intros _ Hsave. destruct saveData as [save|]; simpl; [|reflexivity].
      rewrite (Hsave save eq_refl). reflexivity.
    + intros _ save message Hs Hm. rewrite Hs. simpl. rewrite Hm. reflexivity.
  - split; [|split; intros H; discriminate H].
    intros _. destruct saveData as [save|]; reflexivity.
Qed.

(** A record whose creation fails leaves its error in the outcome, between
    the errors of the records before and after it; the other records are
    processed and counted. *)
Lemma executeImport_order_failure :
  forall host saveData importData duplicateCheck options st pre order post,
    isNullish options = false ->
    orders importData = (pre ++ order :: post)%list ->
    set_has (duplicateOrderIds (duplicateOrders duplicateCheck)) (order_id order) = false ->
    let dh := js_or (getProp options "duplicateHandling") (JStr "skip") in
    let before := importOrders host pre (duplicateOrders duplicateCheck) dh st in
    fst (createOrderForImport host (snd before) order) = false ->
    let after := importOrders host post (duplicateOrders duplicateCheck) dh (snd before) in
    let acts :=
      importActivities host (activities importData) (duplicateActivities duplicateCheck)
        dh (snd after) in
    executeImport host saveData importData duplicateCheck options st =
    (mkImportResult false
       (created (fst before) + created (fst after)) (created (fst acts))
       (skipped (fst before) + skipped (fst after)) (skipped (fst acts))
       (updated (fst before) + updated (fst after)) (updated (fst acts))
       (importErrors (fst before)
          ++ orderCreationFailed order :: importErrors (fst after)
          ++ importErrors (fst acts)),
     snd acts).
Proof.
  intros host saveData importData duplicateCheck options st pre order post
         Hopt Hsplit Hnew dh before Hfail after acts.
  destruct (executeImport_outcome host saveData importData duplicateCheck options st Hopt)
    as [Herr _].
  fold dh in Herr. rewrite Hsplit in Herr.
  rewrite (importOrders_failure_in_the_middle host (duplicateOrders duplicateCheck) dh
             pre order post st Hnew Hfail) in Herr.
  fold before in Herr. fold after in Herr. cbn [fst snd] in Herr. fold acts in Herr.
  rewrite Herr.
  - unfold addCounts, countError, noCounts, push. cbn.
    rewrite <- !app_assoc. reflexivity.
  - unfold addCounts, countError, noCounts, push. cbn.
    rewrite <- !app_assoc. intros H. apply app_eq_nil in H. destruct H as [_ H].
    discriminate H.
Qed.

Lemma executeImport_activity_failure :
  forall host saveData importData duplicateCheck options st pre activity post,
    isNullish options = false ->
    activities importData = (pre ++ activity :: post)%list ->
    set_has (duplicateActivityIds (duplicateActivities duplicateCheck))
      (activity_id activity) = false ->
    let dh := js_or (getProp options "duplicateHandling") (JStr "skip") in
    let ords := importOrders host (orders importData) (duplicateOrders duplicateCheck) dh st in
    let before :=
      importActivities host pre (duplicateActivities duplicateCheck) dh (snd ords) in
    fst (createActivityForImport host (snd before) activity) = false ->
    let after :=
      importActivities host post (duplicateActivities duplicateCheck) dh (snd before) in
    executeImport host saveData importData duplicateCheck options st =
    (mkImportResult false
       (created (fst ords)) (created (fst before) + created (fst after))
       (skipped (fst ords)) (skipped (fst before) + skipped (fst after))
       (updated (fst ords)) (updated (fst before) + updated (fst after))
       (importErrors (fst ords) ++ importErrors (fst before)
          ++ activityCreationFailed activity :: importErrors (fst after)),
     snd after).
Proof.
  intros host saveData importData duplicateCheck options st pre activity post
         Hopt Hsplit Hnew dh ords before Hfail after.
  destruct (executeImport_outcome host saveData importData duplicateCheck options st Hopt)
    as [Herr _].
  fold dh in Herr. fold ords in Herr. rewrite Hsplit in Herr.
  rewrite (importActivities_failure_in_the_middle host (duplicateActivities duplicateCheck)
             dh pre activity post (snd ords) Hnew Hfail) in Herr.
  fold before in Herr. fold after in Herr. cbn [fst snd] in Herr.
  rewrite Herr.
  - unfold addCounts, countError, noCounts, push. cbn. reflexivity.
  - unfold addCounts, countError, noCounts, push. cbn.
    intros H. apply app_eq_nil in H. destruct H as [_ H].
    apply app_eq_nil in H. destruct H as [_ H]. discriminate H.
Qed.

(** C7. During reconciliation every record, order or activity, is created,
    skipped or updated under its counter, or appends one error and leaves
    the store alone.  A record whose creation fails in the middle of the
    batch contributes its error while the records before and after it are
    processed as they would be without it, in the order loop and in the
    activity loop.  The outcome of [executeImport] carries the counters of
    the two loops and their errors in order: with a failed record it has
    [success] false, the error of that record between the errors of the
    records before and after it, the counts of the records committed before
    and after it, and the store left by the remaining records.  Without an
    options object nothing is processed and the outcome holds the one
    error.  In every case [success] is true exactly when the errors array
    is empty. *)
Theorem C7_record_failure_does_not_abort :
  forall host saveData,
    (forall dups dh acc order, recordOutcome acc (importOrder host dups dh acc order))
    /\ (forall dups dh acc activity,
           recordOutcome acc (importActivity host dups dh acc activity))
    /\ (forall dups dh pre order post st,
           set_has (duplicateOrderIds dups) (order_id order) = false ->
           fst (createOrderForImport host (snd (importOrders host pre dups dh st)) order)
           = false ->
           let before := importOrders host pre dups dh st in
           let after := importOrders host post dups dh (snd before) in
           importOrders host (pre ++ order :: post) dups dh st =
           (addCounts (fst before)
              (addCounts (countError noCounts (orderCreationFailed order)) (fst after)),
            snd after))
    /\ (forall dups dh pre post st,
           importActivities host (pre ++ post) dups dh st =
           (addCounts (fst (importActivities host pre dups dh st))
              (fst (importActivities host post dups dh
                      (snd (importActivities host pre dups dh st)))),
            snd (importActivities host post dups dh
                   (snd (importActivities host pre dups dh st)))))
    /\ (forall importData duplicateCheck options st,
           success (fst (executeImport host saveData importData duplicateCheck options st))
           = true
           <-> resultErrors
                 (fst (executeImport host saveData importData duplicateCheck options st))
               = [])
    /\ (forall dups dh r s order,
           let out := importOrder host dups dh (r, s) order in
           (fst out = countCreated r
            /\ createOrderForImport host s order = (true, snd out))
           \/ out = (countSkipped r, s)
           \/ (exists name createdAt,
                  out = (countUpdated r, updateOrder s (order_id order) name createdAt))
           \/ (exists message, out = (countError r message, s)))
    /\ (forall dups dh r s activity,
           let out := importActivity host dups dh (r, s) activity in
           (fst out = countCreated r
            /\ createActivityForImport host s activity = (true, snd out))
           \/ out = (countSkipped r, s)
           \/ (exists name orderId createdAt,
                  out = (countUpdated r,
                         updateActivity s (activity_id activity) name orderId createdAt))
           \/ (exists message, out = (countError r message, s)))
    /\ (forall dups dh pre activity post st,
           set_has (duplicateActivityIds dups) (activity_id activity) = false ->
           fst (createActivityForImport host
                  (snd (importActivities host pre dups dh st)) activity)
           = false ->
           let before := importActivities host pre dups dh st in
           let after := importActivities host post dups dh (snd before) in
           importActivities host (pre ++ activity :: post) dups dh st =
           (addCounts (fst before)
              (addCounts (countError noCounts (activityCreationFailed activity))
                 (fst after)),
            snd after))
    /\ (forall importData duplicateCheck options st,
           isNullish options = false ->
           let dh := js_or (getProp options "duplicateHandling") (JStr "skip") in
           let o :=
             importOrders host (orders importData) (duplicateOrders duplicateCheck) dh st in
           let a :=
             importActivities host (activities importData)
               (duplicateActivities duplicateCheck) dh (snd o) in
           let errs := (importErrors (fst o) ++ importErrors (fst a))%list in
           let outcome ok errs :=
             (mkImportResult ok (created (fst o)) (created (fst a)) (skipped (fst o))
                (skipped (fst a)) (updated (fst o)) (updated (fst a)) errs,
              snd a) in
           (errs <> [] ->
            executeImport host saveData importData duplicateCheck options st
            = outcome false errs)
           /\ (errs = [] ->
               (forall save, saveData = Some save -> save (snd a) = None) ->
               executeImport host saveData importData duplicateCheck options st
               = outcome true [])
           /\ (errs = [] ->
               forall save message,
                 saveData = Some save -> save (snd a) = Some message ->
                 executeImport host saveData importData duplicateCheck options st
                 = outcome false [saveFailed]))
    /\ (forall importData duplicateCheck options st,
           isNullish options = true ->
           executeImport host saveData importData duplicateCheck options st =
           (mkImportResult false 0 0 0 0 0 0
              [typeErrorMessage host options "duplicateHandling"],
            st))
    /\ (forall importData duplicateCheck options st pre order post,
           isNullish options = false ->
           orders importData = (pre ++ order :: post)%list ->
           set_has (duplicateOrderIds (duplicateOrders duplicateCheck)) (order_id order)
           = false ->
           let dh := js_or (getProp options "duplicateHandling") (JStr "skip") in
           let before := importOrders host pre (duplicateOrders duplicateCheck) dh st in
           fst (createOrderForImport host (snd before) order) = false ->
           let after :=
             importOrders host post (duplicateOrders duplicateCheck) dh (snd before) in
           let acts :=
             importActivities host (activities importData)
               (duplicateActivities duplicateCheck) dh (snd after) in
           executeImport host saveData importData duplicateCheck options st =
           (mkImportResult false
              (created (fst before) + created (fst after)) (created (fst acts))
              (skipped (fst before) + skipped (fst after)) (skipped (fst acts))
              (updated (fst before) + updated (fst after)) (updated (fst acts))
              (importErrors (fst before)
                 ++ orderCreationFailed order :: importErrors (fst after)
                 ++ importErrors (fst acts)),
            snd acts))
    /\ (forall importData duplicateCheck options st pre activity post,
           isNullish options = false ->
           activities importData = (pre ++ activity :: post)%list ->
           set_has (duplicateActivityIds (duplicateActivities duplicateCheck))
             (activity_id activity) = false ->
           let dh := js_or (getProp options "duplicateHandling") (JStr "skip") in
           let ords :=
             importOrders host (orders importData) (duplicateOrders duplicateCheck) dh st in
           let before :=
             importActivities host pre (duplicateActivities duplicateCheck) dh (snd ords) in
           fst (createActivityForImport host (snd before) activity) = false ->
           let after :=
             importActivities host post (duplicateActivities duplicateCheck) dh
               (snd before) in
           executeImport host saveData importData duplicateCheck options st =
           (mkImportResult false
              (created (fst ords)) (created (fst before) + created (fst after))
              (skipped (fst ords)) (skipped (fst before) + skipped (fst after))
              (updated (fst ords)) (updated (fst before) + updated (fst after))
              (importErrors (fst ords) ++ importErrors (fst before)
                 ++ activityCreationFailed activity :: importErrors (fst after)),
            snd after)).
Proof.
  intros host saveData.
  split; [intros; apply importOrder_outcome|].
  split; [intros; apply importActivity_outcome|].
  split; [intros; apply importOrders_failure_in_the_middle; assumption|].
  split; [intros; apply importActivities_split|].
  split; [intros; apply executeImport_success_iff|].
  split; [intros; apply importOrder_cases|].
  split; [intros; apply importActivity_cases|].
  split; [intros; apply importActivities_failure_in_the_middle; assumption|].
  split; [intros importData duplicateCheck options st Hopt;
          exact (executeImport_outcome host saveData importData duplicateCheck options st
                   Hopt)|].
  split; [intros; apply executeImport_no_options; assumption|].
  split.
  - intros importData duplicateCheck options st pre order post Hopt Hsplit Hnew.
    exact (executeImport_order_failure host saveData importData duplicateCheck options st
             pre order post Hopt Hsplit Hnew).
  - intros importData duplicateCheck options st pre activity post Hopt Hsplit Hnew.
    exact (executeImport_activity_failure host saveData importData duplicateCheck options
             st pre activity post Hopt Hsplit Hnew).
Qed.

Lemma C7_record_failure_witness :
  let first := mkOrder (JStr "o1") (JStr "First") (JStr sampleDate) in
  let broken := mkOrder (JStr "o2") (JStr "   ") (JStr sampleDate) in
  let last := mkOrder (JStr "o3") (JStr "Last") (JStr sampleDate) in
  let task := mkActivity (JStr "a1") (JStr "Task") (JStr "o1") (JStr sampleDate) in
  let lost := mkActivity (JStr "a2") (JStr "Lost") (JStr "o2") (JStr sampleDate) in
  let done := mkActivity (JStr "a3") (JStr "Done") (JStr "o3") (JStr sampleDate) in
  let empty := mkStore [] [] in
  let none := mkDuplicateCheck false [] [] in
  importOrders sampleHost ([first] ++ broken :: [last]) [] (JStr "skip") empty =
  (mkImportCounts 2 0 0 [orderCreationFailed broken], mkStore [first; last] [])
  /\ executeImport sampleHost None (mkFlatData [first; broken; last] [task; done]) none
       (policyOptions "skip") empty
     = (mkImportResult false 2 2 0 0 0 0 [orderCreationFailed broken],
        mkStore [first; last] [task; done])
  /\ executeImport sampleHost None (mkFlatData [first; last] [task; lost; done]) none
       (policyOptions "skip") empty
     = (mkImportResult false 2 2 0 0 0 0 [activityCreationFailed lost],
        mkStore [first; last] [task; done]).
Proof.
  intros first broken last task lost done empty none.
  destruct (C7_record_failure_does_not_abort sampleHost None)
    as [_ [_ [H [_ [_ [_ [_ [_ [_ [_ [Hord Hact]]]]]]]]]]].
  split; [|split].
  - rewrite (H [] (JStr "skip") [first] broken [last] empty).
    + reflexivity.
    + reflexivity.
    + reflexivity.
  - rewrite (Hord (mkFlatData [first; broken; last] [task; done]) none
               (policyOptions "skip") empty [first] broken [last]).
    + reflexivity.
    + reflexivity.
    + reflexivity.
    + reflexivity.
    + reflexivity.
  - rewrite (Hact (mkFlatData [first; last] [task; lost; done]) none
               (policyOptions "skip") empty [task] lost [done]).
    + reflexivity.
    + reflexivity.
    + reflexivity.
    + reflexivity.
    + reflexivity.
Defined.

(** ** Relationship analysis *)

Lemma forEachFrom_app :
  forall {A St : Type} (f : St -> A -> nat -> St) (l1 l2 : list A) (i : nat) (s : St),
    forEachFrom f (l1 ++ l2) i s =
    forEachFrom f l2 (i + List.length l1) (forEachFrom f l1 i s).
Proof.
  intros A St f l1. induction l1 as [|x l1 IH]; intros l2 i s; simpl.
  - rewrite Nat.add_0_r. reflexivity.
  - rewrite IH. f_equal. lia.
Qed.

Lemma relateActivity_orphans :
  forall ids res a i,
    rel_orphanedActivities (relateActivity ids res a i) =
    (rel_orphanedActivities res ++ (if dangling ids a then [orphanOf i a] else []))%list
    /\ rel_isValid (relateActivity ids res a i) =
       rel_isValid res && negb (dangling ids a)
    /\ rel_errors (relateActivity ids res a i) = rel_errors res.
Proof.
  intros ids res a i. unfold relateActivity, dangling.
  destruct (truthy (activity_orderId a)); simpl.
  - destruct (set_has ids (activity_orderId a)); simpl.
    + rewrite app_nil_r, andb_true_r. auto.
    + rewrite andb_false_r. auto.
  - rewrite app_nil_r, andb_true_r. auto.
Qed.

Lemma relate_loop :
  forall ids l i res,
    rel_orphanedActivities (forEachFrom (relateActivity ids) l i res) =
    (rel_orphanedActivities res ++ orphansFrom ids l i)%list
    /\ rel_isValid (forEachFrom (relateActivity ids) l i res) =
       rel_isValid res && isNil (orphansFrom ids l i)
    /\ rel_errors (forEachFrom (relateActivity ids) l i res) = rel_errors res.
Proof.
  intros ids l. induction l as [|a l IH]; intros i res; simpl.
  - rewrite app_nil_r, andb_true_r. auto.
  - destruct (IH (S i) (relateActivity ids res a i)) as [Ho [Hv He]].
    destruct (relateActivity_orphans ids res a i) as [Ho1 [Hv1 He1]].
    rewrite Ho, Hv, He, Ho1, Hv1, He1. rewrite <- app_assoc.
    repeat split.
    destruct (dangling ids a); simpl.
    + rewrite andb_false_r. reflexivity.
    + rewrite andb_true_r. reflexivity.
Qed.

Lemma analyzeRelationships_orphans :
  forall orders activities,
    let rel := analyzeRelationships orders activities in
    let found := orphansFrom (map order_id orders) activities 0 in
    rel_orphanedActivities rel = found
    /\ rel_isValid rel = isNil found
    /\ rel_errors rel =
       (if isNil found then []
        else ("存在しないオーダーを参照するアクティビティが"
                ++ string_of_nat (List.length found) ++ "件見つかりました")
               :: map orphanMessage found).
Proof.
  intros orders activities rel found. subst rel. unfold analyzeRelationships, forEach.
  match goal with
  | |- context [forEachFrom (relateActivity ?ids) ?l 0 ?r0] =>
      destruct (relate_loop ids l 0 r0) as [Ho [Hv He]]
  end.
  simpl rel_orphanedActivities in *. simpl rel_isValid in *. simpl rel_errors in *.
  cbv zeta. simpl rel_orphanedActivities. simpl rel_isValid. simpl rel_errors.
  rewrite Ho, Hv, He. fold found. simpl app.
  repeat split.
  destruct found; reflexivity.
Qed.

Lemma orphansFrom_index_ge :
  forall ids l i o, In o (orphansFrom ids l i) -> i <= orphan_index o.
Proof.
  intros ids l. induction l as [|a l IH]; intros i o H; simpl in H.
  - contradiction.
  - apply in_app_or in H. destruct H as [H|H].
    + destruct (dangling ids a); simpl in H.
      * destruct H as [<-|[]]. simpl. lia.
      * contradiction.
    + apply IH in H. lia.
Qed.

Lemma orphansAt_app :
  forall i l1 l2, orphansAt i (l1 ++ l2) = (orphansAt i l1 ++ orphansAt i l2)%list.
Proof. intros i l1 l2. unfold orphansAt. apply filter_app. Qed.

Lemma filter_none :
  forall {A : Type} (f : A -> bool) (l : list A),
    (forall x, In x l -> f x = false) -> filter f l = [].
Proof.
  intros A f l. induction l as [|x l IH]; intros H; simpl.
  - reflexivity.
  - rewrite (H x (or_introl eq_refl)). apply IH. intros y Hy. apply H. right. exact Hy.
Qed.

Lemma orphansAt_below :
  forall ids l i k, k < i -> orphansAt k (orphansFrom ids l i) = [].
Proof.
  intros ids l i k Hk. unfold orphansAt. apply filter_none.
  intros o Ho. apply orphansFrom_index_ge in Ho. apply Nat.eqb_neq. lia.
Qed.

Lemma orphansAt_nth :
  forall ids l i j a,
    nth_error l j = Some a ->
    orphansAt (i + j) (orphansFrom ids l i) =
    if dangling ids a then [orphanOf (i + j) a] else [].
Proof.
  intros ids l. induction l as [|x l IH]; intros i j a H.
  - destruct j; discriminate.
  - simpl orphansFrom. rewrite orphansAt_app. destruct j as [|j]; simpl in H.
    + inversion H; subst x. rewrite Nat.add_0_r.
      rewrite (orphansAt_below ids l (S i) i) by lia. rewrite app_nil_r.
      destruct (dangling ids a); [|reflexivity].
      unfold orphansAt. simpl. rewrite Nat.eqb_refl. reflexivity.
    + replace (i + S j) with (S i + j) by lia.
      rewrite (IH (S i) j a H).
      assert (Hhead : orphansAt (S i + j) (if dangling ids x then [orphanOf i x] else []) = []).
      { destruct (dangling ids x); [|reflexivity].
        unfold orphansAt. simpl.
        destruct (Nat.eqb_spec i (S (i + j))) as [E|E]; [lia|reflexivity]. }
      rewrite Hhead. reflexivity.
Qed.

(** ** Duplicate-id analysis *)

Lemma scanOrderId_step :
  forall all m found valid order i,
    exists m' extra,
      scanOrderId all (m, found, valid) order i =
      (m', (found ++ extra)%list, valid && isNil extra).
Proof.
  intros all m found valid order i. unfold scanOrderId.
  destruct (map_get m (order_id order)) as [k|].
  - exists m. eexists [_]. unfold push. simpl. rewrite andb_false_r. reflexivity.
  - exists (map_set m (order_id order) i), []. rewrite app_nil_r, andb_true_r. reflexivity.
Qed.

Lemma scanActivityId_step :
  forall all m found valid activity i,
    exists m' extra,
      scanActivityId all (m, found, valid) activity i =
      (m', (found ++ extra)%list, valid && isNil extra).
Proof.
  intros all m found valid activity i. unfold scanActivityId.
  destruct (map_get m (activity_id activity)) as [k|].
  - exists m. eexists [_]. unfold push. simpl. rewrite andb_false_r. reflexivity.
  - exists (map_set m (activity_id activity) i), []. rewrite app_nil_r, andb_true_r. reflexivity.
Qed.

Section DupScanLoop.
Context {A : Type} (scan : DupScan -> A -> nat -> DupScan).
Hypothesis scan_step :
  forall m found valid x i,
    exists m' extra, scan (m, found, valid) x i = (m', (found ++ extra)%list, valid && isNil extra).

Lemma scan_loop :
  forall l i m found valid,
    exists m' extra,
      forEachFrom scan l i (m, found, valid) =
      (m', (found ++ extra)%list, valid && isNil extra).
Proof.
  induction l as [|x l IH]; intros i m found valid; simpl.
  - exists m, []. rewrite app_nil_r, andb_true_r. reflexivity.
  - destruct (scan_step m found valid x i) as [m1 [e1 E1]]. rewrite E1.
    destruct (IH (S i) m1 (found ++ e1)%list (valid && isNil e1)) as [m2 [e2 E2]].
    rewrite E2. exists m2, (e1 ++ e2)%list. rewrite app_assoc. f_equal.
    destruct e1; simpl; rewrite ?andb_false_r, ?andb_true_r; reflexivity.
Qed.
End DupScanLoop.

(** The duplicate analysis is valid exactly when it found nothing, and it
    reports at least one error otherwise. *)
Lemma analyzeIdDuplicates_verdict :
  forall orders activities,
    let r := analyzeIdDuplicates orders activities in
    isValid (idVerdict r) = isNil (orderIds r) && isNil (activityIds r)
    /\ isNil (errors (idVerdict r)) = isNil (orderIds r) && isNil (activityIds r).
Proof.
  intros orders activities r. subst r. unfold analyzeIdDuplicates, forEach.
  destruct (scan_loop (scanOrderId orders) (scanOrderId_step orders) orders 0 [] [] true)
    as [m1 [e1 E1]].
  destruct (forEachFrom (scanOrderId orders) orders 0 _) as [[m1' f1] v1] eqn:F1.
  inversion E1; subst; clear E1 F1.
  destruct (scan_loop (scanActivityId activities) (scanActivityId_step activities)
              activities 0 [] [] (true && isNil e1)) as [m2 [e2 E2]].
  destruct (forEachFrom (scanActivityId activities) activities 0 _) as [[m2' f2] v2] eqn:F2.
  inversion E2; subst; clear E2 F2.
  simpl.
  destruct e1, e2; simpl; auto.
Qed.

(** ** The aggregated integrity result *)

(** What [validateDataIntegrity] assembles: the errors of the two
    blocking analyses, followed by the message of the [catch] branch when
    a later analysis threw. *)
Lemma validateDataIntegrity_shape :
  forall host orders activities,
    let r := validateDataIntegrity host orders activities in
    let dup := analyzeIdDuplicates orders activities in
    let rel := analyzeRelationships orders activities in
    orphanedActivities r = rel_orphanedActivities rel
    /\ duplicateAnalysis r = Some dup
    /\ exists caught,
        errors (verdict r) =
        ((if isValid (idVerdict dup) then [] else errors (idVerdict dup))
           ++ (if rel_isValid rel then [] else rel_errors rel) ++ caught)%list
        /\ isValid (verdict r) = isValid (idVerdict dup) && rel_isValid rel && isNil caught
        /\ (isNil caught = true -> integrityScore r = calculateIntegrityScore r).
Proof.
  intros host orders activities r dup rel. subst r dup rel.
  unfold validateDataIntegrity.
  generalize (analyzeIdDuplicates orders activities). intros dup.
  generalize (analyzeRelationships orders activities). intros rel.
  destruct (analyzeNameDuplicates host orders activities) as [names|m].
  - destruct (analyzeDataQuality host orders activities) as [ws|m].
    + cbv zeta. simpl. split; [reflexivity|]. split; [reflexivity|].
      exists []. unfold absorb.
      destruct (isValid (idVerdict dup)), (rel_isValid rel); simpl;
        rewrite ?app_nil_r; auto.
    + cbv zeta. simpl. split; [reflexivity|]. split; [reflexivity|].
      eexists [_]. unfold absorb.
      destruct (isValid (idVerdict dup)), (rel_isValid rel); simpl;
        rewrite <- ?app_assoc; repeat split; try reflexivity; discriminate.
  - cbv zeta. simpl. split; [reflexivity|]. split; [reflexivity|].
    eexists [_]. unfold absorb.
    destruct (isValid (idVerdict dup)), (rel_isValid rel); simpl;
      rewrite <- ?app_assoc; repeat split; try reflexivity; discriminate.
Qed.

Lemma isNil_true : forall {A : Type} (l : list A), isNil l = true -> l = [].
Proof. intros A [|x l]; [reflexivity|discriminate]. Qed.

Lemma validateId_falsy : forall v, truthy v = false -> validateId v = false.
Proof.
  intros v H. destruct v; try reflexivity.
  unfold validateId. rewrite H. reflexivity.
Qed.

(** The per-record validator reports an empty order id. *)
Lemma validateDataTypes_empty_orderId :
  forall host activity index,
    truthy (activity_orderId activity) = false ->
    In (invalidOrderIdMessage index)
      (validateDataTypes host (activityToJs activity) "activity" index).
Proof.
  intros host activity index H. unfold validateDataTypes, activityToJs.
  cbn [truthy typeof isArray negb orb String.eqb Ascii.eqb Bool.eqb andb].
  cbn [getProp assoc String.eqb Ascii.eqb Bool.eqb].
  rewrite (validateId_falsy _ H). cbn [negb andb].
  apply in_or_app. right. apply in_or_app. right. apply in_or_app. right.
  apply in_or_app. left. left. reflexivity.
Qed.

(** C4 (as amended). In the aggregated result of [validateDataIntegrity],
    an activity whose order id is non-empty and is the id of no order of the
    batch is recorded exactly once in [orphanedActivities], with its index,
    id, name and the missing order id; its message is among the errors and
    the result is invalid.  An activity whose order id is empty, or is the
    id of a batch order, has no entry in [orphanedActivities]; an empty
    order id is reported by the per-record validator instead. *)
Theorem C4_unmatched_activities_are_orphaned :
  forall host orders activities index activity,
    nth_error activities index = Some activity ->
    let r := validateDataIntegrity host orders activities in
    let validOrderIds := map order_id orders in
    (truthy (activity_orderId activity) = true ->
     set_has validOrderIds (activity_orderId activity) = false ->
     orphansAt index (orphanedActivities r) = [orphanOf index activity]
     /\ In (orphanMessage (orphanOf index activity)) (errors (verdict r))
     /\ isValid (verdict r) = false)
    /\ (truthy (activity_orderId activity) = false
        \/ set_has validOrderIds (activity_orderId activity) = true ->
        orphansAt index (orphanedActivities r) = [])
    /\ (truthy (activity_orderId activity) = false ->
        In (invalidOrderIdMessage index)
          (validateDataTypes host (activityToJs activity) "activity" index)).
Proof.
  intros host orders activities index activity Hnth r validOrderIds.
  destruct (validateDataIntegrity_shape host orders activities)
    as [Horph [_ [caught [Herr [Hvalid _]]]]].
  fold r in Horph, Herr, Hvalid.
  destruct (analyzeRelationships_orphans orders activities) as [Ho [Hv He]].
  fold validOrderIds in Ho, Hv, He.
  pose proof (orphansAt_nth validOrderIds activities 0 index activity Hnth) as Hat.
  simpl in Hat. rewrite <- Ho, <- Horph in Hat.
  split; [|split].
  - intros Ht Hs.
    assert (Hd : dangling validOrderIds activity = true).
    { unfold dangling. rewrite Ht, Hs. reflexivity. }
    rewrite Hd in Hat. split; [exact Hat|].
    assert (Hin : In (orphanOf index activity)
                    (orphansFrom validOrderIds activities 0)).
    { rewrite <- Ho, <- Horph.
      assert (Hin' : In (orphanOf index activity) (orphansAt index (orphanedActivities r))).
      { rewrite Hat. left. reflexivity. }
      unfold orphansAt in Hin'. apply filter_In in Hin'. tauto. }
    assert (Hnil : isNil (orphansFrom validOrderIds activities 0) = false).
    { destruct (orphansFrom validOrderIds activities 0); [contradiction|reflexivity]. }
    rewrite Hnil in Hv, He. split.
    + rewrite Herr, Hv, He. apply in_or_app. right. apply in_or_app. left.
      right. apply in_map. exact Hin.
    + rewrite Hvalid, Hv. rewrite andb_false_r. reflexivity.
  - intros Hno.
    assert (Hd : dangling validOrderIds activity = false).
    { unfold dangling. destruct Hno as [Ht|Hs].
      - rewrite Ht. reflexivity.
      - rewrite Hs. apply andb_false_r. }
    rewrite Hd in Hat. exact Hat.
  - intros Ht. apply validateDataTypes_empty_orderId. exact Ht.
Qed.

Lemma C4_unmatched_activities_witness :
  let orders := [mkOrder (JStr "o1") (JStr "Order") (JStr sampleDate)] in
  let linked := mkActivity (JStr "a1") (JStr "Linked") (JStr "o1") (JStr sampleDate) in
  let lost := mkActivity (JStr "a2") (JStr "Lost") (JStr "o3") (JStr sampleDate) in
  let r := validateDataIntegrity sampleHost orders [linked; lost] in
  orphansAt 1 (orphanedActivities r) = [orphanOf 1 lost]
  /\ orphansAt 0 (orphanedActivities r) = []
  /\ isValid (verdict r) = false.
Proof.
  intros orders linked lost r.
  destruct (C4_unmatched_activities_are_orphaned sampleHost orders [linked; lost] 1 lost
              eq_refl) as [Hlost _].
  destruct (Hlost eq_refl eq_refl) as [H1 [_ H3]].
  destruct (C4_unmatched_activities_are_orphaned sampleHost orders [linked; lost] 0 linked
              eq_refl) as [_ [Hlinked _]].
  split; [exact H1|]. split; [|exact H3].
  apply Hlinked. right. reflexivity.
Defined.

(** An activity with an empty order id is counted as an invalid
    relationship, yet it is not recorded as orphaned, adds no error and
    leaves the aggregated result valid. *)
Lemma C4_empty_order_id_counterexample :
  let orders := [mkOrder (JStr "o1") (JStr "Order") (JStr sampleDate)] in
  let loose := mkActivity (JStr "a1") (JStr "Loose") (JStr "") (JStr sampleDate) in
  let r := validateDataIntegrity sampleHost orders [loose] in
  truthy (activity_orderId loose) = false
  /\ invalidRelationships (relationshipAnalysis r) = 1
  /\ orphanedActivities r = []
  /\ errors (verdict r) = []
  /\ isValid (verdict r) = true.
Proof. vm_compute. repeat split. Qed.

(** C5 (as amended). A batch for which the integrity analysis reports no
    error yields a valid result with no orphan, and its integrity score is
    100 minus 2 per warning (not below 0): it is 100 exactly when the
    analysis raised no warning. *)
Theorem C5_error_free_batch_score :
  forall host orders activities,
    let r := validateDataIntegrity host orders activities in
    errors (verdict r) = [] ->
    isValid (verdict r) = true
    /\ orphanedActivities r = []
    /\ integrityScore r =
       Z.max 0 (100 - 2 * Z.of_nat (List.length (warnings (verdict r))))%Z
    /\ (integrityScore r = 100%Z <-> warnings (verdict r) = []).
Proof.
  intros host orders activities r Herrors.
  destruct (validateDataIntegrity_shape host orders activities)
    as [Horph [Hdup [caught [Herr [Hvalid Hscore]]]]].
  fold r in Horph, Hdup, Herr, Hvalid, Hscore.
  rewrite Herrors in Herr. symmetry in Herr.
  apply app_eq_nil in Herr. destruct Herr as [Hid Hrest].
  apply app_eq_nil in Hrest. destruct Hrest as [Hrel Hcaught]. subst caught.
  destruct (analyzeIdDuplicates_verdict orders activities) as [Hiv Hie].
  destruct (analyzeRelationships_orphans orders activities) as [Ho [Hv He]].
  set (dup := analyzeIdDuplicates orders activities) in *.
  set (rel := analyzeRelationships orders activities) in *.
  assert (Hdv : isValid (idVerdict dup) = true).
  { destruct (isValid (idVerdict dup)) eqn:E; [reflexivity|].
    rewrite Hid in Hie. simpl in Hie. rewrite <- Hie in Hiv. exact Hiv. }
  assert (Hrv : rel_isValid rel = true).
  { destruct (rel_isValid rel) eqn:E; [reflexivity|].
    rewrite <- Hv in He. rewrite Hrel in He. discriminate. }
  assert (Hnone : orphanedActivities r = []).
  { rewrite Horph, Ho. apply isNil_true. rewrite <- Hv. exact Hrv. }
  assert (Hentries : duplicateEntries r = 0).
  { unfold duplicateEntries. rewrite Hdup. rewrite Hdv in Hiv. symmetry in Hiv.
    apply andb_prop in Hiv. destruct Hiv as [H1 H2].
    rewrite (isNil_true _ H1), (isNil_true _ H2). reflexivity. }
  assert (Hs : integrityScore r =
               Z.max 0 (100 - 2 * Z.of_nat (List.length (warnings (verdict r))))%Z).
  { rewrite (Hscore eq_refl), calculateIntegrityScore_unfold.
    rewrite Herrors, Hnone, Hentries. simpl List.length. lia. }
  split.
  - rewrite Hvalid, Hdv, Hrv. reflexivity.
  - split; [exact Hnone|]. split; [exact Hs|].
    rewrite Hs. split.
    + intros H. destruct (warnings (verdict r)) as [|w ws]; [reflexivity|].
      simpl List.length in H. lia.
    + intros ->. reflexivity.
Qed.

Lemma C5_error_free_batch_witness :
  let orders := [mkOrder (JStr "o1") (JStr "Order") (JStr sampleDate)] in
  let activities := [mkActivity (JStr "a1") (JStr "Task") (JStr "o1") (JStr sampleDate)] in
  let r := validateDataIntegrity sampleHost orders activities in
  errors (verdict r) = []
  /\ isValid (verdict r) = true
  /\ integrityScore r = 100%Z.
Proof.
  intros orders activities r.
  assert (Herrors : errors (verdict r) = []) by reflexivity.
  destruct (C5_error_free_batch_score sampleHost orders activities Herrors)
    as [Hvalid [_ [_ Hscore]]].
  split; [exact Herrors|]. split; [exact Hvalid|].
  apply Hscore. reflexivity.
Defined.

(** A batch that validates without any error and has no relationship
    violation, whose single order carries a 51-character name: the result is
    valid and its integrity score is 98. *)
Lemma C5_long_name_counterexample :
  let order := mkOrder (JStr "order_1") (JStr (repeatChar "a" 51)) (JStr sampleDate) in
  let r := validateDataIntegrity sampleHost [order] [] in
  validateImportData sampleHost (namedDocument 51) =
  Normal
    (mkImportValidation
       (mkVerdict true []
          [missingVersionWarning; "オーダー[0]: 名前が異常に長いです（51文字）"])
       (Some (mkFlatData [order] [])))
  /\ errors (verdict r) = []
  /\ isValid (verdict r) = true
  /\ orphanedActivities r = []
  /\ warnings (verdict r) = ["オーダー[0]: 名前が異常に長いです（51文字）"]
  /\ integrityScore r = 98%Z.
Proof. vm_compute. repeat split. Qed.

(** ** Normalizer: flattening and re-nesting *)

Lemma map_get_set :
  forall {V : Type} (m : jsmap V) (k q : jsval) (v : V),
    map_get (map_set m k v) q = if js_eqb k q then Some v else map_get m q.
Proof.
  intros V m k q v. induction m as [|[k' v'] m IH]; simpl.
  - reflexivity.
  - destruct (js_eqb k' k) eqn:E; simpl.
    + apply js_eqb_true in E. subst k'.
      destruct (js_eqb k q); reflexivity.
    + rewrite IH. destruct (js_eqb k' q) eqn:E1; [|reflexivity].
      destruct (js_eqb k q) eqn:E2; [|reflexivity].
      apply js_eqb_true in E1. apply js_eqb_true in E2. subst.
      rewrite js_eqb_refl in E. discriminate.
Qed.

(** One step of the grouping loop adds the activity to the group of its
    order id and to no other. *)
Lemma group_step :
  forall (m : jsmap (list NestedActivity)) (a : FlatActivity) (k : jsval),
    let m1 :=
      if negb (map_has m (activity_orderId a))
      then map_set m (activity_orderId a) [] else m in
    groupOf
      (match map_get m1 (activity_orderId a) with
       | Some group => map_set m1 (activity_orderId a) (group ++ [toNested a])%list
       | None => m1
       end) k =
    (groupOf m k ++ (if js_eqb (activity_orderId a) k then [toNested a] else []))%list.
Proof.
  intros m a k m1. subst m1. unfold map_has, groupOf.
  destruct (map_get m (activity_orderId a)) as [g|] eqn:E; simpl negb; cbv iota.
  - rewrite E. rewrite map_get_set.
    destruct (js_eqb (activity_orderId a) k) eqn:Ek.
    + apply js_eqb_true in Ek. subst k. rewrite E. reflexivity.
    + rewrite app_nil_r. reflexivity.
  - rewrite map_get_set, js_eqb_refl. rewrite !map_get_set.
    destruct (js_eqb (activity_orderId a) k) eqn:Ek.
    + apply js_eqb_true in Ek. subst k. rewrite E. reflexivity.
    + rewrite app_nil_r. reflexivity.
Qed.

Lemma group_loop :
  forall (acts : list FlatActivity) (m : jsmap (list NestedActivity)) (k : jsval),
    groupOf
      (fold_left
         (fun (activitiesByOrder : jsmap (list NestedActivity)) activity =>
            let activitiesByOrder :=
              if negb (map_has activitiesByOrder (activity_orderId activity))
              then map_set activitiesByOrder (activity_orderId activity) []
              else activitiesByOrder in
            match map_get activitiesByOrder (activity_orderId activity) with
            | Some group =>
                map_set activitiesByOrder (activity_orderId activity)
                  (group ++ [toNested activity])%list
            | None => activitiesByOrder
            end)
         acts m) k =
    (groupOf m k
       ++ map toNested (filter (fun a => js_eqb (activity_orderId a) k) acts))%list.
Proof.
  induction acts as [|a acts IH]; intros m k; simpl fold_left.
  - simpl. rewrite app_nil_r. reflexivity.
  - rewrite IH. rewrite (group_step m a k). rewrite <- app_assoc. f_equal.
    simpl filter. destruct (js_eqb (activity_orderId a) k); reflexivity.
Qed.

(** Re-nesting groups the flat activities by the order id they carry. *)
Lemma convertFlatToNested_groups :
  forall flatData,
    convertFlatToNested flatData =
    map
      (fun order =>
         mkNestedOrder (order_id order) (order_name order) (order_createdAt order)
           (map toNested
              (filter (fun a => js_eqb (activity_orderId a) (order_id order))
                 (activities flatData))))
      (orders flatData).
Proof.
  intros flatData. unfold convertFlatToNested. apply map_ext. intros order.
  f_equal. change (groupOf (groupByOrder (activities flatData)) (order_id order) =
                   map toNested
                     (filter (fun a => js_eqb (activity_orderId a) (order_id order))
                        (activities flatData))).
  unfold groupByOrder. rewrite group_loop. reflexivity.
Qed.

Lemma keptEntries_cons :
  forall x items i,
    keptEntries (x :: items) i =
    if isRecord x then (i, x) :: keptEntries items (S i) else keptEntries items (S i).
Proof. intros x items i. reflexivity. Qed.

Lemma flattenActivity_loop :
  forall host index flatOrder acts j d,
    forEachFrom (flattenActivity host index flatOrder) acts j d =
    mkFlatData (orders d)
      (activities d
         ++ map (fun sub => flatActivityOf host index flatOrder (snd sub) (fst sub))
              (keptEntries acts j)).
Proof.
  intros host index flatOrder acts. induction acts as [|a acts IH]; intros j d.
  - simpl. rewrite app_nil_r. destruct d; reflexivity.
  - cbn [forEachFrom]. rewrite IH, keptEntries_cons.
    unfold flattenActivity, isRecord.
    destruct (negb (truthy a) || negb (String.eqb (typeof a) "object")); simpl.
    + reflexivity.
    + rewrite <- app_assoc. reflexivity.
Qed.

Lemma flattenOrder_step :
  forall host d order index,
    flattenOrder host d order index =
    if isRecord order then
      mkFlatData (orders d ++ [flatOrderOf host index order])
        (activities d ++ embeddedActivities host (index, order))
    else d.
Proof.
  intros host d order index. unfold flattenOrder, isRecord, embeddedActivities.
  destruct (negb (truthy order) || negb (String.eqb (typeof order) "object")); simpl.
  - reflexivity.
  - destruct (truthy (getProp order "activities") && isArray (getProp order "activities")).
    + unfold forEach. rewrite flattenActivity_loop. reflexivity.
    + rewrite app_nil_r. reflexivity.
Qed.

Lemma flattenOrder_loop :
  forall host items i d,
    forEachFrom (flattenOrder host) items i d =
    mkFlatData
      (orders d ++ map (entryOrder host) (keptEntries items i))
      (activities d ++ flat_map (embeddedActivities host) (keptEntries items i)).
Proof.
  intros host items. induction items as [|x items IH]; intros i d.
  - simpl. rewrite !app_nil_r. destruct d; reflexivity.
  - cbn [forEachFrom]. rewrite IH, keptEntries_cons, flattenOrder_step.
    destruct (isRecord x).
    + cbn [orders activities map flat_map]. rewrite <- !app_assoc. reflexivity.
    + reflexivity.
Qed.

(** What the normalizer returns on a document whose [orders] is an array. *)
Lemma convertNestedToFlat_orders :
  forall host doc items,
    isNullish doc = false ->
    getProp doc "orders" = JArr items ->
    convertNestedToFlat host doc =
    Normal
      (mkFlatData (map (entryOrder host) (keptEntries items 0))
         (flat_map (embeddedActivities host) (keptEntries items 0))).
Proof.
  intros host doc items Hdoc Horders. unfold convertNestedToFlat, readProp.
  rewrite Hdoc, Horders. simpl. unfold forEach. rewrite flattenOrder_loop. reflexivity.
Qed.

(** Every activity embedded under an order carries that order's id. *)
Lemma embeddedActivities_orderId :
  forall host entry a,
    In a (embeddedActivities host entry) ->
    activity_orderId a = order_id (entryOrder host entry).
Proof.
  intros host [index order] a H. unfold embeddedActivities in H.
  destruct (truthy (getProp order "activities") && isArray (getProp order "activities")).
  - apply in_map_iff in H. destruct H as [sub [E _]]. subst a. reflexivity.
  - contradiction.
Qed.

Lemma filter_all :
  forall {A : Type} (f : A -> bool) (l : list A),
    (forall x, In x l -> f x = true) -> filter f l = l.
Proof.
  intros A f l. induction l as [|x l IH]; intros H; simpl.
  - reflexivity.
  - rewrite (H x (or_introl eq_refl)). f_equal. apply IH.
    intros y Hy. apply H. right. exact Hy.
Qed.

(** With pairwise distinct order ids, selecting the flat activities by
    the id of one order gives back the activities embedded under it. *)
Lemma select_embedded :
  forall host entries entry,
    NoDup (map (fun e => order_id (entryOrder host e)) entries) ->
    In entry entries ->
    filter (fun a => js_eqb (activity_orderId a) (order_id (entryOrder host entry)))
      (flat_map (embeddedActivities host) entries) =
    embeddedActivities host entry.
Proof.
  intros host entries entry. induction entries as [|e entries IH]; intros Hnd Hin.
  - contradiction.
  - simpl in Hnd. inversion Hnd as [|id ids Hfresh Hrest]; subst.
    cbn [flat_map]. rewrite filter_app.
    assert (Hother :
              forall e', In e' entries ->
                         order_id (entryOrder host e') <> order_id (entryOrder host e)).
    { intros e' He' Heq. apply Hfresh. apply in_map_iff.
      exists e'. split; [exact Heq|exact He']. }
    destruct Hin as [Heq|Hin].
    + subst e.
      rewrite (filter_all _ (embeddedActivities host entry)).
      2:{ intros a Ha. rewrite (embeddedActivities_orderId host entry a Ha).
          apply js_eqb_refl. }
      rewrite (filter_none _ (flat_map (embeddedActivities host) entries)).
      2:{ intros a Ha. apply in_flat_map in Ha. destruct Ha as [e' [He' Ha]].
          rewrite (embeddedActivities_orderId host e' a Ha).
          apply js_eqb_neq. apply Hother. exact He'. }
      apply app_nil_r.
    + rewrite (filter_none _ (embeddedActivities host e)).
      2:{ intros a Ha. rewrite (embeddedActivities_orderId host e a Ha).
          apply js_eqb_neq. intros Heq. apply (Hother entry Hin). symmetry. exact Heq. }
      simpl. apply IH; assumption.
Qed.

(** C9 (as amended). For every nested-form document whose kept orders have
    pairwise distinct ids (the given id, or the one synthesized for a missing
    id), flattening and re-nesting returns the grouping of the input: each
    order with exactly the activities embedded under it, in order, where a
    missing id, name or timestamp is the synthesized one and an activity
    with all three present keeps them as they are. *)
Theorem C9_renest_restores_grouping :
  forall host doc items,
    isNullish doc = false ->
    getProp doc "orders" = JArr items ->
    NoDup (map (fun e => order_id (entryOrder host e)) (keptEntries items 0)) ->
    renest host doc = Normal (inputGrouping host items)
    /\ (forall index flatOrder activity actIndex,
           truthy (getProp activity "id") = true ->
           truthy (getProp activity "name") = true ->
           truthy (getProp activity "createdAt") = true ->
           toNested (flatActivityOf host index flatOrder activity actIndex) =
           mkNestedActivity (getProp activity "id") (getProp activity "name")
             (getProp activity "createdAt")).
Proof.
  intros host doc items Hdoc Horders Hdistinct. split.
  - unfold renest. rewrite (convertNestedToFlat_orders host doc items Hdoc Horders).
    simpl bind. f_equal. rewrite convertFlatToNested_groups. cbn [orders activities].
    unfold inputGrouping. rewrite map_map. apply map_ext_in.
    intros entry Hin. f_equal. f_equal.
    apply select_embedded; assumption.
  - intros index flatOrder activity actIndex Hid Hname Hcreated.
    unfold toNested, flatActivityOf, js_or. simpl.
    rewrite Hid, Hname, Hcreated. reflexivity.
Qed.

Lemma C9_renest_witness :
  let activity id name :=
    JObj [("id", JStr id); ("name", JStr name); ("createdAt", JStr sampleDate)] in
  let order id name acts :=
    JObj [("id", JStr id); ("name", JStr name); ("createdAt", JStr sampleDate);
          ("activities", JArr acts)] in
  let items :=
    [order "o1" "Design" [activity "a1" "Sketch"];
     order "o2" "Build" [activity "a2" "Frame"; activity "a3" "Roof"]] in
  let kept id name := mkNestedActivity (JStr id) (JStr name) (JStr sampleDate) in
  renest sampleHost (JObj [("orders", JArr items)]) =
  Normal
    [mkNestedOrder (JStr "o1") (JStr "Design") (JStr sampleDate) [kept "a1" "Sketch"];
     mkNestedOrder (JStr "o2") (JStr "Build") (JStr sampleDate)
       [kept "a2" "Frame"; kept "a3" "Roof"]].
Proof.
  intros activity order items kept.
  destruct (C9_renest_restores_grouping sampleHost (JObj [("orders", JArr items)]) items)
    as [H _].
  - reflexivity.
  - reflexivity.
  - vm_compute. repeat constructor; simpl; intuition discriminate.
  - rewrite H. reflexivity.
Defined.

(** Two orders of the input share the id "x"; after flattening and
    re-nesting each of them holds both activities, while the input had one
    activity under each. *)
Lemma C9_shared_order_id_counterexample :
  let activity id name :=
    JObj [("id", JStr id); ("name", JStr name); ("createdAt", JStr sampleDate)] in
  let order id name acts :=
    JObj [("id", JStr id); ("name", JStr name); ("createdAt", JStr sampleDate);
          ("activities", JArr acts)] in
  let items :=
    [order "x" "Design" [activity "a1" "Sketch"];
     order "x" "Build" [activity "a2" "Frame"]] in
  let kept id name := mkNestedActivity (JStr id) (JStr name) (JStr sampleDate) in
  renest sampleHost (JObj [("orders", JArr items)]) =
  Normal
    [mkNestedOrder (JStr "x") (JStr "Design") (JStr sampleDate)
       [kept "a1" "Sketch"; kept "a2" "Frame"];
     mkNestedOrder (JStr "x") (JStr "Build") (JStr sampleDate)
       [kept "a1" "Sketch"; kept "a2" "Frame"]]
  /\ inputGrouping sampleHost items =
     [mkNestedOrder (JStr "x") (JStr "Design") (JStr sampleDate) [kept "a1" "Sketch"];
      mkNestedOrder (JStr "x") (JStr "Build") (JStr sampleDate) [kept "a2" "Frame"]]
  /\ renest sampleHost (JObj [("orders", JArr items)])
     <> Normal (inputGrouping sampleHost items).
Proof.
  intros activity order items kept. split; [reflexivity|]. split; [reflexivity|].
  vm_compute. discriminate.
Qed.

(** ** Flat-form input *)

(** The normalizer's result is the same with and without a top-level
    [activities] property. *)
Lemma convertNestedToFlat_ignores_activities :
  forall host docOrders docActivities,
    convertNestedToFlat host (JObj [("orders", docOrders); ("activities", docActivities)]) =
    convertNestedToFlat host (JObj [("orders", docOrders)]).
Proof. intros host docOrders docActivities. reflexivity. Qed.

(** C2 (code at the failing input). On the flat-form document of the
    repository's own test the schema stage passes, the normalizer returns
    the order and no activity, and validation ends valid: the top-level
    activity and its dangling order id are never seen. *)
Theorem C2_top_level_activities_are_dropped :
  (forall host docOrders docActivities,
      convertNestedToFlat host (JObj [("orders", docOrders); ("activities", docActivities)]) =
      convertNestedToFlat host (JObj [("orders", docOrders)]))
  /\ isValid (schemaVerdict (validateJSONSchema sampleHost flatFormDocument)) = true
  /\ convertNestedToFlat sampleHost flatFormDocument =
     Normal
       (mkFlatData [mkOrder (JStr "order_1") (JStr "テストオーダー") (JStr sampleDate)] [])
  /\ validateImportData sampleHost flatFormDocument =
     Normal
       (mkImportValidation (mkVerdict true [] [missingVersionWarning])
          (Some (mkFlatData
                   [mkOrder (JStr "order_1") (JStr "テストオーダー") (JStr sampleDate)] []))).
Proof.
  split; [apply convertNestedToFlat_ignores_activities|].
  split; [reflexivity|]. split; reflexivity.
Qed.

(** ** Name length *)

Lemma validateName_limit :
  forall s,
    validateName (JStr s) =
    negb (String.eqb s "")
    && negb (Nat.eqb (String.length (trim s)) 0)
    && negb (Nat.ltb 100 (String.length (trim s))).
Proof.
  intros s. unfold validateName. simpl truthy.
  destruct (String.eqb s ""); simpl; [reflexivity|].
  destruct (Nat.eqb (String.length (trim s)) 0); simpl; [reflexivity|].
  destruct (Nat.ltb 100 (String.length (trim s))); reflexivity.
Qed.

(** The schema-level check on a string name compares its raw length
    with 200. *)
Lemma lengthCheck_name :
  forall host s msg r,
    lengthCheck host (JStr s) 200 msg r =
    if Nat.ltb 200 (String.length s) then fail r msg else r.
Proof.
  intros host s msg r. unfold lengthCheck, js_gt. simpl.
  destruct (Nat.ltb_spec 200 (String.length s)) as [H|H].
  - assert (Hs : String.eqb s "" = false) by (destruct s; [simpl in H; lia|reflexivity]).
    rewrite Hs. simpl.
    destruct (Z.ltb_spec 200 (Z.of_nat (String.length s))); [reflexivity|lia].
  - destruct (negb (String.eqb s "")); simpl; [|reflexivity].
    destruct (Z.ltb_spec 200 (Z.of_nat (String.length s))); [lia|reflexivity].
Qed.

(** C3 (code at the failing input). A 200-character name passes the
    schema-level length check, but the per-record validator rejects it:
    [validateName] accepts a string only when its trimmed length is between
    1 and 100, so validation of the document fails with an error for order
    0, and likewise for an embedded activity.  A 201-character name of a
    top-level order gets the constraint error that names its index. *)
Theorem C3_name_of_200_characters_is_rejected :
  validateStringConstraints sampleHost (namedDocument 200) = Normal okVerdict
  /\ (forall s,
         validateName (JStr s) =
         negb (String.eqb s "")
         && negb (Nat.eqb (String.length (trim s)) 0)
         && negb (Nat.ltb 100 (String.length (trim s))))
  /\ validateName (JStr (repeatChar "a" 200)) = false
  /\ validationErrors (validateImportData sampleHost (namedDocument 200)) =
     [invalidNameMessage 0]
  /\ validationErrors (validateImportData sampleHost (namedDocument 100)) = []
  /\ validationErrors (validateImportData sampleHost (namedActivityDocument 200)) =
     [invalidActivityNameMessage 0]
  /\ validationErrors (validateImportData sampleHost (namedActivityDocument 100)) = []
  /\ validateStringConstraints sampleHost (namedDocument 201) =
     Normal (mkVerdict false [nameTooLongMessage 0] []).
Proof.
  split; [reflexivity|]. split; [apply validateName_limit|].
  split; [reflexivity|].
  repeat (split; [vm_compute; reflexivity|]). vm_compute. reflexivity.
Qed.

(** ** Reconciliation: the merge policy *)

Lemma setNth_same :
  forall {A : Type} (l : list A) (i : nat) (d : A),
    i < List.length l -> setNth l i (nth i l d) = l.
Proof.
  intros A l. induction l as [|x l IH]; intros i d H; simpl in *.
  - lia.
  - destruct i as [|i]; simpl.
    + reflexivity.
    + f_equal. apply IH. lia.
Qed.

(** The first record matching the wider test [p] is also the first one
    matching the narrower test [q] when it passes [q] itself. *)
Lemma findIndex_of_findFirst :
  forall {A : Type} (p q : A -> bool) (l : list A) (x d : A),
    (forall y, q y = true -> p y = true) ->
    findFirst p l = Some x ->
    q x = true ->
    exists i, findIndex q l = Some i /\ i < List.length l /\ nth i l d = x.
Proof.
  intros A p q l x d Hqp. induction l as [|y l IH]; intros Hfind Hq; simpl in *.
  - discriminate.
  - destruct (p y) eqn:Ep.
    + inversion Hfind; subst y. rewrite Hq. exists 0. repeat split. lia.
    + destruct (q y) eqn:Eq.
      * apply Hqp in Eq. congruence.
      * destruct (IH Hfind Hq) as [i [Hi [Hlt Hnth]]].
        rewrite Hi. exists (S i). repeat split; [lia|exact Hnth].
Qed.

(** ** Reading the store *)

Lemma findFirst_map :
  forall {A B : Type} (f : A -> B) (p : B -> bool) (l : list A),
    findFirst p (map f l) = option_map f (findFirst (fun x => p (f x)) l).
Proof.
  intros A B f p l. induction l as [|x l IH]; simpl.
  - reflexivity.
  - destruct (p (f x)); [reflexivity|exact IH].
Qed.

Lemma defaultCreatedAt_defined :
  forall host createdAt,
    createdAt <> JUndef -> defaultCreatedAt host createdAt = createdAt.
Proof. intros host createdAt H. destruct createdAt; try reflexivity. contradiction. Qed.

Lemma defaultCreatedAt_idempotent :
  forall host createdAt,
    defaultCreatedAt host (defaultCreatedAt host createdAt) = defaultCreatedAt host createdAt.
Proof. intros host createdAt. destruct createdAt; reflexivity. Qed.

(** The instance rebuilt from a record that has a timestamp has the
    fields of the record. *)
Lemma Order_fromJSON_dated :
  forall host order, order_createdAt order <> JUndef -> Order_fromJSON host order = order.
Proof.
  intros host [id name createdAt] H. unfold Order_fromJSON. simpl in *.
  rewrite (defaultCreatedAt_defined host createdAt H). reflexivity.
Qed.

Lemma Activity_fromJSON_dated :
  forall host activity,
    activity_createdAt activity <> JUndef -> Activity_fromJSON host activity = activity.
Proof.
  intros host [id name orderId createdAt] H. unfold Activity_fromJSON. simpl in *.
  rewrite (defaultCreatedAt_defined host createdAt H). reflexivity.
Qed.

Lemma getAllOrders_dated :
  forall host st,
    (forall order, In order (storeOrders st) -> order_createdAt order <> JUndef) ->
    getAllOrders host st = storeOrders st.
Proof.
  intros host st H. unfold getAllOrders.
  rewrite <- (map_id (storeOrders st)) at 2. apply map_ext_in.
  intros order Hin. apply Order_fromJSON_dated. apply H. exact Hin.
Qed.

(** The detector's tests read the id, the name and the order id, which
    the rebuilt instances share with the stored records. *)
Lemma getAllOrders_find :
  forall host st id name,
    findFirst (fun order => js_eqb (order_id order) id || js_eqb (order_name order) name)
      (getAllOrders host st)
    = option_map (Order_fromJSON host)
        (findFirst (fun order => js_eqb (order_id order) id || js_eqb (order_name order) name)
           (storeOrders st)).
Proof.
  intros host st id name. unfold getAllOrders.
  exact (findFirst_map (Order_fromJSON host) _ (storeOrders st)).
Qed.

Lemma getAllActivities_find :
  forall host st id orderId name,
    findFirst
      (fun activity =>
         js_eqb (activity_id activity) id
         || (js_eqb (activity_orderId activity) orderId
             && js_eqb (activity_name activity) name))
      (getAllActivities host st)
    = option_map (Activity_fromJSON host)
        (findFirst
           (fun activity =>
              js_eqb (activity_id activity) id
              || (js_eqb (activity_orderId activity) orderId
                  && js_eqb (activity_name activity) name))
           (storeActivities st)).
Proof.
  intros host st id orderId name. unfold getAllActivities.
  exact (findFirst_map (Activity_fromJSON host) _ (storeActivities st)).
Qed.

(** When the duplicate detector matched the import by id and the stored
    records have their timestamps, writing the matched record's own fields
    back leaves the store as it was. *)
Lemma merge_of_id_match_keeps_store :
  forall host st importOrder existing,
    (forall order, In order (storeOrders st) -> order_createdAt order <> JUndef) ->
    findFirst
      (fun order => js_eqb (order_id order) (order_id importOrder)
                    || js_eqb (order_name order) (order_name importOrder))
      (getAllOrders host st) = Some existing ->
    js_eqb (order_id existing) (order_id importOrder) = true ->
    updateOrder st (order_id importOrder) (order_name existing) (order_createdAt existing) = st.
Proof.
  intros host st importOrder existing Hdated Hfind Hid. unfold updateOrder.
  rewrite (getAllOrders_dated host st Hdated) in Hfind.
  destruct (findIndex_of_findFirst _
              (fun order => js_eqb (order_id order) (order_id importOrder))
              (storeOrders st) existing
              (mkOrder (order_id importOrder) (order_name existing) (order_createdAt existing))
              (fun y H => orb_true_intro _ _ (or_introl H)) Hfind Hid)
    as [i [Hi [Hlt Hnth]]].
  rewrite Hi, Hnth.
  replace (mkOrder (order_id existing) (order_name existing) (order_createdAt existing))
    with existing by (destruct existing; reflexivity).
  pattern existing at 1. rewrite <- Hnth. rewrite setNth_same by exact Hlt.
  destruct st; reflexivity.
Qed.

(** C1 (code at the failing input). The store holds "oX" named Alpha and
    "o1" named Beta; the batch imports "o1" under the name Alpha.  The
    duplicate detector matches the import with "oX" by name, and the merge
    policy then writes the fields of "oX" into the store record "o1": the
    batch passes validation, the run counts one updated order, and the name
    and timestamp of "o1" are no longer the ones it had before the import.
    The same happens to an activity matched by name within its order. *)
Theorem C1_merge_copies_fields_of_name_match :
  validateImportData sampleHost (JObj [("orders", JArr [sampleOrderJs "o1" "Alpha"])]) =
  Normal (mkImportValidation (mkVerdict true [] [missingVersionWarning]) (Some renamingBatch))
  /\ duplicateOrders (checkDuplicates sampleHost twoOrderStore renamingBatch) =
  [mkDuplicateRecord (mkOrder (JStr "o1") (JStr "Alpha") (JStr sampleDate))
     (mkOrder (JStr "oX") (JStr "Alpha") (JStr "2022-02-02T00:00:00Z")) "name"]
  /\ storeOrders twoOrderStore =
     [mkOrder (JStr "oX") (JStr "Alpha") (JStr "2022-02-02T00:00:00Z");
      mkOrder (JStr "o1") (JStr "Beta") (JStr "2023-03-03T00:00:00Z")]
  /\ executeImport sampleHost None renamingBatch
       (checkDuplicates sampleHost twoOrderStore renamingBatch) mergeOptions twoOrderStore =
     (mkImportResult true 0 0 0 0 1 0 [],
      mkStore
        [mkOrder (JStr "oX") (JStr "Alpha") (JStr "2022-02-02T00:00:00Z");
         mkOrder (JStr "o1") (JStr "Alpha") (JStr "2022-02-02T00:00:00Z")]
        [])
  /\ executeImport sampleHost None renamingActivityBatch
       (checkDuplicates sampleHost twoActivityStore renamingActivityBatch) mergeOptions
       twoActivityStore =
     (mkImportResult true 0 0 0 0 0 1 [],
      mkStore
        [mkOrder (JStr "o1") (JStr "Beta") (JStr "2023-03-03T00:00:00Z")]
        [mkActivity (JStr "aX") (JStr "Plan") (JStr "o1") (JStr "2022-02-02T00:00:00Z");
         mkActivity (JStr "a1") (JStr "Plan") (JStr "o1") (JStr "2022-02-02T00:00:00Z")]).
Proof. repeat (split; [reflexivity|]). reflexivity. Qed.

(** ** What the schema stage guarantees about the flattened records *)

Lemma absorb_valid :
  forall r sub, isValid (absorb r sub) = isValid r && isValid sub.
Proof.
  intros r sub. unfold absorb. destruct (isValid sub); simpl.
  - rewrite andb_true_r. reflexivity.
  - rewrite andb_false_r. reflexivity.
Qed.

Lemma absorb_loop_valid :
  forall (f : jsval -> nat -> Verdict) (l : list jsval) (i : nat) (r0 : Verdict),
    isValid (forEachFrom (fun r x index => absorb r (f x index)) l i r0) = true ->
    isValid r0 = true
    /\ forall j x, nth_error l j = Some x -> isValid (f x (i + j)) = true.
Proof.
  intros f l. induction l as [|y l IH]; intros i r0 H; simpl in H.
  - split; [exact H|]. intros j x Hj. destruct j; discriminate.
  - apply IH in H. destruct H as [H0 Hrest].
    rewrite absorb_valid in H0. apply andb_prop in H0. destruct H0 as [Hr Hy].
    split; [exact Hr|]. intros j x Hj. destruct j as [|j]; simpl in Hj.
    + inversion Hj; subst. rewrite Nat.add_0_r. exact Hy.
    + replace (i + S j) with (S i + j) by lia. apply Hrest. exact Hj.
Qed.

Lemma checkRequiredFields_valid :
  forall pre item fields r,
    isValid (checkRequiredFields pre item fields r) = true ->
    isValid r = true
    /\ forall field ty, In (field, ty) fields ->
                        String.eqb (typeof (getProp item field)) ty = true.
Proof.
  intros pre item fields. unfold checkRequiredFields.
  induction fields as [|[f t] fields IH]; intros r H; simpl in H.
  - split; [exact H|]. intros field ty [].
  - apply IH in H. destruct H as [H0 Hrest].
    destruct (negb (hasProp f item)); [discriminate|].
    destruct (String.eqb (typeof (getProp item f)) t) eqn:E; [|discriminate].
    simpl in H0. split; [exact H0|].
    intros field ty [Heq|Hin].
    + inversion Heq; subst. exact E.
    + apply Hrest. exact Hin.
Qed.

Lemma typeof_string : forall v, String.eqb (typeof v) "string" = true -> isString v = true.
Proof. intros v H. destruct v; simpl in H; try discriminate. reflexivity. Qed.

Lemma js_or_string :
  forall v s, isString v = true -> isString (js_or v (JStr s)) = true.
Proof. intros v s H. unfold js_or. destruct (truthy v); [exact H|reflexivity]. Qed.

(** A nested activity that passes the schema type check has a string id
    and a string name. *)
Lemma validateActivitySchemaTypes_valid :
  forall activity index parentPrefix,
    String.eqb parentPrefix "" = false ->
    isValid (validateActivitySchemaTypes activity index parentPrefix) = true ->
    isString (getProp activity "id") = true /\ isString (getProp activity "name") = true.
Proof.
  intros activity index parentPrefix Hp H. unfold validateActivitySchemaTypes in H.
  rewrite Hp in H. simpl negb in H. cbv iota in H.
  destruct (negb (truthy activity) || negb (String.eqb (typeof activity) "object")
            || isArray activity); [discriminate|].
  apply checkRequiredFields_valid in H. destruct H as [_ H].
  split; apply typeof_string; apply H; simpl; auto.
Qed.

Lemma order_prefix_nonempty :
  forall index, String.eqb ("オーダー[" ++ string_of_nat index ++ "]") "" = false.
Proof. intros index. reflexivity. Qed.

(** An order that passes the schema type check has a string id and a
    string name, and so has every entry of its [activities] array. *)
Lemma validateNestedOrderSchemaTypes_valid :
  forall order index,
    isValid (validateNestedOrderSchemaTypes order index) = true ->
    isString (getProp order "id") = true
    /\ isString (getProp order "name") = true
    /\ (truthy (getProp order "activities") && isArray (getProp order "activities") = true ->
        forall j activity,
          nth_error (itemsOf (getProp order "activities")) j = Some activity ->
          isString (getProp activity "id") = true
          /\ isString (getProp activity "name") = true).
Proof.
  intros order index H. unfold validateNestedOrderSchemaTypes in H.
  destruct (negb (truthy order) || negb (String.eqb (typeof order) "object")
            || isArray order); [discriminate|].
  destruct (hasProp "activities" order) eqn:Hhas.
  - destruct (negb (isArray (getProp order "activities"))) eqn:Harr; [discriminate|].
    unfold forEach in H. apply absorb_loop_valid in H. destruct H as [H0 Hacts].
    apply checkRequiredFields_valid in H0. destruct H0 as [_ H0].
    split; [apply typeof_string; apply H0; simpl; auto|].
    split; [apply typeof_string; apply H0; simpl; auto|].
    intros _ j activity Hj.
    apply (validateActivitySchemaTypes_valid activity (0 + j)
             ("オーダー[" ++ string_of_nat index ++ "]")).
    + apply order_prefix_nonempty.
    + apply Hacts. exact Hj.
  - apply checkRequiredFields_valid in H. destruct H as [_ H0].
    split; [apply typeof_string; apply H0; simpl; auto|].
    split; [apply typeof_string; apply H0; simpl; auto|].
    intros Hact. exfalso.
    unfold hasProp in Hhas. unfold getProp in Hact.
    destruct order; simpl in Hact; try discriminate.
    destruct (assoc "activities" fields); [discriminate|]. simpl in Hact. discriminate.
Qed.

Lemma keptEntries_In :
  forall items k i o,
    In (i, o) (keptEntries items k) ->
    exists j, i = k + j /\ nth_error items j = Some o.
Proof.
  intros items. induction items as [|x items IH]; intros k i o H.
  - contradiction.
  - rewrite keptEntries_cons in H.
    assert (Hrest : In (i, o) (keptEntries items (S k)) ->
                    exists j, i = k + j /\ nth_error (x :: items) j = Some o).
    { intros Hin. destruct (IH (S k) i o Hin) as [j [Hi Hj]].
      exists (S j). split; [lia|exact Hj]. }
    destruct (isRecord x).
    + destruct H as [Heq|Hin]; [|apply Hrest; exact Hin].
      inversion Heq; subst. exists 0. split; [lia|reflexivity].
    + apply Hrest. exact H.
Qed.

Lemma validateSchemaDataTypes_valid :
  forall data items,
    isValid (validateSchemaDataTypes data) = true ->
    getProp data "orders" = JArr items ->
    forall j order,
      nth_error items j = Some order ->
      isValid (validateNestedOrderSchemaTypes order j) = true.
Proof.
  intros data items H Horders j order Hj. unfold validateSchemaDataTypes in H.
  rewrite Horders in H. simpl truthy in H. simpl isArray in H. simpl andb in H.
  cbv iota in H. simpl itemsOf in H.
  destruct (hasProp "exportedAt" data
            && negb (String.eqb (typeof (getProp data "exportedAt")) "string"));
    [discriminate|].
  destruct (hasProp "version" data
            && negb (String.eqb (typeof (getProp data "version")) "string"));
    [discriminate|].
  unfold forEach in H. apply absorb_loop_valid in H. destruct H as [_ H].
  apply (H j order Hj).
Qed.

Lemma validateJSONSchema_valid :
  forall host data,
    isValid (schemaVerdict (validateJSONSchema host data)) = true ->
    isNullish data = false /\ isValid (validateSchemaDataTypes data) = true.
Proof.
  intros host data H. unfold validateJSONSchema in H.
  destruct (isValid (validateRootStructure data)) eqn:Hroot; simpl negb in H; cbv iota in H.
  - split.
    + unfold validateRootStructure in Hroot. destruct (isNullish data); [discriminate|reflexivity].
    + simpl in H. rewrite !absorb_valid in H.
      apply andb_prop in H. destruct H as [H _].
      apply andb_prop in H. destruct H as [_ H]. exact H.
  - discriminate.
Qed.

(** The flattened records of a batch whose entries passed the schema type
    check have string ids and names. *)
Lemma flattened_records_textual :
  forall host items,
    (forall j order, nth_error items j = Some order ->
                     isValid (validateNestedOrderSchemaTypes order j) = true) ->
    forallb textualOrder (map (entryOrder host) (keptEntries items 0)) = true
    /\ forallb textualActivity (flat_map (embeddedActivities host) (keptEntries items 0))
       = true.
Proof.
  intros host items Hvalid. split.
  - apply forallb_forall. intros o Hin. apply in_map_iff in Hin.
    destruct Hin as [[i order] [Heq Hin]]. subst o.
    destruct (keptEntries_In items 0 i order Hin) as [j [Hi Hj]]. simpl in Hi. subst j.
    destruct (validateNestedOrderSchemaTypes_valid order i (Hvalid i order Hj))
      as [Hid [Hname _]].
    unfold textualOrder, entryOrder, flatOrderOf. simpl.
    rewrite (js_or_string _ _ Hid), (js_or_string _ _ Hname). reflexivity.
  - apply forallb_forall. intros a Hin. apply in_flat_map in Hin.
    destruct Hin as [[i order] [Hin Ha]].
    destruct (keptEntries_In items 0 i order Hin) as [j [Hi Hj]]. simpl in Hi. subst j.
    destruct (validateNestedOrderSchemaTypes_valid order i (Hvalid i order Hj))
      as [_ [_ Hacts]].
    unfold embeddedActivities in Ha.
    destruct (truthy (getProp order "activities") && isArray (getProp order "activities"))
      eqn:E; [|contradiction].
    apply in_map_iff in Ha. destruct Ha as [[k activity] [Heq Hk]]. subst a.
    destruct (keptEntries_In _ 0 k activity Hk) as [j [Hi Hj']]. simpl in Hi. subst j.
    destruct (Hacts eq_refl k activity Hj') as [Hid Hname].
    unfold textualActivity, flatActivityOf. simpl.
    rewrite (js_or_string _ _ Hid), (js_or_string _ _ Hname). reflexivity.
Qed.

(** Validation always returns, and the records it hands to the later
    stages have string ids and names. *)
Lemma validateImportData_returns :
  forall host data,
    exists v,
      validateImportData host data = Normal v
      /\ forall flat,
          flattenedData v = Some flat ->
          forallb textualOrder (orders flat) = true
          /\ forallb textualActivity (activities flat) = true.
Proof.
  intros host data. unfold validateImportData.
  destruct (isValid (schemaVerdict (validateJSONSchema host data))) eqn:Hschema;
    simpl negb; cbv iota.
  - destruct (validateJSONSchema_valid host data Hschema) as [Hdata Htypes].
    assert (Hflat : exists flat,
               convertNestedToFlat host data = Normal flat
               /\ forallb textualOrder (orders flat) = true
               /\ forallb textualActivity (activities flat) = true).
    { destruct (isArray (getProp data "orders")) eqn:Harr.
      - destruct (getProp data "orders") as [| | | | |items|] eqn:Horders;
          try discriminate.
        rewrite (convertNestedToFlat_orders host data items Hdata Horders).
        eexists. split; [reflexivity|]. cbn [orders activities].
        apply flattened_records_textual.
        apply (validateSchemaDataTypes_valid data items Htypes Horders).
      - unfold convertNestedToFlat, readProp. rewrite Hdata. simpl bind.
        rewrite Harr. simpl negb. rewrite orb_true_r.
        eexists. split; [reflexivity|split; reflexivity]. }
    destruct Hflat as [flat [Eflat [Ho Ha]]]. rewrite Eflat. simpl bind.
    eexists. split; [reflexivity|]. simpl. intros flat' Hsome.
    inversion Hsome; subst. split; assumption.
  - eexists. split; [reflexivity|]. simpl. intros flat Hsome. discriminate.
Qed.

(** * Further properties *)

(** ** Lists, lookups and sets *)

Lemma map_setNth :
  forall {A B : Type} (f : A -> B) (l : list A) (i : nat) (x d : A),
    (i < List.length l -> f x = f (nth i l d)) -> map f (setNth l i x) = map f l.
Proof.
  intros A B f l. induction l as [|y l IH]; intros i x d H.
  - reflexivity.
  - destruct i as [|i]; simpl.
    + rewrite H by (simpl; lia). reflexivity.
    + f_equal. apply (IH i x d). intros Hi. apply H. simpl. lia.
Qed.

Lemma setNth_length :
  forall {A : Type} (l : list A) (i : nat) (x : A),
    List.length (setNth l i x) = List.length l.
Proof.
  intros A l. induction l as [|y l IH]; intros i x.
  - reflexivity.
  - destruct i; simpl; [reflexivity|]. rewrite IH. reflexivity.
Qed.

Lemma findFirst_some :
  forall {A : Type} (p : A -> bool) (l : list A) (x : A),
    findFirst p l = Some x -> In x l /\ p x = true.
Proof.
  intros A p l x. induction l as [|y l IH]; simpl; intros H.
  - discriminate.
  - destruct (p y) eqn:E.
    + inversion H; subst. auto.
    + destruct (IH H) as [Hin Hp]. auto.
Qed.

Lemma findFirst_none :
  forall {A : Type} (p : A -> bool) (l : list A),
    findFirst p l = None -> forall x, In x l -> p x = false.
Proof.
  intros A p l. induction l as [|y l IH]; simpl; intros H x Hin.
  - contradiction.
  - destruct (p y) eqn:E; [discriminate|].
    destruct Hin as [<-|Hin]; [exact E|apply IH; assumption].
Qed.

Lemma findFirst_exists :
  forall {A : Type} (p : A -> bool) (l : list A) (x : A),
    In x l -> p x = true -> exists y, findFirst p l = Some y.
Proof.
  intros A p l x Hin Hp. destruct (findFirst p l) as [y|] eqn:E.
  - exists y. reflexivity.
  - rewrite (findFirst_none p l E x Hin) in Hp. discriminate.
Qed.

Lemma set_has_In :
  forall ids x, set_has ids x = true <-> In x ids.
Proof.
  intros ids x. unfold set_has. rewrite existsb_exists. split.
  - intros [y [Hin E]]. apply js_eqb_true in E. subst. exact Hin.
  - intros Hin. exists x. split; [exact Hin|apply js_eqb_refl].
Qed.

Lemma set_has_app :
  forall ids more x, set_has ids x = true -> set_has (ids ++ more) x = true.
Proof.
  intros ids more x H. apply set_has_In. apply in_or_app. left.
  apply set_has_In. exact H.
Qed.

(** ** The repository updates *)

Lemma updateOrder_ids :
  forall st id name createdAt,
    storedOrderIds (updateOrder st id name createdAt) = storedOrderIds st
    /\ storeActivities (updateOrder st id name createdAt) = storeActivities st.
Proof.
  intros st id name createdAt. unfold updateOrder, storedOrderIds.
  destruct (findIndex _ (storeOrders st)) as [index|]; simpl.
  - split; [|reflexivity].
    apply (map_setNth order_id _ index _ (mkOrder id name createdAt)).
    intros _. reflexivity.
  - split; reflexivity.
Qed.

Lemma updateActivity_ids :
  forall st id name orderId createdAt,
    storedActivityIds (updateActivity st id name orderId createdAt) = storedActivityIds st
    /\ storeOrders (updateActivity st id name orderId createdAt) = storeOrders st.
Proof.
  intros st id name orderId createdAt. unfold updateActivity, storedActivityIds.
  destruct (findIndex _ (storeActivities st)) as [index|]; simpl.
  - split; [|reflexivity].
    apply (map_setNth activity_id _ index _ (mkActivity id name orderId createdAt)).
    intros _. reflexivity.
  - split; reflexivity.
Qed.

(** ** Creation *)

Lemma createOrderForImport_success :
  forall host st orderData st',
    createOrderForImport host st orderData = (true, st') ->
    exists order,
      st' = mkStore (storeOrders st ++ [order]) (storeActivities st)
      /\ order_id order = order_id orderData
      /\ Order_isValid host order = true
      /\ findFirst (fun o => js_eqb (order_id o) (order_id orderData)) (storeOrders st) = None.
Proof.
  intros host st orderData st'. unfold createOrderForImport.
  destruct (order_name orderData) as [| | | |s| |]; try discriminate.
  destruct (_ || _); [discriminate|].
  destruct (findFirst _ (storeOrders st)) eqn:Efind; [discriminate|].
  destruct (Order_isValid host _) eqn:Evalid; simpl; [|discriminate].
  intros H. inversion H; subst. eexists. unfold push.
  split; [reflexivity|]. split; [reflexivity|]. split; [exact Evalid|reflexivity].
Qed.

Lemma createActivityForImport_success :
  forall host st activityData st',
    createActivityForImport host st activityData = (true, st') ->
    exists activity,
      st' = mkStore (storeOrders st) (storeActivities st ++ [activity])
      /\ activity_id activity = activity_id activityData
      /\ activity_orderId activity = activity_orderId activityData
      /\ Activity_isValid host activity = true
      /\ set_has (storedOrderIds st) (activity_orderId activityData) = true
      /\ findFirst (fun a => js_eqb (activity_id a) (activity_id activityData))
           (storeActivities st) = None.
Proof.
  intros host st activityData st'. unfold createActivityForImport.
  destruct (activity_name activityData) as [| | | |s| |]; try discriminate.
  destruct (_ || _); [discriminate|].
  destruct (negb (truthy _)); [discriminate|].
  destruct (findFirst _ (storeOrders st)) as [o|] eqn:Eorder; [|discriminate].
  destruct (findFirst _ (storeActivities st)) eqn:Efind; [discriminate|].
  destruct (Activity_isValid host _) eqn:Evalid; simpl; [|discriminate].
  intros H. inversion H; subst. eexists. unfold push.
  split; [reflexivity|]. split; [reflexivity|]. split; [reflexivity|].
  split; [exact Evalid|]. split; [|reflexivity].
  apply findFirst_some in Eorder. destruct Eorder as [Hin Heq].
  apply js_eqb_true in Heq. apply set_has_In. unfold storedOrderIds.
  rewrite <- Heq. apply in_map. exact Hin.
Qed.

(** What one iteration can do to the store: nothing, an update by id
    under one of the two updating policies, or a successful creation. *)
Lemma importOrder_store :
  forall host dups dh r s order,
    let out := importOrder host dups dh (r, s) order in
    (snd out = s /\ created (fst out) = created r)
    \/ ((js_eqb dh (JStr "overwrite") = true \/ js_eqb dh (JStr "merge") = true)
        /\ created (fst out) = created r
        /\ exists name createdAt, snd out = updateOrder s (order_id order) name createdAt)
    \/ (createOrderForImport host s order = (true, snd out)
        /\ created (fst out) = S (created r)).
Proof.
  intros host dups dh r s order. unfold importOrder. cbv zeta.
  destruct (set_has _ _).
  - destruct (js_eqb dh (JStr "overwrite")) eqn:Eo.
    + right. left. simpl. split; [auto|]. split; [reflexivity|]. eauto.
    + destruct (js_eqb dh (JStr "merge")) eqn:Em.
      * destruct (findFirst _ dups) as [dup|].
        -- right. left. simpl. split; [auto|]. split; [reflexivity|]. eauto.
        -- left. simpl. auto.
      * left. simpl. auto.
  - pose proof (createOrderForImport_failure_keeps_store host s order) as K.
    destruct (createOrderForImport host s order) as [ok s'] eqn:E. destruct ok.
    + right. right. simpl. auto.
    + left. simpl in *. auto.
Qed.

Lemma importActivity_store :
  forall host dups dh r s activity,
    let out := importActivity host dups dh (r, s) activity in
    (snd out = s /\ created (fst out) = created r)
    \/ ((js_eqb dh (JStr "overwrite") = true \/ js_eqb dh (JStr "merge") = true)
        /\ created (fst out) = created r
        /\ exists name orderId createdAt,
            snd out = updateActivity s (activity_id activity) name orderId createdAt)
    \/ (createActivityForImport host s activity = (true, snd out)
        /\ created (fst out) = S (created r)).
Proof.
  intros host dups dh r s activity. unfold importActivity. cbv zeta.
  destruct (set_has _ _).
  - destruct (js_eqb dh (JStr "overwrite")) eqn:Eo.
    + right. left. simpl. split; [auto|]. split; [reflexivity|]. eauto.
    + destruct (js_eqb dh (JStr "merge")) eqn:Em.
      * destruct (findFirst _ dups) as [dup|].
        -- right. left. simpl. split; [auto|]. split; [reflexivity|]. eauto.
        -- left. simpl. auto.
      * left. simpl. auto.
  - pose proof (createActivityForImport_failure_keeps_store host s activity) as K.
    destruct (createActivityForImport host s activity) as [ok s'] eqn:E. destruct ok.
    + right. right. simpl. auto.
    + left. simpl in *. auto.
Qed.

(** An invariant of every iteration holds after the loop. *)
Lemma fold_left_invariant :
  forall {A B : Type} (P : A -> Prop) (f : A -> B -> A) (l : list B) (a : A),
    P a -> (forall a b, P a -> P (f a b)) -> P (fold_left f l a).
Proof.
  intros A B P f l. induction l as [|x l IH]; intros a Ha Hstep; simpl.
  - exact Ha.
  - apply IH; [apply Hstep; exact Ha|exact Hstep].
Qed.

(** The order loop appends the ids it creates and leaves the others. *)
Lemma importOrders_ids :
  forall host batch dups dh st,
    let out := importOrders host batch dups dh st in
    exists fresh,
      storedOrderIds (snd out) = (storedOrderIds st ++ fresh)%list
      /\ List.length fresh = created (fst out)
      /\ storeActivities (snd out) = storeActivities st
      /\ (NoDup (storedOrderIds st) -> NoDup (storedOrderIds (snd out))).
Proof.
  intros host batch dups dh st. unfold importOrders. cbv zeta.
  apply (fold_left_invariant
           (fun acc : ImportCounts * Store =>
              exists fresh,
                storedOrderIds (snd acc) = (storedOrderIds st ++ fresh)%list
                /\ List.length fresh = created (fst acc)
                /\ storeActivities (snd acc) = storeActivities st
                /\ (NoDup (storedOrderIds st) -> NoDup (storedOrderIds (snd acc))))).
  - exists []. simpl. rewrite app_nil_r. auto.
  - intros [r s] order [fresh [Hids [Hlen [Hacts Hnd]]]]. simpl in Hids, Hlen, Hacts, Hnd.
    destruct (importOrder_store host dups dh r s order) as [[Hs Hc]|[[_ [Hc [n [c Hs]]]]|[Hs Hc]]].
    + exists fresh. rewrite Hs, Hc. auto.
    + exists fresh. rewrite Hs, Hc.
      destruct (updateOrder_ids s (order_id order) n c) as [Hi Ha].
      rewrite Hi, Ha. auto.
    + apply createOrderForImport_success in Hs.
      destruct Hs as [o [Hs [Hid [_ Hfresh]]]].
      exists (fresh ++ [order_id order])%list. rewrite Hs, Hc.
      unfold storedOrderIds in *. simpl. rewrite map_app, Hids, <- app_assoc. simpl.
      rewrite Hid. split; [reflexivity|]. split; [rewrite length_app; simpl; lia|].
      split; [exact Hacts|].
      intros Hst. specialize (Hnd Hst). rewrite Hids in Hnd.
      rewrite app_assoc. apply NoDup_app; [exact Hnd|repeat constructor; intros []|].
      intros a Hin [<-|[]]. rewrite <- Hids in Hin.
      apply in_map_iff in Hin. destruct Hin as [x [Hx Hin]].
      pose proof (findFirst_none _ _ Hfresh x Hin) as Hneq. simpl in Hneq.
      rewrite Hx, js_eqb_refl in Hneq. discriminate.
Qed.

Lemma importActivities_ids :
  forall host batch dups dh st,
    let out := importActivities host batch dups dh st in
    exists fresh,
      storedActivityIds (snd out) = (storedActivityIds st ++ fresh)%list
      /\ List.length fresh = created (fst out)
      /\ storeOrders (snd out) = storeOrders st
      /\ (NoDup (storedActivityIds st) -> NoDup (storedActivityIds (snd out))).
Proof.
  intros host batch dups dh st. unfold importActivities. cbv zeta.
  apply (fold_left_invariant
           (fun acc : ImportCounts * Store =>
              exists fresh,
                storedActivityIds (snd acc) = (storedActivityIds st ++ fresh)%list
                /\ List.length fresh = created (fst acc)
                /\ storeOrders (snd acc) = storeOrders st
                /\ (NoDup (storedActivityIds st) -> NoDup (storedActivityIds (snd acc))))).
  - exists []. simpl. rewrite app_nil_r. auto.
  - intros [r s] activity [fresh [Hids [Hlen [Hords Hnd]]]].
    simpl in Hids, Hlen, Hords, Hnd.
    destruct (importActivity_store host dups dh r s activity)
      as [[Hs Hc]|[[_ [Hc [n [o [c Hs]]]]]|[Hs Hc]]].
    + exists fresh. rewrite Hs, Hc. auto.
    + exists fresh. rewrite Hs, Hc.
      destruct (updateActivity_ids s (activity_id activity) n o c) as [Hi Ha].
      rewrite Hi, Ha. auto.
    + apply createActivityForImport_success in Hs.
      destruct Hs as [a [Hs [Hid [_ [_ [_ Hfresh]]]]]].
      exists (fresh ++ [activity_id activity])%list. rewrite Hs, Hc.
      unfold storedActivityIds in *. simpl. rewrite map_app, Hids, <- app_assoc. simpl.
      rewrite Hid. split; [reflexivity|]. split; [rewrite length_app; simpl; lia|].
      split; [exact Hords|].
      intros Hst. specialize (Hnd Hst). rewrite Hids in Hnd.
      rewrite app_assoc. apply NoDup_app; [exact Hnd|repeat constructor; intros []|].
      intros x Hin [<-|[]]. rewrite <- Hids in Hin.
      apply in_map_iff in Hin. destruct Hin as [y [Hy Hin]].
      pose proof (findFirst_none _ _ Hfresh y Hin) as Hneq. simpl in Hneq.
      rewrite Hy, js_eqb_refl in Hneq. discriminate.
Qed.

(** ** The outcome of [executeImport] *)

Lemma executeImport_stages :
  forall host saveData importData duplicateCheck options st,
    isNullish options = false ->
    let dh := js_or (getProp options "duplicateHandling") (JStr "skip") in
    let o := importOrders host (orders importData) (duplicateOrders duplicateCheck) dh st in
    let a :=
      importActivities host (activities importData) (duplicateActivities duplicateCheck)
        dh (snd o) in
    let out := executeImport host saveData importData duplicateCheck options st in
    snd out = snd a
    /\ newOrders (fst out) = created (fst o)
    /\ newActivities (fst out) = created (fst a)
    /\ skippedOrders (fst out) = skipped (fst o)
    /\ skippedActivities (fst out) = skipped (fst a)
    /\ updatedOrders (fst out) = updated (fst o)
    /\ updatedActivities (fst out) = updated (fst a)
    /\ (success (fst out) = true -> importErrors (fst o) = [] /\ importErrors (fst a) = [])
    /\ (saveData = None ->
        resultErrors (fst out) = (importErrors (fst o) ++ importErrors (fst a))%list).
Proof.
  intros host saveData importData duplicateCheck options st Hopt dh o a out.
  subst out. unfold executeImport, readProp. rewrite Hopt. fold dh. fold o.
  destruct o as [r1 s1] eqn:Eo. simpl snd in a. fold a.
  destruct a as [r2 s2] eqn:Ea. simpl fst. simpl snd.
  destruct (importErrors r1 ++ importErrors r2)%list as [|e es] eqn:E.
  - apply app_eq_nil in E. destruct E as [E1 E2].
    destruct saveData as [save|]; simpl.
    + destruct (save s2); simpl; repeat split; auto; discriminate.
    + repeat split; auto.
  - destruct saveData as [save|]; simpl; repeat split; auto; discriminate.
Qed.

(** X10. Under every policy, [executeImport] keeps the ids of the stored
    records, in order, and appends the ids of the records it created: the
    store grows by exactly [newOrders] orders and [newActivities]
    activities. *)
Theorem X10_import_extends_stored_ids :
  forall host saveData importData duplicateCheck options st,
    let out := executeImport host saveData importData duplicateCheck options st in
    exists freshOrders freshActivities,
      storedOrderIds (snd out) = (storedOrderIds st ++ freshOrders)%list
      /\ storedActivityIds (snd out) = (storedActivityIds st ++ freshActivities)%list
      /\ List.length freshOrders = newOrders (fst out)
      /\ List.length freshActivities = newActivities (fst out)
      /\ List.length (storeOrders (snd out)) = List.length (storeOrders st) + newOrders (fst out)
      /\ List.length (storeActivities (snd out))
         = List.length (storeActivities st) + newActivities (fst out).
Proof.
  intros host saveData importData duplicateCheck options st out. subst out.
  destruct (isNullish options) eqn:Hopt.
  - rewrite executeImport_no_options by exact Hopt. exists [], []. simpl.
    rewrite !app_nil_r, !Nat.add_0_r. repeat split.
  - destruct (executeImport_stages host saveData importData duplicateCheck options st Hopt)
      as [Hs [Hno [Hna _]]].
    set (dh := js_or (getProp options "duplicateHandling") (JStr "skip")) in *.
    destruct (importOrders_ids host (orders importData) (duplicateOrders duplicateCheck) dh st)
      as [fo [Hio [Hlo [Hao _]]]].
    set (o := importOrders host (orders importData) (duplicateOrders duplicateCheck) dh st) in *.
    destruct (importActivities_ids host (activities importData)
                (duplicateActivities duplicateCheck) dh (snd o))
      as [fa [Hia [Hla [Hoa _]]]].
    set (a := importActivities host (activities importData)
                (duplicateActivities duplicateCheck) dh (snd o)) in *.
    assert (Hords : storedOrderIds (snd a) = (storedOrderIds st ++ fo)%list).
    { unfold storedOrderIds in *. rewrite Hoa. exact Hio. }
    assert (Hacts : storedActivityIds (snd a) = (storedActivityIds st ++ fa)%list).
    { unfold storedActivityIds in *. rewrite Hia, Hao. reflexivity. }
    exists fo, fa. rewrite Hs, Hno, Hna.
    split; [exact Hords|]. split; [exact Hacts|]. split; [exact Hlo|]. split; [exact Hla|].
    split.
    + rewrite <- Hlo. unfold storedOrderIds in Hords.
      apply (f_equal (@List.length jsval)) in Hords.
      rewrite length_app, !length_map in Hords. exact Hords.
    + rewrite <- Hla. unfold storedActivityIds in Hacts.
      apply (f_equal (@List.length jsval)) in Hacts.
      rewrite length_app, !length_map in Hacts. exact Hacts.
Qed.

(** X11. If the ids of the stored orders are pairwise distinct and so are
    the ids of the stored activities, they still are after [executeImport],
    whatever the batch, the duplicate list and the policy. *)
Theorem X11_import_keeps_ids_unique :
  forall host saveData importData duplicateCheck options st,
    NoDup (storedOrderIds st) ->
    NoDup (storedActivityIds st) ->
    let out := executeImport host saveData importData duplicateCheck options st in
    NoDup (storedOrderIds (snd out)) /\ NoDup (storedActivityIds (snd out)).
Proof.
  intros host saveData importData duplicateCheck options st Ho Ha out. subst out.
  destruct (isNullish options) eqn:Hopt.
  - rewrite executeImport_no_options by exact Hopt. simpl. auto.
  - destruct (executeImport_stages host saveData importData duplicateCheck options st Hopt)
      as [Hs _].
    set (dh := js_or (getProp options "duplicateHandling") (JStr "skip")) in *.
    destruct (importOrders_ids host (orders importData) (duplicateOrders duplicateCheck) dh st)
      as [fo [_ [_ [Hao Hndo]]]].
    set (o := importOrders host (orders importData) (duplicateOrders duplicateCheck) dh st) in *.
    destruct (importActivities_ids host (activities importData)
                (duplicateActivities duplicateCheck) dh (snd o))
      as [fa [_ [_ [Hoa Hnda]]]].
    rewrite Hs. split.
    + unfold storedOrderIds in *. rewrite Hoa. apply Hndo. exact Ho.
    + apply Hnda. unfold storedActivityIds in *. rewrite Hao. exact Ha.
Qed.

Lemma X11_import_keeps_ids_unique_witness :
  let st := mockStore in
  let batch :=
    mkFlatData
      [mkOrder (JStr "existing_order_1") (JStr "Renamed") (JStr sampleDate);
       mkOrder (JStr "o2") (JStr "Added") (JStr sampleDate);
       mkOrder (JStr "o2") (JStr "Added twice") (JStr sampleDate)]
      [mkActivity (JStr "a2") (JStr "Task") (JStr "o2") (JStr sampleDate)] in
  let out := runImport batch (policyOptions "overwrite") st in
  storedOrderIds (snd out) = [JStr "existing_order_1"; JStr "o2"]
  /\ NoDup (storedOrderIds (snd out)) /\ NoDup (storedActivityIds (snd out)).
Proof.
  intros st batch out. split; [reflexivity|].
  apply (X11_import_keeps_ids_unique sampleHost None batch (checkDuplicates sampleHost st batch)
           (policyOptions "overwrite") st).
  - repeat constructor; simpl; intuition discriminate.
  - repeat constructor; simpl; intuition discriminate.
Defined.

(** ** Accounting *)

Lemma loop_accounts_for_every_record :
  forall {A : Type} (step : ImportCounts * Store -> A -> ImportCounts * Store),
    (forall acc x, recordOutcome acc (step acc x)) ->
    forall l acc,
      committed (fst (fold_left step l acc))
      + List.length (importErrors (fst (fold_left step l acc)))
      = committed (fst acc) + List.length (importErrors (fst acc)) + List.length l.
Proof.
  intros A step Hstep l. induction l as [|x l IH]; intros acc; simpl.
  - lia.
  - rewrite IH. destruct (Hstep acc x) as [[Hc He]|[Hc [Hs [Hu [[msg He] _]]]]].
    + rewrite Hc, He. lia.
    + unfold committed. rewrite Hc, Hs, Hu, He, length_app. simpl. lia.
Qed.

(** X12. With an options object, the created, skipped and updated counters
    of [executeImport] never exceed the number of records of the batch; when
    the outcome reports success they account for every order and every
    activity; and without a persistence hook the counters plus the number of
    errors equal the size of the batch. *)
Theorem X12_every_record_is_accounted_for :
  forall host saveData importData duplicateCheck options st,
    isNullish options = false ->
    let r := fst (executeImport host saveData importData duplicateCheck options st) in
    newOrders r + skippedOrders r + updatedOrders r <= List.length (orders importData)
    /\ newActivities r + skippedActivities r + updatedActivities r
       <= List.length (activities importData)
    /\ (success r = true ->
        newOrders r + skippedOrders r + updatedOrders r = List.length (orders importData)
        /\ newActivities r + skippedActivities r + updatedActivities r
           = List.length (activities importData))
    /\ (saveData = None -> accounted r = batchSize importData).
Proof.
  intros host saveData importData duplicateCheck options st Hopt r. subst r.
  destruct (executeImport_stages host saveData importData duplicateCheck options st Hopt)
    as [_ [Hno [Hna [Hso [Hsa [Huo [Hua [Hok Herr]]]]]]]].
  set (dh := js_or (getProp options "duplicateHandling") (JStr "skip")) in *.
  set (o := importOrders host (orders importData) (duplicateOrders duplicateCheck) dh st) in *.
  set (a := importActivities host (activities importData)
              (duplicateActivities duplicateCheck) dh (snd o)) in *.
  pose proof (loop_accounts_for_every_record
                (importOrder host (duplicateOrders duplicateCheck) dh)
                (importOrder_outcome host (duplicateOrders duplicateCheck) dh)
                (orders importData) (mkImportCounts 0 0 0 [], st)) as Ho.
  pose proof (loop_accounts_for_every_record
                (importActivity host (duplicateActivities duplicateCheck) dh)
                (importActivity_outcome host (duplicateActivities duplicateCheck) dh)
                (activities importData) (mkImportCounts 0 0 0 [], snd o)) as Ha.
  change (fold_left _ (orders importData) _) with o in Ho.
  change (fold_left _ (activities importData) _) with a in Ha.
  unfold committed in Ho, Ha. simpl in Ho, Ha.
  rewrite Hno, Hna, Hso, Hsa, Huo, Hua.
  split; [lia|]. split; [lia|]. split.
  - intros Hsuccess. destruct (Hok Hsuccess) as [E1 E2].
    rewrite E1 in Ho. rewrite E2 in Ha. simpl in Ho, Ha. lia.
  - intros Hnone. unfold accounted, batchSize.
    rewrite Hno, Hna, Hso, Hsa, Huo, Hua, (Herr Hnone), length_app. lia.
Qed.

Lemma X12_every_record_is_accounted_for_witness :
  let batch :=
    mkFlatData
      [mkOrder (JStr "existing_order_1") (JStr "Known") (JStr sampleDate);
       mkOrder (JStr "o2") (JStr "   ") (JStr sampleDate);
       mkOrder (JStr "o3") (JStr "Added") (JStr sampleDate)]
      [mkActivity (JStr "a2") (JStr "Task") (JStr "o3") (JStr sampleDate)] in
  let r := fst (runImport batch (policyOptions "skip") mockStore) in
  r = mkImportResult false 1 1 1 0 0 0
        ["オーダー「   」の作成に失敗しました"]
  /\ accounted r = batchSize batch.
Proof.
  intros batch r. split; [reflexivity|].
  apply (X12_every_record_is_accounted_for sampleHost None batch
           (checkDuplicates sampleHost mockStore batch) (policyOptions "skip") mockStore).
  - reflexivity.
  - reflexivity.
Defined.

(** ** Policies that do not overwrite *)

Lemma policy_not_overwrite :
  forall chosen,
    chosen <> JStr "overwrite" ->
    js_eqb (js_or chosen (JStr "skip")) (JStr "overwrite") = false.
Proof.
  intros chosen H. unfold js_or. destruct (truthy chosen).
  - apply js_eqb_neq. exact H.
  - reflexivity.
Qed.

Lemma forallb_setNth :
  forall {A : Type} (p : A -> bool) (l : list A) (i : nat) (x : A),
    forallb p l = true -> p x = true -> forallb p (setNth l i x) = true.
Proof.
  intros A p l. induction l as [|y l IH]; intros i x Hl Hx; simpl in *.
  - reflexivity.
  - apply andb_prop in Hl. destruct Hl as [Hy Hl].
    destruct i as [|i]; simpl.
    + rewrite Hx. exact Hl.
    + rewrite Hy. apply IH; assumption.
Qed.

Lemma forallb_weaken :
  forall {A : Type} (p q : A -> bool) (l : list A),
    (forall x, p x = true -> q x = true) -> forallb p l = true -> forallb q l = true.
Proof.
  intros A p q l H. rewrite !forallb_forall. intros Hp x Hin. apply H, Hp, Hin.
Qed.

(** Under the skip policy one iteration leaves the store alone or
    appends one valid record. *)
Lemma importOrder_skip_store :
  forall host dups dh r s order,
    js_eqb dh (JStr "overwrite") = false ->
    js_eqb dh (JStr "merge") = false ->
    let out := importOrder host dups dh (r, s) order in
    snd out = s
    \/ exists o, snd out = mkStore (storeOrders s ++ [o]) (storeActivities s)
                 /\ Order_isValid host o = true.
Proof.
  intros host dups dh r s order Ho Hm out. subst out.
  destruct (importOrder_store host dups dh r s order) as [[Hs _]|[[[E|E] _]|[Hs _]]].
  - left. exact Hs.
  - congruence.
  - congruence.
  - apply createOrderForImport_success in Hs. destruct Hs as [o [Hs [_ [Hv _]]]].
    right. exists o. auto.
Qed.

Lemma importActivity_skip_store :
  forall host dups dh r s activity,
    js_eqb dh (JStr "overwrite") = false ->
    js_eqb dh (JStr "merge") = false ->
    let out := importActivity host dups dh (r, s) activity in
    snd out = s
    \/ exists a, snd out = mkStore (storeOrders s) (storeActivities s ++ [a])
                 /\ Activity_isValid host a = true
                 /\ set_has (storedOrderIds s) (activity_orderId a) = true.
Proof.
  intros host dups dh r s activity Ho Hm out. subst out.
  destruct (importActivity_store host dups dh r s activity) as [[Hs _]|[[[E|E] _]|[Hs _]]].
  - left. exact Hs.
  - congruence.
  - congruence.
  - apply createActivityForImport_success in Hs.
    destruct Hs as [a [Hs [_ [Hoid [Hv [Hres _]]]]]].
    right. exists a. rewrite Hoid. auto.
Qed.

(** X13. Under any policy other than 'overwrite' and 'merge',
    [executeImport] leaves every stored record as it was and only appends
    records: each appended order passes [Order.isValid], each appended
    activity passes [Activity.isValid] and carries the id of an order of the
    resulting store. *)
Theorem X13_skip_only_appends_valid_records :
  forall host saveData importData duplicateCheck options st,
    getProp options "duplicateHandling" <> JStr "overwrite" ->
    getProp options "duplicateHandling" <> JStr "merge" ->
    let st' := snd (executeImport host saveData importData duplicateCheck options st) in
    exists addedOrders addedActivities,
      storeOrders st' = (storeOrders st ++ addedOrders)%list
      /\ storeActivities st' = (storeActivities st ++ addedActivities)%list
      /\ forallb (Order_isValid host) addedOrders = true
      /\ forallb (Activity_isValid host) addedActivities = true
      /\ forallb (fun a => set_has (storedOrderIds st') (activity_orderId a))
           addedActivities = true.
Proof.
  intros host saveData importData duplicateCheck options st Hno Hnm st'. subst st'.
  destruct (isNullish options) eqn:Hopt.
  - rewrite executeImport_no_options by exact Hopt. exists [], []. simpl.
    rewrite !app_nil_r. repeat split.
  - destruct (executeImport_stages host saveData importData duplicateCheck options st Hopt)
      as [Hs _].
    destruct (effective_policy_not_updating _ Hno Hnm) as [Eo Em].
    set (dh := js_or (getProp options "duplicateHandling") (JStr "skip")) in *.
    rewrite Hs. clear Hs.
    assert (Horders :
              exists added,
                storeOrders (snd (importOrders host (orders importData)
                                    (duplicateOrders duplicateCheck) dh st))
                = (storeOrders st ++ added)%list
                /\ storeActivities (snd (importOrders host (orders importData)
                                           (duplicateOrders duplicateCheck) dh st))
                   = storeActivities st
                /\ forallb (Order_isValid host) added = true).
    { unfold importOrders.
      apply (fold_left_invariant
               (fun acc : ImportCounts * Store =>
                  exists added,
                    storeOrders (snd acc) = (storeOrders st ++ added)%list
                    /\ storeActivities (snd acc) = storeActivities st
                    /\ forallb (Order_isValid host) added = true)).
      - exists []. simpl. rewrite app_nil_r. auto.
      - intros [r s] order [added [Ho [Ha Hv]]]. simpl in Ho, Ha.
        destruct (importOrder_skip_store host (duplicateOrders duplicateCheck) dh r s order
                    Eo Em) as [E|[o [E Hvo]]]; rewrite E.
        + exists added. auto.
        + exists (added ++ [o])%list. simpl. rewrite Ho, <- app_assoc.
          split; [reflexivity|]. split; [exact Ha|].
          rewrite forallb_app, Hv. simpl. rewrite Hvo. reflexivity. }
    destruct Horders as [addedOrders [Ho [Ha Hvo]]].
    set (s1 := snd (importOrders host (orders importData) (duplicateOrders duplicateCheck)
                      dh st)) in *.
    assert (Hacts :
              exists added,
                storeActivities (snd (importActivities host (activities importData)
                                        (duplicateActivities duplicateCheck) dh s1))
                = (storeActivities s1 ++ added)%list
                /\ storeOrders (snd (importActivities host (activities importData)
                                       (duplicateActivities duplicateCheck) dh s1))
                   = storeOrders s1
                /\ forallb (Activity_isValid host) added = true
                /\ forallb (fun a => set_has (storedOrderIds s1) (activity_orderId a)) added
                   = true).
    { unfold importActivities.
      apply (fold_left_invariant
               (fun acc : ImportCounts * Store =>
                  exists added,
                    storeActivities (snd acc) = (storeActivities s1 ++ added)%list
                    /\ storeOrders (snd acc) = storeOrders s1
                    /\ forallb (Activity_isValid host) added = true
                    /\ forallb (fun a => set_has (storedOrderIds s1) (activity_orderId a))
                         added = true)).
      - exists []. simpl. rewrite app_nil_r. auto.
      - intros [r s] activity [added [Hsa [Hso [Hv Hres]]]]. simpl in Hsa, Hso.
        destruct (importActivity_skip_store host (duplicateActivities duplicateCheck) dh r s
                    activity Eo Em) as [E|[a [E [Hva Hra]]]]; rewrite E.
        + exists added. auto.
        + exists (added ++ [a])%list. simpl. rewrite Hsa, <- app_assoc.
          split; [reflexivity|]. split; [exact Hso|].
          rewrite !forallb_app, Hv, Hres. simpl. rewrite Hva.
          unfold storedOrderIds in *. rewrite Hso in Hra. rewrite Hra. auto. }
    destruct Hacts as [addedActivities [Hsa [Hso [Hva Hres]]]].
    exists addedOrders, addedActivities.
    rewrite Hso, Ho, Hsa, Ha. repeat split; try assumption.
    unfold storedOrderIds in *. rewrite Hso. exact Hres.
Qed.

Lemma X13_skip_only_appends_valid_records_witness :
  let batch :=
    mkFlatData
      [mkOrder (JStr "existing_order_1") (JStr "Renamed") (JStr sampleDate);
       mkOrder (JStr "o2") (JStr "Added") (JStr sampleDate)]
      [mkActivity (JStr "a2") (JStr "Task") (JStr "o2") (JStr sampleDate)] in
  let st' := snd (runImport batch (policyOptions "skip") mockStore) in
  storeOrders st'
  = (storeOrders mockStore ++ [mkOrder (JStr "o2") (JStr "Added") (JStr sampleDate)])%list
  /\ exists addedOrders addedActivities,
      storeOrders st' = (storeOrders mockStore ++ addedOrders)%list
      /\ storeActivities st' = (storeActivities mockStore ++ addedActivities)%list
      /\ forallb (Order_isValid sampleHost) addedOrders = true
      /\ forallb (Activity_isValid sampleHost) addedActivities = true
      /\ forallb (fun a => set_has (storedOrderIds st') (activity_orderId a))
           addedActivities = true.
Proof.
  intros batch st'. split; [reflexivity|].
  apply (X13_skip_only_appends_valid_records sampleHost None batch
           (checkDuplicates sampleHost mockStore batch) (policyOptions "skip") mockStore).
  - discriminate.
  - discriminate.
Defined.

(** ** The duplicate detector *)

Lemma fold_left_flat_map :
  forall {A B : Type} (f : A -> list B) (step : list B -> A -> list B),
    (forall found x, step found x = (found ++ f x)%list) ->
    forall l found, fold_left step l found = (found ++ flat_map f l)%list.
Proof.
  intros A B f step Hstep l. induction l as [|x l IH]; intros found; simpl.
  - rewrite app_nil_r. reflexivity.
  - rewrite IH, Hstep, <- app_assoc. reflexivity.
Qed.

Lemma checkDuplicates_entries :
  forall host st importData,
    duplicateOrders (checkDuplicates host st importData)
    = flat_map (orderMatch host st) (orders importData)
    /\ duplicateActivities (checkDuplicates host st importData)
       = flat_map (activityMatch host st) (activities importData).
Proof.
  intros host st importData. unfold checkDuplicates. simpl. split.
  - rewrite (fold_left_flat_map (orderMatch host st)); [reflexivity|].
    intros found x. unfold orderMatch, push.
    destruct (findFirst _ (getAllOrders host st));
      [reflexivity|rewrite app_nil_r; reflexivity].
  - rewrite (fold_left_flat_map (activityMatch host st)); [reflexivity|].
    intros found x. unfold activityMatch, push.
    destruct (findFirst _ (getAllActivities host st));
      [reflexivity|rewrite app_nil_r; reflexivity].
Qed.

Lemma checkDuplicates_reports_real_matches :
  forall host st importData,
    (forall dup,
        In dup (duplicateOrders (checkDuplicates host st importData)) ->
        In (dup_import dup) (orders importData)
        /\ (exists stored,
               In stored (storeOrders st) /\ dup_existing dup = Order_fromJSON host stored)
        /\ ((dup_type dup = "id"
             /\ order_id (dup_existing dup) = order_id (dup_import dup))
            \/ (dup_type dup = "name"
                /\ order_id (dup_existing dup) <> order_id (dup_import dup)
                /\ order_name (dup_existing dup) = order_name (dup_import dup))))
    /\ (forall dup,
           In dup (duplicateActivities (checkDuplicates host st importData)) ->
           In (dup_import dup) (activities importData)
           /\ (exists stored,
                  In stored (storeActivities st)
                  /\ dup_existing dup = Activity_fromJSON host stored)
           /\ ((dup_type dup = "id"
                /\ activity_id (dup_existing dup) = activity_id (dup_import dup))
               \/ (dup_type dup = "name"
                   /\ activity_id (dup_existing dup) <> activity_id (dup_import dup)
                   /\ activity_orderId (dup_existing dup) = activity_orderId (dup_import dup)
                   /\ activity_name (dup_existing dup) = activity_name (dup_import dup)))).
Proof.
  intros host st importData.
  destruct (checkDuplicates_entries host st importData) as [Eo Ea].
  split.
  - intros dup Hin. rewrite Eo in Hin. apply in_flat_map in Hin.
    destruct Hin as [o [Ho Hin]]. unfold orderMatch in Hin.
    rewrite getAllOrders_find in Hin.
    destruct (findFirst _ (storeOrders st)) as [stored|] eqn:Efind; [|contradiction].
    destruct Hin as [<-|[]]. simpl.
    apply findFirst_some in Efind. destruct Efind as [Hex Hp].
    split; [exact Ho|]. split; [exists stored; split; [exact Hex|reflexivity]|].
    destruct (js_eqb (order_id stored) (order_id o)) eqn:Eid.
    + left. split; [reflexivity|]. apply js_eqb_true. exact Eid.
    + right. split; [reflexivity|]. simpl in Hp. split.
      * intros Heq. rewrite Heq, js_eqb_refl in Eid. discriminate.
      * apply js_eqb_true. exact Hp.
  - intros dup Hin. rewrite Ea in Hin. apply in_flat_map in Hin.
    destruct Hin as [a [Ha' Hin]]. unfold activityMatch in Hin.
    rewrite getAllActivities_find in Hin.
    destruct (findFirst _ (storeActivities st)) as [stored|] eqn:Efind; [|contradiction].
    destruct Hin as [<-|[]]. simpl.
    apply findFirst_some in Efind. destruct Efind as [Hex Hp].
    split; [exact Ha'|]. split; [exists stored; split; [exact Hex|reflexivity]|].
    destruct (js_eqb (activity_id stored) (activity_id a)) eqn:Eid.
    + left. split; [reflexivity|]. apply js_eqb_true. exact Eid.
    + right. split; [reflexivity|]. simpl in Hp.
      apply andb_prop in Hp. destruct Hp as [H1 H2]. split; [|split].
      * intros Heq. rewrite Heq, js_eqb_refl in Eid. discriminate.
      * apply js_eqb_true. exact H1.
      * apply js_eqb_true. exact H2.
Qed.

(** X7. Every entry that [checkDuplicates] reports pairs a record of the
    batch with the instance that [getAllOrders] (or [getAllActivities])
    rebuilds from a record of the store: the stored id, name and order id,
    and the stored timestamp or, when the record has none, the current
    time.  Its type is 'id' when the two ids are equal and 'name'
    otherwise, in which case the names are equal (for activities, the order
    ids as well). *)
Theorem X7_checkDuplicates_reports_real_matches :
  forall host st importData,
    (forall dup,
        In dup (duplicateOrders (checkDuplicates host st importData)) ->
        In (dup_import dup) (orders importData)
        /\ (exists stored,
               In stored (storeOrders st) /\ dup_existing dup = Order_fromJSON host stored)
        /\ ((dup_type dup = "id"
             /\ order_id (dup_existing dup) = order_id (dup_import dup))
            \/ (dup_type dup = "name"
                /\ order_id (dup_existing dup) <> order_id (dup_import dup)
                /\ order_name (dup_existing dup) = order_name (dup_import dup))))
    /\ (forall dup,
           In dup (duplicateActivities (checkDuplicates host st importData)) ->
           In (dup_import dup) (activities importData)
           /\ (exists stored,
                  In stored (storeActivities st)
                  /\ dup_existing dup = Activity_fromJSON host stored)
           /\ ((dup_type dup = "id"
                /\ activity_id (dup_existing dup) = activity_id (dup_import dup))
               \/ (dup_type dup = "name"
                   /\ activity_id (dup_existing dup) <> activity_id (dup_import dup)
                   /\ activity_orderId (dup_existing dup) = activity_orderId (dup_import dup)
                   /\ activity_name (dup_existing dup) = activity_name (dup_import dup)))).
Proof. exact checkDuplicates_reports_real_matches. Qed.

Lemma X7_checkDuplicates_reports_real_matches_witness :
  let undated := mkStore [mkOrder (JStr "oX") (JStr "Alpha") JUndef] [] in
  let dup :=
    mkDuplicateRecord (mkOrder (JStr "o1") (JStr "Alpha") (JStr sampleDate))
      (mkOrder (JStr "oX") (JStr "Alpha") (JStr sampleNow)) "name" in
  (exists stored,
      In stored (storeOrders undated) /\ dup_existing dup = Order_fromJSON sampleHost stored)
  /\ order_name (dup_existing dup) = order_name (dup_import dup).
Proof.
  intros undated dup.
  destruct (X7_checkDuplicates_reports_real_matches sampleHost undated renamingBatch)
    as [H _].
  destruct (H dup) as [_ [Hex [[Ht _]|[_ [_ Hname]]]]].
  - left. reflexivity.
  - discriminate Ht.
  - split; [exact Hex|exact Hname].
Defined.

Lemma flat_map_nil :
  forall {A B : Type} (f : A -> list B) (l : list A),
    flat_map f l = [] <-> forall x, In x l -> f x = [].
Proof.
  intros A B f l. induction l as [|y l IH]; simpl.
  - split; [intros _ x []|reflexivity].
  - split.
    + intros H. apply app_eq_nil in H. destruct H as [Hy Hl].
      intros x [<-|Hin]; [exact Hy|apply IH; assumption].
    + intros H. rewrite (H y (or_introl eq_refl)). simpl. apply IH.
      intros x Hin. apply H. right. exact Hin.
Qed.

Lemma orderMatch_nil :
  forall host st o,
    orderMatch host st o = [] <->
    forall e, In e (storeOrders st) ->
              order_id e <> order_id o /\ order_name e <> order_name o.
Proof.
  intros host st o. unfold orderMatch. rewrite getAllOrders_find.
  destruct (findFirst _ (storeOrders st)) as [e|] eqn:Efind; cbn [option_map].
  - split; [discriminate|]. intros H. exfalso.
    apply findFirst_some in Efind. destruct Efind as [Hin Hp].
    destruct (H e Hin) as [H1 H2]. simpl in Hp. apply orb_prop in Hp.
    destruct Hp as [Hp|Hp]; apply js_eqb_true in Hp; contradiction.
  - split; [|reflexivity]. intros _ e Hin.
    pose proof (findFirst_none _ _ Efind e Hin) as Hp. simpl in Hp.
    apply orb_false_elim in Hp. destruct Hp as [H1 H2].
    split; intros Heq; rewrite Heq, js_eqb_refl in *; discriminate.
Qed.

Lemma activityMatch_nil :
  forall host st a,
    activityMatch host st a = [] <->
    forall e, In e (storeActivities st) ->
              activity_id e <> activity_id a
              /\ ~ (activity_orderId e = activity_orderId a
                    /\ activity_name e = activity_name a).
Proof.
  intros host st a. unfold activityMatch. rewrite getAllActivities_find.
  destruct (findFirst _ (storeActivities st)) as [e|] eqn:Efind; cbn [option_map].
  - split; [discriminate|]. intros H. exfalso.
    apply findFirst_some in Efind. destruct Efind as [Hin Hp].
    destruct (H e Hin) as [H1 H2]. simpl in Hp. apply orb_prop in Hp.
    destruct Hp as [Hp|Hp].
    + apply js_eqb_true in Hp. contradiction.
    + apply andb_prop in Hp. destruct Hp as [Hp1 Hp2].
      apply js_eqb_true in Hp1. apply js_eqb_true in Hp2. apply H2. auto.
  - split; [|reflexivity]. intros _ e Hin.
    pose proof (findFirst_none _ _ Efind e Hin) as Hp. simpl in Hp.
    apply orb_false_elim in Hp. destruct Hp as [H1 H2]. split.
    + intros Heq. rewrite Heq, js_eqb_refl in H1. discriminate.
    + intros [Heq1 Heq2]. rewrite Heq1, Heq2, !js_eqb_refl in H2. discriminate.
Qed.

Lemma checkDuplicates_finds_every_match :
  forall host st importData,
    (forall importOrder existing,
        In importOrder (orders importData) ->
        In existing (storeOrders st) ->
        order_id existing = order_id importOrder
        \/ order_name existing = order_name importOrder ->
        set_has (duplicateOrderIds (duplicateOrders (checkDuplicates host st importData)))
          (order_id importOrder) = true)
    /\ (forall importActivity existing,
           In importActivity (activities importData) ->
           In existing (storeActivities st) ->
           activity_id existing = activity_id importActivity
           \/ (activity_orderId existing = activity_orderId importActivity
               /\ activity_name existing = activity_name importActivity) ->
           set_has
             (duplicateActivityIds (duplicateActivities (checkDuplicates host st importData)))
             (activity_id importActivity) = true)
    /\ (hasDuplicates (checkDuplicates host st importData) = false <->
        (forall importOrder existing,
            In importOrder (orders importData) -> In existing (storeOrders st) ->
            order_id existing <> order_id importOrder
            /\ order_name existing <> order_name importOrder)
        /\ (forall importActivity existing,
               In importActivity (activities importData) ->
               In existing (storeActivities st) ->
               activity_id existing <> activity_id importActivity
               /\ ~ (activity_orderId existing = activity_orderId importActivity
                     /\ activity_name existing = activity_name importActivity))).
Proof.
  intros host st importData. destruct (checkDuplicates_entries host st importData) as [Eo Ea].
  split; [|split].
  - intros o e Ho He Hmatch.
    destruct (orderMatch host st o) as [|dup rest] eqn:Ematch.
    + exfalso. destruct (proj1 (orderMatch_nil host st o) Ematch e He) as [H1 H2].
      destruct Hmatch; contradiction.
    + assert (Himp : dup_import dup = o).
      { unfold orderMatch in Ematch.
        destruct (findFirst _ (getAllOrders host st)); [|discriminate].
        inversion Ematch. reflexivity. }
      apply set_has_In. unfold duplicateOrderIds. rewrite Eo. apply in_map_iff.
      exists dup. rewrite Himp. split; [reflexivity|].
      apply in_flat_map. exists o. split; [exact Ho|]. rewrite Ematch. left. reflexivity.
  - intros a e Ha' He Hmatch.
    destruct (activityMatch host st a) as [|dup rest] eqn:Ematch.
    + exfalso. destruct (proj1 (activityMatch_nil host st a) Ematch e He) as [H1 H2].
      destruct Hmatch; contradiction.
    + assert (Himp : dup_import dup = a).
      { unfold activityMatch in Ematch.
        destruct (findFirst _ (getAllActivities host st)); [|discriminate].
        inversion Ematch. reflexivity. }
      apply set_has_In. unfold duplicateActivityIds. rewrite Ea. apply in_map_iff.
      exists dup. rewrite Himp. split; [reflexivity|].
      apply in_flat_map. exists a. split; [exact Ha'|]. rewrite Ematch. left. reflexivity.
  - unfold checkDuplicates at 1. cbn [hasDuplicates].
    change (fold_left _ (orders importData) []) with
      (duplicateOrders (checkDuplicates host st importData)).
    change (fold_left _ (activities importData) []) with
      (duplicateActivities (checkDuplicates host st importData)).
    rewrite Eo, Ea. split.
    + intros H. apply orb_false_elim in H. destruct H as [H1 H2]. split.
      * intros o e Ho He. apply (proj1 (orderMatch_nil host st o)); [|exact He].
        destruct (flat_map (orderMatch host st) (orders importData)) eqn:E; [|discriminate].
        apply (proj1 (flat_map_nil _ _) E o Ho).
      * intros a e Ha' He. apply (proj1 (activityMatch_nil host st a)); [|exact He].
        destruct (flat_map (activityMatch host st) (activities importData)) eqn:E; [|discriminate].
        apply (proj1 (flat_map_nil _ _) E a Ha').
    + intros [H1 H2].
      assert (E1 : flat_map (orderMatch host st) (orders importData) = []).
      { apply flat_map_nil. intros o Ho. apply orderMatch_nil.
        intros e He. apply H1; assumption. }
      assert (E2 : flat_map (activityMatch host st) (activities importData) = []).
      { apply flat_map_nil. intros a Ha'. apply activityMatch_nil.
        intros e He. apply H2; assumption. }
      rewrite E1, E2. reflexivity.
Qed.

(** X8. Every order of the batch that has the id or the name of a stored
    order, and every activity that has the id, or the order id and the name,
    of a stored activity, is among the duplicates that the import loops look
    up by id; [hasDuplicates] is false exactly when no record of the batch
    matches any stored record. *)
Theorem X8_checkDuplicates_finds_every_match :
  forall host st importData,
    (forall importOrder existing,
        In importOrder (orders importData) ->
        In existing (storeOrders st) ->
        order_id existing = order_id importOrder
        \/ order_name existing = order_name importOrder ->
        set_has (duplicateOrderIds (duplicateOrders (checkDuplicates host st importData)))
          (order_id importOrder) = true)
    /\ (forall importActivity existing,
           In importActivity (activities importData) ->
           In existing (storeActivities st) ->
           activity_id existing = activity_id importActivity
           \/ (activity_orderId existing = activity_orderId importActivity
               /\ activity_name existing = activity_name importActivity) ->
           set_has
             (duplicateActivityIds (duplicateActivities (checkDuplicates host st importData)))
             (activity_id importActivity) = true)
    /\ (hasDuplicates (checkDuplicates host st importData) = false <->
        (forall importOrder existing,
            In importOrder (orders importData) -> In existing (storeOrders st) ->
            order_id existing <> order_id importOrder
            /\ order_name existing <> order_name importOrder)
        /\ (forall importActivity existing,
               In importActivity (activities importData) ->
               In existing (storeActivities st) ->
               activity_id existing <> activity_id importActivity
               /\ ~ (activity_orderId existing = activity_orderId importActivity
                     /\ activity_name existing = activity_name importActivity))).
Proof. exact checkDuplicates_finds_every_match. Qed.

Lemma X8_checkDuplicates_finds_every_match_witness :
  let renamed := mkOrder (JStr "o9") (JStr "既存オーダー1") (JStr sampleDate) in
  let batch := mkFlatData [renamed] [] in
  set_has (duplicateOrderIds (duplicateOrders (checkDuplicates sampleHost mockStore batch)))
    (JStr "o9") = true.
Proof.
  intros renamed batch.
  destruct (X8_checkDuplicates_finds_every_match sampleHost mockStore batch) as [H _].
  apply (H renamed (mkOrder (JStr "existing_order_1") (JStr "既存オーダー1") (JStr sampleDate))).
  - left. reflexivity.
  - left. reflexivity.
  - right. reflexivity.
Defined.

(** ** Lookup after update *)

Lemma findIndex_some :
  forall {A : Type} (p : A -> bool) (l : list A) (i : nat) (d : A),
    findIndex p l = Some i ->
    i < List.length l /\ p (nth i l d) = true /\ findFirst p l = Some (nth i l d).
Proof.
  intros A p l. induction l as [|y l IH]; intros i d H; simpl in H.
  - discriminate.
  - simpl findFirst. destruct (p y) eqn:E.
    + inversion H; subst. simpl. repeat split; [lia|exact E].
    + destruct (findIndex p l) as [j|] eqn:Ej; [|discriminate].
      inversion H; subst. destruct (IH j d eq_refl) as [Hlt [Hp Hf]].
      simpl. repeat split; [lia|exact Hp|exact Hf].
Qed.

Lemma findIndex_none :
  forall {A : Type} (p : A -> bool) (l : list A),
    findIndex p l = None <-> findFirst p l = None.
Proof.
  intros A p l. induction l as [|y l IH]; simpl.
  - split; reflexivity.
  - destruct (p y); [split; discriminate|].
    destruct (findIndex p l); simpl.
    + split; [discriminate|]. intros H. apply IH in H. discriminate.
    + split; [intros _; apply IH; reflexivity|reflexivity].
Qed.

Lemma findFirst_setNth_hit :
  forall {A : Type} (p : A -> bool) (l : list A) (i : nat) (x : A),
    findIndex p l = Some i -> p x = true -> findFirst p (setNth l i x) = Some x.
Proof.
  intros A p l. induction l as [|y l IH]; intros i x H Hx; simpl in H.
  - discriminate.
  - destruct (p y) eqn:E.
    + inversion H; subst. simpl. rewrite Hx. reflexivity.
    + destruct (findIndex p l) as [j|] eqn:Ej; [|discriminate].
      inversion H; subst. simpl. rewrite E. apply IH; [reflexivity|exact Hx].
Qed.

Lemma findFirst_setNth_miss :
  forall {A : Type} (q : A -> bool) (l : list A) (i : nat) (x d : A),
    i < List.length l -> q (nth i l d) = false -> q x = false ->
    findFirst q (setNth l i x) = findFirst q l.
Proof.
  intros A q l. induction l as [|y l IH]; intros i x d Hlt Hold Hnew; simpl in *.
  - lia.
  - destruct i as [|i]; simpl.
    + rewrite Hold, Hnew. reflexivity.
    + destruct (q y); [reflexivity|]. apply (IH i x d); [lia|assumption|assumption].
Qed.

Lemma update_then_lookup :
  forall st id name createdAt,
    let byId := fun wanted (order : FlatOrder) => js_eqb (order_id order) wanted in
    let st' := updateOrder st id name createdAt in
    (findFirst (byId id) (storeOrders st) = None -> st' = st)
    /\ (forall old,
           findFirst (byId id) (storeOrders st) = Some old ->
           findFirst (byId id) (storeOrders st') = Some (mkOrder id name createdAt)
           /\ (forall other,
                  other <> id ->
                  findFirst (byId other) (storeOrders st')
                  = findFirst (byId other) (storeOrders st))
           /\ List.length (storeOrders st') = List.length (storeOrders st)
           /\ storeActivities st' = storeActivities st).
Proof.
  intros st id name createdAt byId st'. subst st'. unfold updateOrder. split.
  - intros Hnone. apply findIndex_none in Hnone. fold (byId id). rewrite Hnone. reflexivity.
  - intros old Hold. fold (byId id).
    destruct (findIndex (byId id) (storeOrders st)) as [index|] eqn:Eindex.
    2:{ apply findIndex_none in Eindex. congruence. }
    destruct (findIndex_some _ _ _ (mkOrder id name createdAt) Eindex) as [Hlt [Hp Hf]].
    unfold byId in Hp. apply js_eqb_true in Hp. simpl storeOrders. rewrite Hp.
    split; [|split; [|split]].
    + apply findFirst_setNth_hit; [exact Eindex|]. unfold byId. simpl. apply js_eqb_refl.
    + intros other Hother.
      apply (findFirst_setNth_miss _ _ _ _ (mkOrder id name createdAt) Hlt).
      * unfold byId. rewrite Hp. apply js_eqb_neq. congruence.
      * unfold byId. simpl. apply js_eqb_neq. congruence.
    + apply setNth_length.
    + reflexivity.
Qed.

(** X9. [updateOrder] with an id absent from the store changes nothing; with
    an id that is present, looking that id up afterwards gives the record
    with that id and the new name and timestamp, lookups of other ids give
    what they gave before, and neither the number of orders nor the
    activities change. *)
Theorem X9_update_then_lookup :
  forall st id name createdAt,
    let byId := fun wanted (order : FlatOrder) => js_eqb (order_id order) wanted in
    let st' := updateOrder st id name createdAt in
    (findFirst (byId id) (storeOrders st) = None -> st' = st)
    /\ (forall old,
           findFirst (byId id) (storeOrders st) = Some old ->
           findFirst (byId id) (storeOrders st') = Some (mkOrder id name createdAt)
           /\ (forall other,
                  other <> id ->
                  findFirst (byId other) (storeOrders st')
                  = findFirst (byId other) (storeOrders st))
           /\ List.length (storeOrders st') = List.length (storeOrders st)
           /\ storeActivities st' = storeActivities st).
Proof. exact update_then_lookup. Qed.

Lemma X9_update_then_lookup_witness :
  findFirst (fun order => js_eqb (order_id order) (JStr "o1"))
    (storeOrders (updateOrder twoOrderStore (JStr "o1") (JStr "Gamma") (JStr sampleDate)))
  = Some (mkOrder (JStr "o1") (JStr "Gamma") (JStr sampleDate))
  /\ updateOrder twoOrderStore (JStr "o7") (JStr "Gamma") (JStr sampleDate) = twoOrderStore.
Proof.
  split.
  - destruct (X9_update_then_lookup twoOrderStore (JStr "o1") (JStr "Gamma") (JStr sampleDate))
      as [_ H].
    destruct (H (mkOrder (JStr "o1") (JStr "Beta") (JStr "2023-03-03T00:00:00Z")) eq_refl)
      as [Hfound _].
    exact Hfound.
  - destruct (X9_update_then_lookup twoOrderStore (JStr "o7") (JStr "Gamma") (JStr sampleDate))
      as [H _].
    apply H. reflexivity.
Defined.

(** ** Referential integrity of the store *)

Lemma updateActivity_resolved :
  forall st id name orderId createdAt,
    referencesResolve st = true ->
    set_has (storedOrderIds st) orderId = true ->
    referencesResolve (updateActivity st id name orderId createdAt) = true.
Proof.
  intros st id name orderId createdAt Hst Hid. unfold updateActivity.
  destruct (findIndex _ (storeActivities st)) as [index|]; [|exact Hst].
  unfold referencesResolve, storedOrderIds in *. simpl.
  apply forallb_setNth; [exact Hst|exact Hid].
Qed.

(** Under a policy other than overwrite, an iteration of the activity
    loop leaves the store alone, writes the fields of a detected match over
    the record with the import's id, or appends a created record. *)
Lemma importActivity_store_not_overwrite :
  forall host dups dh r s activity,
    js_eqb dh (JStr "overwrite") = false ->
    let out := importActivity host dups dh (r, s) activity in
    snd out = s
    \/ (exists dup,
           In dup dups
           /\ snd out =
              updateActivity s (activity_id activity) (activity_name (dup_existing dup))
                (activity_orderId (dup_existing dup)) (activity_createdAt (dup_existing dup)))
    \/ createActivityForImport host s activity = (true, snd out).
Proof.
  intros host dups dh r s activity Ho out. subst out. unfold importActivity.
  destruct (set_has _ _).
  - rewrite Ho. destruct (js_eqb dh (JStr "merge")).
    + destruct (findFirst _ dups) as [dup|] eqn:Efind.
      * right. left. exists dup. apply findFirst_some in Efind. simpl. tauto.
      * left. reflexivity.
    + left. reflexivity.
  - pose proof (createActivityForImport_failure_keeps_store host s activity) as K.
    destruct (createActivityForImport host s activity) as [ok s'] eqn:E. destruct ok.
    + right. right. reflexivity.
    + left. simpl in *. auto.
Qed.

(** X14. If every stored activity carries the id of a stored order, this
    still holds after [executeImport] run with the duplicates found by
    [checkDuplicates] on that store, under any policy other than
    'overwrite'. *)
Theorem X14_import_keeps_references_resolved :
  forall host saveData importData options st,
    getProp options "duplicateHandling" <> JStr "overwrite" ->
    referencesResolve st = true ->
    referencesResolve
      (snd (executeImport host saveData importData (checkDuplicates host st importData) options st))
    = true.
Proof.
  intros host saveData importData options st Hno Hst.
  destruct (isNullish options) eqn:Hopt.
  - rewrite executeImport_no_options by exact Hopt. exact Hst.
  - destruct (executeImport_stages host saveData importData (checkDuplicates host st importData)
                options st Hopt) as [Hs _].
    pose proof (policy_not_overwrite _ Hno) as Eo.
    set (dh := js_or (getProp options "duplicateHandling") (JStr "skip")) in *.
    set (dups := checkDuplicates host st importData) in *.
    rewrite Hs. clear Hs.
    destruct (importOrders_ids host (orders importData) (duplicateOrders dups) dh st)
      as [fo [Hio [_ [Hao _]]]].
    set (s1 := snd (importOrders host (orders importData) (duplicateOrders dups) dh st)) in *.
    assert (Hgrow : forall x, set_has (storedOrderIds st) x = true ->
                              set_has (storedOrderIds s1) x = true).
    { intros x Hx. rewrite Hio. apply set_has_app. exact Hx. }
    assert (Hs1 : referencesResolve s1 = true).
    { unfold referencesResolve in *. rewrite Hao.
      apply (forallb_weaken _ _ _ (fun a => Hgrow (activity_orderId a)) Hst). }
    unfold importActivities.
    refine (proj2
              (fold_left_invariant
                 (fun acc : ImportCounts * Store =>
                    storeOrders (snd acc) = storeOrders s1
                    /\ referencesResolve (snd acc) = true)
                 (importActivity host (duplicateActivities dups) dh)
                 (activities importData) (mkImportCounts 0 0 0 [], s1)
                 (conj eq_refl Hs1) _)).
    intros [r s] activity [Hso Hres]. simpl in Hso, Hres.
    destruct (importActivity_store_not_overwrite host (duplicateActivities dups) dh r s
                activity Eo) as [E|[[dup [Hdup E]]|E]].
    + rewrite E. auto.
    + rewrite E. split.
      * rewrite (proj2 (updateActivity_ids _ _ _ _ _)). exact Hso.
      * apply updateActivity_resolved; [exact Hres|].
        destruct (checkDuplicates_reports_real_matches host st importData) as [_ Hsound].
        destruct (Hsound dup Hdup) as [_ [[stored [Hex Hcopy]] _]].
        rewrite Hcopy. cbn [Activity_fromJSON activity_orderId].
        unfold storedOrderIds. rewrite Hso. apply Hgrow.
        unfold referencesResolve in Hst. rewrite forallb_forall in Hst.
        apply (Hst _ Hex).
    + apply createActivityForImport_success in E.
      destruct E as [a [E [_ [Hoid [_ [Hin _]]]]]]. rewrite E. simpl. split; [exact Hso|].
      unfold referencesResolve, storedOrderIds in *. simpl.
      rewrite forallb_app, Hres. simpl. rewrite Hoid, Hin. reflexivity.
Qed.

Lemma X14_import_keeps_references_resolved_witness :
  let batch :=
    mkFlatData
      [mkOrder (JStr "o2") (JStr "Added") (JStr sampleDate)]
      [mkActivity (JStr "existing_activity_1") (JStr "Moved") (JStr "o7") (JStr sampleDate);
       mkActivity (JStr "a2") (JStr "Task") (JStr "o2") (JStr sampleDate)] in
  referencesResolve (snd (runImport batch mergeOptions mockStore)) = true.
Proof.
  intros batch.
  apply (X14_import_keeps_references_resolved sampleHost None batch mergeOptions mockStore).
  - discriminate.
  - reflexivity.
Defined.

(** Overwriting writes the import's own order id, resolved or not. *)
Example overwrite_can_leave_a_dangling_activity :
  let batch :=
    mkFlatData []
      [mkActivity (JStr "existing_activity_1") (JStr "Moved") (JStr "o7") (JStr sampleDate)] in
  referencesResolve mockStore = true
  /\ referencesResolve (snd (runImport batch (policyOptions "overwrite") mockStore)) = false.
Proof. split; reflexivity. Qed.

(** ** Merging a record matched by id *)

Lemma findIndex_app_l :
  forall {A : Type} (p : A -> bool) (l more : list A) (i : nat),
    findIndex p l = Some i -> findIndex p (l ++ more) = Some i.
Proof.
  intros A p l more. induction l as [|y l IH]; intros i H; simpl in *.
  - discriminate.
  - destruct (p y); [exact H|].
    destruct (findIndex p l) as [j|]; [|discriminate].
    rewrite (IH j eq_refl). exact H.
Qed.

Lemma setNth_app_l :
  forall {A : Type} (l more : list A) (i : nat) (x : A),
    i < List.length l -> setNth (l ++ more) i x = (setNth l i x ++ more)%list.
Proof.
  intros A l more. induction l as [|y l IH]; intros i x Hlt; simpl in *.
  - lia.
  - destruct i as [|i]; simpl; [reflexivity|]. rewrite IH by lia. reflexivity.
Qed.

Section RelatedLists.
Context {A : Type} (R : A -> A -> Prop).

Lemma Forall2_findIndex :
  forall (p : A -> bool) (l k : list A),
    Forall2 R l k -> (forall a b, R a b -> p b = p a) -> findIndex p k = findIndex p l.
Proof.
  intros p l k H Hp. induction H as [|a b l k Hab Hlk IH]; simpl.
  - reflexivity.
  - rewrite (Hp a b Hab), IH. reflexivity.
Qed.

Lemma Forall2_nth_related :
  forall (l k : list A) (i : nat) (d : A),
    Forall2 R l k -> i < List.length l -> R (nth i l d) (nth i k d).
Proof.
  intros l k i d H. revert i. induction H as [|a b l k Hab Hlk IH]; intros i Hlt; simpl in *.
  - lia.
  - destruct i as [|i]; [exact Hab|apply IH; lia].
Qed.

Lemma Forall2_setNth :
  forall (l k : list A) (i : nat) (x d : A),
    Forall2 R l k -> R (nth i l d) x -> Forall2 R l (setNth k i x).
Proof.
  intros l k i x d H. revert i. induction H as [|a b l k Hab Hlk IH]; intros i Hx; simpl in *.
  - constructor.
  - destruct i as [|i]; constructor; auto.
Qed.

Lemma Forall2_equal :
  forall (l k : list A),
    Forall2 R l k -> (forall a b, In a l -> R a b -> b = a) -> k = l.
Proof.
  intros l k H Heq. induction H as [|a b l k Hab Hlk IH]; [reflexivity|].
  rewrite (Heq a b (or_introl eq_refl) Hab). f_equal. apply IH.
  intros a' b' Hin. apply Heq. right. exact Hin.
Qed.

Lemma Forall2_same : (forall a, R a a) -> forall l, Forall2 R l l.
Proof. intros Hrefl l. induction l; constructor; auto. Qed.
End RelatedLists.

Lemma keptOrder_id :
  forall host old new, keptOrder host old new -> order_id new = order_id old.
Proof. intros host old new [->| ->]; reflexivity. Qed.

Lemma keptActivity_id :
  forall host old new, keptActivity host old new -> activity_id new = activity_id old.
Proof. intros host old new [->| ->]; reflexivity. Qed.

Lemma orderMatch_origin :
  forall host st importData dup,
    In dup (duplicateOrders (checkDuplicates host st importData)) ->
    orderMatch host st (dup_import dup) = [dup].
Proof.
  intros host st importData dup Hin.
  rewrite (proj1 (checkDuplicates_entries host st importData)) in Hin.
  apply in_flat_map in Hin. destruct Hin as [o [_ Hin]].
  unfold orderMatch in Hin.
  destruct (findFirst _ (getAllOrders host st)) as [e|] eqn:Efind; [|contradiction].
  destruct Hin as [<-|[]]. unfold orderMatch. simpl dup_import. rewrite Efind. reflexivity.
Qed.

Lemma activityMatch_origin :
  forall host st importData dup,
    In dup (duplicateActivities (checkDuplicates host st importData)) ->
    activityMatch host st (dup_import dup) = [dup].
Proof.
  intros host st importData dup Hin.
  rewrite (proj2 (checkDuplicates_entries host st importData)) in Hin.
  apply in_flat_map in Hin. destruct Hin as [a [_ Hin]].
  unfold activityMatch in Hin.
  destruct (findFirst _ (getAllActivities host st)) as [e|] eqn:Efind; [|contradiction].
  destruct Hin as [<-|[]]. unfold activityMatch. simpl dup_import. rewrite Efind.
  reflexivity.
Qed.

(** Writing the fields of an id match over the record with that id
    replaces that record by the instance rebuilt from it, also after
    records were appended to the store. *)
Lemma updateOrder_with_id_match :
  forall host st importData dup s kept added id,
    In dup (duplicateOrders (checkDuplicates host st importData)) ->
    dup_type dup = "id" ->
    js_eqb (order_id (dup_import dup)) id = true ->
    storeOrders s = (kept ++ added)%list ->
    Forall2 (keptOrder host) (storeOrders st) kept ->
    exists kept',
      updateOrder s id (order_name (dup_existing dup)) (order_createdAt (dup_existing dup))
      = mkStore (kept' ++ added) (storeActivities s)
      /\ Forall2 (keptOrder host) (storeOrders st) kept'.
Proof.
  intros host st importData dup s kept added id Hin Htype Hid Hs Hkept.
  apply js_eqb_true in Hid. subst id.
  pose proof (orderMatch_origin host st importData dup Hin) as Horigin.
  unfold orderMatch in Horigin. rewrite getAllOrders_find in Horigin.
  destruct (findFirst _ (storeOrders st)) as [stored|] eqn:Efind; [|discriminate].
  cbn [option_map] in Horigin.
  inversion Horigin as [Hdup]. rewrite <- Hdup in Htype. simpl in Htype.
  assert (Heq : js_eqb (order_id stored) (order_id (dup_import dup)) = true).
  { destruct (js_eqb (order_id stored) (order_id (dup_import dup)));
      [reflexivity|discriminate]. }
  rewrite <- Hdup. simpl dup_existing. simpl dup_import in *.
  set (imp := dup_import dup) in *.
  set (q := fun order : FlatOrder => js_eqb (order_id order) (order_id imp)).
  set (d := mkOrder (order_id imp) (order_name (Order_fromJSON host stored))
              (order_createdAt (Order_fromJSON host stored))).
  destruct (findIndex_of_findFirst _ q (storeOrders st) stored d
              (fun y H => orb_true_intro _ _ (or_introl H)) Efind Heq)
    as [i [Hi [Hlt Hnth]]].
  assert (Hlen : List.length kept = List.length (storeOrders st)).
  { symmetry. apply (Forall2_length Hkept). }
  assert (Hik : findIndex q kept = Some i).
  { rewrite (Forall2_findIndex (keptOrder host) q _ _ Hkept); [exact Hi|].
    intros a b Hab. unfold q. rewrite (keptOrder_id host a b Hab). reflexivity. }
  pose proof (Forall2_nth_related (keptOrder host) _ _ i d Hkept Hlt) as Hrel.
  rewrite Hnth in Hrel. apply keptOrder_id in Hrel.
  exists (setNth kept i (Order_fromJSON host stored)). split.
  - unfold updateOrder. fold q. rewrite Hs, (findIndex_app_l _ _ added _ Hik).
    fold d. rewrite (app_nth1 _ added d) by lia. rewrite Hrel.
    rewrite setNth_app_l by lia. reflexivity.
  - apply (Forall2_setNth (keptOrder host) _ _ i _ d Hkept).
    rewrite Hnth. right. reflexivity.
Qed.

Lemma updateActivity_with_id_match :
  forall host st importData dup s kept added id,
    In dup (duplicateActivities (checkDuplicates host st importData)) ->
    dup_type dup = "id" ->
    js_eqb (activity_id (dup_import dup)) id = true ->
    storeActivities s = (kept ++ added)%list ->
    Forall2 (keptActivity host) (storeActivities st) kept ->
    exists kept',
      updateActivity s id (activity_name (dup_existing dup))
        (activity_orderId (dup_existing dup)) (activity_createdAt (dup_existing dup))
      = mkStore (storeOrders s) (kept' ++ added)
      /\ Forall2 (keptActivity host) (storeActivities st) kept'.
Proof.
  intros host st importData dup s kept added id Hin Htype Hid Hs Hkept.
  apply js_eqb_true in Hid. subst id.
  pose proof (activityMatch_origin host st importData dup Hin) as Horigin.
  unfold activityMatch in Horigin. rewrite getAllActivities_find in Horigin.
  destruct (findFirst _ (storeActivities st)) as [stored|] eqn:Efind; [|discriminate].
  cbn [option_map] in Horigin.
  inversion Horigin as [Hdup]. rewrite <- Hdup in Htype. simpl in Htype.
  assert (Heq : js_eqb (activity_id stored) (activity_id (dup_import dup)) = true).
  { destruct (js_eqb (activity_id stored) (activity_id (dup_import dup)));
      [reflexivity|discriminate]. }
  rewrite <- Hdup. simpl dup_existing. simpl dup_import in *.
  set (imp := dup_import dup) in *.
  set (q := fun activity : FlatActivity => js_eqb (activity_id activity) (activity_id imp)).
  set (d := mkActivity (activity_id imp) (activity_name (Activity_fromJSON host stored))
              (activity_orderId (Activity_fromJSON host stored))
              (activity_createdAt (Activity_fromJSON host stored))).
  destruct (findIndex_of_findFirst _ q (storeActivities st) stored d
              (fun y H => orb_true_intro _ _ (or_introl H)) Efind Heq)
    as [i [Hi [Hlt Hnth]]].
  assert (Hlen : List.length kept = List.length (storeActivities st)).
  { symmetry. apply (Forall2_length Hkept). }
  assert (Hik : findIndex q kept = Some i).
  { rewrite (Forall2_findIndex (keptActivity host) q _ _ Hkept); [exact Hi|].
    intros a b Hab. unfold q. rewrite (keptActivity_id host a b Hab). reflexivity. }
  pose proof (Forall2_nth_related (keptActivity host) _ _ i d Hkept Hlt) as Hrel.
  rewrite Hnth in Hrel. apply keptActivity_id in Hrel.
  exists (setNth kept i (Activity_fromJSON host stored)). split.
  - unfold updateActivity. fold q. rewrite Hs, (findIndex_app_l _ _ added _ Hik).
    fold d. rewrite (app_nth1 _ added d) by lia. rewrite Hrel.
    rewrite setNth_app_l by lia. reflexivity.
  - apply (Forall2_setNth (keptActivity host) _ _ i _ d Hkept).
    rewrite Hnth. right. reflexivity.
Qed.

(** X15. Under the 'merge' policy, when every duplicate found by
    [checkDuplicates] is a match by id, [executeImport] keeps the stored
    records in place and only appends records: each stored record is as it
    was or as the instance [getAllOrders] (or [getAllActivities]) rebuilds
    from it, that is, with the current time for a missing timestamp.  When
    every stored record has a timestamp, the stored records are unchanged. *)
Theorem X15_merge_of_id_matches_stamps_and_appends :
  forall host saveData importData st,
    let found := checkDuplicates host st importData in
    matchedById (duplicateOrders found) = true ->
    matchedById (duplicateActivities found) = true ->
    let st' := snd (executeImport host saveData importData found mergeOptions st) in
    exists keptOrders addedOrders keptActivities addedActivities,
      storeOrders st' = (keptOrders ++ addedOrders)%list
      /\ storeActivities st' = (keptActivities ++ addedActivities)%list
      /\ Forall2 (keptOrder host) (storeOrders st) keptOrders
      /\ Forall2 (keptActivity host) (storeActivities st) keptActivities
      /\ ((forall order, In order (storeOrders st) -> order_createdAt order <> JUndef) ->
          keptOrders = storeOrders st)
      /\ ((forall activity,
              In activity (storeActivities st) -> activity_createdAt activity <> JUndef) ->
          keptActivities = storeActivities st).
Proof.
  intros host saveData importData st found Hord Hact st'. subst st'.
  destruct (executeImport_stages host saveData importData found mergeOptions st eq_refl)
    as [Hs _].
  change (js_or (getProp mergeOptions "duplicateHandling") (JStr "skip"))
    with (JStr "merge") in Hs.
  rewrite Hs. clear Hs.
  assert (Horders :
            exists kept added,
              storeOrders (snd (importOrders host (orders importData)
                                  (duplicateOrders found) (JStr "merge") st))
              = (kept ++ added)%list
              /\ Forall2 (keptOrder host) (storeOrders st) kept
              /\ storeActivities (snd (importOrders host (orders importData)
                                         (duplicateOrders found) (JStr "merge") st))
                 = storeActivities st).
  { unfold importOrders.
    apply (fold_left_invariant
             (fun acc : ImportCounts * Store =>
                exists kept added,
                  storeOrders (snd acc) = (kept ++ added)%list
                  /\ Forall2 (keptOrder host) (storeOrders st) kept
                  /\ storeActivities (snd acc) = storeActivities st)).
    - exists (storeOrders st), []. simpl. rewrite app_nil_r.
      split; [reflexivity|]. split; [|reflexivity].
      apply Forall2_same. intros a. left. reflexivity.
    - intros [r s] order [kept [added [Ho [Hk Ha]]]]. simpl in Ho, Ha.
      unfold importOrder. destruct (set_has _ _).
      + change (js_eqb (JStr "merge") (JStr "overwrite")) with false.
        change (js_eqb (JStr "merge") (JStr "merge")) with true. cbv iota.
        destruct (findFirst _ (duplicateOrders found)) as [dup|] eqn:Efind.
        * apply findFirst_some in Efind. destruct Efind as [Hin Hid]. simpl snd.
          unfold matchedById in Hord. rewrite forallb_forall in Hord.
          pose proof (Hord dup Hin) as Htype. apply String.eqb_eq in Htype.
          destruct (updateOrder_with_id_match host st importData dup s kept added
                      (order_id order) Hin Htype Hid Ho Hk) as [kept' [Hu Hk']].
          rewrite Hu. exists kept', added. simpl. auto.
        * exists kept, added. auto.
      + pose proof (createOrderForImport_failure_keeps_store host s order) as K.
        destruct (createOrderForImport host s order) as [ok s'] eqn:E. destruct ok.
        * apply createOrderForImport_success in E. destruct E as [o [E _]].
          simpl snd. rewrite E. simpl. exists kept, (added ++ [o])%list.
          rewrite Ho, <- app_assoc. auto.
        * simpl in K. simpl snd. rewrite (K eq_refl). exists kept, added. auto. }
  destruct Horders as [keptOrders [addedOrders [Ho [Hko Ha]]]].
  set (s1 := snd (importOrders host (orders importData) (duplicateOrders found)
                    (JStr "merge") st)) in *.
  assert (Hacts :
            exists kept added,
              storeActivities (snd (importActivities host (activities importData)
                                      (duplicateActivities found) (JStr "merge") s1))
              = (kept ++ added)%list
              /\ Forall2 (keptActivity host) (storeActivities st) kept
              /\ storeOrders (snd (importActivities host (activities importData)
                                     (duplicateActivities found) (JStr "merge") s1))
                 = storeOrders s1).
  { unfold importActivities.
    apply (fold_left_invariant
             (fun acc : ImportCounts * Store =>
                exists kept added,
                  storeActivities (snd acc) = (kept ++ added)%list
                  /\ Forall2 (keptActivity host) (storeActivities st) kept
                  /\ storeOrders (snd acc) = storeOrders s1)).
    - exists (storeActivities st), []. simpl. rewrite app_nil_r.
      split; [exact Ha|]. split; [|reflexivity].
      apply Forall2_same. intros a. left. reflexivity.
    - intros [r s] activity [kept [added [Hsa [Hk Hso]]]]. simpl in Hsa, Hso.
      unfold importActivity. destruct (set_has _ _).
      + change (js_eqb (JStr "merge") (JStr "overwrite")) with false.
        change (js_eqb (JStr "merge") (JStr "merge")) with true. cbv iota.
        destruct (findFirst _ (duplicateActivities found)) as [dup|] eqn:Efind.
        * apply findFirst_some in Efind. destruct Efind as [Hin Hid]. simpl snd.
          unfold matchedById in Hact. rewrite forallb_forall in Hact.
          pose proof (Hact dup Hin) as Htype. apply String.eqb_eq in Htype.
          destruct (updateActivity_with_id_match host st importData dup s kept added
                      (activity_id activity) Hin Htype Hid Hsa Hk) as [kept' [Hu Hk']].
          rewrite Hu. exists kept', added. simpl. auto.
        * exists kept, added. auto.
      + pose proof (createActivityForImport_failure_keeps_store host s activity) as K.
        destruct (createActivityForImport host s activity) as [ok s'] eqn:E. destruct ok.
        * apply createActivityForImport_success in E. destruct E as [a [E _]].
          simpl snd. rewrite E. simpl. exists kept, (added ++ [a])%list.
          rewrite Hsa, <- app_assoc. auto.
        * simpl in K. simpl snd. rewrite (K eq_refl). exists kept, added. auto. }
  destruct Hacts as [keptActivities [addedActivities [Hsa [Hka Hso]]]].
  exists keptOrders, addedOrders, keptActivities, addedActivities.
  rewrite Hso, Ho, Hsa.
  split; [reflexivity|]. split; [reflexivity|]. split; [exact Hko|]. split; [exact Hka|].
  split.
  - intros Hdated. apply (Forall2_equal (keptOrder host) _ _ Hko).
    intros a b Hin [->| ->]; [reflexivity|].
    apply Order_fromJSON_dated. apply Hdated. exact Hin.
  - intros Hdated. apply (Forall2_equal (keptActivity host) _ _ Hka).
    intros a b Hin [->| ->]; [reflexivity|].
    apply Activity_fromJSON_dated. apply Hdated. exact Hin.
Qed.

Lemma X15_merge_of_id_matches_stamps_and_appends_witness :
  let batch :=
    mkFlatData
      [mkOrder (JStr "existing_order_1") (JStr "Renamed") (JStr sampleDate);
       mkOrder (JStr "o2") (JStr "Added") (JStr sampleDate)]
      [mkActivity (JStr "existing_activity_1") (JStr "Moved") (JStr "o2") (JStr sampleDate)] in
  let out := runImport batch mergeOptions mockStore in
  fst out = mkImportResult true 1 0 0 0 1 1 []
  /\ exists keptOrders addedOrders keptActivities addedActivities,
      storeOrders (snd out) = (keptOrders ++ addedOrders)%list
      /\ storeActivities (snd out) = (keptActivities ++ addedActivities)%list
      /\ Forall2 (keptOrder sampleHost) (storeOrders mockStore) keptOrders
      /\ Forall2 (keptActivity sampleHost) (storeActivities mockStore) keptActivities
      /\ ((forall order,
              In order (storeOrders mockStore) -> order_createdAt order <> JUndef) ->
          keptOrders = storeOrders mockStore)
      /\ ((forall activity,
              In activity (storeActivities mockStore) ->
              activity_createdAt activity <> JUndef) ->
          keptActivities = storeActivities mockStore).
Proof.
  intros batch out. split; [reflexivity|].
  apply (X15_merge_of_id_matches_stamps_and_appends sampleHost None batch mockStore).
  - reflexivity.
  - reflexivity.
Defined.

(** The merge of an id match writes the current time into a stored order
    that has no timestamp. *)
Example merge_of_an_id_match_stamps_an_undated_order :
  let batch := mkFlatData [mkOrder (JStr "o1") (JStr "Renamed") (JStr sampleDate)] [] in
  matchedById (duplicateOrders (checkDuplicates sampleHost undatedStore batch)) = true
  /\ runImport batch mergeOptions undatedStore
     = (mkImportResult true 0 0 0 0 1 0 [],
        mkStore [mkOrder (JStr "o1") (JStr "Beta") (JStr sampleNow)] []).
Proof. split; reflexivity. Qed.

(** ** The normalizer's output is closed *)

Lemma js_or_truthy :
  forall a b, truthy b = true -> truthy (js_or a b) = true.
Proof.
  intros a b H. unfold js_or. destruct (truthy a) eqn:E; [exact E|exact H].
Qed.

Lemma entryOrder_id_truthy :
  forall host entry, truthy (order_id (entryOrder host entry)) = true.
Proof.
  intros host [index order]. unfold entryOrder, flatOrderOf. simpl.
  apply js_or_truthy. reflexivity.
Qed.

Lemma orphansFrom_none :
  forall ids l i,
    (forall a, In a l -> dangling ids a = false) -> orphansFrom ids l i = [].
Proof.
  intros ids l. induction l as [|a l IH]; intros i H; simpl.
  - reflexivity.
  - rewrite (H a (or_introl eq_refl)). simpl. apply IH.
    intros b Hb. apply H. right. exact Hb.
Qed.

Lemma normalized_activities_reference_their_order :
  forall host data flat,
    convertNestedToFlat host data = Normal flat ->
    (forall activity,
        In activity (activities flat) ->
        truthy (activity_orderId activity) = true
        /\ exists order, In order (orders flat) /\ order_id order = activity_orderId activity)
    /\ rel_orphanedActivities (analyzeRelationships (orders flat) (activities flat)) = []
    /\ rel_isValid (analyzeRelationships (orders flat) (activities flat)) = true
    /\ orphanedActivities (validateDataIntegrity host (orders flat) (activities flat)) = [].
Proof.
  intros host data flat Hflat.
  assert (Hclosed : forall activity,
             In activity (activities flat) ->
             truthy (activity_orderId activity) = true
             /\ exists order, In order (orders flat)
                              /\ order_id order = activity_orderId activity).
  { destruct (isNullish data) eqn:Hdata.
    { unfold convertNestedToFlat, readProp in Hflat. rewrite Hdata in Hflat. discriminate. }
    destruct (getProp data "orders") as [| | | | |items|] eqn:Horders;
      try (unfold convertNestedToFlat, readProp in Hflat;
           rewrite Hdata, Horders in Hflat; simpl in Hflat;
           repeat match type of Hflat with
                  | context [if ?b then _ else _] => destruct b
                  end;
           inversion Hflat; subst; intros activity []).
    rewrite (convertNestedToFlat_orders host data items Hdata Horders) in Hflat.
    inversion Hflat; subst. cbn [orders activities]. intros activity Hin.
    apply in_flat_map in Hin. destruct Hin as [entry [Hentry Hin]].
    rewrite (embeddedActivities_orderId host entry activity Hin).
    split; [apply entryOrder_id_truthy|].
    exists (entryOrder host entry). split; [|reflexivity].
    apply in_map. exact Hentry. }
  assert (Hnone : orphansFrom (map order_id (orders flat)) (activities flat) 0 = []).
  { apply orphansFrom_none. intros a Hin. destruct (Hclosed a Hin) as [_ [o [Ho Hid]]].
    unfold dangling.
    assert (Hhas : set_has (map order_id (orders flat)) (activity_orderId a) = true).
    { apply set_has_In. rewrite <- Hid. apply in_map. exact Ho. }
    rewrite Hhas. apply andb_false_r. }
  destruct (analyzeRelationships_orphans (orders flat) (activities flat)) as [Ho [Hv _]].
  rewrite Hnone in Ho, Hv.
  split; [exact Hclosed|]. split; [exact Ho|]. split; [exact Hv|].
  destruct (validateDataIntegrity_shape host (orders flat) (activities flat)) as [H _].
  rewrite H. exact Ho.
Qed.

(** X3. In the batch returned by [convertNestedToFlat], every activity has a
    non-empty order id which is the id of an order of the batch; the
    relationship analysis of that batch is therefore valid and finds no
    orphaned activity. *)
Theorem X3_normalized_activities_reference_their_order :
  forall host data flat,
    convertNestedToFlat host data = Normal flat ->
    (forall activity,
        In activity (activities flat) ->
        truthy (activity_orderId activity) = true
        /\ exists order, In order (orders flat) /\ order_id order = activity_orderId activity)
    /\ rel_orphanedActivities (analyzeRelationships (orders flat) (activities flat)) = []
    /\ rel_isValid (analyzeRelationships (orders flat) (activities flat)) = true
    /\ orphanedActivities (validateDataIntegrity host (orders flat) (activities flat)) = [].
Proof. exact normalized_activities_reference_their_order. Qed.

Lemma X3_normalized_activities_reference_their_order_witness :
  let doc :=
    JObj [("orders",
           JArr [JObj [("name", JStr "Unnamed id");
                       ("activities", JArr [JObj [("name", JStr "Task")]; JNull])]])] in
  convertNestedToFlat sampleHost doc =
  Normal
    (mkFlatData
       [mkOrder (JStr "generated_order_0") (JStr "Unnamed id") (JStr sampleNow)]
       [mkActivity (JStr "generated_activity_0_0") (JStr "Task") (JStr "generated_order_0")
          (JStr sampleNow)])
  /\ orphanedActivities
       (validateDataIntegrity sampleHost
          [mkOrder (JStr "generated_order_0") (JStr "Unnamed id") (JStr sampleNow)]
          [mkActivity (JStr "generated_activity_0_0") (JStr "Task")
             (JStr "generated_order_0") (JStr sampleNow)]) = [].
Proof.
  intros doc. split; [reflexivity|].
  destruct (X3_normalized_activities_reference_their_order sampleHost doc _ eq_refl)
    as [_ [_ [_ H]]].
  exact H.
Defined.

(** ** Coherence of the verdicts *)

Lemma coherent_ok : coherent okVerdict.
Proof. reflexivity. Qed.

Lemma coherent_fail : forall r msg, coherent (fail r msg).
Proof. intros r msg. unfold coherent, fail. simpl. destruct (errors r); reflexivity. Qed.

Lemma coherent_warn : forall r msg, coherent r -> coherent (warn r msg).
Proof. intros r msg H. exact H. Qed.

Lemma coherent_warnings :
  forall r ws, coherent r -> coherent (mkVerdict (isValid r) (errors r) ws).
Proof. intros r ws H. exact H. Qed.

Lemma coherent_absorb :
  forall r sub, coherent r -> coherent sub -> coherent (absorb r sub).
Proof.
  intros r sub Hr Hsub. unfold absorb. destruct (isValid sub) eqn:E; [exact Hr|].
  unfold coherent in *. rewrite E in Hsub. unfold failAll. simpl.
  destruct (errors sub); [discriminate|]. destruct (errors r); reflexivity.
Qed.

Lemma coherent_forEach_absorb :
  forall (f : jsval -> nat -> Verdict) (l : list jsval) (i : nat) (r : Verdict),
    (forall x j, coherent (f x j)) -> coherent r ->
    coherent (forEachFrom (fun r x index => absorb r (f x index)) l i r).
Proof.
  intros f l. induction l as [|x l IH]; intros i r Hf Hr; simpl.
  - exact Hr.
  - apply IH; [exact Hf|]. apply coherent_absorb; [exact Hr|apply Hf].
Qed.

Lemma coherent_validateRootStructure : forall data, coherent (validateRootStructure data).
Proof.
  intros data. unfold validateRootStructure.
  repeat match goal with
         | |- context [if ?b then _ else _] => destruct b
         end; try apply coherent_fail; apply coherent_ok.
Qed.

Lemma coherent_validateRequiredProperties :
  forall data, coherent (validateRequiredProperties data).
Proof.
  intros data. unfold validateRequiredProperties, requiredProperties. simpl fold_left.
  assert (H : forall r : Verdict, coherent r ->
                coherent
                  (if Nat.ltb 0
                        (List.length
                           (filter (fun key => negb (includes (["orders"] ++ optionalProperties) key))
                              (objectKeys data)))
                   then mkVerdict (isValid r) (errors r)
                          ["予期しないプロパティが含まれています: "
                             ++ joinStrings ", "
                                  (filter
                                     (fun key =>
                                        negb (includes (["orders"] ++ optionalProperties) key))
                                     (objectKeys data))]
                   else r)).
  { intros r Hr. destruct (Nat.ltb 0 _); [exact Hr|exact Hr]. }
  apply H.
  repeat match goal with
         | |- context [if ?b then _ else _] => destruct b
         end; try apply coherent_fail; apply coherent_ok.
Qed.

Lemma coherent_checkRequiredFields :
  forall pre item fields r, coherent r -> coherent (checkRequiredFields pre item fields r).
Proof.
  intros pre item fields. unfold checkRequiredFields.
  induction fields as [|[f t] fields IH]; intros r Hr; simpl.
  - exact Hr.
  - apply IH.
    repeat match goal with
           | |- context [if ?b then _ else _] => destruct b
           end; try apply coherent_fail; exact Hr.
Qed.

Lemma coherent_validateActivitySchemaTypes :
  forall activity index parentPrefix,
    coherent (validateActivitySchemaTypes activity index parentPrefix).
Proof.
  intros activity index parentPrefix. unfold validateActivitySchemaTypes.
  destruct (_ || _); [apply coherent_fail|].
  apply coherent_checkRequiredFields, coherent_ok.
Qed.

Lemma coherent_validateNestedOrderSchemaTypes :
  forall order index, coherent (validateNestedOrderSchemaTypes order index).
Proof.
  intros order index. unfold validateNestedOrderSchemaTypes.
  destruct (_ || _); [apply coherent_fail|].
  destruct (hasProp "activities" order).
  - destruct (negb (isArray _)); [apply coherent_fail|].
    unfold forEach.
    apply (coherent_forEach_absorb
             (fun activity actIndex =>
                validateActivitySchemaTypes activity actIndex
                  ("オーダー[" ++ string_of_nat index ++ "]"))).
    + intros x j. apply coherent_validateActivitySchemaTypes.
    + apply coherent_checkRequiredFields, coherent_ok.
  - apply coherent_checkRequiredFields, coherent_ok.
Qed.

Lemma coherent_validateSchemaDataTypes :
  forall data, coherent (validateSchemaDataTypes data).
Proof.
  intros data. unfold validateSchemaDataTypes.
  destruct (hasProp "exportedAt" data && _); [apply coherent_fail|].
  destruct (hasProp "version" data && _); [apply coherent_fail|].
  destruct (truthy (getProp data "orders") && isArray (getProp data "orders")).
  - unfold forEach. apply (coherent_forEach_absorb validateNestedOrderSchemaTypes).
    + intros x j. apply coherent_validateNestedOrderSchemaTypes.
    + apply coherent_ok.
  - apply coherent_ok.
Qed.

Lemma coherent_lengthCheck :
  forall host v max msg r, coherent r -> coherent (lengthCheck host v max msg r).
Proof.
  intros host v max msg r Hr. unfold lengthCheck.
  destruct (_ && _); [apply coherent_fail|exact Hr].
Qed.

(** A property kept by every iteration that returns holds when the loop
    returns. *)
Lemma forEachThrowFrom_invariant :
  forall {A St : Type} (P : St -> Prop) (f : St -> A -> nat -> completion St) (l : list A),
    (forall s x i s', P s -> f s x i = Normal s' -> P s') ->
    forall i s s', P s -> forEachThrowFrom f l i s = Normal s' -> P s'.
Proof.
  intros A St P f l Hstep. induction l as [|x l IH]; intros i s s' Hs H; simpl in H.
  - inversion H; subst. exact Hs.
  - destruct (f s x i) as [s1|m] eqn:E; simpl in H; [|discriminate].
    apply (IH (S i) s1 s'); [apply (Hstep s x i s1 Hs E)|exact H].
Qed.

Lemma coherent_validateStringConstraints :
  forall host data v, validateStringConstraints host data = Normal v -> coherent v.
Proof.
  intros host data v. unfold validateStringConstraints.
  match goal with
  | |- bind ?c _ = _ -> _ => destruct c as [r1|m] eqn:E1
  end; simpl; [|discriminate].
  assert (Hr1 : coherent r1).
  { destruct (truthy (getProp data "orders") && isArray (getProp data "orders")).
    - unfold forEachThrow in E1.
      refine (forEachThrowFrom_invariant coherent _ _ _ 0 okVerdict r1 coherent_ok E1).
      intros s x i s' Hs Hstep. unfold readProp in Hstep.
      destruct (isNullish x); simpl in Hstep; [discriminate|].
      inversion Hstep; subst. apply coherent_lengthCheck, coherent_lengthCheck, Hs.
    - inversion E1; subst. apply coherent_ok. }
  destruct (truthy (getProp data "activities") && isArray (getProp data "activities")).
  - unfold forEachThrow. intros E2.
    refine (forEachThrowFrom_invariant coherent _ _ _ 0 r1 v Hr1 E2).
    intros s x i s' Hs Hstep. unfold readProp in Hstep.
    destruct (isNullish x); simpl in Hstep; [discriminate|].
    inversion Hstep; subst.
    apply coherent_lengthCheck, coherent_lengthCheck, coherent_lengthCheck, Hs.
  - intros E2. inversion E2; subst. exact Hr1.
Qed.

Lemma coherent_validateSchemaConstraints :
  forall host data, coherent (validateSchemaConstraints host data).
Proof.
  intros host data. unfold validateSchemaConstraints. cbv zeta.
  match goal with
  | |- coherent (match _ with
                 | Normal s => absorb ?r s
                 | Throw m => _ end) => assert (Hr : coherent r)
  end.
  { repeat match goal with
           | |- context [if ?b then _ else _] => destruct b
           end;
      repeat first [apply coherent_fail | apply coherent_warn | apply coherent_ok]. }
  destruct (validateStringConstraints host data) as [v|m] eqn:E.
  - apply coherent_absorb; [exact Hr|].
    apply (coherent_validateStringConstraints host data v E).
  - apply coherent_fail.
Qed.

Lemma coherent_validateJSONSchema :
  forall host data, coherent (schemaVerdict (validateJSONSchema host data)).
Proof.
  intros host data. unfold validateJSONSchema. cbv zeta.
  pose proof (coherent_validateRootStructure data) as Hroot.
  destruct (isValid (validateRootStructure data)) eqn:E; simpl negb; cbv iota.
  - simpl schemaVerdict. unfold coherent. simpl.
    fold (coherent
            (absorb
               (absorb (absorb okVerdict (validateRequiredProperties data))
                  (validateSchemaDataTypes data))
               (validateSchemaConstraints host data))).
    apply coherent_absorb; [|apply coherent_validateSchemaConstraints].
    apply coherent_absorb; [|apply coherent_validateSchemaDataTypes].
    apply coherent_absorb; [apply coherent_ok|apply coherent_validateRequiredProperties].
  - simpl schemaVerdict. unfold coherent in *. rewrite E in Hroot. unfold failAll. simpl.
    destruct (errors (validateRootStructure data)); [discriminate|reflexivity].
Qed.

Lemma validation_result_is_coherent :
  forall host data,
    exists v,
      validateImportData host data = Normal v
      /\ (isValid (validation v) = true <-> errors (validation v) = [])
      /\ (isValid (validation v) = false \/ exists flat, flattenedData v = Some flat).
Proof.
  intros host data. destruct (validateImportData_returns host data) as [v [Hv _]].
  exists v. split; [exact Hv|]. unfold validateImportData in Hv.
  pose proof (coherent_validateJSONSchema host data) as Hschema.
  destruct (isValid (schemaVerdict (validateJSONSchema host data))) eqn:E;
    simpl negb in Hv; cbv iota in Hv.
  - destruct (convertNestedToFlat host data) as [flat|m]; simpl in Hv; [|discriminate].
    inversion Hv; subst; clear Hv. simpl.
    match goal with
    | |- (Nat.eqb (List.length ?errs) 0 = true <-> _) /\ _ => destruct errs as [|e es]
    end; simpl.
    + split; [tauto|eauto].
    + split; [split; discriminate|eauto].
  - inversion Hv; subst; clear Hv. simpl.
    unfold coherent in Hschema. rewrite E in Hschema.
    destruct (errors (schemaVerdict (validateJSONSchema host data))); [discriminate|].
    split; [split; discriminate|auto].
Qed.

(** X1. [validateImportData] returns on every parsed value (it never
    throws), and its result is valid exactly when its errors array is empty;
    a valid result always carries the flattened batch. *)
Theorem X1_validation_result_is_coherent :
  forall host data,
    exists v,
      validateImportData host data = Normal v
      /\ (isValid (validation v) = true <-> errors (validation v) = [])
      /\ (isValid (validation v) = false \/ exists flat, flattenedData v = Some flat).
Proof. exact validation_result_is_coherent. Qed.

(** ** How an import ends *)

(** X4. [importFromJSON] ends in one of three ways: the text does not parse
    and the store is untouched; validation fails, the error carries an
    invalid result with at least one error message and the store is
    untouched; or validation succeeds with a flattened batch and the store
    is the one left by [executeImport], the outcome being returned unless
    the persistence hook fails. *)
Theorem X4_import_ends_in_one_of_three_ways :
  forall host saveData jsonString options st,
    let out := importFromJSON host saveData jsonString options st in
    let given := match options with JUndef => JObj [] | _ => options end in
    (exists message, parseJSON host jsonString = Throw message
                     /\ out = (OtherError message, st))
    \/ (exists v, out = (ValidationError v, st)
                  /\ isValid (validation v) = false
                  /\ errors (validation v) <> [])
    \/ (exists data v flat,
           parseJSON host jsonString = Normal data
           /\ validateImportData host data = Normal v
           /\ isValid (validation v) = true
           /\ flattenedData v = Some flat
           /\ snd out
              = snd (executeImport host saveData flat (checkDuplicates host st flat) given st)
           /\ (fst out
               = Returned
                   (fst (executeImport host saveData flat (checkDuplicates host st flat) given st))
               \/ exists save message,
                   saveData = Some save
                   /\ save (snd out) = Some message
                   /\ fst out = OtherError message)).
Proof.
  intros host saveData jsonString options st out given. subst out.
  unfold importFromJSON. fold given.
  destruct (parseJSON host jsonString) as [data|m]; [|left; eauto].
  destruct (validation_result_is_coherent host data) as [v [Hv [Hiff Hflat]]].
  rewrite Hv. destruct (isValid (validation v)) eqn:E; simpl negb; cbv iota.
  - right. right. destruct Hflat as [Hflat|[flat Hflat]]; [discriminate|].
    rewrite Hflat. exists data, v, flat.
    destruct (executeImport host saveData flat (checkDuplicates host st flat) given st)
      as [r st'] eqn:Erun.
    destruct saveData as [save|].
    + destruct (success r).
      * destruct (save st') as [message|] eqn:Esave; simpl.
        -- repeat split; auto. right. exists save, message. auto.
        -- repeat split; auto.
      * simpl. repeat split; auto.
    + simpl. repeat split; auto.
  - right. left. exists v. split; [reflexivity|]. split; [exact E|].
    intros Hnil. apply Hiff in Hnil. discriminate.
Qed.

(** ** Documents without an [orders] array *)

Lemma validateRequiredProperties_orders :
  forall data,
    isArray (getProp data "orders") = false ->
    isValid (validateRequiredProperties data) = false.
Proof.
  intros data H. unfold validateRequiredProperties, requiredProperties. simpl fold_left.
  rewrite H. simpl negb.
  destruct (Nat.ltb 0 _); destruct (negb (hasProp "orders" data)); reflexivity.
Qed.

(** X2. A document whose [orders] property is missing or is not an array is
    rejected by [validateImportData]: the result is invalid, lists at least
    one error, and carries no flattened batch. *)
Theorem X2_document_without_orders_array_is_rejected :
  forall host data,
    isArray (getProp data "orders") = false ->
    exists v,
      validateImportData host data = Normal v
      /\ isValid (validation v) = false
      /\ errors (validation v) <> []
      /\ flattenedData v = None.
Proof.
  intros host data Horders.
  assert (Hschema : isValid (schemaVerdict (validateJSONSchema host data)) = false).
  { unfold validateJSONSchema. cbv zeta.
    destruct (isValid (validateRootStructure data)); simpl negb; cbv iota.
    - simpl. rewrite !absorb_valid, (validateRequiredProperties_orders data Horders).
      reflexivity.
    - reflexivity. }
  destruct (validation_result_is_coherent host data) as [v [Hv [Hiff _]]].
  exists v. split; [exact Hv|].
  assert (Hshape : isValid (validation v) = false /\ flattenedData v = None).
  { unfold validateImportData in Hv. rewrite Hschema in Hv. simpl in Hv.
    inversion Hv; subst. auto. }
  destruct Hshape as [Hinvalid Hnone].
  split; [exact Hinvalid|]. split; [|exact Hnone].
  intros Hnil. apply Hiff in Hnil. congruence.
Qed.

Lemma X2_document_without_orders_array_is_rejected_witness :
  exists v,
    validateImportData sampleHost
      (JObj [("version", JStr "1.0.0"); ("orders", JObj [("0", sampleOrderJs "o1" "Order")])])
    = Normal v
    /\ isValid (validation v) = false
    /\ errors (validation v) <> []
    /\ flattenedData v = None.
Proof.
  apply (X2_document_without_orders_array_is_rejected sampleHost).
  reflexivity.
Defined.

(** ** Duplicate ids within the batch *)

Lemma NoDup_snoc :
  forall {A : Type} (l : list A) (x : A),
    NoDup (l ++ [x]) <-> NoDup l /\ ~ In x l.
Proof.
  intros A l x. induction l as [|y l IH]; simpl.
  - split.
    + intros _. split; [constructor|intros []].
    + intros _. repeat constructor. intros [].
  - split.
    + intros H. inversion H as [|a b Hy Hl]; subst.
      apply IH in Hl. destruct Hl as [Hl Hx]. split.
      * constructor; [|exact Hl]. intros Hin. apply Hy. apply in_or_app. left. exact Hin.
      * intros [Heq|Hin]; [|contradiction]. subst. apply Hy. apply in_or_app. right.
        left. reflexivity.
    + intros [H Hx]. inversion H as [|a b Hy Hl]; subst. constructor.
      * intros Hin. apply in_app_or in Hin. destruct Hin as [Hin|[Heq|[]]].
        -- contradiction.
        -- subst. apply Hx. left. reflexivity.
      * apply IH. split; [exact Hl|]. intros Hin. apply Hx. right. exact Hin.
Qed.

Section DuplicateScan.
Context {A : Type} (idOf : A -> jsval) (scan : DupScan -> A -> nat -> DupScan).
Hypothesis scan_cases :
  forall m found valid x i,
    (exists k entry,
        map_get m (idOf x) = Some k
        /\ scan (m, found, valid) x i = (m, (found ++ [entry])%list, false))
    \/ (map_get m (idOf x) = None
        /\ scan (m, found, valid) x i = (map_set m (idOf x) i, found, valid)).

Lemma scan_keeps_scanned :
  forall l i seen st,
    scanned seen st -> scanned (seen ++ map idOf l) (forEachFrom scan l i st).
Proof.
  induction l as [|x l IH]; intros i seen st Hst; simpl.
  - rewrite app_nil_r. exact Hst.
  - replace (seen ++ idOf x :: map idOf l)%list with ((seen ++ [idOf x]) ++ map idOf l)%list
      by (rewrite <- app_assoc; reflexivity).
    apply IH. destruct st as [[m found] valid]. destruct Hst as [Hmap Hfound].
    destruct (scan_cases m found valid x i) as [[k [entry [Hget E]]]|[Hget E]]; rewrite E.
    + assert (Hin : In (idOf x) seen).
      { apply Hmap. unfold map_has. rewrite Hget. reflexivity. }
      split.
      * intros q. rewrite Hmap. split.
        -- intros H. apply in_or_app. left. exact H.
        -- intros H. apply in_app_or in H. destruct H as [H|[<-|[]]]; assumption.
      * split.
        -- intros H. destruct found; discriminate.
        -- intros H. apply NoDup_snoc in H. destruct H as [_ H]. contradiction.
    + assert (Hnot : ~ In (idOf x) seen).
      { intros Hin. apply Hmap in Hin. unfold map_has in Hin. rewrite Hget in Hin.
        discriminate. }
      split.
      * intros q. unfold map_has. rewrite map_get_set.
        destruct (js_eqb (idOf x) q) eqn:Eq.
        -- apply js_eqb_true in Eq. subst q. split; [|reflexivity].
           intros _. apply in_or_app. right. left. reflexivity.
        -- fold (map_has m q). rewrite Hmap. split.
           ++ intros H. apply in_or_app. left. exact H.
           ++ intros H. apply in_app_or in H. destruct H as [H|[Heq|[]]]; [exact H|].
              subst q. rewrite js_eqb_refl in Eq. discriminate.
      * rewrite Hfound, NoDup_snoc. tauto.
Qed.
End DuplicateScan.

Lemma scanOrderId_cases :
  forall all m found valid x i,
    (exists k entry,
        map_get m (order_id x) = Some k
        /\ scanOrderId all (m, found, valid) x i = (m, (found ++ [entry])%list, false))
    \/ (map_get m (order_id x) = None
        /\ scanOrderId all (m, found, valid) x i = (map_set m (order_id x) i, found, valid)).
Proof.
  intros all m found valid x i. unfold scanOrderId, push.
  destruct (map_get m (order_id x)) as [k|]; [left; eauto|right; auto].
Qed.

Lemma scanActivityId_cases :
  forall all m found valid x i,
    (exists k entry,
        map_get m (activity_id x) = Some k
        /\ scanActivityId all (m, found, valid) x i = (m, (found ++ [entry])%list, false))
    \/ (map_get m (activity_id x) = None
        /\ scanActivityId all (m, found, valid) x i
           = (map_set m (activity_id x) i, found, valid)).
Proof.
  intros all m found valid x i. unfold scanActivityId, push.
  destruct (map_get m (activity_id x)) as [k|]; [left; eauto|right; auto].
Qed.

Lemma batch_is_free_of_duplicate_ids_iff :
  forall orders activities,
    let r := analyzeIdDuplicates orders activities in
    (orderIds r = [] <-> NoDup (map order_id orders))
    /\ (activityIds r = [] <-> NoDup (map activity_id activities))
    /\ (isValid (idVerdict r) = true <->
        NoDup (map order_id orders) /\ NoDup (map activity_id activities)).
Proof.
  intros orders activities r.
  assert (Hstart : forall valid, scanned [] (([] : jsmap nat), ([] : list DuplicateInfo), valid)).
  { intros valid. split.
    - intros k. split; [discriminate|intros []].
    - split; [constructor|reflexivity]. }
  pose proof (scan_keeps_scanned order_id (scanOrderId orders) (scanOrderId_cases orders)
                orders 0 [] _ (Hstart true)) as Ho.
  destruct (analyzeIdDuplicates_verdict orders activities) as [Hvalid _].
  fold r in Hvalid. subst r. unfold analyzeIdDuplicates, forEach in *.
  destruct (forEachFrom (scanOrderId orders) orders 0 _) as [[m1 f1] v1].
  pose proof (scan_keeps_scanned activity_id (scanActivityId activities)
                (scanActivityId_cases activities) activities 0 [] _ (Hstart v1)) as Ha.
  destruct (forEachFrom (scanActivityId activities) activities 0 _) as [[m2 f2] v2].
  simpl in Ho, Ha, Hvalid. simpl.
  destruct Ho as [_ Ho]. destruct Ha as [_ Ha].
  split; [exact Ho|]. split; [exact Ha|].
  rewrite Hvalid, <- Ho, <- Ha. destruct f1, f2; simpl; split; try tauto;
    try discriminate; intros [H1 H2]; discriminate.
Qed.

(** X5. [analyzeIdDuplicates] reports no duplicate order id exactly when the
    order ids of the batch are pairwise distinct, likewise for the activity
    ids, and its verdict is valid exactly when both hold. *)
Theorem X5_batch_is_free_of_duplicate_ids_iff :
  forall orders activities,
    let r := analyzeIdDuplicates orders activities in
    (orderIds r = [] <-> NoDup (map order_id orders))
    /\ (activityIds r = [] <-> NoDup (map activity_id activities))
    /\ (isValid (idVerdict r) = true <->
        NoDup (map order_id orders) /\ NoDup (map activity_id activities)).
Proof. exact batch_is_free_of_duplicate_ids_iff. Qed.

(** ** Relationship statistics *)

Lemma countedActivities_set :
  forall (m : jsmap nat) k v,
    countedActivities (map_set m k v)
    + match map_get m k with Some c => c | None => 0 end
    = countedActivities m + v.
Proof.
  intros m k v. unfold countedActivities. induction m as [|[k' c] m IH]; simpl.
  - lia.
  - destruct (js_eqb k' k); simpl; lia.
Qed.

Lemma relateActivity_statistics :
  forall ids res a i,
    let res' := relateActivity ids res a i in
    totalRelationships res' = totalRelationships res
    /\ validRelationships res' + invalidRelationships res'
       = S (validRelationships res + invalidRelationships res)
    /\ List.length (relationshipDetails res') = S (List.length (relationshipDetails res))
    /\ (countedActivities (orderActivityCounts res') + invalidRelationships res'
        = S (countedActivities (orderActivityCounts res) + invalidRelationships res))
    /\ (List.length (rel_orphanedActivities res') + validRelationships res'
        <= S (List.length (rel_orphanedActivities res) + validRelationships res)).
Proof.
  intros ids res a i. unfold relateActivity. cbv zeta.
  destruct (negb (truthy (activity_orderId a))); simpl.
  - rewrite length_app. simpl. repeat split; lia.
  - destruct (negb (set_has ids (activity_orderId a))); simpl.
    + rewrite !length_app. simpl. repeat split; lia.
    + rewrite length_app. simpl.
      pose proof (countedActivities_set (orderActivityCounts res) (activity_orderId a)
                    (match map_get (orderActivityCounts res) (activity_orderId a) with
                     | Some c => c
                     | None => 0
                     end + 1)) as Hset.
      repeat split; lia.
Qed.

Lemma relate_loop_statistics :
  forall ids l i res,
    let res' := forEachFrom (relateActivity ids) l i res in
    totalRelationships res' = totalRelationships res
    /\ validRelationships res' + invalidRelationships res'
       = validRelationships res + invalidRelationships res + List.length l
    /\ List.length (relationshipDetails res')
       = List.length (relationshipDetails res) + List.length l
    /\ (countedActivities (orderActivityCounts res') + invalidRelationships res'
        = countedActivities (orderActivityCounts res) + invalidRelationships res
          + List.length l)
    /\ (List.length (rel_orphanedActivities res') + validRelationships res'
        <= List.length (rel_orphanedActivities res) + validRelationships res
           + List.length l).
Proof.
  intros ids l. induction l as [|a l IH]; intros i res; simpl.
  - repeat split; lia.
  - destruct (IH (S i) (relateActivity ids res a i)) as [H1 [H2 [H3 [H4 H5]]]].
    destruct (relateActivity_statistics ids res a i) as [K1 [K2 [K3 [K4 K5]]]].
    cbv zeta in *. repeat split; lia.
Qed.

Lemma zero_counts :
  forall (orders : list FlatOrder) (m : jsmap nat),
    countedActivities m = 0 ->
    countedActivities (fold_left (fun m order => map_set m (order_id order) 0) orders m) = 0.
Proof.
  intros batch. induction batch as [|o batch IH]; intros m H; simpl.
  - exact H.
  - apply IH. pose proof (countedActivities_set m (order_id o) 0). lia.
Qed.

(** X6. In the result of [analyzeRelationships], [totalRelationships] is the
    number of activities, valid and invalid relationships add up to it,
    there is one detail entry per activity, the per-order activity counts
    add up to the valid relationships, and the orphaned activities are at
    most the invalid relationships. *)
Theorem X6_relationship_statistics_add_up :
  forall orders activities,
    let r := analyzeRelationships orders activities in
    totalRelationships r = List.length activities
    /\ validRelationships r + invalidRelationships r = List.length activities
    /\ List.length (relationshipDetails r) = List.length activities
    /\ countedActivities (orderActivityCounts r) = validRelationships r
    /\ List.length (rel_orphanedActivities r) <= invalidRelationships r.
Proof.
  intros orders activities r. subst r. unfold analyzeRelationships, forEach. cbv zeta.
  match goal with
  | |- context [forEachFrom (relateActivity ?ids) ?l 0 ?r0] =>
      destruct (relate_loop_statistics ids l 0 r0) as [H1 [H2 [H3 [H4 H5]]]];
      set (res := forEachFrom (relateActivity ids) l 0 r0) in *
  end.
  cbv zeta in *. simpl in H1, H2, H3, H4, H5.
  rewrite (zero_counts orders [] eq_refl) in H4.
  simpl. repeat split; lia.
Qed.

(** ** Error categories *)

Lemma categorizeErrors_filters :
  forall errs c0,
    let c :=
      fold_left
        (fun categories error =>
           if str_includes "構造" error || str_includes "プロパティ" error then
             mkErrorCategories (push (cat_structural categories) error)
               (cat_validation categories) (cat_integrity categories) (cat_format categories)
           else if str_includes "重複" error || str_includes "参照" error
                   || str_includes "孤立" error then
             mkErrorCategories (cat_structural categories) (cat_validation categories)
               (push (cat_integrity categories) error) (cat_format categories)
           else if str_includes "形式" error || str_includes "無効" error then
             mkErrorCategories (cat_structural categories) (cat_validation categories)
               (cat_integrity categories) (push (cat_format categories) error)
           else
             mkErrorCategories (cat_structural categories)
               (push (cat_validation categories) error)
               (cat_integrity categories) (cat_format categories))
        errs c0 in
    cat_structural c = (cat_structural c0 ++ filter structuralText errs)%list
    /\ cat_integrity c
       = (cat_integrity c0
            ++ filter (fun e => negb (structuralText e) && integrityText e) errs)%list
    /\ cat_format c
       = (cat_format c0
            ++ filter (fun e => negb (structuralText e) && negb (integrityText e)
                                && formatText e) errs)%list
    /\ cat_validation c
       = (cat_validation c0
            ++ filter (fun e => negb (structuralText e) && negb (integrityText e)
                                && negb (formatText e)) errs)%list.
Proof.
  induction errs as [|e errs IH]; intros c0; simpl.
  - rewrite !app_nil_r. auto.
  - fold (structuralText e). fold (integrityText e). fold (formatText e).
    match goal with
    | |- context [fold_left ?f errs ?c1] => destruct (IH c1) as [H1 [H2 [H3 H4]]]
    end.
    cbv zeta in *. rewrite H1, H2, H3, H4.
    destruct (structuralText e), (integrityText e), (formatText e); simpl;
      unfold push; rewrite <- ?app_assoc; auto.
Qed.

Lemma listed_app :
  forall l1 l2 e, listed (l1 ++ l2) e = listed l1 e || listed l2 e.
Proof. intros l1 l2 e. unfold listed. apply existsb_app. Qed.

Lemma listed_filter :
  forall p l e, listed (filter p l) e = listed l e && p e.
Proof.
  intros p l e. unfold listed. induction l as [|x l IH]; simpl.
  - reflexivity.
  - destruct (p x) eqn:Ex; simpl; rewrite IH;
      destruct (String.eqb_spec e x) as [Heq|Hne]; simpl; try reflexivity;
      subst; rewrite Ex; destruct (existsb (String.eqb x) l); reflexivity.
Qed.

Lemma filter_lengths :
  forall {A : Type} (p : A -> bool) (l : list A),
    List.length (filter p l) + List.length (filter (fun x => negb (p x)) l) = List.length l.
Proof.
  intros A p l. induction l as [|x l IH]; simpl.
  - reflexivity.
  - destruct (p x); simpl; lia.
Qed.

Lemma every_error_lands_in_one_category :
  forall errs,
    let c := categorizeErrors errs in
    List.length (cat_structural c) + List.length (cat_validation c)
    + List.length (cat_integrity c) + List.length (cat_format c) = List.length errs
    /\ forall e, categoriesHolding c e = Nat.b2n (listed errs e).
Proof.
  intros errs c. subst c. unfold categorizeErrors.
  destruct (categorizeErrors_filters errs (mkErrorCategories [] [] [] []))
    as [H1 [H2 [H3 H4]]].
  cbv zeta in *. simpl in H1, H2, H3, H4. split.
  - rewrite H1, H2, H3, H4. clear.
    induction errs as [|e errs IH]; simpl; [reflexivity|].
    destruct (structuralText e), (integrityText e), (formatText e); simpl; lia.
  - intros e. unfold categoriesHolding. rewrite H1, H2, H3, H4, !listed_filter.
    destruct (listed errs e), (structuralText e), (integrityText e), (formatText e);
      reflexivity.
Qed.

(** X20. [categorizeErrors] puts every error message in exactly one of its
    four categories and nothing else in any: the sizes of the categories add
    up to the number of errors. *)
Theorem X20_every_error_lands_in_one_category :
  forall errs,
    let c := categorizeErrors errs in
    List.length (cat_structural c) + List.length (cat_validation c)
    + List.length (cat_integrity c) + List.length (cat_format c) = List.length errs
    /\ forall e, categoriesHolding c e = Nat.b2n (listed errs e).
Proof. exact every_error_lands_in_one_category. Qed.

(** ** Severity *)

Lemma determineSeverity_cases :
  forall v,
    determineSeverity v <> "low"
    /\ (errors v = [] <->
        determineSeverity v = "success" \/ determineSeverity v = "warning").
Proof.
  intros v. unfold determineSeverity.
  destruct (errors v) as [|e es]; cbn [List.length Nat.eqb].
  - destruct (Nat.ltb 0 (List.length (warnings v))); cbv iota.
    + split; [discriminate|]. split; [right; reflexivity|reflexivity].
    + split; [discriminate|]. split; [left; reflexivity|reflexivity].
  - destruct (Nat.leb 10 (S (List.length es))); [|destruct (Nat.leb 5 (S (List.length es)))];
      cbn; (split; [discriminate|]; split; [discriminate|intros [H|H]; discriminate]).
Qed.

(** X21. On the result of [validateImportData], [determineSeverity] is
    'success' or 'warning' exactly when the result is valid, and it is never
    'low'. *)
Theorem X21_severity_follows_validity :
  forall host data,
    exists v,
      validateImportData host data = Normal v
      /\ determineSeverity (validation v) <> "low"
      /\ (isValid (validation v) = true <->
          determineSeverity (validation v) = "success"
          \/ determineSeverity (validation v) = "warning").
Proof.
  intros host data. destruct (validation_result_is_coherent host data) as [v [Hv [Hiff _]]].
  exists v. split; [exact Hv|].
  destruct (determineSeverity_cases (validation v)) as [Hlow Hsev].
  split; [exact Hlow|]. rewrite Hiff. exact Hsev.
Qed.

(** ** Recommendations *)

Lemma hasEntries_array :
  forall host fields key entries,
    assoc key fields = Some (JArr entries) ->
    hasEntries host (JObj fields) key = Normal (negb (isNil entries)).
Proof.
  intros host fields key entries H. unfold hasEntries, readProp. simpl. rewrite H. simpl.
  unfold js_gt. simpl. destruct entries; reflexivity.
Qed.

Lemma hasEntries_number :
  forall host fields key n,
    assoc key fields = Some (JNum n) ->
    hasEntries host (JObj fields) key = Normal false.
Proof.
  intros host fields key n H. unfold hasEntries, readProp. simpl. rewrite H. reflexivity.
Qed.

(** On an object of counts no category test succeeds. *)
Lemma generateRecommendations_of_counts :
  forall host v n1 n2 n3 n4,
    exists recommendations,
      generateRecommendations host v
        (JObj [("structural", JNum n1); ("format", JNum n2); ("integrity", JNum n3);
               ("validation", JNum n4)])
      = Normal recommendations
      /\ map rec_priority recommendations
         = if isNil (warnings v) then ["low"] else ["low"; "low"].
Proof.
  intros host v n1 n2 n3 n4. unfold generateRecommendations.
  set (fields := [("structural", JNum n1); ("format", JNum n2); ("integrity", JNum n3);
                  ("validation", JNum n4)]).
  rewrite (hasEntries_number host fields "structural" n1 eq_refl). cbn [bind].
  rewrite (hasEntries_number host fields "format" n2 eq_refl). cbn [bind].
  rewrite (hasEntries_number host fields "integrity" n3 eq_refl). cbn [bind].
  rewrite (hasEntries_number host fields "validation" n4 eq_refl). cbn [bind].
  eexists. split; [reflexivity|]. destruct (warnings v); reflexivity.
Qed.

Lemma countPriority_loop :
  forall recommendations counts,
    fold_left (fun counts rec => countPriority counts (rec_priority rec)) recommendations
      counts
    = fold_left countPriority (map rec_priority recommendations) counts.
Proof.
  induction recommendations as [|rec recommendations IH]; intros counts; simpl.
  - reflexivity.
  - apply IH.
Qed.

(** X23. [generateValidationSummary] hands the per-category counts, not the
    categorized arrays, to [generateRecommendations]; its critical, high and
    medium recommendation counters are therefore always 0, and the low
    counter is 1, or 2 when the result has warnings. *)
Theorem X23_summary_counts_no_urgent_recommendation :
  forall host v,
    exists summary,
      generateValidationSummary host v = Normal summary
      /\ summary_recommendations summary
         = mkPriorityCounts 0 0 0 (if isNil (warnings v) then 1 else 2).
Proof.
  intros host v. unfold generateValidationSummary. cbv zeta.
  match goal with
  | |- context [generateRecommendations host v
                  (JObj [(_, JNum ?n1); (_, JNum ?n2); (_, JNum ?n3); (_, JNum ?n4)])] =>
      destruct (generateRecommendations_of_counts host v n1 n2 n3 n4)
        as [recommendations [E Hpriorities]]
  end.
  rewrite E. simpl bind. eexists. split; [reflexivity|]. simpl summary_recommendations.
  rewrite countPriority_loop, Hpriorities. destruct (warnings v); reflexivity.
Qed.

(** X22. The recommendations that [generateErrorReport] computes from the
    categorized errors always end with the general one, and they contain a
    recommendation of a priority other than 'low' exactly when the result
    lists an error. *)
Theorem X22_report_recommends_urgent_action_iff_errors :
  forall host v,
    exists recommendations,
      reportRecommendations host v = Normal recommendations
      /\ existsb urgent recommendations = negb (isNil (errors v))
      /\ exists earlier general,
          recommendations = (earlier ++ [general])%list
          /\ rec_category general = "general".
Proof.
  intros host v. unfold reportRecommendations, generateRecommendations, categoriesObject.
  cbv zeta.
  set (fields := [("structural", JArr (map JStr (cat_structural (categorizeErrors (errors v)))));
                  ("validation", JArr (map JStr (cat_validation (categorizeErrors (errors v)))));
                  ("integrity", JArr (map JStr (cat_integrity (categorizeErrors (errors v)))));
                  ("format", JArr (map JStr (cat_format (categorizeErrors (errors v)))))]).
  rewrite (hasEntries_array host fields "structural" _ eq_refl). cbn [bind].
  rewrite (hasEntries_array host fields "format" _ eq_refl). cbn [bind].
  rewrite (hasEntries_array host fields "integrity" _ eq_refl). cbn [bind].
  rewrite (hasEntries_array host fields "validation" _ eq_refl). cbn [bind].
  eexists. split; [reflexivity|]. split.
  - destruct (every_error_lands_in_one_category (errors v)) as [Hlen _].
    cbv zeta in Hlen. revert Hlen.
    generalize (categorizeErrors (errors v)). intros [s va i f]. simpl.
    intros Hlen. unfold push.
    destruct s, f, i, va, (Nat.ltb 0 (List.length (warnings v)));
      simpl in *; try reflexivity;
      destruct (errors v); simpl in *; try reflexivity; lia.
  - unfold push. eexists. eexists. split; reflexivity.
Qed.

(** ** The legacy relationship check *)

Lemma idsOf_orders :
  forall host orders, idsOf host (map orderToJs orders) = Normal (map order_id orders).
Proof.
  intros host orders. induction orders as [|o orders IH]; simpl.
  - reflexivity.
  - unfold readProp. simpl. rewrite IH. reflexivity.
Qed.

Lemma idsOf_activities :
  forall host activities,
    idsOf host (map activityToJs activities) = Normal (map activity_id activities).
Proof.
  intros host activities. induction activities as [|a activities IH]; simpl.
  - reflexivity.
  - unfold readProp. simpl. rewrite IH. reflexivity.
Qed.

Lemma findIndex_app_r :
  forall {A : Type} (p : A -> bool) (pre l : list A),
    (forall y, In y pre -> p y = false) ->
    findIndex p (pre ++ l) = option_map (fun k => List.length pre + k) (findIndex p l).
Proof.
  intros A p pre l. induction pre as [|y pre IH]; intros H; simpl.
  - destruct (findIndex p l); reflexivity.
  - rewrite (H y (or_introl eq_refl)). rewrite IH by (intros z Hz; apply H; right; exact Hz).
    destruct (findIndex p l); reflexivity.
Qed.

Lemma findIndex_member :
  forall (ids : list jsval) (x : jsval),
    In x ids ->
    exists k, findIndex (fun y => js_eqb y x) ids = Some k /\ k < List.length ids.
Proof.
  intros ids x Hin.
  destruct (findIndex (fun y => js_eqb y x) ids) as [k|] eqn:E.
  - exists k. split; [reflexivity|].
    apply (proj1 (findIndex_some _ _ _ x E)).
  - apply findIndex_none in E.
    pose proof (findFirst_none _ _ E x Hin) as H. simpl in H.
    rewrite js_eqb_refl in H. discriminate.
Qed.

(** The repeated ids of an array are none exactly when its entries are
    pairwise distinct. *)
Lemma repeatedFrom_nil :
  forall rest pre,
    NoDup pre ->
    (repeatedFrom (pre ++ rest) rest (List.length pre) = [] <-> NoDup (pre ++ rest)).
Proof.
  induction rest as [|x rest IH]; intros pre Hpre.
  - rewrite app_nil_r. simpl. tauto.
  - simpl repeatedFrom. unfold indexOf.
    destruct (set_has pre x) eqn:E.
    + apply set_has_In in E.
      destruct (findIndex_member pre x E) as [k [Hk Hlt]].
      rewrite (findIndex_app_l _ pre (x :: rest) k Hk).
      destruct (Nat.eqb_spec k (List.length pre)) as [Heq|Hne]; [lia|]. simpl.
      split; [discriminate|]. intros Hnd. exfalso.
      apply NoDup_remove_2 in Hnd. apply Hnd. apply in_or_app. left. exact E.
    + assert (Hnot : ~ In x pre).
      { intros Hin. apply set_has_In in Hin. congruence. }
      rewrite findIndex_app_r.
      2:{ intros y Hy. destruct (js_eqb y x) eqn:Eyx; [|reflexivity].
          apply js_eqb_true in Eyx. subst. contradiction. }
      simpl findIndex. rewrite js_eqb_refl. simpl option_map.
      rewrite Nat.add_0_r, Nat.eqb_refl. simpl negb. cbv iota.
      replace (pre ++ x :: rest)%list with ((pre ++ [x]) ++ rest)%list
        by (rewrite <- app_assoc; reflexivity).
      replace (S (List.length pre)) with (List.length (pre ++ [x]))
        by (rewrite length_app; simpl; lia).
      apply IH. apply NoDup_snoc. auto.
Qed.

Lemma dangling_loop :
  forall ids (activities : list jsval) index errs,
    forEachFrom
      (fun errors activity index =>
         if negb (set_has ids (getProp activity "orderId")) then
           push errors
             ("アクティビティ[" ++ string_of_nat index ++ "]: 存在しないオーダーID「"
                ++ js_toString (getProp activity "orderId") ++ "」を参照しています")
         else errors)
      activities index errs = []
    <-> errs = []
        /\ forall activity, In activity activities ->
                            set_has ids (getProp activity "orderId") = true.
Proof.
  intros ids activities. induction activities as [|a activities IH]; intros index errs; simpl.
  - split; [intros ->; split; [reflexivity|intros activity []]|tauto].
  - rewrite IH. destruct (set_has ids (getProp a "orderId")) eqn:E; simpl.
    + split.
      * intros [H1 H2]. split; [exact H1|]. intros activity [<-|Hin]; auto.
      * intros [H1 H2]. split; [exact H1|]. intros activity Hin. apply H2. right. exact Hin.
    + unfold push. split.
      * intros [H1 _]. destruct errs; discriminate.
      * intros [_ H2]. rewrite (H2 a (or_introl eq_refl)) in E. discriminate.
Qed.

(** X24. On flat records, [validateRelationships] returns no error exactly
    when the order ids are pairwise distinct, the activity ids are pairwise
    distinct and every activity carries the id of an order of the batch;
    whenever it returns no error, [analyzeIdDuplicates] and
    [analyzeRelationships] are valid as well. *)
Theorem X24_legacy_relationship_check_accepts_iff :
  forall host orders activities,
    exists errs,
      validateRelationships host (map orderToJs orders) (map activityToJs activities)
      = Normal errs
      /\ (errs = [] <->
          NoDup (map order_id orders)
          /\ NoDup (map activity_id activities)
          /\ forall activity, In activity activities ->
                              In (activity_orderId activity) (map order_id orders))
      /\ (isNil errs = true ->
          isValid (idVerdict (analyzeIdDuplicates orders activities)) = true
          /\ rel_isValid (analyzeRelationships orders activities) = true).
Proof.
  intros host orders activities. unfold validateRelationships.
  rewrite idsOf_orders. cbn [bind]. rewrite idsOf_activities. cbn [bind].
  eexists. split; [reflexivity|].
  pose proof (repeatedFrom_nil (map order_id orders) [] (NoDup_nil _)) as Ho.
  pose proof (repeatedFrom_nil (map activity_id activities) [] (NoDup_nil _)) as Ha.
  simpl in Ho, Ha. unfold forEach.
  match goal with
  | |- (?loop = [] <-> _) /\ _ =>
      assert (Hiff : loop = [] <->
                NoDup (map order_id orders)
                /\ NoDup (map activity_id activities)
                /\ forall activity, In activity activities ->
                                    In (activity_orderId activity) (map order_id orders))
  end.
  { rewrite dangling_loop. rewrite <- Ho, <- Ha.
    destruct (repeatedFrom (map order_id orders) (map order_id orders) 0) as [|d1 l1];
      destruct (repeatedFrom (map activity_id activities) (map activity_id activities) 0)
        as [|d2 l2]; simpl; unfold push; simpl.
    - split.
      + intros [_ H]. split; [reflexivity|]. split; [reflexivity|].
        intros a Hin. apply set_has_In.
        apply (H (activityToJs a)). apply in_map. exact Hin.
      + intros [_ [_ H]]. split; [reflexivity|]. intros a Hin.
        apply in_map_iff in Hin. destruct Hin as [b [<- Hb]]. simpl.
        apply set_has_In. apply H. exact Hb.
    - split; [intros [H _]; discriminate|intros [_ [H _]]; discriminate].
    - split; [intros [H _]; discriminate|intros [H _]; discriminate].
    - split; [intros [H _]; discriminate|intros [H _]; discriminate]. }
  split; [exact Hiff|].
  intros Hnil. apply isNil_true in Hnil. apply Hiff in Hnil.
  destruct Hnil as [Hno [Hna Hres]].
  split.
  - apply (proj2 (proj2 (batch_is_free_of_duplicate_ids_iff orders activities))). auto.
  - destruct (analyzeRelationships_orphans orders activities) as [_ [Hv _]].
    cbv zeta in Hv. rewrite Hv.
    rewrite orphansFrom_none; [reflexivity|].
    intros a Hin. unfold dangling.
    assert (Hhas : set_has (map order_id orders) (activity_orderId a) = true).
    { apply set_has_In. apply Hres. exact Hin. }
    rewrite Hhas. apply andb_false_r.
Qed.

Lemma X24_legacy_relationship_check_accepts_iff_witness :
  let orders := [mkOrder (JStr "o1") (JStr "Order") (JStr sampleDate)] in
  let activities := [mkActivity (JStr "a1") (JStr "Task") (JStr "o1") (JStr sampleDate)] in
  validateRelationships sampleHost (map orderToJs orders) (map activityToJs activities)
  = Normal []
  /\ isValid (idVerdict (analyzeIdDuplicates orders activities)) = true
  /\ rel_isValid (analyzeRelationships orders activities) = true.
Proof.
  intros orders activities.
  destruct (X24_legacy_relationship_check_accepts_iff sampleHost orders activities)
    as [errs [Herrs [_ Hnew]]].
  assert (Hnone : errs = []).
  { change (validateRelationships sampleHost (map orderToJs orders)
              (map activityToJs activities)) with (@Normal (list string) []) in Herrs.
    inversion Herrs. reflexivity. }
  subst errs. split; [exact Herrs|]. apply Hnew. reflexivity.
Defined.

(** ** Legacy per-record checks and the models *)

Lemma blankText_false :
  forall v,
    blankText v = false ->
    exists s, v = JStr s /\ truthy v = true /\ Nat.eqb (String.length (trim s)) 0 = false.
Proof.
  intros v H. unfold blankText in H.
  apply orb_false_elim in H. destruct H as [H H3].
  apply orb_false_elim in H. destruct H as [H1 H2].
  destruct v; simpl in H2; try discriminate.
  exists s. split; [reflexivity|]. split; [|exact H3].
  destruct (truthy (JStr s)); [reflexivity|discriminate].
Qed.

Lemma badDate_false :
  forall host v,
    badDate host v = false ->
    truthy v = true /\ exists t, dateValue host v = Some t.
Proof.
  intros host v H. unfold badDate in H.
  apply orb_false_elim in H. destruct H as [H1 H2].
  split; [destruct (truthy v); [reflexivity|discriminate]|].
  destruct (dateValue host v) as [t|]; [eauto|discriminate].
Qed.

Lemma nameErrors_nil :
  forall host pre name, nameErrors host pre name = [] -> blankText name = false.
Proof.
  intros host pre name H. unfold nameErrors in H.
  destruct (blankText name); [discriminate|reflexivity].
Qed.

Lemma single_nil :
  forall (b : bool) (msg : string), (if b then [msg] else []) = [] -> b = false.
Proof. intros [|] msg H; [discriminate|reflexivity]. Qed.

(** X25. An order for which [validateOrderData] returns no error passes
    [Order.isValid], and an activity for which [validateActivityData]
    returns no error passes [Activity.isValid]. *)
Theorem X25_records_the_legacy_checks_accept_are_valid_models :
  forall host,
    (forall order index,
        validateOrderData host (orderToJs order) index = [] ->
        Order_isValid host order = true)
    /\ (forall activity index,
           validateActivityData host (activityToJs activity) index = [] ->
           Activity_isValid host activity = true).
Proof.
  intros host. split.
  - intros order index H. unfold validateOrderData, orderToJs in H.
    cbn [truthy typeof negb orb String.eqb Ascii.eqb Bool.eqb] in H.
    cbn [getProp assoc String.eqb Ascii.eqb Bool.eqb] in H.
    apply app_eq_nil in H. destruct H as [H1 H].
    apply app_eq_nil in H. destruct H as [H2 H3].
    apply single_nil in H1. apply single_nil in H3. apply nameErrors_nil in H2.
    destruct (blankText_false _ H1) as [i [Ei [Ti _]]].
    destruct (blankText_false _ H2) as [n [En [Tn Ln]]].
    destruct (badDate_false host _ H3) as [Tc [t Et]].
    unfold Order_isValid. rewrite Ti, Tn, Tc, Et, Ei, En. simpl.
    destruct (String.length (trim n)); [discriminate|reflexivity].
  - intros activity index H. unfold validateActivityData, activityToJs in H.
    cbn [truthy typeof negb orb String.eqb Ascii.eqb Bool.eqb] in H.
    cbn [getProp assoc String.eqb Ascii.eqb Bool.eqb] in H.
    apply app_eq_nil in H. destruct H as [H1 H].
    apply app_eq_nil in H. destruct H as [H2 H].
    apply app_eq_nil in H. destruct H as [H3 H4].
    apply single_nil in H1. apply single_nil in H3. apply single_nil in H4.
    apply nameErrors_nil in H2.
    destruct (blankText_false _ H1) as [i [Ei [Ti _]]].
    destruct (blankText_false _ H2) as [n [En [Tn Ln]]].
    destruct (blankText_false _ H3) as [o [Eo [To _]]].
    destruct (badDate_false host _ H4) as [Tc [t Et]].
    unfold Activity_isValid. rewrite Ti, Tn, To, Tc, Et, Ei, En, Eo. simpl.
    destruct (String.length (trim n)); [discriminate|reflexivity].
Qed.

Lemma X25_records_the_legacy_checks_accept_are_valid_models_witness :
  Order_isValid sampleHost (mkOrder (JStr "o1") (JStr " Order ") (JStr sampleDate)) = true.
Proof.
  destruct (X25_records_the_legacy_checks_accept_are_valid_models sampleHost) as [H _].
  apply (H (mkOrder (JStr "o1") (JStr " Order ") (JStr sampleDate)) 0).
  reflexivity.
Defined.

(** ** Trimming *)

Lemma trimEnd_idempotent : forall s, trimEnd (trimEnd s) = trimEnd s.
Proof.
  induction s as [|c r IH]; simpl.
  - reflexivity.
  - destruct (trimEnd r) as [|c' r'] eqn:E.
    + destruct (isSpace c) eqn:Ec; simpl; [reflexivity|]. rewrite Ec. reflexivity.
    + simpl. simpl in IH. rewrite IH. reflexivity.
Qed.

Lemma trimStart_head :
  forall s, trimStart s = "" \/ exists c r, trimStart s = String c r /\ isSpace c = false.
Proof.
  induction s as [|c r IH]; simpl.
  - left. reflexivity.
  - destruct (isSpace c) eqn:E; [exact IH|]. right. exists c, r. auto.
Qed.

Lemma trimEnd_keeps_head :
  forall c r, isSpace c = false -> exists r', trimEnd (String c r) = String c r'.
Proof.
  intros c r H. simpl. destruct (trimEnd r) as [|c' r'']; [|eauto].
  rewrite H. eauto.
Qed.

Lemma trim_idempotent : forall s, trim (trim s) = trim s.
Proof.
  intros s. unfold trim.
  destruct (trimStart_head s) as [E|[c [r [E Hc]]]]; rewrite E.
  - reflexivity.
  - destruct (trimEnd_keeps_head c r Hc) as [r' E'].
    assert (Hstart : trimStart (trimEnd (String c r)) = trimEnd (String c r)).
    { rewrite E'. simpl. rewrite Hc. reflexivity. }
    rewrite Hstart. apply trimEnd_idempotent.
Qed.

(** ** Validated orders are created *)

Lemma validateDataTypes_order_nil :
  forall host order index,
    validateDataTypes host (orderToJs order) "order" index = [] ->
    validateId (order_id order) = true
    /\ validateName (order_name order) = true
    /\ validateDateTime host (order_createdAt order) = true.
Proof.
  intros host order index H. unfold validateDataTypes, orderToJs in H.
  cbn [truthy typeof isArray negb orb andb String.eqb Ascii.eqb Bool.eqb] in H.
  cbn [getProp assoc String.eqb Ascii.eqb Bool.eqb] in H.
  apply app_eq_nil in H. destruct H as [H1 H].
  apply app_eq_nil in H. destruct H as [H2 H].
  apply app_eq_nil in H. destruct H as [H3 _].
  apply single_nil in H1. apply single_nil in H2. apply single_nil in H3.
  repeat split; apply negb_false_iff; assumption.
Qed.

Lemma createOrderForImport_validated :
  forall host st order,
    validateId (order_id order) = true ->
    validateName (order_name order) = true ->
    validateDateTime host (order_createdAt order) = true ->
    findFirst (fun o => js_eqb (order_id o) (order_id order)) (storeOrders st) = None ->
    fst (createOrderForImport host st order) = true.
Proof.
  intros host st [id name createdAt] Hid Hname Hdate Hfresh. simpl in *.
  unfold createOrderForImport. simpl.
  destruct name as [| | | |n| |]; try discriminate.
  destruct id as [| | | |i| |]; try discriminate.
  destruct createdAt as [| | | |d| |]; try discriminate.
  unfold validateName in Hname. unfold validateId in Hid. unfold validateDateTime in Hdate.
  destruct (negb (truthy (JStr n))) eqn:Tn; [discriminate|].
  destruct (negb (truthy (JStr i))) eqn:Ti; [discriminate|].
  destruct (negb (truthy (JStr d))) eqn:Td; [discriminate|].
  destruct (Nat.eqb (String.length (trim n)) 0) eqn:Ln; [discriminate|].
  destruct (dateValue host (JStr d)) as [t|] eqn:Et; [|discriminate].
  simpl. rewrite Hfresh.
  assert (Hvalid : Order_isValid host (mkOrder (JStr i) (JStr (trim n)) (JStr d)) = true).
  { unfold Order_isValid. simpl order_id. simpl order_name. simpl order_createdAt.
    rewrite Et, trim_idempotent.
    apply negb_false_iff in Ti. apply negb_false_iff in Td. rewrite Ti, Td. simpl.
    destruct (trim n) as [|c r] eqn:E; [discriminate|]. reflexivity. }
  simpl defaultCreatedAt. rewrite Hvalid. reflexivity.
Qed.

Lemma findFirst_of_set_has :
  forall {A : Type} (f : A -> jsval) (l : list A) (x : jsval),
    set_has (map f l) x = true ->
    exists y, findFirst (fun item => js_eqb (f item) x) l = Some y.
Proof.
  intros A f l x H. apply set_has_In in H. apply in_map_iff in H.
  destruct H as [y [Hy Hin]]. apply (findFirst_exists _ l y Hin).
  rewrite Hy. apply js_eqb_refl.
Qed.

(** The ids the store holds after the order loop are those it held
    before and ids of the batch. *)
Lemma importOrder_validated_step :
  forall host st importData dh r s order seen,
    In order (orders importData) ->
    validateId (order_id order) = true ->
    validateName (order_name order) = true ->
    validateDateTime host (order_createdAt order) = true ->
    ~ In (order_id order) seen ->
    (forall x, In x (storedOrderIds s) -> In x (storedOrderIds st) \/ In x seen) ->
    importErrors r = [] ->
    let out :=
      importOrder host (duplicateOrders (checkDuplicates host st importData)) dh (r, s) order in
    importErrors (fst out) = []
    /\ forall x, In x (storedOrderIds (snd out)) ->
                 In x (storedOrderIds st) \/ In x (seen ++ [order_id order]).
Proof.
  intros host st importData dh r s order seen Hin Hid Hname Hdate Hnew Hids Herr out.
  subst out. unfold importOrder.
  set (dups := duplicateOrders (checkDuplicates host st importData)).
  destruct (set_has (map (fun dup => order_id (dup_import dup)) dups) (order_id order))
    eqn:Edup.
  - assert (Hwider : forall x, In x (storedOrderIds s) ->
                       In x (storedOrderIds st) \/ In x (seen ++ [order_id order])).
    { intros x Hx. destruct (Hids x Hx); [left|right; apply in_or_app; left]; assumption. }
    destruct (js_eqb dh (JStr "overwrite")).
    + simpl. split; [exact Herr|].
      rewrite (proj1 (updateOrder_ids _ _ _ _)). exact Hwider.
    + destruct (js_eqb dh (JStr "merge")).
      * destruct (findFirst_of_set_has (fun dup => order_id (dup_import dup)) dups
                    (order_id order) Edup) as [dup Efind].
        rewrite Efind. simpl. split; [exact Herr|].
        rewrite (proj1 (updateOrder_ids _ _ _ _)). exact Hwider.
      * simpl. split; [exact Herr|exact Hwider].
  - assert (Hfresh : findFirst (fun o => js_eqb (order_id o) (order_id order))
                       (storeOrders s) = None).
    { destruct (findFirst _ (storeOrders s)) as [o|] eqn:E; [exfalso|reflexivity].
      apply findFirst_some in E. destruct E as [Ho Heq]. apply js_eqb_true in Heq.
      assert (Hx : In (order_id order) (storedOrderIds s)).
      { unfold storedOrderIds. rewrite <- Heq. apply in_map. exact Ho. }
      destruct (Hids _ Hx) as [Hst|Hseen]; [|contradiction].
      unfold storedOrderIds in Hst. apply in_map_iff in Hst.
      destruct Hst as [existing [Hex Hexin]].
      destruct (checkDuplicates_finds_every_match host st importData) as [Hcomplete _].
      pose proof (Hcomplete order existing Hin Hexin (or_introl Hex)) as Hhas.
      unfold duplicateOrderIds in Hhas. fold dups in Hhas. congruence. }
    pose proof (createOrderForImport_validated host s order Hid Hname Hdate Hfresh) as Hok.
    destruct (createOrderForImport host s order) as [ok s'] eqn:E. simpl in Hok. subst ok.
    simpl. split; [exact Herr|].
    apply createOrderForImport_success in E. destruct E as [o [E [Eid _]]].
    rewrite E. unfold storedOrderIds. simpl. rewrite map_app. simpl. rewrite Eid.
    intros x Hx. apply in_app_or in Hx. destruct Hx as [Hx|[<-|[]]].
    + destruct (Hids x Hx); [left|right; apply in_or_app; left]; assumption.
    + right. apply in_or_app. right. left. reflexivity.
Qed.

Lemma importOrders_validated :
  forall host st importData dh rest seen r s,
    (forall order, In order rest ->
                   In order (orders importData)
                   /\ validateId (order_id order) = true
                   /\ validateName (order_name order) = true
                   /\ validateDateTime host (order_createdAt order) = true) ->
    NoDup (seen ++ map order_id rest) ->
    (forall x, In x (storedOrderIds s) -> In x (storedOrderIds st) \/ In x seen) ->
    importErrors r = [] ->
    importErrors
      (fst (fold_left (importOrder host (duplicateOrders (checkDuplicates host st importData)) dh)
              rest (r, s))) = [].
Proof.
  intros host st importData dh rest.
  induction rest as [|order rest IH]; intros seen r s Hrest Hnd Hids Herr; cbn [fold_left].
  - exact Herr.
  - destruct (Hrest order (or_introl eq_refl)) as [Hin [Hid [Hname Hdate]]].
    assert (Hnew : ~ In (order_id order) seen).
    { simpl in Hnd. apply NoDup_remove_2 in Hnd. intros H. apply Hnd.
      apply in_or_app. left. exact H. }
    destruct (importOrder_validated_step host st importData dh r s order seen
                Hin Hid Hname Hdate Hnew Hids Herr) as [Herr' Hids'].
    destruct (importOrder host _ dh (r, s) order) as [r' s'] eqn:E. simpl in Herr', Hids'.
    apply (IH (seen ++ [order_id order])%list r' s').
    + intros o Ho. apply Hrest. right. exact Ho.
    + rewrite <- app_assoc. exact Hnd.
    + exact Hids'.
    + exact Herr'.
Qed.

Lemma collected_errors_nil :
  forall {A : Type} (f : A -> nat -> list string) (l : list A) (i : nat) (errs : list string),
    forEachFrom (fun errs x index => (errs ++ f x index)%list) l i errs = [] ->
    errs = [] /\ forall j x, nth_error l j = Some x -> f x (i + j) = [].
Proof.
  intros A f l. induction l as [|y l IH]; intros i errs H; simpl in H.
  - split; [exact H|]. intros j x Hj. destruct j; discriminate.
  - apply IH in H. destruct H as [H0 Hrest].
    apply app_eq_nil in H0. destruct H0 as [He Hy]. split; [exact He|].
    intros j x Hj. destruct j as [|j]; simpl in Hj.
    + inversion Hj; subst. rewrite Nat.add_0_r. exact Hy.
    + replace (i + S j) with (S i + j) by lia. apply Hrest. exact Hj.
Qed.

(** What a valid result of [validateImportData] says about the batch it
    hands on. *)
Lemma valid_batch :
  forall host data v flat,
    validateImportData host data = Normal v ->
    isValid (validation v) = true ->
    flattenedData v = Some flat ->
    (forall index order,
        nth_error (orders flat) index = Some order ->
        validateDataTypes host (orderToJs order) "order" index = [])
    /\ (forall index activity,
           nth_error (activities flat) index = Some activity ->
           validateDataTypes host (activityToJs activity) "activity" index = [])
    /\ isValid (idVerdict (analyzeIdDuplicates (orders flat) (activities flat))) = true.
Proof.
  intros host data v flat Hv Hvalid Hflat. unfold validateImportData in Hv.
  destruct (negb (isValid (schemaVerdict (validateJSONSchema host data)))).
  { inversion Hv; subst. discriminate. }
  destruct (convertNestedToFlat host data) as [flat'|m]; simpl in Hv; [|discriminate].
  inversion Hv; subst; clear Hv. simpl in Hvalid, Hflat. inversion Hflat; subst; clear Hflat.
  apply Nat.eqb_eq in Hvalid. apply length_zero_iff_nil in Hvalid.
  set (integ := validateDataIntegrity host (orders flat) (activities flat)) in *.
  assert (Hrecords :
            forEach (fun errs activity index =>
                       (errs ++ validateDataTypes host (activityToJs activity) "activity"
                                  index)%list)
              (activities flat)
              (forEach (fun errs order index =>
                          (errs ++ validateDataTypes host (orderToJs order) "order"
                                     index)%list)
                 (orders flat) []) = []
            /\ (isValid (verdict integ) = true \/ errors (verdict integ) = [])).
  { destruct (negb (isValid (verdict integ))) eqn:E.
    - apply app_eq_nil in Hvalid. destruct Hvalid as [H1 H2]. auto.
    - apply negb_false_iff in E. auto. }
  destruct Hrecords as [Hrecords Hinteg].
  unfold forEach in Hrecords.
  apply (collected_errors_nil
           (fun activity index => validateDataTypes host (activityToJs activity) "activity"
                                    index)) in Hrecords.
  destruct Hrecords as [Horders Hacts].
  apply (collected_errors_nil
           (fun order index => validateDataTypes host (orderToJs order) "order" index))
    in Horders.
  destruct Horders as [_ Hords].
  split; [exact Hords|]. split; [exact Hacts|].
  destruct (validateDataIntegrity_shape host (orders flat) (activities flat))
    as [_ [_ [caught [Herr [Hval _]]]]].
  fold integ in Herr, Hval.
  destruct (analyzeIdDuplicates_verdict (orders flat) (activities flat)) as [Hiv Hie].
  cbv zeta in Hiv, Hie.
  destruct (isValid (idVerdict (analyzeIdDuplicates (orders flat) (activities flat))))
    eqn:Edup; [reflexivity|exfalso].
  destruct Hinteg as [Hinteg|Hinteg].
  - rewrite Hinteg in Hval. discriminate.
  - rewrite Hinteg in Herr. symmetry in Herr. apply app_eq_nil in Herr.
    destruct Herr as [Herr _]. rewrite Herr in Hie. simpl in Hie. congruence.
Qed.

(** X16. For a batch that [validateImportData] accepted, [importOrders] run
    with the duplicates found by [checkDuplicates] reports no error,
    whatever the store and the policy: every order is created, skipped or
    updated. *)
Theorem X16_orders_of_a_valid_document_import_without_error :
  forall host data v flat st dh,
    validateImportData host data = Normal v ->
    isValid (validation v) = true ->
    flattenedData v = Some flat ->
    let out :=
      importOrders host (orders flat) (duplicateOrders (checkDuplicates host st flat)) dh st in
    importErrors (fst out) = []
    /\ created (fst out) + skipped (fst out) + updated (fst out) = List.length (orders flat).
Proof.
  intros host data v flat st dh Hv Hvalid Hflat out. subst out.
  destruct (valid_batch host data v flat Hv Hvalid Hflat) as [Hords [_ Hdup]].
  assert (Herr : importErrors
                   (fst (importOrders host (orders flat)
                           (duplicateOrders (checkDuplicates host st flat)) dh st)) = []).
  { unfold importOrders.
    apply (importOrders_validated host st flat dh (orders flat) [] _ st).
    - intros order Hin. split; [exact Hin|].
      apply In_nth_error in Hin. destruct Hin as [index Hindex].
      apply (validateDataTypes_order_nil host order index). apply Hords. exact Hindex.
    - simpl. apply (proj1 (proj1 (proj2 (proj2 (batch_is_free_of_duplicate_ids_iff _ _))) Hdup)).
    - intros x Hx. left. exact Hx.
    - reflexivity. }
  split; [exact Herr|].
  pose proof (loop_accounts_for_every_record
                (importOrder host (duplicateOrders (checkDuplicates host st flat)) dh)
                (importOrder_outcome host (duplicateOrders (checkDuplicates host st flat)) dh)
                (orders flat) (mkImportCounts 0 0 0 [], st)) as Hcount.
  unfold importOrders in *. rewrite Herr in Hcount. unfold committed in Hcount.
  cbn [fst snd created skipped updated importErrors List.length] in Hcount. lia.
Qed.

Lemma X16_orders_of_a_valid_document_import_without_error_witness :
  importOrders sampleHost (orders renamingBatch)
    (duplicateOrders (checkDuplicates sampleHost twoOrderStore renamingBatch)) (JStr "overwrite")
    twoOrderStore
  = (mkImportCounts 0 0 1 [],
     mkStore
       [mkOrder (JStr "oX") (JStr "Alpha") (JStr "2022-02-02T00:00:00Z");
        mkOrder (JStr "o1") (JStr "Alpha") (JStr sampleDate)]
       [])
  /\ importErrors
       (fst (importOrders sampleHost (orders renamingBatch)
               (duplicateOrders (checkDuplicates sampleHost twoOrderStore renamingBatch))
               (JStr "overwrite") twoOrderStore)) = [].
Proof.
  split; [reflexivity|].
  apply (X16_orders_of_a_valid_document_import_without_error sampleHost
           (JObj [("orders", JArr [sampleOrderJs "o1" "Alpha"])])
           (mkImportValidation (mkVerdict true [] [missingVersionWarning]) (Some renamingBatch))
           renamingBatch twoOrderStore (JStr "overwrite")).
  - reflexivity.
  - reflexivity.
  - reflexivity.
Defined.

(** ** A valid document that matches nothing in the store *)

Lemma validateId_string :
  forall v, validateId v = true -> exists s, v = JStr s /\ truthy v = true.
Proof.
  intros v H. destruct v; try discriminate. exists s. split; [reflexivity|].
  unfold validateId in H. destruct (negb (truthy (JStr s))) eqn:E; [discriminate|].
  apply negb_false_iff. exact E.
Qed.

Lemma validateName_string :
  forall v,
    validateName v = true ->
    exists s, v = JStr s /\ truthy v = true /\ Nat.eqb (String.length (trim s)) 0 = false.
Proof.
  intros v H. destruct v; try discriminate. exists s. split; [reflexivity|].
  unfold validateName in H. destruct (negb (truthy (JStr s))) eqn:E; [discriminate|].
  destruct (Nat.eqb (String.length (trim s)) 0); [discriminate|].
  split; [apply negb_false_iff; exact E|reflexivity].
Qed.

Lemma validateDateTime_string :
  forall host v,
    validateDateTime host v = true ->
    exists s t, v = JStr s /\ truthy v = true /\ dateValue host v = Some t.
Proof.
  intros host v H. destruct v; try discriminate. unfold validateDateTime in H.
  destruct (negb (truthy (JStr s))) eqn:E; [discriminate|].
  destruct (dateValue host (JStr s)) as [t|] eqn:Et; [|discriminate].
  exists s, t. split; [reflexivity|]. split; [apply negb_false_iff; exact E|reflexivity].
Qed.

Lemma trimmed_name_ok :
  forall s,
    Nat.eqb (String.length (trim s)) 0 = false ->
    truthy (JStr (trim s)) = true /\ Nat.ltb 0 (String.length (trim (trim s))) = true.
Proof.
  intros s H. rewrite trim_idempotent. destruct (trim s); [discriminate|]. auto.
Qed.

Lemma createOrderForImport_validated_exact :
  forall host st order,
    validateId (order_id order) = true ->
    validateName (order_name order) = true ->
    validateDateTime host (order_createdAt order) = true ->
    findFirst (fun o => js_eqb (order_id o) (order_id order)) (storeOrders st) = None ->
    createOrderForImport host st order
    = (true, mkStore (storeOrders st ++ [storedOrder order]) (storeActivities st)).
Proof.
  intros host st [id name createdAt] Hid Hname Hdate Hfresh. simpl in *.
  destruct (validateId_string _ Hid) as [i [-> Ti]].
  destruct (validateName_string _ Hname) as [n [-> [Tn Ln]]].
  destruct (validateDateTime_string host _ Hdate) as [d [t [-> [Td Et]]]].
  destruct (trimmed_name_ok n Ln) as [Tt Lt].
  unfold createOrderForImport. cbn [order_name order_id order_createdAt].
  rewrite Tn, Ln, Hfresh. cbn [negb orb defaultCreatedAt].
  unfold Order_isValid. cbn [order_name order_id order_createdAt typeof].
  rewrite Ti, Tt, Lt, Td, Et. reflexivity.
Qed.

Lemma createActivityForImport_validated_exact :
  forall host st activity,
    validateId (activity_id activity) = true ->
    validateName (activity_name activity) = true ->
    validateDateTime host (activity_createdAt activity) = true ->
    validateId (activity_orderId activity) = true ->
    set_has (storedOrderIds st) (activity_orderId activity) = true ->
    findFirst (fun a => js_eqb (activity_id a) (activity_id activity)) (storeActivities st)
    = None ->
    createActivityForImport host st activity
    = (true, mkStore (storeOrders st) (storeActivities st ++ [storedActivity activity])).
Proof.
  intros host st [id name orderId createdAt] Hid Hname Hdate Horder Hres Hfresh. simpl in *.
  destruct (validateId_string _ Hid) as [i [-> Ti]].
  destruct (validateName_string _ Hname) as [n [-> [Tn Ln]]].
  destruct (validateDateTime_string host _ Hdate) as [d [t [-> [Td Et]]]].
  destruct (validateId_string _ Horder) as [o [-> To]].
  destruct (trimmed_name_ok n Ln) as [Tt Lt].
  destruct (findFirst_of_set_has order_id (storeOrders st) (JStr o) Hres) as [found Efound].
  unfold createActivityForImport.
  cbn [activity_name activity_id activity_orderId activity_createdAt].
  rewrite Tn, Ln, To, Efound, Hfresh. cbn [negb orb defaultCreatedAt].
  unfold Activity_isValid.
  cbn [activity_name activity_id activity_orderId activity_createdAt typeof].
  rewrite Ti, Tt, Lt, To, Td, Et. reflexivity.
Qed.

Lemma fresh_id :
  forall {A : Type} (f : A -> jsval) (l : list A) (x : jsval),
    ~ In x (map f l) -> findFirst (fun item => js_eqb (f item) x) l = None.
Proof.
  intros A f l x H. destruct (findFirst _ l) as [y|] eqn:E; [exfalso|reflexivity].
  apply findFirst_some in E. destruct E as [Hin Heq]. apply js_eqb_true in Heq.
  apply H. rewrite <- Heq. apply in_map. exact Hin.
Qed.

Lemma importOrders_all_created :
  forall host dh rest r s,
    (forall order, In order rest ->
                   validateId (order_id order) = true
                   /\ validateName (order_name order) = true
                   /\ validateDateTime host (order_createdAt order) = true
                   /\ ~ In (order_id order) (storedOrderIds s)) ->
    NoDup (map order_id rest) ->
    fold_left (importOrder host [] dh) rest (r, s)
    = (mkImportCounts (created r + List.length rest) (skipped r) (updated r) (importErrors r),
       mkStore (storeOrders s ++ map storedOrder rest) (storeActivities s)).
Proof.
  intros host dh rest. induction rest as [|order rest IH]; intros r s Hrest Hnd;
    cbn [fold_left].
  - simpl. rewrite Nat.add_0_r, app_nil_r. destruct r, s; reflexivity.
  - destruct (Hrest order (or_introl eq_refl)) as [Hid [Hname [Hdate Hnew]]].
    unfold importOrder at 2. cbn [map set_has existsb].
    rewrite (createOrderForImport_validated_exact host s order Hid Hname Hdate
               (fresh_id order_id (storeOrders s) (order_id order) Hnew)).
    cbv iota. inversion Hnd as [|x l Hx Hl]; subst.
    rewrite IH.
    + simpl. rewrite <- app_assoc. simpl. f_equal. f_equal. lia.
    + intros o Ho. destruct (Hrest o (or_intror Ho)) as [H1 [H2 [H3 H4]]].
      repeat split; try assumption.
      unfold storedOrderIds. simpl. rewrite map_app. simpl. intros Hin.
      apply in_app_or in Hin. destruct Hin as [Hin|[Heq|[]]]; [contradiction|].
      apply Hx. rewrite Heq. apply in_map. exact Ho.
    + exact Hl.
Qed.

Lemma importActivities_all_created :
  forall host dh rest r s,
    (forall activity, In activity rest ->
                      validateId (activity_id activity) = true
                      /\ validateName (activity_name activity) = true
                      /\ validateDateTime host (activity_createdAt activity) = true
                      /\ validateId (activity_orderId activity) = true
                      /\ set_has (storedOrderIds s) (activity_orderId activity) = true
                      /\ ~ In (activity_id activity) (storedActivityIds s)) ->
    NoDup (map activity_id rest) ->
    fold_left (importActivity host [] dh) rest (r, s)
    = (mkImportCounts (created r + List.length rest) (skipped r) (updated r) (importErrors r),
       mkStore (storeOrders s) (storeActivities s ++ map storedActivity rest)).
Proof.
  intros host dh rest. induction rest as [|activity rest IH]; intros r s Hrest Hnd;
    cbn [fold_left].
  - simpl. rewrite Nat.add_0_r, app_nil_r. destruct r, s; reflexivity.
  - destruct (Hrest activity (or_introl eq_refl))
      as [Hid [Hname [Hdate [Horder [Hres Hnew]]]]].
    unfold importActivity at 2. cbn [map set_has existsb].
    rewrite (createActivityForImport_validated_exact host s activity Hid Hname Hdate Horder
               Hres (fresh_id activity_id (storeActivities s) (activity_id activity) Hnew)).
    cbv iota. inversion Hnd as [|x l Hx Hl]; subst.
    rewrite IH.
    + simpl. rewrite <- app_assoc. simpl. f_equal. f_equal. lia.
    + intros a Ha. destruct (Hrest a (or_intror Ha)) as [H1 [H2 [H3 [H4 [H5 H6]]]]].
      repeat split; try assumption.
      unfold storedActivityIds. simpl. rewrite map_app. simpl. intros Hin.
      apply in_app_or in Hin. destruct Hin as [Hin|[Heq|[]]]; [contradiction|].
      apply Hx. rewrite Heq. apply in_map. exact Ha.
    + exact Hl.
Qed.

Lemma validateDataTypes_activity_nil :
  forall host activity index,
    validateDataTypes host (activityToJs activity) "activity" index = [] ->
    validateId (activity_id activity) = true
    /\ validateName (activity_name activity) = true
    /\ validateDateTime host (activity_createdAt activity) = true
    /\ validateId (activity_orderId activity) = true.
Proof.
  intros host activity index H. unfold validateDataTypes, activityToJs in H.
  cbn [truthy typeof isArray negb orb andb String.eqb Ascii.eqb Bool.eqb] in H.
  cbn [getProp assoc String.eqb Ascii.eqb Bool.eqb] in H.
  apply app_eq_nil in H. destruct H as [H1 H].
  apply app_eq_nil in H. destruct H as [H2 H].
  apply app_eq_nil in H. destruct H as [H3 H].
  apply app_eq_nil in H. destruct H as [H4 _].
  apply single_nil in H1. apply single_nil in H2. apply single_nil in H3.
  apply single_nil in H4.
  repeat split; apply negb_false_iff; assumption.
Qed.

Lemma flattened_by_the_normalizer :
  forall host data v flat,
    validateImportData host data = Normal v ->
    flattenedData v = Some flat ->
    convertNestedToFlat host data = Normal flat.
Proof.
  intros host data v flat Hv Hflat. unfold validateImportData in Hv.
  destruct (negb (isValid (schemaVerdict (validateJSONSchema host data)))).
  { inversion Hv; subst. discriminate. }
  destruct (convertNestedToFlat host data) as [flat'|m]; simpl in Hv; [|discriminate].
  inversion Hv; subst. simpl in Hflat. inversion Hflat; subst. reflexivity.
Qed.

Lemma no_duplicates_found :
  forall host st importData,
    hasDuplicates (checkDuplicates host st importData) = false ->
    duplicateOrders (checkDuplicates host st importData) = []
    /\ duplicateActivities (checkDuplicates host st importData) = [].
Proof.
  intros host st importData H. unfold checkDuplicates in *. cbn [hasDuplicates] in H.
  cbn [duplicateOrders duplicateActivities].
  apply orb_false_elim in H. destruct H as [H1 H2].
  split.
  - destruct (fold_left _ (orders importData) []); [reflexivity|discriminate].
  - destruct (fold_left _ (activities importData) []); [reflexivity|discriminate].
Qed.

Lemma fresh_valid_document_is_imported_completely :
  forall host data v flat options st,
    validateImportData host data = Normal v ->
    isValid (validation v) = true ->
    flattenedData v = Some flat ->
    hasDuplicates (checkDuplicates host st flat) = false ->
    isNullish options = false ->
    executeImport host None flat (checkDuplicates host st flat) options st
    = (mkImportResult true (List.length (orders flat)) (List.length (activities flat))
         0 0 0 0 [],
       mkStore (storeOrders st ++ map storedOrder (orders flat))
         (storeActivities st ++ map storedActivity (activities flat))).
Proof.
  intros host data v flat options st Hv Hvalid Hflat Hnone Hopt.
  destruct (valid_batch host data v flat Hv Hvalid Hflat) as [Hords [Hacts Hdup]].
  pose proof (flattened_by_the_normalizer host data v flat Hv Hflat) as Hnorm.
  destruct (normalized_activities_reference_their_order host data flat Hnorm)
    as [Hclosed _].
  destruct (proj1 (proj2 (proj2 (batch_is_free_of_duplicate_ids_iff _ _))) Hdup)
    as [Hndo Hnda].
  destruct (proj1 (proj2 (proj2 (checkDuplicates_finds_every_match host st flat))) Hnone)
    as [Hfresho Hfresha].
  destruct (no_duplicates_found host st flat Hnone) as [Edo Eda].
  unfold executeImport, readProp. rewrite Hopt, Edo, Eda.
  set (dh := js_or (getProp options "duplicateHandling") (JStr "skip")).
  unfold importOrders. rewrite importOrders_all_created; [|
    intros order Hin;
    pose proof Hin as Hin'; apply In_nth_error in Hin'; destruct Hin' as [index Hindex];
    destruct (validateDataTypes_order_nil host order index (Hords index order Hindex))
      as [H1 [H2 H3]];
    repeat split; try assumption;
    unfold storedOrderIds; intros Hmem; apply in_map_iff in Hmem;
    destruct Hmem as [e [He Hein]];
    destruct (Hfresho order e Hin Hein) as [Hne _]; contradiction
  | exact Hndo ].
  unfold importActivities. rewrite importActivities_all_created; [| | exact Hnda].
  - simpl. reflexivity.
  - intros activity Hin. pose proof Hin as Hin'. apply In_nth_error in Hin'.
    destruct Hin' as [index Hindex].
    destruct (validateDataTypes_activity_nil host activity index
                (Hacts index activity Hindex)) as [H1 [H2 [H3 H4]]].
    repeat split; try assumption.
    + destruct (Hclosed activity Hin) as [_ [order [Ho Hoid]]].
      apply set_has_In. unfold storedOrderIds. simpl. rewrite map_app.
      apply in_or_app. right. rewrite <- Hoid.
      change (order_id order) with (order_id (storedOrder order)).
      rewrite map_map. apply (in_map (fun x => order_id (storedOrder x))). exact Ho.
    + unfold storedActivityIds. simpl. intros Hmem. apply in_map_iff in Hmem.
      destruct Hmem as [e [He Hein]].
      destruct (Hfresha activity e Hin Hein) as [Hne _]. contradiction.
Qed.

(** X17. When [validateImportData] accepts a document and [checkDuplicates]
    finds no duplicate, [executeImport] (no persistence hook, any options
    object) succeeds without error, creates every order and every activity
    of the flattened batch, and the store is the old store followed by those
    records with their names trimmed. *)
Theorem X17_fresh_valid_document_is_imported_completely :
  forall host data v flat options st,
    validateImportData host data = Normal v ->
    isValid (validation v) = true ->
    flattenedData v = Some flat ->
    hasDuplicates (checkDuplicates host st flat) = false ->
    isNullish options = false ->
    executeImport host None flat (checkDuplicates host st flat) options st
    = (mkImportResult true (List.length (orders flat)) (List.length (activities flat))
         0 0 0 0 [],
       mkStore (storeOrders st ++ map storedOrder (orders flat))
         (storeActivities st ++ map storedActivity (activities flat))).
Proof. exact fresh_valid_document_is_imported_completely. Qed.

Lemma X17_fresh_valid_document_is_imported_completely_witness :
  let doc :=
    JObj [("orders",
           JArr [JObj [("id", JStr "o1"); ("name", JStr " Design ");
                       ("createdAt", JStr sampleDate);
                       ("activities",
                        JArr [JObj [("id", JStr "a1"); ("name", JStr "Sketch");
                                    ("createdAt", JStr sampleDate)]])]])] in
  let flat :=
    mkFlatData [mkOrder (JStr "o1") (JStr " Design ") (JStr sampleDate)]
      [mkActivity (JStr "a1") (JStr "Sketch") (JStr "o1") (JStr sampleDate)] in
  executeImport sampleHost None flat (checkDuplicates sampleHost mockStore flat) (JObj []) mockStore
  = (mkImportResult true 1 1 0 0 0 0 [],
     mkStore
       (storeOrders mockStore ++ [mkOrder (JStr "o1") (JStr "Design") (JStr sampleDate)])
       (storeActivities mockStore
          ++ [mkActivity (JStr "a1") (JStr "Sketch") (JStr "o1") (JStr sampleDate)])).
Proof.
  intros doc flat.
  apply (X17_fresh_valid_document_is_imported_completely sampleHost doc
           (mkImportValidation (mkVerdict true [] [missingVersionWarning]) (Some flat))
           flat (JObj []) mockStore).
  - reflexivity.
  - reflexivity.
  - reflexivity.
  - reflexivity.
  - reflexivity.
Defined.

(** ** Parsing *)

(** X19. For a text that is not blank, [parseJSON] gives the same result as
    on the trimmed text: the value [JSON.parse] returns for the trimmed
    text, or the format error when it does not parse. *)
Theorem X19_parseJSON_ignores_surrounding_space :
  forall host s,
    trim s <> "" ->
    parseJSON host (JStr s) = parseJSON host (JStr (trim s))
    /\ parseJSON host (JStr s)
       = match jsonParse host (trim s) with
         | Some v => Normal v
         | None => Throw "JSONファイルの形式が正しくありません"
         end.
Proof.
  intros host s H. unfold parseJSON. rewrite trim_idempotent.
  assert (Hs : truthy (JStr s) = true).
  { destruct s; [contradiction H; reflexivity|reflexivity]. }
  assert (Ht : truthy (JStr (trim s)) = true).
  { destruct (trim s); [contradiction H; reflexivity|reflexivity]. }
  assert (Hl : Nat.eqb (String.length (trim s)) 0 = false).
  { destruct (trim s); [contradiction H; reflexivity|reflexivity]. }
  rewrite Hs, Ht, Hl. split; reflexivity.
Qed.

Lemma X19_parseJSON_ignores_surrounding_space_witness :
  parseJSON sampleHost (JStr "  [1, 2] ") = Normal (JArr [JNum 1; JNum 2]).
Proof.
  destruct (X19_parseJSON_ignores_surrounding_space sampleHost "  [1, 2] ") as [_ H].
  - discriminate.
  - rewrite H. reflexivity.
Defined.

(** ** Re-nesting conserves the activities *)

Lemma one_order_per_id :
  forall (orders : list FlatOrder) (x : jsval),
    NoDup (map order_id orders) ->
    In x (map order_id orders) ->
    list_sum (map (fun order => Nat.b2n (js_eqb x (order_id order))) orders) = 1.
Proof.
  intros batch. induction batch as [|o batch IH]; intros x Hnd Hin; simpl in *.
  - contradiction.
  - inversion Hnd as [|y l Hy Hl]; subst.
    destruct (js_eqb x (order_id o)) eqn:E; simpl.
    + apply js_eqb_true in E. subst x. f_equal.
      assert (Hzero : forall l' : list FlatOrder,
                 ~ In (order_id o) (map order_id l') ->
                 list_sum (map (fun order => Nat.b2n (js_eqb (order_id o) (order_id order))) l')
                 = 0).
      { induction l' as [|o' l' IHl]; intros Hn; simpl; [reflexivity|].
        destruct (js_eqb (order_id o) (order_id o')) eqn:E'.
        - apply js_eqb_true in E'. exfalso. apply Hn. left. symmetry. exact E'.
        - simpl. apply IHl. intros H. apply Hn. right. exact H. }
      apply Hzero. exact Hy.
    + destruct Hin as [Heq|Hin].
      * subst x. rewrite js_eqb_refl in E. discriminate.
      * apply IH; assumption.
Qed.

Lemma list_sum_add :
  forall {A : Type} (f g : A -> nat) (l : list A),
    list_sum (map (fun x => f x + g x) l) = list_sum (map f l) + list_sum (map g l).
Proof.
  intros A f g l. induction l as [|x l IH]; simpl; [reflexivity|]. rewrite IH. lia.
Qed.

(** X18. If the order ids of a flat batch are pairwise distinct and every
    activity carries the id of one of its orders, [convertFlatToNested]
    returns one nested order per order and the nested orders hold as many
    activities as the batch has. *)
Theorem X18_renesting_conserves_activities :
  forall flatData,
    NoDup (map order_id (orders flatData)) ->
    (forall activity, In activity (activities flatData) ->
                      In (activity_orderId activity) (map order_id (orders flatData))) ->
    nestedActivityCount (convertFlatToNested flatData) = List.length (activities flatData)
    /\ List.length (convertFlatToNested flatData) = List.length (orders flatData).
Proof.
  intros [ords acts] Hnd Hres. simpl in Hnd, Hres.
  rewrite convertFlatToNested_groups. cbn [orders activities].
  unfold nestedActivityCount. rewrite map_map. cbn [nested_activities]. split.
  - induction acts as [|a acts IH].
    + simpl. clear Hnd Hres. induction ords as [|o ords IHo]; simpl; [reflexivity|exact IHo].
    + assert (Hstep :
                map (fun order =>
                       List.length
                         (map toNested
                            (filter (fun b => js_eqb (activity_orderId b) (order_id order))
                               (a :: acts)))) ords
                = map (fun order =>
                         Nat.b2n (js_eqb (activity_orderId a) (order_id order))
                         + List.length
                             (map toNested
                                (filter (fun b => js_eqb (activity_orderId b) (order_id order))
                                   acts))) ords).
      { apply map_ext. intros order. simpl.
        destruct (js_eqb (activity_orderId a) (order_id order)); reflexivity. }
      rewrite Hstep, list_sum_add.
      rewrite (one_order_per_id ords (activity_orderId a) Hnd (Hres a (or_introl eq_refl))).
      rewrite IH by (intros b Hb; apply Hres; right; exact Hb). reflexivity.
  - rewrite length_map. reflexivity.
Qed.

Lemma X18_renesting_conserves_activities_witness :
  let flat :=
    mkFlatData
      [mkOrder (JStr "o1") (JStr "Design") (JStr sampleDate);
       mkOrder (JStr "o2") (JStr "Build") (JStr sampleDate)]
      [mkActivity (JStr "a1") (JStr "Sketch") (JStr "o2") (JStr sampleDate);
       mkActivity (JStr "a2") (JStr "Frame") (JStr "o2") (JStr sampleDate);
       mkActivity (JStr "a3") (JStr "Roof") (JStr "o1") (JStr sampleDate)] in
  nestedActivityCount (convertFlatToNested flat) = 3.
Proof.
  intros flat.
  destruct (X18_renesting_conserves_activities flat) as [H _].
  - repeat constructor; simpl; intuition discriminate.
  - intros activity Hin. simpl in Hin. simpl.
    destruct Hin as [<-|[<-|[<-|[]]]]; simpl; auto.
  - exact H.
Defined.

(** ** Importing what is already stored *)

Lemma policy_not_merge :
  forall chosen,
    chosen <> JStr "merge" ->
    js_eqb (js_or chosen (JStr "skip")) (JStr "merge") = false.
Proof.
  intros chosen H. unfold js_or. destruct (truthy chosen).
  - apply js_eqb_neq. exact H.
  - reflexivity.
Qed.

Lemma importOrders_all_skipped :
  forall host dups dh batch r s,
    js_eqb dh (JStr "overwrite") = false ->
    js_eqb dh (JStr "merge") = false ->
    (forall order,
        In order batch -> set_has (duplicateOrderIds dups) (order_id order) = true) ->
    fold_left (importOrder host dups dh) batch (r, s)
    = (mkImportCounts (created r) (skipped r + List.length batch) (updated r)
         (importErrors r),
       s).
Proof.
  intros host dups dh batch. induction batch as [|o batch IH]; intros r s H1 H2 Hall.
  - simpl. rewrite Nat.add_0_r. destruct r; reflexivity.
  - cbn [fold_left]. rewrite (importOrder_skips host dups dh r s o H1 H2).
    + rewrite IH; [|exact H1|exact H2|intros x Hx; apply Hall; right; exact Hx].
      simpl. f_equal. f_equal. lia.
    + apply Hall. left. reflexivity.
Qed.

Lemma importActivities_all_skipped :
  forall host dups dh batch r s,
    js_eqb dh (JStr "overwrite") = false ->
    js_eqb dh (JStr "merge") = false ->
    (forall activity,
        In activity batch ->
        set_has (duplicateActivityIds dups) (activity_id activity) = true) ->
    fold_left (importActivity host dups dh) batch (r, s)
    = (mkImportCounts (created r) (skipped r + List.length batch) (updated r)
         (importErrors r),
       s).
Proof.
  intros host dups dh batch. induction batch as [|a batch IH]; intros r s H1 H2 Hall.
  - simpl. rewrite Nat.add_0_r. destruct r; reflexivity.
  - cbn [fold_left]. rewrite (importActivity_skips host dups dh r s a H1 H2).
    + rewrite IH; [|exact H1|exact H2|intros x Hx; apply Hall; right; exact Hx].
      simpl. f_equal. f_equal. lia.
    + apply Hall. left. reflexivity.
Qed.

Lemma records_already_stored_are_skipped :
  forall host importData options st,
    isNullish options = false ->
    getProp options "duplicateHandling" <> JStr "overwrite" ->
    getProp options "duplicateHandling" <> JStr "merge" ->
    (forall order,
        In order (orders importData) -> In (order_id order) (storedOrderIds st)) ->
    (forall activity,
        In activity (activities importData) ->
        In (activity_id activity) (storedActivityIds st)) ->
    executeImport host None importData (checkDuplicates host st importData) options st
    = (mkImportResult true 0 0
         (List.length (orders importData)) (List.length (activities importData)) 0 0 [],
       st).
Proof.
  intros host importData options st Hopt Ho Hm Hords Hacts.
  destruct (checkDuplicates_finds_every_match host st importData) as [Hfo [Hfa _]].
  unfold executeImport, readProp. rewrite Hopt.
  set (dh := js_or (getProp options "duplicateHandling") (JStr "skip")).
  assert (H1 : js_eqb dh (JStr "overwrite") = false) by (apply policy_not_overwrite, Ho).
  assert (H2 : js_eqb dh (JStr "merge") = false) by (apply policy_not_merge, Hm).
  unfold importOrders. rewrite (importOrders_all_skipped host _ dh _ _ _ H1 H2).
  - unfold importActivities. rewrite (importActivities_all_skipped host _ dh _ _ _ H1 H2).
    + reflexivity.
    + intros activity Hin. specialize (Hacts activity Hin).
      unfold storedActivityIds in Hacts. apply in_map_iff in Hacts.
      destruct Hacts as [existing [Hid Hex]].
      apply (Hfa activity existing Hin Hex). left. exact Hid.
  - intros order Hin. specialize (Hords order Hin).
    unfold storedOrderIds in Hords. apply in_map_iff in Hords.
    destruct Hords as [existing [Hid Hex]].
    apply (Hfo order existing Hin Hex). left. exact Hid.
Qed.

(** X26. Under any policy other than 'overwrite' and 'merge', when every
    record of the batch carries the id of a stored record, [executeImport]
    run with the duplicates found by [checkDuplicates] (no persistence hook)
    succeeds, skips every order and every activity, creates and updates
    nothing, and leaves the store unchanged. *)
Theorem X26_records_already_stored_are_skipped :
  forall host importData options st,
    isNullish options = false ->
    getProp options "duplicateHandling" <> JStr "overwrite" ->
    getProp options "duplicateHandling" <> JStr "merge" ->
    (forall order,
        In order (orders importData) -> In (order_id order) (storedOrderIds st)) ->
    (forall activity,
        In activity (activities importData) ->
        In (activity_id activity) (storedActivityIds st)) ->
    executeImport host None importData (checkDuplicates host st importData) options st
    = (mkImportResult true 0 0
         (List.length (orders importData)) (List.length (activities importData)) 0 0 [],
       st).
Proof. exact records_already_stored_are_skipped. Qed.

Lemma X26_records_already_stored_are_skipped_witness :
  let importData :=
    mkFlatData [mkOrder (JStr "existing_order_1") (JStr "Renamed") (JStr sampleDate)]
      [mkActivity (JStr "existing_activity_1") (JStr "Renamed too")
         (JStr "existing_order_1") (JStr sampleDate)] in
  executeImport sampleHost None importData (checkDuplicates sampleHost mockStore importData)
    (policyOptions "skip") mockStore
  = (mkImportResult true 0 0 1 1 0 0 [], mockStore).
Proof.
  intros importData.
  apply (X26_records_already_stored_are_skipped sampleHost importData (policyOptions "skip")
           mockStore).
  - reflexivity.
  - discriminate.
  - discriminate.
  - intros order [<-|[]]. simpl. left. reflexivity.
  - intros activity [<-|[]]. simpl. left. reflexivity.
Defined.

(** X27. Importing a document a second time changes nothing: after the
    import of a document that [validateImportData] accepted and that had no
    duplicate in the store, running [checkDuplicates] and [executeImport]
    again on the resulting store, under any policy other than 'overwrite'
    and 'merge', skips every record and leaves that store as it is. *)
Theorem X27_second_import_of_a_document_skips_everything :
  forall host data v flat options st,
    validateImportData host data = Normal v ->
    isValid (validation v) = true ->
    flattenedData v = Some flat ->
    hasDuplicates (checkDuplicates host st flat) = false ->
    isNullish options = false ->
    getProp options "duplicateHandling" <> JStr "overwrite" ->
    getProp options "duplicateHandling" <> JStr "merge" ->
    let st1 := snd (executeImport host None flat (checkDuplicates host st flat) options st) in
    executeImport host None flat (checkDuplicates host st1 flat) options st1
    = (mkImportResult true 0 0
         (List.length (orders flat)) (List.length (activities flat)) 0 0 [],
       st1).
Proof.
  intros host data v flat options st Hv Hvalid Hflat Hnone Hopt Ho Hm st1.
  subst st1.
  rewrite (fresh_valid_document_is_imported_completely host data v flat options st
             Hv Hvalid Hflat Hnone Hopt).
  cbn [snd].
  apply records_already_stored_are_skipped; try assumption.
  - intros order Hin. unfold storedOrderIds. cbn [storeOrders].
    rewrite map_app. apply in_or_app. right. rewrite map_map.
    apply (in_map (fun x => order_id (storedOrder x))). exact Hin.
  - intros activity Hin. unfold storedActivityIds. cbn [storeActivities].
    rewrite map_app. apply in_or_app. right. rewrite map_map.
    apply (in_map (fun x => activity_id (storedActivity x))). exact Hin.
Qed.

Lemma X27_second_import_of_a_document_skips_everything_witness :
  let doc :=
    JObj [("orders",
           JArr [JObj [("id", JStr "o1"); ("name", JStr " Design ");
                       ("createdAt", JStr sampleDate);
                       ("activities",
                        JArr [JObj [("id", JStr "a1"); ("name", JStr "Sketch");
                                    ("createdAt", JStr sampleDate)]])]])] in
  let flat :=
    mkFlatData [mkOrder (JStr "o1") (JStr " Design ") (JStr sampleDate)]
      [mkActivity (JStr "a1") (JStr "Sketch") (JStr "o1") (JStr sampleDate)] in
  let st1 :=
    snd (executeImport sampleHost None flat (checkDuplicates sampleHost mockStore flat) (JObj [])
           mockStore) in
  executeImport sampleHost None flat (checkDuplicates sampleHost st1 flat) (JObj []) st1
  = (mkImportResult true 0 0 1 1 0 0 [], st1).
Proof.
  intros doc flat.
  apply (X27_second_import_of_a_document_skips_everything sampleHost doc
           (mkImportValidation (mkVerdict true [] [missingVersionWarning]) (Some flat))
           flat (JObj []) mockStore).
  - reflexivity.
  - reflexivity.
  - reflexivity.
  - reflexivity.
  - reflexivity.
  - discriminate.
  - discriminate.
Defined.

(** ** Overwriting a stored order *)

Lemma findFirst_app_found :
  forall {A : Type} (p : A -> bool) (l more : list A) (x : A),
    findFirst p l = Some x -> findFirst p (l ++ more) = Some x.
Proof.
  intros A p l more x. induction l as [|y l IH]; simpl; intros H.
  - discriminate.
  - destruct (p y); [exact H|apply IH; exact H].
Qed.

(** An invariant kept by the iterations on the elements of the list holds
    after the loop. *)
Lemma fold_left_invariant_in :
  forall {A B : Type} (P : A -> Prop) (f : A -> B -> A) (l : list B) (a : A),
    P a -> (forall a b, In b l -> P a -> P (f a b)) -> P (fold_left f l a).
Proof.
  intros A B P f l. induction l as [|x l IH]; intros a Ha Hstep; simpl.
  - exact Ha.
  - apply IH.
    + apply Hstep; [left; reflexivity|exact Ha].
    + intros a' b Hb. apply Hstep. right. exact Hb.
Qed.

(** An iteration on an order with another id leaves the record found
    under an id as it is. *)
Lemma importOrder_keeps_other_lookups :
  forall host dups dh r s order id found,
    order_id order <> id ->
    findFirst (fun stored => js_eqb (order_id stored) id) (storeOrders s) = Some found ->
    findFirst (fun stored => js_eqb (order_id stored) id)
      (storeOrders (snd (importOrder host dups dh (r, s) order))) = Some found.
Proof.
  intros host dups dh r s order id found Hneq Hfound.
  destruct (importOrder_store host dups dh r s order)
    as [[Hs _]|[[_ [_ [n [c Hs]]]]|[Hs _]]].
  - rewrite Hs. exact Hfound.
  - rewrite Hs.
    destruct (update_then_lookup s (order_id order) n c) as [Hnone Hsome].
    destruct (findFirst (fun o => js_eqb (order_id o) (order_id order)) (storeOrders s))
      as [old|] eqn:Eold.
    + destruct (Hsome old eq_refl) as [_ [Hother _]].
      rewrite (Hother id); [exact Hfound|congruence].
    + rewrite (Hnone eq_refl). exact Hfound.
  - apply createOrderForImport_success in Hs. destruct Hs as [o [Hs _]].
    rewrite Hs. cbn [storeOrders]. apply findFirst_app_found. exact Hfound.
Qed.

(** X28. Under the 'overwrite' policy, when the order ids of the batch are
    pairwise distinct, an order of the batch whose id is already stored is,
    after [executeImport] run with the duplicates found by
    [checkDuplicates], the record found under that id: its name and
    timestamp are stored as given, without trimming or validation. *)
Theorem X28_overwrite_replaces_the_stored_order :
  forall host saveData importData options st order,
    isNullish options = false ->
    getProp options "duplicateHandling" = JStr "overwrite" ->
    NoDup (map order_id (orders importData)) ->
    In order (orders importData) ->
    In (order_id order) (storedOrderIds st) ->
    let st' :=
      snd (executeImport host saveData importData (checkDuplicates host st importData)
             options st) in
    findFirst (fun stored => js_eqb (order_id stored) (order_id order)) (storeOrders st')
    = Some order.
Proof.
  intros host saveData importData options st order Hopt Hpol Hnd Hin Hstored st'.
  subst st'.
  destruct (executeImport_stages host saveData importData
              (checkDuplicates host st importData) options st Hopt) as [Hst _].
  rewrite Hst. clear Hst. rewrite Hpol.
  change (js_or (JStr "overwrite") (JStr "skip")) with (JStr "overwrite").
  set (dups := duplicateOrders (checkDuplicates host st importData)).
  destruct (importActivities_ids host (activities importData)
              (duplicateActivities (checkDuplicates host st importData)) (JStr "overwrite")
              (snd (importOrders host (orders importData) dups (JStr "overwrite") st)))
    as [_ [_ [_ [Hsame _]]]].
  rewrite Hsame. clear Hsame.
  assert (Hdup : set_has (duplicateOrderIds dups) (order_id order) = true).
  { unfold storedOrderIds in Hstored. apply in_map_iff in Hstored.
    destruct Hstored as [existing [Hid Hex]].
    apply (proj1 (checkDuplicates_finds_every_match host st importData) order existing Hin Hex).
    left. exact Hid. }
  destruct (in_split _ _ Hin) as [before [after Hsplit]].
  rewrite Hsplit in Hnd |- *. unfold importOrders. rewrite fold_left_app. cbn [fold_left].
  fold (importOrders host before dups (JStr "overwrite") st).
  destruct (importOrders_ids host before dups (JStr "overwrite") st)
    as [fresh [Hids _]].
  destruct (importOrders host before dups (JStr "overwrite") st) as [r1 s1].
  cbn [snd] in Hids.
  rewrite map_app in Hnd. apply NoDup_remove_2 in Hnd.
  apply (fold_left_invariant_in
           (fun acc : ImportCounts * Store =>
              findFirst (fun stored => js_eqb (order_id stored) (order_id order))
                (storeOrders (snd acc)) = Some order)).
  - unfold importOrder. unfold duplicateOrderIds in Hdup. rewrite Hdup.
    cbn [js_eqb String.eqb Ascii.eqb Bool.eqb andb snd].
    assert (Hpresent : In (order_id order) (storedOrderIds s1)).
    { rewrite Hids. apply in_or_app. left. exact Hstored. }
    unfold storedOrderIds in Hpresent. apply in_map_iff in Hpresent.
    destruct Hpresent as [existing [Hid Hex]].
    destruct (findFirst_exists
                (fun stored => js_eqb (order_id stored) (order_id order))
                (storeOrders s1) existing Hex) as [old Hold].
    { cbn beta. rewrite Hid. apply js_eqb_refl. }
    destruct (update_then_lookup s1 (order_id order) (order_name order)
                (order_createdAt order)) as [_ Hsome].
    destruct (Hsome old Hold) as [Hnew _]. cbv zeta beta in Hnew.
    rewrite Hnew. destruct order; reflexivity.
  - intros [r s] other Hother Hkeep. cbn [snd] in Hkeep.
    apply importOrder_keeps_other_lookups; [|exact Hkeep].
    intros Heq. apply Hnd. apply in_or_app. right.
    rewrite <- Heq. apply in_map. exact Hother.
Qed.

Lemma X28_overwrite_replaces_the_stored_order_witness :
  let renamed := mkOrder (JStr "existing_order_1") (JStr "  ") JNull in
  let importData := mkFlatData [renamed] [] in
  findFirst (fun stored => js_eqb (order_id stored) (JStr "existing_order_1"))
    (storeOrders
       (snd (executeImport sampleHost None importData
               (checkDuplicates sampleHost mockStore importData) (policyOptions "overwrite")
               mockStore)))
  = Some renamed.
Proof.
  intros renamed importData.
  apply (X28_overwrite_replaces_the_stored_order sampleHost None importData
           (policyOptions "overwrite") mockStore renamed).
  - reflexivity.
  - reflexivity.
  - repeat constructor. intros [].
  - left. reflexivity.
  - left. reflexivity.
Defined.
